(** * Task contract of the kops provisioning engine: two tasks verified

    A shallow embedding of two task implementations of the reconciliation
    engine and the properties their specification states about them:

    - [gcetasks.ProjectIAMBinding]
      (upup/pkg/fi/cloudup/gcetasks/projectiambinding.go), with its helper
      [patchCRMPolicy];
    - [awstasks.AutoscalingGroup] (the AWS autoscaling group task), with
      [findAutoscalingGroup], [sliceChunks] and the deferred deletion
      [deleteAutoscalingTargetGroupAttachment].

    Conventions of the embedding.
    - A Go pointer [*T] that the code tests against [nil] is an [option T];
      a slice whose nil-ness the code observes is an [option (list T)]
      ([None] is the nil slice, [Some []] the empty non-nil one); a slice
      that is only ranged over is a [list T].
    - [int32] values are [Z]; the code does no arithmetic on them.
    - A Go map is a [gmap].
    - A function that may fail returns an [outcome]: [Ok v], [Fail err], or
      [Panic] where the Go code dereferences a nil pointer.
    - Provider calls are answered by an explicit cloud record; calls that
      mutate the cloud are recorded, in order, in a trace.
    - Elements of task lists ([[]*ClassicLoadBalancer], [[]*TargetGroup],
      [[]*Subnet], [[]*Binding]) are taken to be non-nil.
    - [klog] output is modelled only for the warning of [RenderGCE]. *)

From Stdlib Require Import ZArith String Ascii List Bool Lia Permutation Sorted.
From stdpp Require Import base option list strings gmap sorting.

Import ListNotations.
Local Open Scope string_scope.
Local Open Scope list_scope.

Set Default Proof Using "Type".

(** ** Errors and outcomes *)

(** An error value produced by a provider SDK. The helpers the tasks apply
    to it ([awsup.AWSErrorCode], [awsup.AWSErrorMessage], [gce.IsNotFound],
    [err.Error()]) are defined outside the files embedded here; what they
    return for an error is carried by the error itself. *)
Record cloud_error := CloudError {
  ErrorString : string;
  ErrorCode : string;
  ErrorMessage : string;
  NotFound : bool
}.

(** The errors a task returns. [Errorf] is [fmt.Errorf] with a formatted
    message, [Errorq] is [fmt.Errorf] with a message that ends in the verb
    [%q]: the message is [msg] followed by [quoted] written as a Go string
    literal, with the escaping of [fmt], which is not spelled out here.
    [Errorw] is [fmt.Errorf] wrapping its cause with [%w], [Raw] is a
    provider error handed back unchanged. *)
Inductive error :=
| RequiredFieldError (field : string)
| TryAgainLaterError (msg : string)
| Errorf (msg : string)
| Errorq (msg : string) (quoted : string)
| Errorw (msg : string) (cause : cloud_error)
| Raw (cause : cloud_error).

Inductive outcome (A : Type) :=
| Ok (a : A)
| Fail (e : error)
| Panic.
Arguments Ok {A} a.
Arguments Fail {A} e.
Arguments Panic {A}.

Definition is_TryAgainLater (e : error) : bool :=
  match e with TryAgainLaterError _ => true | _ => false end.

Module fi.
  (** [fi.ValueOf]: the pointee, or the zero value for nil. *)
Definition ValueOf (p : option string) : string :=
    match p with Some s => s | None => "" end.
Definition ValueOfInt (p : option Z) : Z :=
    match p with Some z => z | None => 0%Z end.
Definition ValueOfBool (p : option bool) : bool :=
    match p with Some b => b | None => false end.
Definition PtrTo {A} (a : A) : option A := Some a.
Definition RequiredField (key : string) : error := RequiredFieldError key.
Definition NewTryAgainLaterError (msg : string) : error := TryAgainLaterError msg.
  (** [fi.Lifecycle] is a string type. *)
Definition Lifecycle := string.
End fi.

Module aws.
Definition ToString (p : option string) : string := fi.ValueOf p.
Definition String (s : string) : option string := Some s.
Definition Bool (b : bool) : option bool := Some b.
End aws.

(** [p != nil]. *)
Definition notNil {A} (p : option A) : bool :=
  match p with Some _ => true | None => false end.

(** Go slices: [len], [range] and [append] on a possibly nil slice. *)
Definition elems {A} (s : option (list A)) : list A :=
  match s with Some l => l | None => [] end.
Definition append {A} (s : option (list A)) (x : A) : option (list A) :=
  Some (elems s ++ [x]).

(** ** gcetasks: ProjectIAMBinding *)

Module cloudresourcemanager.
Record Expr := {
    Description : string;
    Expression : string;
    Location : string;
    Title : string
  }.

Record Binding := {
    Condition : option Expr;
    Members : list string;
    Role : string
  }.

Record Policy := {
    Bindings : list Binding;
    Etag : string;
    Version : Z
  }.
End cloudresourcemanager.

Module ServiceAccount.
  (** Of the service account task only [Email] is read here. *)
Record t := { Email : option string }.
End ServiceAccount.

(** What the project IAM calls of the GCE cloud answer. *)
Record GCECloud := {
  GetIamPolicy : string -> cloud_error + cloudresourcemanager.Policy;
  SetIamPolicy : string -> cloudresourcemanager.Policy -> option cloud_error
}.

(** What [RenderGCE] does that is visible outside it, in order. *)
Inductive gce_event :=
| MutexLock (projectID : string)
| MutexUnlock (projectID : string)
| CallGetIamPolicy (projectID : string)
| CallSetIamPolicy (projectID : string) (policy : cloudresourcemanager.Policy)
| Warningf (msg : string).

Section patch.
Import cloudresourcemanager.

  (** The inner loop of [patchCRMPolicy]: is [wantMember] among the members. *)
Definition memberExists (members : list string) (wantMember : string) : bool :=
    fold_left (fun exists_ member => if String.eqb member wantMember then true else exists_)
              members false.

  (** The loop over [policy.Bindings]. [Some (bindings, changed)] when the
      loop returns from inside, [None] when it runs to its end. *)
Fixpoint patchBindings (bindings : list Binding) (wantMember wantRole : string)
    : option (list Binding * bool) :=
    match bindings with
    | [] => None
    | binding :: rest =>
        let continue :=
          match patchBindings rest wantMember wantRole with
          | Some (rest', changed) => Some (binding :: rest', changed)
          | None => None
          end in
        match Condition binding with
        | Some _ => continue
        | None =>
            if negb (String.eqb (Role binding) wantRole) then continue
            else if memberExists (Members binding) wantMember
            then Some (binding :: rest, false)
            else Some ({| Condition := Condition binding;
                          Members := Members binding ++ [wantMember];
                          Role := Role binding |} :: rest, true)
        end
    end.

  (** [patchCRMPolicy] changes the policy in place and reports whether it
      did; here it returns the policy afterwards with the report. *)
Definition patchCRMPolicy (policy : Policy) (wantMember wantRole : string)
    : Policy * bool :=
    match patchBindings (Bindings policy) wantMember wantRole with
    | Some (bindings, changed) =>
        ({| Bindings := bindings; Etag := Etag policy; Version := Version policy |}, changed)
    | None =>
        ({| Bindings := Bindings policy ++
                        [{| Condition := None; Members := [wantMember]; Role := wantRole |}];
            Etag := Etag policy; Version := Version policy |}, true)
    end.
End patch.

Module ProjectIAMBinding.
Record t := {
    Name : option string;
    Lifecycle : fi.Lifecycle;
    Project : option string;
    MemberServiceAccount : option ServiceAccount.t;
    Role : option string
  }.

Definition Find (cloud : GCECloud) (e : t) : outcome (option t) :=
    let projectID := fi.ValueOf (Project e) in
    match MemberServiceAccount e with
    | None => Panic
    | Some sa =>
        let member := "serviceAccount:" +:+ fi.ValueOf (ServiceAccount.Email sa) in
        let role := fi.ValueOf (Role e) in
        match GetIamPolicy cloud projectID with
        | inl err =>
            if NotFound err then Ok None
            else Fail (Errorw ("error checking IAM for project " +:+ projectID) err)
        | inr policy =>
            let '(_, changed) := patchCRMPolicy policy member role in
            if changed then Ok None
            else Ok (Some {| Project := Project e;
                             MemberServiceAccount := MemberServiceAccount e;
                             Role := Role e;
                             Name := Name e;
                             Lifecycle := Lifecycle e |})
        end
    end.

Definition CheckChanges (a : option t) (e changes : t) : option error :=
    if String.eqb (fi.ValueOf (Project e)) "" then Some (fi.RequiredField "Project")
    else match MemberServiceAccount e with
         | None => Some (fi.RequiredField "MemberServiceAccount")
         | Some sa =>
             if String.eqb (fi.ValueOf (ServiceAccount.Email sa)) ""
             then Some (fi.RequiredField "MemberServiceAccount.Email")
             else if String.eqb (fi.ValueOf (Role e)) ""
             then Some (fi.RequiredField "Role")
             else None
         end.

  (** The outcome of [RenderGCE] and the events it caused. The mutex taken
      at the start is released by the deferred unlock on every return. *)
Definition RenderGCE (cloud : GCECloud) (a : option t) (e changes : t)
    : outcome unit * list gce_event :=
    let projectID := fi.ValueOf (Project e) in
    match MemberServiceAccount e with
    | None => (Panic, [])
    | Some sa =>
        let member := "serviceAccount:" +:+ fi.ValueOf (ServiceAccount.Email sa) in
        let role := fi.ValueOf (Role e) in
        match GetIamPolicy cloud projectID with
        | inl err =>
            (Fail (Errorw ("error getting IAM policy for project " +:+ projectID) err),
             [MutexLock projectID; CallGetIamPolicy projectID; MutexUnlock projectID])
        | inr policy =>
            let '(policy', changed) := patchCRMPolicy policy member role in
            if negb changed
            then (Ok tt,
                  [MutexLock projectID; CallGetIamPolicy projectID;
                   Warningf "did not need to change policy (concurrent change?)";
                   MutexUnlock projectID])
            else match SetIamPolicy cloud projectID policy' with
                 | Some err =>
                     (Fail (Errorw ("error updating IAM for project " +:+ projectID) err),
                      [MutexLock projectID; CallGetIamPolicy projectID;
                       CallSetIamPolicy projectID policy'; MutexUnlock projectID])
                 | None =>
                     (Ok tt,
                      [MutexLock projectID; CallGetIamPolicy projectID;
                       CallSetIamPolicy projectID policy'; MutexUnlock projectID])
                 end
        end
    end.
End ProjectIAMBinding.

(** The cloud as the next pass sees it when nothing but the calls of a
    render changed it: a policy written by [SetIamPolicy] is the one
    [GetIamPolicy] returns for that project afterwards. *)
Definition cloudAfterEvent (cloud : GCECloud) (ev : gce_event) : GCECloud :=
  match ev with
  | CallSetIamPolicy projectID policy =>
      {| GetIamPolicy := fun p => if String.eqb p projectID then inr policy
                                  else GetIamPolicy cloud p;
         SetIamPolicy := SetIamPolicy cloud |}
  | _ => cloud
  end.
Definition cloudAfter (cloud : GCECloud) (events : list gce_event) : GCECloud :=
  fold_left cloudAfterEvent events cloud.

(** ** Go library functions used by the autoscaling group task *)

Module strings.
  (** [strings.Contains s substr]. *)
Fixpoint Contains (s substr : string) : bool :=
    String.prefix substr s ||
    match s with
    | EmptyString => false
    | String _ rest => Contains rest substr
    end.

Definition HasPrefix (s prefix : string) : bool := String.prefix prefix s.

  (** [strings.Split s sep] for a one-character separator: always at least
      one piece. *)
Fixpoint Split (s : string) (sep : ascii) : list string :=
    match s with
    | EmptyString => [EmptyString]
    | String c rest =>
        if Ascii.eqb c sep then EmptyString :: Split rest sep
        else match Split rest sep with
             | piece :: pieces => String c piece :: pieces
             | [] => [String c EmptyString]
             end
    end.

Definition Join (elems : list string) (sep : string) : string := String.concat sep elems.
End strings.

Module sort.
Section stable.
Context {A : Type} (less : A -> A -> bool).

    (** Puts [x] in front of the first element it is not greater than. *)
Fixpoint insert (x : A) (l : list A) : list A :=
      match l with
      | [] => [x]
      | y :: l' => if less y x then y :: insert x l' else x :: y :: l'
      end.

    (** [sort.Stable]: elements that compare equal keep their order. *)
Fixpoint Stable (l : list A) : list A :=
      match l with
      | [] => []
      | x :: l' => insert x (Stable l')
      end.
End stable.

  (** [sort.Strings]: increasing byte-wise order. Strings that compare
      equal are equal, so the result does not depend on the algorithm. *)
Definition Strings (l : list string) : list string := Stable String.ltb l.
End sort.

(** ** awstasks: the tasks an autoscaling group refers to *)

Module awsup.
Record TargetGroupInfo := { ARN : string }.
End awsup.

Module elbtypes.
Record LoadBalancerDescription := { LoadBalancerName : option string }.
End elbtypes.

(** Of the tasks below only the fields the autoscaling group reads are
    kept; their declarations are in other files of the package. *)
Module ClassicLoadBalancer.
Record t := {
    Name : option string;
    LoadBalancerName : option string;
    Shared : option bool
  }.
Definition GetName (e : t) : option string := Name e.
End ClassicLoadBalancer.

Module TargetGroup.
Record t := {
    Name : option string;
    ARN : option string;
    info : option awsup.TargetGroupInfo
  }.
End TargetGroup.

Module Subnet.
Record t := { ID : option string }.
End Subnet.

Module LaunchTemplate.
Record t := {
    Name : option string;
    ID : option string
  }.
End LaunchTemplate.

Module WarmPool.
Record t := {
    Enabled : option bool;
    MinSize : Z;
    MaxSize : option Z
  }.
End WarmPool.

(** Modelled from the spec: the order [OrderLoadBalancersByName] sorts by is
    declared in another file; the load balancers are ordered by name. *)
Definition OrderLoadBalancersByName (x y : ClassicLoadBalancer.t) : bool :=
  String.ltb (fi.ValueOf (ClassicLoadBalancer.Name x)) (fi.ValueOf (ClassicLoadBalancer.Name y)).

(** Modelled from the spec: the order [OrderTargetGroupsByName] sorts by is
    declared in another file; the target groups are ordered by name. *)
Definition OrderTargetGroupsByName (x y : TargetGroup.t) : bool :=
  String.ltb (fi.ValueOf (TargetGroup.Name x)) (fi.ValueOf (TargetGroup.Name y)).

Definition subnetIDs (l : option (list Subnet.t)) : list string :=
  map (fun s => fi.ValueOf (Subnet.ID s)) (elems l).

(** Modelled from the spec: [subnetSlicesEqualIgnoreOrder] is declared in
    another file; it holds when the two slices contain the same subnets
    (the same IDs, as often) ignoring order. *)
Definition subnetSlicesEqualIgnoreOrder (l r : option (list Subnet.t)) : bool :=
  bool_decide (sort.Strings (subnetIDs l) = sort.Strings (subnetIDs r)).

(** ** The autoscaling API types *)

Module autoscalingtypes.
Module EnabledMetric.
Record t := { Metric : option string; Granularity : option string }.
End EnabledMetric.

Module TagDescription.
Record t := { Key : option string; Value : option string }.
End TagDescription.

Module Tag.
Record t := {
      Key : option string;
      Value : option string;
      ResourceId : option string;
      ResourceType : option string;
      PropagateAtLaunch : option bool
    }.
End Tag.

Module SuspendedProcess.
Record t := { ProcessName : option string }.
End SuspendedProcess.

Module LaunchTemplateSpecification.
Record t := {
      LaunchTemplateId : option string;
      LaunchTemplateName : option string;
      Version : option string
    }.
End LaunchTemplateSpecification.

  (** [IRq] stands for the SDK's [InstanceRequirements], which the code
      here never looks into. *)
Module LaunchTemplateOverrides.
Record t (IRq : Type) := {
      InstanceType : option string;
      InstanceRequirements : option IRq
    }.
Arguments InstanceType {IRq} _.
Arguments InstanceRequirements {IRq} _.
End LaunchTemplateOverrides.

Module LaunchTemplate.
Record t (IRq : Type) := {
      LaunchTemplateSpecification : option LaunchTemplateSpecification.t;
      Overrides : list (LaunchTemplateOverrides.t IRq)
    }.
Arguments LaunchTemplateSpecification {IRq} _.
Arguments Overrides {IRq} _.
End LaunchTemplate.

Module InstancesDistribution.
Record t := {
      OnDemandAllocationStrategy : option string;
      OnDemandBaseCapacity : option Z;
      OnDemandPercentageAboveBaseCapacity : option Z;
      SpotAllocationStrategy : option string;
      SpotInstancePools : option Z;
      SpotMaxPrice : option string
    }.
    (** The zero value [&InstancesDistribution{}]. *)
Definition zero : t := Build_t None None None None None None.

    (** Assignments to one field of the distribution. *)
Definition set_OnDemandBaseCapacity (v : option Z) (d : t) : t :=
      Build_t (OnDemandAllocationStrategy d) v (OnDemandPercentageAboveBaseCapacity d)
        (SpotAllocationStrategy d) (SpotInstancePools d) (SpotMaxPrice d).
Definition set_OnDemandPercentageAboveBaseCapacity (v : option Z) (d : t) : t :=
      Build_t (OnDemandAllocationStrategy d) (OnDemandBaseCapacity d) v
        (SpotAllocationStrategy d) (SpotInstancePools d) (SpotMaxPrice d).
Definition set_SpotAllocationStrategy (v : option string) (d : t) : t :=
      Build_t (OnDemandAllocationStrategy d) (OnDemandBaseCapacity d)
        (OnDemandPercentageAboveBaseCapacity d) v (SpotInstancePools d) (SpotMaxPrice d).
Definition set_SpotInstancePools (v : option Z) (d : t) : t :=
      Build_t (OnDemandAllocationStrategy d) (OnDemandBaseCapacity d)
        (OnDemandPercentageAboveBaseCapacity d) (SpotAllocationStrategy d) v (SpotMaxPrice d).
Definition set_SpotMaxPrice (v : option string) (d : t) : t :=
      Build_t (OnDemandAllocationStrategy d) (OnDemandBaseCapacity d)
        (OnDemandPercentageAboveBaseCapacity d) (SpotAllocationStrategy d)
        (SpotInstancePools d) v.
End InstancesDistribution.

Module MixedInstancesPolicy.
Record t (IRq : Type) := {
      InstancesDistribution : option InstancesDistribution.t;
      LaunchTemplate : option (LaunchTemplate.t IRq)
    }.
Arguments InstancesDistribution {IRq} _.
Arguments LaunchTemplate {IRq} _.
End MixedInstancesPolicy.

Module AutoScalingGroup.
Record t (IRq : Type) := {
      AutoScalingGroupName : option string;
      MaxSize : option Z;
      MinSize : option Z;
      MaxInstanceLifetime : option Z;
      LoadBalancerNames : list string;
      TargetGroupARNs : list string;
      VPCZoneIdentifier : option string;
      EnabledMetrics : list EnabledMetric.t;
      Tags : list TagDescription.t;
      LaunchTemplate : option LaunchTemplateSpecification.t;
      MixedInstancesPolicy : option (MixedInstancesPolicy.t IRq);
      SuspendedProcesses : list SuspendedProcess.t;
      NewInstancesProtectedFromScaleIn : option bool;
      Status : option string
    }.
Arguments AutoScalingGroupName {IRq} _.
Arguments MaxSize {IRq} _.
Arguments MinSize {IRq} _.
Arguments MaxInstanceLifetime {IRq} _.
Arguments LoadBalancerNames {IRq} _.
Arguments TargetGroupARNs {IRq} _.
Arguments VPCZoneIdentifier {IRq} _.
Arguments EnabledMetrics {IRq} _.
Arguments Tags {IRq} _.
Arguments LaunchTemplate {IRq} _.
Arguments MixedInstancesPolicy {IRq} _.
Arguments SuspendedProcesses {IRq} _.
Arguments NewInstancesProtectedFromScaleIn {IRq} _.
Arguments Status {IRq} _.
End AutoScalingGroup.
End autoscalingtypes.

Module autoscaling.
Import autoscalingtypes.

Module CreateAutoScalingGroupInput.
Record t (IRq : Type) := {
      AutoScalingGroupName : option string;
      MinSize : option Z;
      MaxSize : option Z;
      NewInstancesProtectedFromScaleIn : option bool;
      Tags : list Tag.t;
      VPCZoneIdentifier : option string;
      CapacityRebalance : option bool;
      MaxInstanceLifetime : option Z;
      LoadBalancerNames : list string;
      TargetGroupARNs : list string;
      MixedInstancesPolicy : option (MixedInstancesPolicy.t IRq);
      LaunchTemplate : option LaunchTemplateSpecification.t
    }.
Arguments AutoScalingGroupName {IRq} _.
Arguments MinSize {IRq} _.
Arguments MaxSize {IRq} _.
Arguments NewInstancesProtectedFromScaleIn {IRq} _.
Arguments Tags {IRq} _.
Arguments VPCZoneIdentifier {IRq} _.
Arguments CapacityRebalance {IRq} _.
Arguments MaxInstanceLifetime {IRq} _.
Arguments LoadBalancerNames {IRq} _.
Arguments TargetGroupARNs {IRq} _.
Arguments MixedInstancesPolicy {IRq} _.
Arguments LaunchTemplate {IRq} _.
End CreateAutoScalingGroupInput.

Module UpdateAutoScalingGroupInput.
Record t (IRq : Type) := {
      AutoScalingGroupName : option string;
      MinSize : option Z;
      MaxSize : option Z;
      VPCZoneIdentifier : option string;
      MaxInstanceLifetime : option Z;
      NewInstancesProtectedFromScaleIn : option bool;
      CapacityRebalance : option bool;
      LaunchTemplate : option LaunchTemplateSpecification.t;
      MixedInstancesPolicy : option (MixedInstancesPolicy.t IRq)
    }.
Arguments AutoScalingGroupName {IRq} _.
Arguments MinSize {IRq} _.
Arguments MaxSize {IRq} _.
Arguments VPCZoneIdentifier {IRq} _.
Arguments MaxInstanceLifetime {IRq} _.
Arguments NewInstancesProtectedFromScaleIn {IRq} _.
Arguments CapacityRebalance {IRq} _.
Arguments LaunchTemplate {IRq} _.
Arguments MixedInstancesPolicy {IRq} _.

    (** Assignments to one field of the request. *)
Section assign.
Context {IRq : Type}.
Definition set_MinSize (v : option Z) (r : t IRq) : t IRq :=
        Build_t IRq (AutoScalingGroupName r) v (MaxSize r) (VPCZoneIdentifier r)
          (MaxInstanceLifetime r) (NewInstancesProtectedFromScaleIn r) (CapacityRebalance r)
          (LaunchTemplate r) (MixedInstancesPolicy r).
Definition set_MaxSize (v : option Z) (r : t IRq) : t IRq :=
        Build_t IRq (AutoScalingGroupName r) (MinSize r) v (VPCZoneIdentifier r)
          (MaxInstanceLifetime r) (NewInstancesProtectedFromScaleIn r) (CapacityRebalance r)
          (LaunchTemplate r) (MixedInstancesPolicy r).
Definition set_VPCZoneIdentifier (v : option string) (r : t IRq) : t IRq :=
        Build_t IRq (AutoScalingGroupName r) (MinSize r) (MaxSize r) v
          (MaxInstanceLifetime r) (NewInstancesProtectedFromScaleIn r) (CapacityRebalance r)
          (LaunchTemplate r) (MixedInstancesPolicy r).
Definition set_MaxInstanceLifetime (v : option Z) (r : t IRq) : t IRq :=
        Build_t IRq (AutoScalingGroupName r) (MinSize r) (MaxSize r) (VPCZoneIdentifier r)
          v (NewInstancesProtectedFromScaleIn r) (CapacityRebalance r)
          (LaunchTemplate r) (MixedInstancesPolicy r).
Definition set_NewInstancesProtectedFromScaleIn (v : option bool) (r : t IRq) : t IRq :=
        Build_t IRq (AutoScalingGroupName r) (MinSize r) (MaxSize r) (VPCZoneIdentifier r)
          (MaxInstanceLifetime r) v (CapacityRebalance r)
          (LaunchTemplate r) (MixedInstancesPolicy r).
Definition set_CapacityRebalance (v : option bool) (r : t IRq) : t IRq :=
        Build_t IRq (AutoScalingGroupName r) (MinSize r) (MaxSize r) (VPCZoneIdentifier r)
          (MaxInstanceLifetime r) (NewInstancesProtectedFromScaleIn r) v
          (LaunchTemplate r) (MixedInstancesPolicy r).
Definition set_LaunchTemplate (v : option LaunchTemplateSpecification.t) (r : t IRq)
        : t IRq :=
        Build_t IRq (AutoScalingGroupName r) (MinSize r) (MaxSize r) (VPCZoneIdentifier r)
          (MaxInstanceLifetime r) (NewInstancesProtectedFromScaleIn r) (CapacityRebalance r)
          v (MixedInstancesPolicy r).
Definition set_MixedInstancesPolicy (v : option (MixedInstancesPolicy.t IRq)) (r : t IRq)
        : t IRq :=
        Build_t IRq (AutoScalingGroupName r) (MinSize r) (MaxSize r) (VPCZoneIdentifier r)
          (MaxInstanceLifetime r) (NewInstancesProtectedFromScaleIn r) (CapacityRebalance r)
          (LaunchTemplate r) v.
End assign.
End UpdateAutoScalingGroupInput.
End autoscaling.

(** The calls a task makes on the AWS cloud, with their requests. *)
Module api.
Inductive call (IRq : Type) :=
  | FindELBByNameTag (name : string)
  | CreateAutoScalingGroup (request : autoscaling.CreateAutoScalingGroupInput.t IRq)
  | UpdateAutoScalingGroup (request : autoscaling.UpdateAutoScalingGroupInput.t IRq)
  | EnableMetricsCollection (AutoScalingGroupName Granularity : option string)
                            (Metrics : option (list string))
  | SuspendProcesses (AutoScalingGroupName : option string) (ScalingProcesses : list string)
  | ResumeProcesses (AutoScalingGroupName : option string) (ScalingProcesses : list string)
  | DeleteTags (Tags : list autoscalingtypes.Tag.t)
  | CreateOrUpdateTags (Tags : list autoscalingtypes.Tag.t)
  | DetachLoadBalancers (AutoScalingGroupName : option string) (LoadBalancerNames : list string)
  | AttachLoadBalancers (AutoScalingGroupName : option string) (LoadBalancerNames : list string)
  | AttachLoadBalancerTargetGroups (AutoScalingGroupName : option string)
                                   (TargetGroupARNs : list string)
  | DetachLoadBalancerTargetGroups (AutoScalingGroupName : option string)
                                   (TargetGroupARNs : list string).
Arguments FindELBByNameTag {IRq} name.
Arguments CreateAutoScalingGroup {IRq} request.
Arguments UpdateAutoScalingGroup {IRq} request.
Arguments EnableMetricsCollection {IRq} _ _ _.
Arguments SuspendProcesses {IRq} _ _.
Arguments ResumeProcesses {IRq} _ _.
Arguments DeleteTags {IRq} _.
Arguments CreateOrUpdateTags {IRq} _.
Arguments DetachLoadBalancers {IRq} _ _.
Arguments AttachLoadBalancers {IRq} _ _.
Arguments AttachLoadBalancerTargetGroups {IRq} _ _.
Arguments DetachLoadBalancerTargetGroups {IRq} _ _.
End api.

(** What the AWS cloud answers. A listing is the sequence of its pages, each
    a failure or the groups of the page. The answer to a call of a render
    may depend on the calls made before it in that render. [AddTags] is the
    cloud's tag helper used by [Normalize]. *)
Record AWSCloud (IRq : Type) := {
  DescribeAutoScalingGroups :
    list string -> list (cloud_error + list (autoscalingtypes.AutoScalingGroup.t IRq));
  FindELBByNameTagAnswer :
    list (api.call IRq) -> string -> cloud_error + option elbtypes.LoadBalancerDescription;
  Autoscaling : list (api.call IRq) -> api.call IRq -> option cloud_error;
  AddTags : option string -> option (gmap string string) -> option (gmap string string)
}.
Arguments DescribeAutoScalingGroups {IRq} _ _.
Arguments FindELBByNameTagAnswer {IRq} _ _ _.
Arguments Autoscaling {IRq} _ _ _.
Arguments AddTags {IRq} _ _ _.

(** ** awstasks: deferred deletion of a target group attachment *)

Module deleteAutoscalingTargetGroupAttachment.
Record t := {
    autoScalingGroupName : string;
    targetGroupARN : string
  }.

Definition TaskName (d : t) : string := "autoscaling-elb-attachment".
Definition Item (d : t) : string := autoScalingGroupName d +:+ ":" +:+ targetGroupARN d.
Definition DeferDeletion (d : t) : bool := true.
End deleteAutoscalingTargetGroupAttachment.

Definition buildDeleteAutoscalingTargetGroupAttachment
    (autoScalingGroupName targetGroupARN : string) : deleteAutoscalingTargetGroupAttachment.t :=
  {| deleteAutoscalingTargetGroupAttachment.autoScalingGroupName := autoScalingGroupName;
     deleteAutoscalingTargetGroupAttachment.targetGroupARN := targetGroupARN |}.

(** ** awstasks: AutoscalingGroup *)

Definition attachLoadBalancerTargetGroupsMaxItems : nat := 10.
Definition detachLoadBalancerTargetGroupsMaxItems : nat := 10.

(** The loop of [sliceChunks], started at index [i] with the chunks made so
    far. Each round of the Go loop is one unit of [fuel]; [None] when the
    fuel runs out before the loop ends (with a chunk size of 0 the Go loop
    never ends). *)
Fixpoint sliceChunksFrom (fuel : nat) (slice : list string) (chunkSize i : nat)
    (chunks : list (list string)) : option (list (list string)) :=
  if Nat.ltb i (length slice) then
    match fuel with
    | O => None
    | S fuel' =>
        let chunk :=
          if Nat.ltb (i + chunkSize) (length slice)
          then firstn chunkSize (skipn i slice)     (* slice[i : i+chunkSize] *)
          else skipn i slice in                     (* slice[i:] *)
        sliceChunksFrom fuel' slice chunkSize (i + chunkSize) (chunks ++ [chunk])
    end
  else Some chunks.

(** [sliceChunks]: the loop cannot take more rounds than the slice has
    elements when the chunk size is positive. *)
Definition sliceChunks (slice : list string) (chunkSize : nat) : option (list (list string)) :=
  sliceChunksFrom (length slice) slice chunkSize 0 [].

(** [processCompare a b]: the processes of [a] that are not in [b]; a nil
    pointer on either side is dereferenced. *)
Definition processCompare (a b : option (list string)) : outcome (list string) :=
  match a, b with
  | Some a, Some b =>
      Ok (List.filter (fun ap => negb (existsb (fun bp => String.eqb ap bp) b)) a)
  | None, _ => Panic
  | Some [], None => Ok []
  | Some (_ :: _), None => Panic
  end.

Module AutoscalingGroup.
Section task.
    (** [IR] stands for the task type [InstanceRequirements], declared in
        another file of the package. *)
Context {IR : Type}.

Record t := {
      Name : option string;
      Lifecycle : fi.Lifecycle;
      Granularity : option string;
      InstanceProtection : option bool;
      LaunchTemplate : option LaunchTemplate.t;
      LoadBalancers : option (list ClassicLoadBalancer.t);
      MaxInstanceLifetime : option Z;
      MaxSize : option Z;
      Metrics : option (list string);
      MinSize : option Z;
      MixedInstanceOverrides : option (list string);
      InstanceRequirements : option IR;
      MixedOnDemandAllocationStrategy : option string;
      MixedOnDemandBase : option Z;
      MixedOnDemandAboveBase : option Z;
      MixedSpotAllocationStrategy : option string;
      MixedSpotInstancePools : option Z;
      MixedSpotMaxPrice : option string;
      Subnets : option (list Subnet.t);
      SuspendProcesses : option (list string);
      Tags : option (gmap string string);
      TargetGroups : option (list TargetGroup.t);
      CapacityRebalance : option bool;
      WarmPool : option WarmPool.t;
      deletions : list deleteAutoscalingTargetGroupAttachment.t
    }.

    (** The zero value [&AutoscalingGroup{}]. *)
Definition zero : t :=
      {| Name := None; Lifecycle := ""; Granularity := None; InstanceProtection := None;
         LaunchTemplate := None; LoadBalancers := None; MaxInstanceLifetime := None;
         MaxSize := None; Metrics := None; MinSize := None; MixedInstanceOverrides := None;
         InstanceRequirements := None; MixedOnDemandAllocationStrategy := None;
         MixedOnDemandBase := None; MixedOnDemandAboveBase := None;
         MixedSpotAllocationStrategy := None; MixedSpotInstancePools := None;
         MixedSpotMaxPrice := None; Subnets := None; SuspendProcesses := None;
         Tags := None; TargetGroups := None; CapacityRebalance := None; WarmPool := None;
         deletions := [] |}.

    (** The fields [RenderAWS] sets to nil in [changes]. *)
Inductive field :=
    | FGranularity | FInstanceProtection | FLaunchTemplate | FLoadBalancers
    | FMaxInstanceLifetime | FMaxSize | FMetrics | FMinSize | FMixedInstanceOverrides
    | FInstanceRequirements | FMixedOnDemandBase | FMixedOnDemandAboveBase
    | FMixedSpotAllocationStrategy | FMixedSpotInstancePools | FMixedSpotMaxPrice
    | FSubnets | FSuspendProcesses | FTags | FTargetGroups | FCapacityRebalance.

Definition field_eqb (f g : field) : bool :=
      match f, g with
      | FGranularity, FGranularity | FInstanceProtection, FInstanceProtection
      | FLaunchTemplate, FLaunchTemplate | FLoadBalancers, FLoadBalancers
      | FMaxInstanceLifetime, FMaxInstanceLifetime | FMaxSize, FMaxSize
      | FMetrics, FMetrics | FMinSize, FMinSize
      | FMixedInstanceOverrides, FMixedInstanceOverrides
      | FInstanceRequirements, FInstanceRequirements
      | FMixedOnDemandBase, FMixedOnDemandBase
      | FMixedOnDemandAboveBase, FMixedOnDemandAboveBase
      | FMixedSpotAllocationStrategy, FMixedSpotAllocationStrategy
      | FMixedSpotInstancePools, FMixedSpotInstancePools
      | FMixedSpotMaxPrice, FMixedSpotMaxPrice | FSubnets, FSubnets
      | FSuspendProcesses, FSuspendProcesses | FTags, FTags
      | FTargetGroups, FTargetGroups | FCapacityRebalance, FCapacityRebalance => true
      | _, _ => false
      end.

Definition unless {A} (f g : field) (v : option A) : option A :=
      if field_eqb f g then None else v.

    (** [changes.F = nil] for the field [f]. *)
Definition setNil (f : field) (c : t) : t :=
      {| Name := Name c;
         Lifecycle := Lifecycle c;
         Granularity := unless f FGranularity (Granularity c);
         InstanceProtection := unless f FInstanceProtection (InstanceProtection c);
         LaunchTemplate := unless f FLaunchTemplate (LaunchTemplate c);
         LoadBalancers := unless f FLoadBalancers (LoadBalancers c);
         MaxInstanceLifetime := unless f FMaxInstanceLifetime (MaxInstanceLifetime c);
         MaxSize := unless f FMaxSize (MaxSize c);
         Metrics := unless f FMetrics (Metrics c);
         MinSize := unless f FMinSize (MinSize c);
         MixedInstanceOverrides := unless f FMixedInstanceOverrides (MixedInstanceOverrides c);
         InstanceRequirements := unless f FInstanceRequirements (InstanceRequirements c);
         MixedOnDemandAllocationStrategy := MixedOnDemandAllocationStrategy c;
         MixedOnDemandBase := unless f FMixedOnDemandBase (MixedOnDemandBase c);
         MixedOnDemandAboveBase := unless f FMixedOnDemandAboveBase (MixedOnDemandAboveBase c);
         MixedSpotAllocationStrategy :=
           unless f FMixedSpotAllocationStrategy (MixedSpotAllocationStrategy c);
         MixedSpotInstancePools := unless f FMixedSpotInstancePools (MixedSpotInstancePools c);
         MixedSpotMaxPrice := unless f FMixedSpotMaxPrice (MixedSpotMaxPrice c);
         Subnets := unless f FSubnets (Subnets c);
         SuspendProcesses := unless f FSuspendProcesses (SuspendProcesses c);
         Tags := unless f FTags (Tags c);
         TargetGroups := unless f FTargetGroups (TargetGroups c);
         CapacityRebalance := unless f FCapacityRebalance (CapacityRebalance c);
         WarmPool := WarmPool c;
         deletions := deletions c |}.

Definition CompareWithID (e : t) : option string := Name e.

    (** A dependency of the task: one of the tasks it refers to. *)
Inductive dependency :=
    | DepLoadBalancer (lb : ClassicLoadBalancer.t)
    | DepTargetGroup (tg : TargetGroup.t)
    | DepSubnet (subnet : Subnet.t)
    | DepLaunchTemplate (lt : LaunchTemplate.t).

Definition GetDependencies (e : t) : list dependency :=
      map DepLoadBalancer (elems (LoadBalancers e)) ++
      map DepTargetGroup (elems (TargetGroups e)) ++
      map DepSubnet (elems (Subnets e)) ++
      match LaunchTemplate e with
      | Some lt => [DepLaunchTemplate lt]
      | None => []
      end.

Definition FindDeletions (e : t) : list deleteAutoscalingTargetGroupAttachment.t :=
      deletions e.

Definition CheckChanges (a : option t) (ex changes : t) : option error :=
      match a with
      | Some _ =>
          match Name ex with
          | None => Some (fi.RequiredField "Name")
          | Some _ => None
          end
      | None => None
      end.

    (** [UseMixedInstancesPolicy]. *)
Definition UseMixedInstancesPolicy (e : t) : bool :=
      match LaunchTemplate e with
      | None => false
      | Some _ =>
          if notNil ((MixedOnDemandAboveBase e)) then true
          else if notNil ((MixedOnDemandBase e)) then true
          else if notNil ((MixedSpotAllocationStrategy e)) then true
          else if notNil ((MixedSpotInstancePools e)) then true
          else if Nat.ltb 0 (length (elems (MixedInstanceOverrides e))) then true
          else if notNil ((MixedSpotMaxPrice e)) then true
          else if notNil ((InstanceRequirements e)) then true
          else false
      end.

    (** [AutoscalingGroupTags]; Go ranges over the map in no fixed order,
        here in the order of [map_to_list]. *)
Definition AutoscalingGroupTags (e : t) : list autoscalingtypes.Tag.t :=
      match Tags e with
      | None => []
      | Some tags =>
          map (fun kv =>
                 {| autoscalingtypes.Tag.Key := aws.String kv.1;
                    autoscalingtypes.Tag.Value := aws.String kv.2;
                    autoscalingtypes.Tag.ResourceId := Name e;
                    autoscalingtypes.Tag.ResourceType := aws.String "auto-scaling-group";
                    autoscalingtypes.Tag.PropagateAtLaunch := aws.Bool true |})
              (map_to_list tags)
      end.

Definition AutoscalingGroupSubnets (e : t) : list string :=
      map (fun x => fi.ValueOf (Subnet.ID x)) (elems (Subnets e)).

Definition AutoscalingLoadBalancers (e : t) : list string :=
      map (fun v => aws.ToString (ClassicLoadBalancer.LoadBalancerName v))
          (elems (LoadBalancers e)).

Definition AutoscalingTargetGroups (e : t) : list string :=
      map (fun v => aws.ToString (TargetGroup.ARN v)) (elems (TargetGroups e)).

    (** [getASGTagsToDelete]: the current tags whose key is not desired. *)
Definition getASGTagsToDelete (e : t) (currentTags : gmap string string)
      : list autoscalingtypes.Tag.t :=
      map (fun kv =>
             {| autoscalingtypes.Tag.Key := aws.String kv.1;
                autoscalingtypes.Tag.Value := aws.String kv.2;
                autoscalingtypes.Tag.ResourceId := Name e;
                autoscalingtypes.Tag.ResourceType := aws.String "auto-scaling-group";
                autoscalingtypes.Tag.PropagateAtLaunch := None |})
          (List.filter (fun kv => bool_decide (default (∅ : gmap string string) (Tags e) !! kv.1 = None))
                  (map_to_list currentTags)).

    (** [getLBsToDetach]: the current load balancers whose name is not
        desired; the names are dereferenced. *)
Definition getLBsToDetach (e : t) (currentLBs : list ClassicLoadBalancer.t)
      : outcome (list string) :=
      if forallb (fun v => notNil ((ClassicLoadBalancer.Name v)))
                 (elems (LoadBalancers e) ++ currentLBs)
      then
        let desiredLBs := map (fun v => fi.ValueOf (ClassicLoadBalancer.Name v))
                              (elems (LoadBalancers e)) in
        Ok (map (fun v => aws.ToString (ClassicLoadBalancer.Name v))
                (List.filter (fun v => negb (existsb (String.eqb (fi.ValueOf (ClassicLoadBalancer.Name v)))
                                                desiredLBs))
                        currentLBs))
      else Panic.
    (** [getTGsToDetach]: the ARN pointers of the current target groups
        whose ARN is not desired; the ARNs are dereferenced to compare. *)
Definition getTGsToDetach (e : t) (currentTGs : list TargetGroup.t)
      : outcome (list (option string)) :=
      if forallb (fun v => notNil (TargetGroup.ARN v)) (elems (TargetGroups e) ++ currentTGs)
      then
        let desiredTGs := map (fun v => fi.ValueOf (TargetGroup.ARN v))
                              (elems (TargetGroups e)) in
        Ok (map TargetGroup.ARN
                (List.filter (fun v => negb (existsb (String.eqb (fi.ValueOf (TargetGroup.ARN v)))
                                                desiredTGs))
                        currentTGs))
      else Panic.
End task.
Arguments t : clear implicits.
Arguments field : clear implicits.
Arguments dependency : clear implicits.

Section find.
Import autoscalingtypes.
    (** [IRq] stands for the SDK's [InstanceRequirements];
        [findInstanceRequirements] is declared in another file of the
        package: [Find] keeps the requirements it returns and drops its
        error. *)
Context {IR IRq : Type}.
Context (findInstanceRequirements : AutoScalingGroup.t IRq -> option IR).

    (** The loop of [findAutoscalingGroup] over the pages of the listing. *)
Fixpoint findInPages (pages : list (cloud_error + list (AutoScalingGroup.t IRq)))
        (name : string) (found : list (AutoScalingGroup.t IRq))
      : outcome (list (AutoScalingGroup.t IRq)) :=
      match pages with
      | [] => Ok found
      | inl err :: _ => Fail (Errorf ("error listing AutoScalingGroups: " +:+ ErrorString err))
      | inr groups :: rest =>
          findInPages rest name
            (found ++ List.filter
                        (fun g => negb (notNil (AutoScalingGroup.Status g)) &&
                                  String.eqb (aws.ToString (AutoScalingGroup.AutoScalingGroupName g)) name)
                        groups)
      end.

Definition findAutoscalingGroup (cloud : AWSCloud IRq) (name : string)
      : outcome (option (AutoScalingGroup.t IRq)) :=
      match findInPages (DescribeAutoScalingGroups cloud [name]) name [] with
      | Ok [] => Ok None
      | Ok [g] => Ok (Some g)
      | Ok _ => Fail (Errorq "found multiple AutoscalingGroups with name: " name)
      | Fail err => Fail err
      | Panic => Panic
      end.

    (** The load balancer task of the API: the last one not marked shared. *)
Definition apiLBTaskOf (e : t IR) : option ClassicLoadBalancer.t :=
      fold_left (fun apiLBTask lb =>
                   if negb (fi.ValueOfBool (ClassicLoadBalancer.Shared lb)) then Some lb
                   else apiLBTask)
                (elems (LoadBalancers e)) None.

    (** [byARN] of [Find]: the desired target groups that know their ARN. *)
Definition targetGroupsByARN (e : t IR) : gmap string TargetGroup.t :=
      fold_left (fun byARN tg =>
                   match TargetGroup.info tg with
                   | Some info => <[awsup.ARN info := tg]> byARN
                   | None => byARN
                   end)
                (elems (TargetGroups e)) ∅.

    (** [Find] returns the snapshot (nil when there is no group) and leaves
        the cleanups it found in [e.deletions]: the second component is
        [e.deletions] when [Find] is over. *)
Definition Find (cloud : AWSCloud IRq) (e : t IR)
      : outcome (option (t IR)) * list deleteAutoscalingTargetGroupAttachment.t :=
      match findAutoscalingGroup cloud (fi.ValueOf (Name e)) with
      | Fail err => (Fail err, deletions e)
      | Panic => (Panic, deletions e)
      | Ok None => (Ok None, deletions e)
      | Ok (Some g) =>
          (* Use 0 as default value when api returns nil (same as model) *)
          let maxInstanceLifetime :=
            match AutoScalingGroup.MaxInstanceLifetime g with
            | None => fi.PtrTo 0%Z
            | Some v => Some v
            end in
          let loadBalancers :=
            map (fun lb => {| ClassicLoadBalancer.Name := aws.String lb;
                              ClassicLoadBalancer.LoadBalancerName := aws.String lb;
                              ClassicLoadBalancer.Shared := None |})
                (AutoScalingGroup.LoadBalancerNames g) in
          let apiLB :=
            match apiLBTaskOf e with
            | Some apiLBTask =>
                if Nat.ltb 0 (length loadBalancers) then
                  match FindELBByNameTagAnswer cloud []
                          (fi.ValueOf (ClassicLoadBalancer.Name apiLBTask)) with
                  | inl err => inl err
                  | inr None => inr loadBalancers
                  | inr (Some apiLBDesc) =>
                      inr (map (fun lb =>
                                  if String.eqb
                                       (aws.ToString (elbtypes.LoadBalancerName apiLBDesc))
                                       (aws.ToString (ClassicLoadBalancer.Name lb))
                                  then apiLBTask else lb)
                               loadBalancers)
                  end
                else inr loadBalancers
            | None => inr loadBalancers
            end in
          match apiLB with
          | inl err => (Fail (Raw err), deletions e)
          | inr loadBalancers =>
              let loadBalancers := sort.Stable OrderLoadBalancersByName loadBalancers in
              let byARN := targetGroupsByARN e in
              let targetGroups :=
                map (fun arn =>
                       match byARN !! arn with
                       | Some tg => tg
                       | None => {| TargetGroup.Name := None;
                                    TargetGroup.ARN := aws.String arn;
                                    TargetGroup.info := None |}
                       end)
                    (AutoScalingGroup.TargetGroupARNs g) in
              let deletions' :=
                deletions e ++
                map (buildDeleteAutoscalingTargetGroupAttachment
                       (aws.ToString (AutoScalingGroup.AutoScalingGroupName g)))
                    (List.filter (fun arn => negb (notNil (byARN !! arn)))
                                 (AutoScalingGroup.TargetGroupARNs g)) in
              let targetGroups := sort.Stable OrderTargetGroupsByName targetGroups in
              let subnets :=
                match AutoScalingGroup.VPCZoneIdentifier g with
                | Some zones =>
                    Some (map (fun subnet => {| Subnet.ID := aws.String subnet |})
                              (strings.Split zones ","))
                | None => None
                end in
              let metrics :=
                match AutoScalingGroup.EnabledMetrics g with
                | [] => None
                | enabled => Some (map (fun m => aws.ToString (EnabledMetric.Metric m)) enabled)
                end in
              let granularity :=
                fold_left (fun _ m => EnabledMetric.Granularity m)
                          (AutoScalingGroup.EnabledMetrics g) None in
              let metrics := option_map sort.Strings metrics in
              let tags :=
                if negb (Nat.eqb (length (AutoScalingGroup.Tags g)) 0) then
                  Some (fold_left
                          (fun tags tag =>
                             if strings.HasPrefix (aws.ToString (TagDescription.Key tag))
                                                  "aws:cloudformation:"
                             then tags
                             else <[aws.ToString (TagDescription.Key tag) :=
                                      aws.ToString (TagDescription.Value tag)]> tags)
                          (AutoScalingGroup.Tags g) (∅ : gmap string string))
                else None in
              let launchTemplate :=
                match AutoScalingGroup.LaunchTemplate g with
                | Some lt =>
                    Some {| LaunchTemplate.Name := LaunchTemplateSpecification.LaunchTemplateName lt;
                            LaunchTemplate.ID := LaunchTemplateSpecification.LaunchTemplateId lt |}
                | None => None
                end in
              let mpd :=
                match AutoScalingGroup.MixedInstancesPolicy g with
                | Some mp => MixedInstancesPolicy.InstancesDistribution mp
                | None => None
                end in
              let mplt :=
                match AutoScalingGroup.MixedInstancesPolicy g with
                | Some mp => MixedInstancesPolicy.LaunchTemplate mp
                | None => None
                end in
              let launchTemplate :=
                match mplt with
                | Some lt =>
                    match autoscalingtypes.LaunchTemplate.LaunchTemplateSpecification lt with
                    | Some spec =>
                        Some {| LaunchTemplate.Name :=
                                  LaunchTemplateSpecification.LaunchTemplateName spec;
                                LaunchTemplate.ID :=
                                  LaunchTemplateSpecification.LaunchTemplateId spec |}
                    | None => launchTemplate
                    end
                | None => launchTemplate
                end in
              let mixedInstanceOverrides :=
                match mplt with
                | Some lt =>
                    match autoscalingtypes.LaunchTemplate.Overrides lt with
                    | [] => None
                    | overrides =>
                        Some (map (fun n => fi.ValueOf (LaunchTemplateOverrides.InstanceType n))
                                  overrides)
                    end
                | None => None
                end in
              let ir := findInstanceRequirements g in
              let subnets :=
                if subnetSlicesEqualIgnoreOrder subnets (Subnets e) then Subnets e
                else subnets in
              if forallb (fun p => notNil (SuspendedProcess.ProcessName p))
                         (AutoScalingGroup.SuspendedProcesses g)
              then
                let processes :=
                  map (fun p => fi.ValueOf (SuspendedProcess.ProcessName p))
                      (AutoScalingGroup.SuspendedProcesses g) in
                (Ok (Some
                   {| Name := AutoScalingGroup.AutoScalingGroupName g;
                      MaxSize := AutoScalingGroup.MaxSize g;
                      MinSize := AutoScalingGroup.MinSize g;
                      MaxInstanceLifetime := maxInstanceLifetime;
                      LoadBalancers := Some loadBalancers;
                      TargetGroups := Some targetGroups;
                      Subnets := subnets;
                      Metrics := metrics;
                      Granularity := granularity;
                      Tags := tags;
                      LaunchTemplate := launchTemplate;
                      MixedOnDemandAboveBase :=
                        mpd ≫= InstancesDistribution.OnDemandPercentageAboveBaseCapacity;
                      MixedOnDemandAllocationStrategy :=
                        mpd ≫= InstancesDistribution.OnDemandAllocationStrategy;
                      MixedOnDemandBase := mpd ≫= InstancesDistribution.OnDemandBaseCapacity;
                      MixedSpotAllocationStrategy :=
                        mpd ≫= InstancesDistribution.SpotAllocationStrategy;
                      MixedSpotInstancePools := mpd ≫= InstancesDistribution.SpotInstancePools;
                      (* MixedSpotMaxPrice must be set to the empty string in order to unset. *)
                      MixedSpotMaxPrice :=
                        match mpd with
                        | Some d =>
                            match InstancesDistribution.SpotMaxPrice d with
                            | None => fi.PtrTo EmptyString
                            | Some price => Some price
                            end
                        | None => None
                        end;
                      MixedInstanceOverrides := mixedInstanceOverrides;
                      InstanceRequirements := ir;
                      SuspendProcesses := Some processes;
                      (* Avoid spurious changes *)
                      Lifecycle := Lifecycle e;
                      InstanceProtection := AutoScalingGroup.NewInstancesProtectedFromScaleIn g;
                      CapacityRebalance := None;
                      WarmPool := None;
                      deletions := [] |}),
                 deletions')
              else (Panic, deletions')
          end
      end.

    (** [Normalize] sorts the desired metrics in place and lets the cloud
        add its tags to the desired tags; it returns the task afterwards
        (its error is always nil). *)
Definition Normalize (cloud : AWSCloud IRq) (e : t IR) : t IR :=
      {| Name := Name e;
         Lifecycle := Lifecycle e;
         Granularity := Granularity e;
         InstanceProtection := InstanceProtection e;
         LaunchTemplate := LaunchTemplate e;
         LoadBalancers := LoadBalancers e;
         MaxInstanceLifetime := MaxInstanceLifetime e;
         MaxSize := MaxSize e;
         Metrics := option_map sort.Strings (Metrics e);
         MinSize := MinSize e;
         MixedInstanceOverrides := MixedInstanceOverrides e;
         InstanceRequirements := InstanceRequirements e;
         MixedOnDemandAllocationStrategy := MixedOnDemandAllocationStrategy e;
         MixedOnDemandBase := MixedOnDemandBase e;
         MixedOnDemandAboveBase := MixedOnDemandAboveBase e;
         MixedSpotAllocationStrategy := MixedSpotAllocationStrategy e;
         MixedSpotInstancePools := MixedSpotInstancePools e;
         MixedSpotMaxPrice := MixedSpotMaxPrice e;
         Subnets := Subnets e;
         SuspendProcesses := SuspendProcesses e;
         Tags := AddTags cloud (Name e) (Tags e);
         TargetGroups := TargetGroups e;
         CapacityRebalance := CapacityRebalance e;
         WarmPool := WarmPool e;
         deletions := deletions e |}.
End find.

Section render.
Local Abbreviation LaunchTemplateTask := LaunchTemplate.t.
Import autoscalingtypes.
Import autoscaling.
    (** [overridesFromInstanceRequirements] is declared in another file of
        the package. *)
Context {IR IRq : Type}.
Context (overridesFromInstanceRequirements : IR -> LaunchTemplateOverrides.t IRq).
Context (cloud : AWSCloud IRq).

    (** What a render changes as it runs: the [changes] it was given, whose
        fields it sets to nil, and the calls it has made on the cloud. *)
Record state := {
      changes : t IR;
      calls : list (api.call IRq)
    }.

Definition M (A : Type) : Type := state -> outcome A * state.

Definition ret {A} (a : A) : M A := fun s => (Ok a, s).
Definition bind {A B} (m : M A) (k : A -> M B) : M B :=
      fun s =>
        match m s with
        | (Ok a, s') => k a s'
        | (Fail err, s') => (Fail err, s')
        | (Panic, s') => (Panic, s')
        end.
Definition fail {A} (err : error) : M A := fun s => (Fail err, s).
Definition panic {A} : M A := fun s => (Panic, s).
Definition lift {A} (o : outcome A) : M A := fun s => (o, s).

Notation "x <- m ;; k" := (bind m (fun x => k))
      (at level 100, m at next level, right associativity).

Definition getChanges : M (t IR) := fun s => (Ok (changes s), s).
Definition nil (f : field) : M unit :=
      fun s => (Ok tt, {| changes := setNil f (changes s); calls := calls s |}).

    (** A call on [t.Cloud.Autoscaling()]: recorded, and answered with the
        error of the call, if any. *)
Definition call (c : api.call IRq) : M (option cloud_error) :=
      fun s => (Ok (Autoscaling cloud (calls s) c),
                {| changes := changes s; calls := calls s ++ [c] |}).

Definition findELBByNameTag (name : string)
      : M (cloud_error + option elbtypes.LoadBalancerDescription) :=
      fun s => (Ok (FindELBByNameTagAnswer cloud (calls s) name),
                {| changes := changes s; calls := calls s ++ [api.FindELBByNameTag name] |}).

Definition latest (lt : LaunchTemplateTask) : LaunchTemplateSpecification.t :=
      {| LaunchTemplateSpecification.LaunchTemplateId := LaunchTemplate.ID lt;
         LaunchTemplateSpecification.LaunchTemplateName := None;
         LaunchTemplateSpecification.Version := aws.String "$Latest" |}.

Definition instanceTypeOverride (x : string) : LaunchTemplateOverrides.t IRq :=
      {| LaunchTemplateOverrides.InstanceType := fi.PtrTo x;
         LaunchTemplateOverrides.InstanceRequirements := None |}.

    (** *** The create path *)

    (** The loop over [e.LoadBalancers] that collects the names to attach. *)
Fixpoint createLoadBalancerNames (lbs : list ClassicLoadBalancer.t) (names : list string)
      : M (list string) :=
      match lbs with
      | [] => ret names
      | k :: rest =>
          match ClassicLoadBalancer.LoadBalancerName k with
          | None =>
              answer <- findELBByNameTag (fi.ValueOf (ClassicLoadBalancer.GetName k)) ;;
              match answer with
              | inl err => fail (Raw err)
              | inr None => fail (Errorf "could not find load balancer to attach")
              | inr (Some lbDesc) =>
                  createLoadBalancerNames rest
                    (names ++ [aws.ToString (elbtypes.LoadBalancerName lbDesc)])
              end
          | Some name => createLoadBalancerNames rest (names ++ [name])
          end
      end.

Definition RenderAWS_create (v e : t IR) : M unit :=
      loadBalancerNames <- createLoadBalancerNames (elems (LoadBalancers e)) [] ;;
      let targetGroupARNs :=
        map (fun tg => aws.ToString (TargetGroup.ARN tg)) (elems (TargetGroups e)) in
      let request mixedInstancesPolicy launchTemplate :=
        {| CreateAutoScalingGroupInput.AutoScalingGroupName := Name e;
           CreateAutoScalingGroupInput.MinSize := MinSize e;
           CreateAutoScalingGroupInput.MaxSize := MaxSize e;
           CreateAutoScalingGroupInput.NewInstancesProtectedFromScaleIn := InstanceProtection e;
           CreateAutoScalingGroupInput.Tags := AutoscalingGroupTags v;
           CreateAutoScalingGroupInput.VPCZoneIdentifier :=
             fi.PtrTo (strings.Join (AutoscalingGroupSubnets e) ",");
           CreateAutoScalingGroupInput.CapacityRebalance := CapacityRebalance e;
           (* On ASG creation 0 value is forbidden *)
           CreateAutoScalingGroupInput.MaxInstanceLifetime :=
             if Z.eqb (fi.ValueOfInt (MaxInstanceLifetime e)) 0 then None
             else MaxInstanceLifetime e;
           CreateAutoScalingGroupInput.LoadBalancerNames := loadBalancerNames;
           CreateAutoScalingGroupInput.TargetGroupARNs := targetGroupARNs;
           CreateAutoScalingGroupInput.MixedInstancesPolicy := mixedInstancesPolicy;
           CreateAutoScalingGroupInput.LaunchTemplate := launchTemplate |} in
      request <-
        (if UseMixedInstancesPolicy e then
           match LaunchTemplate e with
           | None => panic
           | Some lt =>
               ret (request
                      (Some {| MixedInstancesPolicy.InstancesDistribution :=
                                 Some {| InstancesDistribution.OnDemandAllocationStrategy := None;
                                         InstancesDistribution.OnDemandPercentageAboveBaseCapacity :=
                                           MixedOnDemandAboveBase e;
                                         InstancesDistribution.OnDemandBaseCapacity :=
                                           MixedOnDemandBase e;
                                         InstancesDistribution.SpotAllocationStrategy :=
                                           MixedSpotAllocationStrategy e;
                                         InstancesDistribution.SpotInstancePools :=
                                           MixedSpotInstancePools e;
                                         InstancesDistribution.SpotMaxPrice :=
                                           MixedSpotMaxPrice e |};
                               MixedInstancesPolicy.LaunchTemplate :=
                                 Some {| autoscalingtypes.LaunchTemplate.LaunchTemplateSpecification :=
                                           Some (latest lt);
                                         autoscalingtypes.LaunchTemplate.Overrides :=
                                           map instanceTypeOverride
                                               (elems (MixedInstanceOverrides e)) ++
                                           match InstanceRequirements e with
                                           | Some ir => [overridesFromInstanceRequirements ir]
                                           | None => []
                                           end |} |})
                      None)
           end
         else
           match LaunchTemplate e with
           | Some lt => ret (request None (Some (latest lt)))
           | None =>
               fail (Errorf "could not find one of launch template or mixed instances policy")
           end) ;;
      (* attempt to create the autoscaling group *)
      err <- call (api.CreateAutoScalingGroup request) ;;
      match err with
      | Some err =>
          let code := ErrorCode err in
          let message := ErrorMessage err in
          if String.eqb code "ValidationError" &&
             strings.Contains message "Invalid IAM Instance Profile name"
          then fail (fi.NewTryAgainLaterError
                       "waiting for the IAM Instance Profile to be propagated")
          else fail (Errorf ("error creating AutoScalingGroup: " +:+ message))
      | None =>
          (* attempt to enable the metrics *)
          err <- call (api.EnableMetricsCollection (Name e) (Granularity e) (Metrics e)) ;;
          match err with
          | Some err =>
              fail (Errorf ("error enabling metrics collection for AutoscalingGroup: "
                            +:+ ErrorString err))
          | None =>
              match SuspendProcesses e with
              | None => panic
              | Some processes =>
                  if Nat.ltb 0 (length processes) then
                    err <- call (api.SuspendProcesses (Name e) processes) ;;
                    match err with
                    | Some err =>
                        fail (Errorf ("error suspending processes: " +:+ ErrorString err))
                    | None => ret tt
                    end
                  else ret tt
              end
          end
      end.
(** *** The update path

    The blocks of the update path, in the order of the source. Each takes
    the request built so far and returns it with its own assignments. *)

(** [setup]: the mixed instances policy of the request, made on first use. *)
Definition setup (req : UpdateAutoScalingGroupInput.t IRq) : UpdateAutoScalingGroupInput.t IRq :=
  match UpdateAutoScalingGroupInput.MixedInstancesPolicy req with
  | None =>
      UpdateAutoScalingGroupInput.set_MixedInstancesPolicy
        (Some {| MixedInstancesPolicy.InstancesDistribution := Some InstancesDistribution.zero;
                 MixedInstancesPolicy.LaunchTemplate := None |})
        req
  | Some _ => req
  end.

(** [setup(request).InstancesDistribution.F = v], as the assignment [f]. *)
Definition setDistribution (f : InstancesDistribution.t -> InstancesDistribution.t)
    (req : UpdateAutoScalingGroupInput.t IRq) : M (UpdateAutoScalingGroupInput.t IRq) :=
  let req := setup req in
  match UpdateAutoScalingGroupInput.MixedInstancesPolicy req with
  | Some mp =>
      match MixedInstancesPolicy.InstancesDistribution mp with
      | Some d =>
          ret (UpdateAutoScalingGroupInput.set_MixedInstancesPolicy
                 (Some {| MixedInstancesPolicy.InstancesDistribution := Some (f d);
                          MixedInstancesPolicy.LaunchTemplate :=
                            MixedInstancesPolicy.LaunchTemplate mp |})
                 req)
      | None => panic
      end
  | None => panic
  end.

(** [setup(request).LaunchTemplate = lt]. *)
Definition setPolicyLaunchTemplate (lt : option (autoscalingtypes.LaunchTemplate.t IRq))
    (req : UpdateAutoScalingGroupInput.t IRq) : UpdateAutoScalingGroupInput.t IRq :=
  let req := setup req in
  match UpdateAutoScalingGroupInput.MixedInstancesPolicy req with
  | Some mp =>
      UpdateAutoScalingGroupInput.set_MixedInstancesPolicy
        (Some {| MixedInstancesPolicy.InstancesDistribution :=
                   MixedInstancesPolicy.InstancesDistribution mp;
                 MixedInstancesPolicy.LaunchTemplate := lt |})
        req
  | None => req
  end.

Definition policyLaunchTemplate (req : UpdateAutoScalingGroupInput.t IRq)
  : option (autoscalingtypes.LaunchTemplate.t IRq) :=
  UpdateAutoScalingGroupInput.MixedInstancesPolicy req ≫= MixedInstancesPolicy.LaunchTemplate.

(** [p.Overrides = append(p.Overrides, more...)] for
    [p := request.MixedInstancesPolicy.LaunchTemplate]. *)
Definition appendOverrides (more : list (LaunchTemplateOverrides.t IRq))
    (req : UpdateAutoScalingGroupInput.t IRq) : M (UpdateAutoScalingGroupInput.t IRq) :=
  match policyLaunchTemplate req with
  | Some p =>
      ret (setPolicyLaunchTemplate
             (Some {| autoscalingtypes.LaunchTemplate.LaunchTemplateSpecification :=
                        autoscalingtypes.LaunchTemplate.LaunchTemplateSpecification p;
                      autoscalingtypes.LaunchTemplate.Overrides :=
                        autoscalingtypes.LaunchTemplate.Overrides p ++ more |})
             req)
  | None => panic
  end.

(** We have to update LaunchTemplate to remove mixedInstancesPolicy when it
    is removed from spec. *)
Definition applyLaunchTemplate (a e : t IR) (request : UpdateAutoScalingGroupInput.t IRq)
  : M (UpdateAutoScalingGroupInput.t IRq) :=
  changes <- getChanges ;;
  if notNil (LaunchTemplate changes) ||
     (UseMixedInstancesPolicy a && negb (UseMixedInstancesPolicy e))
  then
    match LaunchTemplate e with
    | None => panic
    | Some lt =>
        let spec := latest lt in
        let request :=
          if UseMixedInstancesPolicy e
          then setPolicyLaunchTemplate
                 (Some {| autoscalingtypes.LaunchTemplate.LaunchTemplateSpecification := Some spec;
                          autoscalingtypes.LaunchTemplate.Overrides := [] |})
                 request
          else UpdateAutoScalingGroupInput.set_LaunchTemplate (Some spec) request in
        _ <- nil FLaunchTemplate ;;
        ret request
    end
  else ret request.

Definition applyMixedOnDemandAboveBase (e : t IR) (request : UpdateAutoScalingGroupInput.t IRq)
  : M (UpdateAutoScalingGroupInput.t IRq) :=
  changes <- getChanges ;;
  if notNil (MixedOnDemandAboveBase changes) then
    request <- setDistribution
                 (InstancesDistribution.set_OnDemandPercentageAboveBaseCapacity
                    (MixedOnDemandAboveBase e)) request ;;
    _ <- nil FMixedOnDemandAboveBase ;;
    ret request
  else ret request.

Definition applyMixedOnDemandBase (e : t IR) (request : UpdateAutoScalingGroupInput.t IRq)
  : M (UpdateAutoScalingGroupInput.t IRq) :=
  changes <- getChanges ;;
  if notNil (MixedOnDemandBase changes) then
    request <- setDistribution
                 (InstancesDistribution.set_OnDemandBaseCapacity (MixedOnDemandBase e))
                 request ;;
    _ <- nil FMixedOnDemandBase ;;
    ret request
  else ret request.

Definition applyMixedSpotAllocationStrategy (e : t IR)
    (request : UpdateAutoScalingGroupInput.t IRq) : M (UpdateAutoScalingGroupInput.t IRq) :=
  changes <- getChanges ;;
  if notNil (MixedSpotAllocationStrategy changes) then
    request <- setDistribution
                 (InstancesDistribution.set_SpotAllocationStrategy
                    (MixedSpotAllocationStrategy e)) request ;;
    _ <- nil FMixedSpotAllocationStrategy ;;
    ret request
  else ret request.

Definition applyMixedSpotInstancePools (e : t IR) (request : UpdateAutoScalingGroupInput.t IRq)
  : M (UpdateAutoScalingGroupInput.t IRq) :=
  changes <- getChanges ;;
  if notNil (MixedSpotInstancePools changes) then
    request <- setDistribution
                 (InstancesDistribution.set_SpotInstancePools (MixedSpotInstancePools e))
                 request ;;
    _ <- nil FMixedSpotInstancePools ;;
    ret request
  else ret request.

Definition applyMixedSpotMaxPrice (e : t IR) (request : UpdateAutoScalingGroupInput.t IRq)
  : M (UpdateAutoScalingGroupInput.t IRq) :=
  changes <- getChanges ;;
  if notNil (MixedSpotMaxPrice changes) then
    request <- setDistribution
                 (InstancesDistribution.set_SpotMaxPrice (MixedSpotMaxPrice e)) request ;;
    _ <- nil FMixedSpotMaxPrice ;;
    ret request
  else ret request.

Definition applyOverrides (e : t IR) (request : UpdateAutoScalingGroupInput.t IRq)
  : M (UpdateAutoScalingGroupInput.t IRq) :=
  changes <- getChanges ;;
  if notNil (MixedInstanceOverrides changes) || notNil (InstanceRequirements changes) then
    request <-
      (match policyLaunchTemplate (setup request) with
       | None =>
           match LaunchTemplate e with
           | None => panic
           | Some lt =>
               ret (setPolicyLaunchTemplate
                      (Some {| autoscalingtypes.LaunchTemplate.LaunchTemplateSpecification :=
                                 Some (latest lt);
                               autoscalingtypes.LaunchTemplate.Overrides := [] |})
                      request)
           end
       | Some _ => ret (setup request)
       end) ;;
    request <-
      (match MixedInstanceOverrides changes with
       | Some overrides =>
           request <- appendOverrides (map instanceTypeOverride overrides) request ;;
           _ <- nil FMixedInstanceOverrides ;;
           ret request
       | None => ret request
       end) ;;
    match InstanceRequirements changes with
    | Some ir =>
        request <- appendOverrides [overridesFromInstanceRequirements ir] request ;;
        _ <- nil FInstanceRequirements ;;
        ret request
    | None => ret request
    end
  else ret request.

Definition applyMinSize (e : t IR) (request : UpdateAutoScalingGroupInput.t IRq)
  : M (UpdateAutoScalingGroupInput.t IRq) :=
  changes <- getChanges ;;
  if notNil (MinSize changes) then
    _ <- nil FMinSize ;;
    ret (UpdateAutoScalingGroupInput.set_MinSize (MinSize e) request)
  else ret request.

Definition applyMaxSize (e : t IR) (request : UpdateAutoScalingGroupInput.t IRq)
  : M (UpdateAutoScalingGroupInput.t IRq) :=
  changes <- getChanges ;;
  if notNil (MaxSize changes) then
    _ <- nil FMaxSize ;;
    ret (UpdateAutoScalingGroupInput.set_MaxSize (MaxSize e) request)
  else ret request.

Definition applySubnets (e : t IR) (request : UpdateAutoScalingGroupInput.t IRq)
  : M (UpdateAutoScalingGroupInput.t IRq) :=
  changes <- getChanges ;;
  if notNil (Subnets changes) then
    _ <- nil FSubnets ;;
    ret (UpdateAutoScalingGroupInput.set_VPCZoneIdentifier
           (aws.String (strings.Join (AutoscalingGroupSubnets e) ",")) request)
  else ret request.

Definition applyMaxInstanceLifetime (e : t IR) (request : UpdateAutoScalingGroupInput.t IRq)
  : M (UpdateAutoScalingGroupInput.t IRq) :=
  changes <- getChanges ;;
  if notNil (MaxInstanceLifetime changes) then
    _ <- nil FMaxInstanceLifetime ;;
    ret (UpdateAutoScalingGroupInput.set_MaxInstanceLifetime (MaxInstanceLifetime e) request)
  else ret (UpdateAutoScalingGroupInput.set_MaxInstanceLifetime (fi.PtrTo 0%Z) request).

(** The tag requests prepared for after the update:
    [(updateTagsRequest, deleteTagsRequest)]. *)
Definition applyTags (a e : t IR)
  : M (option (list Tag.t) * option (list Tag.t)) :=
  changes <- getChanges ;;
  if notNil (Tags changes) then
    let updateTagsRequest := Some (AutoscalingGroupTags e) in
    let deleteTagsRequest :=
      match Tags a with
      | Some current =>
          if Nat.ltb 0 (size current) then Some (getASGTagsToDelete e current) else None
      | None => None
      end in
    _ <- nil FTags ;;
    ret (updateTagsRequest, deleteTagsRequest)
  else ret (None, None).

(** The load balancer requests prepared for after the update:
    [(attachLBRequest, detachLBRequest)], each the load balancer names. *)
Definition applyLoadBalancers (a e : t IR)
  : M (option (list string) * option (list string)) :=
  changes <- getChanges ;;
  if notNil (LoadBalancers changes) then
    let attachLBRequest :=
      if Nat.ltb 0 (length (elems (LoadBalancers e)))
      then Some (AutoscalingLoadBalancers e) else None in
    detachLBRequest <-
      (if Nat.ltb 0 (length (elems (LoadBalancers a))) then
         names <- lift (getLBsToDetach e (elems (LoadBalancers a))) ;;
         ret (Some names)
       else ret None) ;;
    _ <- nil FLoadBalancers ;;
    ret (attachLBRequest, detachLBRequest)
  else ret (None, None).

(** [attachTGRequests]: the target group ARNs of each request. Detaching is
    done in a deletion task. The chunk size is 10, so [sliceChunks] ends. *)
Definition applyTargetGroups (e : t IR) : M (list (list string)) :=
  changes <- getChanges ;;
  if notNil (TargetGroups changes) then
    attachTGRequests <-
      (if Nat.ltb 0 (length (elems (TargetGroups e))) then
         match sliceChunks (AutoscalingTargetGroups e) attachLoadBalancerTargetGroupsMaxItems with
         | Some chunks => ret chunks
         | None => panic
         end
       else ret []) ;;
    _ <- nil FTargetGroups ;;
    ret attachTGRequests
  else ret [].

Definition applyMetrics (e : t IR) : M unit :=
  changes <- getChanges ;;
  if notNil (Metrics changes) || notNil (Granularity changes) then
    (* TODO: Support disabling metrics? *)
    if negb (Nat.eqb (length (elems (Metrics e))) 0) then
      err <- call (api.EnableMetricsCollection (Name e) (Granularity e) (Metrics e)) ;;
      match err with
      | Some err =>
          fail (Errorf ("error enabling metrics collection for AutoscalingGroup: "
                        +:+ ErrorString err))
      | None =>
          _ <- nil FMetrics ;;
          nil FGranularity
      end
    else ret tt
  else ret tt.

Definition applySuspendProcesses (a e : t IR) : M unit :=
  changes <- getChanges ;;
  if notNil (SuspendProcesses changes) then
    toSuspend <- lift (processCompare (SuspendProcesses e) (SuspendProcesses a)) ;;
    toResume <- lift (processCompare (SuspendProcesses a) (SuspendProcesses e)) ;;
    _ <- (if Nat.ltb 0 (length toSuspend) then
            err <- call (api.SuspendProcesses (Name e) toSuspend) ;;
            match err with
            | Some err => fail (Errorf ("error suspending processes: " +:+ ErrorString err))
            | None => ret tt
            end
          else ret tt) ;;
    _ <- (if Nat.ltb 0 (length toResume) then
            err <- call (api.ResumeProcesses (Name e) toResume) ;;
            match err with
            | Some err => fail (Errorf ("error resuming processes: " +:+ ErrorString err))
            | None => ret tt
            end
          else ret tt) ;;
    nil FSuspendProcesses
  else ret tt.

Definition applyInstanceProtection (e : t IR) (request : UpdateAutoScalingGroupInput.t IRq)
  : M (UpdateAutoScalingGroupInput.t IRq) :=
  changes <- getChanges ;;
  if notNil (InstanceProtection changes) then
    _ <- nil FInstanceProtection ;;
    ret (UpdateAutoScalingGroupInput.set_NewInstancesProtectedFromScaleIn
           (InstanceProtection e) request)
  else ret request.

Definition applyCapacityRebalance (e : t IR) (request : UpdateAutoScalingGroupInput.t IRq)
  : M (UpdateAutoScalingGroupInput.t IRq) :=
  changes <- getChanges ;;
  if notNil (CapacityRebalance changes) then
    _ <- nil FCapacityRebalance ;;
    ret (UpdateAutoScalingGroupInput.set_CapacityRebalance (CapacityRebalance e) request)
  else ret request.

(** A call whose failure ends the render with a formatted error. *)
Definition callOrFail (c : api.call IRq) (msg : string) : M unit :=
  err <- call c ;;
  match err with
  | Some err => fail (Errorf (msg +:+ ErrorString err))
  | None => ret tt
  end.

(** The loop over [attachTGRequests]. *)
Fixpoint attachTargetGroups (e : t IR) (attachTGRequests : list (list string)) : M unit :=
  match attachTGRequests with
  | [] => ret tt
  | targetGroupARNs :: rest =>
      _ <- callOrFail (api.AttachLoadBalancerTargetGroups (Name e) targetGroupARNs)
                      "failed to attach target groups: " ;;
      attachTargetGroups e rest
  end.

(** What the update path has ready when it comes to its calls: the update
    request and the requests prepared for after it. *)
Record prepared := {
  request : UpdateAutoScalingGroupInput.t IRq;
  updateTagsRequest : option (list Tag.t);
  deleteTagsRequest : option (list Tag.t);
  attachLBRequest : option (list string);
  detachLBRequest : option (list string);
  attachTGRequests : list (list string)
}.

(** The first half of the update path: every block that reads [changes]. *)
Definition prepareUpdate (a e : t IR) : M prepared :=
  let request :=
    {| UpdateAutoScalingGroupInput.AutoScalingGroupName := Name e;
       UpdateAutoScalingGroupInput.MinSize := None;
       UpdateAutoScalingGroupInput.MaxSize := None;
       UpdateAutoScalingGroupInput.VPCZoneIdentifier := None;
       UpdateAutoScalingGroupInput.MaxInstanceLifetime := None;
       UpdateAutoScalingGroupInput.NewInstancesProtectedFromScaleIn := None;
       UpdateAutoScalingGroupInput.CapacityRebalance := None;
       UpdateAutoScalingGroupInput.LaunchTemplate := None;
       UpdateAutoScalingGroupInput.MixedInstancesPolicy := None |} in
  request <- applyLaunchTemplate a e request ;;
  request <- applyMixedOnDemandAboveBase e request ;;
  request <- applyMixedOnDemandBase e request ;;
  request <- applyMixedSpotAllocationStrategy e request ;;
  request <- applyMixedSpotInstancePools e request ;;
  request <- applyMixedSpotMaxPrice e request ;;
  request <- applyOverrides e request ;;
  request <- applyMinSize e request ;;
  request <- applyMaxSize e request ;;
  request <- applySubnets e request ;;
  request <- applyMaxInstanceLifetime e request ;;
  tagRequests <- applyTags a e ;;
  lbRequests <- applyLoadBalancers a e ;;
  attachTGRequests <- applyTargetGroups e ;;
  _ <- applyMetrics e ;;
  _ <- applySuspendProcesses a e ;;
  request <- applyInstanceProtection e request ;;
  request <- applyCapacityRebalance e request ;;
  ret {| request := request;
         updateTagsRequest := tagRequests.1;
         deleteTagsRequest := tagRequests.2;
         attachLBRequest := lbRequests.1;
         detachLBRequest := lbRequests.2;
         attachTGRequests := attachTGRequests |}.

(** The second half: the update call and the calls prepared for after it. *)
Definition sendUpdate (e : t IR) (p : prepared) : M unit :=
  _ <- callOrFail (api.UpdateAutoScalingGroup (request p))
                  "error updating AutoscalingGroup: " ;;
  _ <- (match deleteTagsRequest p with
        | Some tags =>
            if Nat.ltb 0 (length tags)
            then callOrFail (api.DeleteTags tags) "error deleting old AutoscalingGroup tags: "
            else ret tt
        | None => ret tt
        end) ;;
  _ <- (match updateTagsRequest p with
        | Some tags => callOrFail (api.CreateOrUpdateTags tags)
                                  "error updating AutoscalingGroup tags: "
        | None => ret tt
        end) ;;
  _ <- (match detachLBRequest p with
        | Some names => callOrFail (api.DetachLoadBalancers (Name e) names)
                                   "error detatching LoadBalancers: "
        | None => ret tt
        end) ;;
  _ <- (match attachLBRequest p with
        | Some names => callOrFail (api.AttachLoadBalancers (Name e) names)
                                   "error attaching LoadBalancers: "
        | None => ret tt
        end) ;;
  attachTargetGroups e (attachTGRequests p).

(** The update path. (The warning it logs when [changes] is not empty
    before the update call is not modelled.) *)
Definition RenderAWS_update (a e : t IR) : M unit :=
  p <- prepareUpdate a e ;;
  sendUpdate e p.

(** [RenderAWS]: the error it returns, the [changes] it leaves and the calls
    it made. [v] is the receiver, which the engine makes the desired task. *)
Definition RenderAWS (v : t IR) (a : option (t IR)) (e changes0 : t IR)
  : outcome unit * state :=
  let start := {| changes := changes0; calls := [] |} in
  match a with
  | None => RenderAWS_create v e start
  | Some a => RenderAWS_update a e start
  end.
End render.
Arguments state : clear implicits.
Arguments changes {IR IRq} _.
Arguments calls {IR IRq} _.
Arguments M : clear implicits.
Arguments prepared : clear implicits.
End AutoscalingGroup.

(** [deleteAutoscalingTargetGroupAttachment.Delete]: only an AWS API target
    can run the deletion. *)
Inductive CloudupTarget (IRq : Type) :=
| AWSAPITarget (cloud : AWSCloud IRq)
| OtherTarget (typeName : string).
Arguments AWSAPITarget {IRq} cloud.
Arguments OtherTarget {IRq} typeName.

Definition Delete {IRq} (d : deleteAutoscalingTargetGroupAttachment.t) (t : CloudupTarget IRq)
  : outcome unit * list (api.call IRq) :=
  match t with
  | OtherTarget typeName =>
      (Fail (Errorf ("unexpected target type for deletion: " +:+ typeName)), [])
  | AWSAPITarget cloud =>
      let req := api.DetachLoadBalancerTargetGroups
                   (aws.String (deleteAutoscalingTargetGroupAttachment.autoScalingGroupName d))
                   [deleteAutoscalingTargetGroupAttachment.targetGroupARN d] in
      match Autoscaling cloud [] req with
      | Some err =>
          (Fail (Errorf ("failed to detach target groups from autoscaling group: "
                         +:+ ErrorString err)), [req])
      | None => (Ok tt, [req])
      end
  end.

(** ** Vocabulary of the properties *)

Section vocabulary.
Import cloudresourcemanager.

(** The first binding without condition that grants [role], if any: the
    only binding [patchCRMPolicy] looks into. *)
Definition firstBindingFor (role : string) (bindings : list Binding) : option Binding :=
  List.find (fun b => negb (notNil (Condition b)) && String.eqb (Role b) role) bindings.

(** [member] is in a binding of the policy that has no condition and grants
    [role]. *)
Definition grants (policy : Policy) (member role : string) : Prop :=
  exists b, In b (Bindings policy) /\ Condition b = None /\ Role b = role /\
            In member (Members b).

(** The member string [Find] and [RenderGCE] make for a service account. *)
Definition memberOf (sa : ServiceAccount.t) : string :=
  "serviceAccount:" +:+ fi.ValueOf (ServiceAccount.Email sa).
End vocabulary.

(** ** Vocabulary of the properties of sorting *)

(** Increasing byte-wise order on strings. *)
Definition string_le (a b : string) : Prop := String.leb a b = true.

(** In increasing order of the names [name] gives. *)
Definition sortedBy {A} (name : A -> string) (l : list A) : Prop :=
  Sorted (fun x y => string_le (name x) (name y)) l.


Definition lbName (lb : ClassicLoadBalancer.t) : string :=
  fi.ValueOf (ClassicLoadBalancer.Name lb).
Definition tgName (tg : TargetGroup.t) : string :=
  fi.ValueOf (TargetGroup.Name tg).

(** ** Vocabulary of the properties of Find *)

Section find_vocabulary.
Import AutoscalingGroup.
Context {IR IRq : Type}.

(** The task after [Find]: [Find] leaves its cleanups in [e.deletions]. *)
Definition withDeletions (ds : list deleteAutoscalingTargetGroupAttachment.t) (e : t IR)
  : t IR :=
  {| Name := Name e; Lifecycle := Lifecycle e; Granularity := Granularity e;
     InstanceProtection := InstanceProtection e; LaunchTemplate := LaunchTemplate e;
     LoadBalancers := LoadBalancers e; MaxInstanceLifetime := MaxInstanceLifetime e;
     MaxSize := MaxSize e; Metrics := Metrics e; MinSize := MinSize e;
     MixedInstanceOverrides := MixedInstanceOverrides e;
     InstanceRequirements := InstanceRequirements e;
     MixedOnDemandAllocationStrategy := MixedOnDemandAllocationStrategy e;
     MixedOnDemandBase := MixedOnDemandBase e;
     MixedOnDemandAboveBase := MixedOnDemandAboveBase e;
     MixedSpotAllocationStrategy := MixedSpotAllocationStrategy e;
     MixedSpotInstancePools := MixedSpotInstancePools e;
     MixedSpotMaxPrice := MixedSpotMaxPrice e; Subnets := Subnets e;
     SuspendProcesses := SuspendProcesses e; Tags := Tags e;
     TargetGroups := TargetGroups e; CapacityRebalance := CapacityRebalance e;
     WarmPool := WarmPool e; deletions := ds |}.

(** A group of the listing that [findAutoscalingGroup] keeps for [name]. *)
Definition isNamed (name : string) (g : autoscalingtypes.AutoScalingGroup.t IRq) : Prop :=
  autoscalingtypes.AutoScalingGroup.Status g = None /\
  aws.ToString (autoscalingtypes.AutoScalingGroup.AutoScalingGroupName g) = name.

(** No page of the listing fails and no group on it has the name. *)
Definition noGroupNamed (name : string)
    (pages : list (cloud_error + list (autoscalingtypes.AutoScalingGroup.t IRq))) : Prop :=
  forall page, In page pages ->
    exists groups,
      page = inr groups /\
      forall g, In g groups ->
                aws.ToString (autoscalingtypes.AutoScalingGroup.AutoScalingGroupName g) <> name.

(** The load balancer task [Find] puts in the snapshot for an attached load
    balancer name: the API load balancer task when the name is the one the
    cloud knows that task by, a task made from the name otherwise. *)
Definition attachedLoadBalancer (cloud : AWSCloud IRq) (e : t IR) (name : string)
  : ClassicLoadBalancer.t :=
  let fromName := {| ClassicLoadBalancer.Name := aws.String name;
                     ClassicLoadBalancer.LoadBalancerName := aws.String name;
                     ClassicLoadBalancer.Shared := None |} in
  match apiLBTaskOf e with
  | Some apiLBTask =>
      match FindELBByNameTagAnswer cloud [] (fi.ValueOf (ClassicLoadBalancer.Name apiLBTask)) with
      | inr (Some apiLBDesc) =>
          if String.eqb (aws.ToString (elbtypes.LoadBalancerName apiLBDesc)) name
          then apiLBTask else fromName
      | _ => fromName
      end
  | None => fromName
  end.

(** The target group task [Find] puts in the snapshot for an attached ARN:
    the desired task that knows this ARN as its own, or a task made from
    the ARN. *)
Definition attachedTargetGroup (e : t IR) (arn : string) : TargetGroup.t :=
  match targetGroupsByARN e !! arn with
  | Some tg => tg
  | None => {| TargetGroup.Name := None; TargetGroup.ARN := aws.String arn;
               TargetGroup.info := None |}
  end.

(** The attached ARNs for which [Find] records a cleanup. *)
Definition staleTargetGroups (e : t IR) (g : autoscalingtypes.AutoScalingGroup.t IRq)
  : list string :=
  List.filter (fun arn => negb (notNil (targetGroupsByARN e !! arn)))
              (autoscalingtypes.AutoScalingGroup.TargetGroupARNs g).

(** The subnets of the found group, in the order of its zone identifier. *)
Definition zoneSubnets (g : autoscalingtypes.AutoScalingGroup.t IRq)
  : option (list Subnet.t) :=
  match autoscalingtypes.AutoScalingGroup.VPCZoneIdentifier g with
  | Some zones =>
      Some (map (fun subnet => {| Subnet.ID := aws.String subnet |})
                (strings.Split zones ","))
  | None => None
  end.

Definition metricNames (g : autoscalingtypes.AutoScalingGroup.t IRq) : list string :=
  map (fun m => aws.ToString (autoscalingtypes.EnabledMetric.Metric m))
      (autoscalingtypes.AutoScalingGroup.EnabledMetrics g).
End find_vocabulary.

(** ** Vocabulary of the properties of a render *)

(** What the create path returns when [CreateAutoScalingGroup] fails. *)
Definition createFailure (cerr : cloud_error) : error :=
  if String.eqb (ErrorCode cerr) "ValidationError" &&
     strings.Contains (ErrorMessage cerr) "Invalid IAM Instance Profile name"
  then TryAgainLaterError "waiting for the IAM Instance Profile to be propagated"
  else Errorf ("error creating AutoScalingGroup: " +:+ ErrorMessage cerr).

Section render_vocabulary.
Import AutoscalingGroup.
Context {IR IRq : Type}.

(** The field [f] of [c] is nil. *)
Definition isNil (f : field) (c : t IR) : bool :=
  match f with
  | FGranularity => negb (notNil (Granularity c))
  | FInstanceProtection => negb (notNil (InstanceProtection c))
  | FLaunchTemplate => negb (notNil (LaunchTemplate c))
  | FLoadBalancers => negb (notNil (LoadBalancers c))
  | FMaxInstanceLifetime => negb (notNil (MaxInstanceLifetime c))
  | FMaxSize => negb (notNil (MaxSize c))
  | FMetrics => negb (notNil (Metrics c))
  | FMinSize => negb (notNil (MinSize c))
  | FMixedInstanceOverrides => negb (notNil (MixedInstanceOverrides c))
  | FInstanceRequirements => negb (notNil (InstanceRequirements c))
  | FMixedOnDemandBase => negb (notNil (MixedOnDemandBase c))
  | FMixedOnDemandAboveBase => negb (notNil (MixedOnDemandAboveBase c))
  | FMixedSpotAllocationStrategy => negb (notNil (MixedSpotAllocationStrategy c))
  | FMixedSpotInstancePools => negb (notNil (MixedSpotInstancePools c))
  | FMixedSpotMaxPrice => negb (notNil (MixedSpotMaxPrice c))
  | FSubnets => negb (notNil (Subnets c))
  | FSuspendProcesses => negb (notNil (SuspendProcesses c))
  | FTags => negb (notNil (Tags c))
  | FTargetGroups => negb (notNil (TargetGroups c))
  | FCapacityRebalance => negb (notNil (CapacityRebalance c))
  end.

Definition setNils (fields : list field) (c : t IR) : t IR :=
  fold_left (fun c f => setNil f c) fields c.

(** The fields the update path sets to nil whatever the desired task is. *)
Definition alwaysApplied : list field :=
  [FLaunchTemplate; FMixedOnDemandAboveBase; FMixedOnDemandBase;
   FMixedSpotAllocationStrategy; FMixedSpotInstancePools; FMixedSpotMaxPrice;
   FMixedInstanceOverrides; FInstanceRequirements; FMinSize; FMaxSize; FSubnets;
   FMaxInstanceLifetime; FTags; FLoadBalancers; FTargetGroups; FSuspendProcesses;
   FInstanceProtection; FCapacityRebalance].

(** [changes] as the update path leaves it when it succeeds. *)
Definition renderedChanges (e changes0 : t IR) : t IR :=
  setNils [FSuspendProcesses; FInstanceProtection; FCapacityRebalance]
    ((if negb (Nat.eqb (length (elems (Metrics e))) 0)
      then setNils [FMetrics; FGranularity] else id)
       (setNils [FLaunchTemplate; FMixedOnDemandAboveBase; FMixedOnDemandBase;
                 FMixedSpotAllocationStrategy; FMixedSpotInstancePools; FMixedSpotMaxPrice;
                 FMixedInstanceOverrides; FInstanceRequirements; FMinSize; FMaxSize;
                 FSubnets; FMaxInstanceLifetime; FTags; FLoadBalancers; FTargetGroups]
                changes0)).

(** Whatever its outcome, [m] adds to the calls made only calls that are
    [allowed]. *)
Definition emits {A} (allowed : api.call IRq -> Prop) (m : M IR IRq A) : Prop :=
  forall s, exists extra, calls (m s).2 = calls s ++ extra /\ Forall allowed extra.

(** Whatever its outcome, [m] makes the calls of [script] in order, up to
    the one that fails; it makes them all when it succeeds. It leaves
    [changes] alone. *)
Definition follows {A} (script : list (api.call IRq)) (m : M IR IRq A) : Prop :=
  forall s, exists done rest,
    script = done ++ rest /\
    calls (m s).2 = calls s ++ done /\
    changes (m s).2 = changes s /\
    (forall a, (m s).1 = Ok a -> rest = []).

(** The calls made while [changes] is read. *)
Definition early (c : api.call IRq) : Prop :=
  match c with
  | api.EnableMetricsCollection _ _ _ | api.SuspendProcesses _ _
  | api.ResumeProcesses _ _ => True
  | _ => False
  end.

Definition lookup_ (c : api.call IRq) : Prop :=
  match c with api.FindELBByNameTag _ => True | _ => False end.

(** The calls of the second half of the update path. *)
Definition sendCalls (e : t IR) (p : prepared IRq) : list (api.call IRq) :=
  [api.UpdateAutoScalingGroup (request p)] ++
  match deleteTagsRequest p with
  | Some tags => if Nat.ltb 0 (length tags) then [api.DeleteTags tags] else []
  | None => []
  end ++
  match updateTagsRequest p with
  | Some tags => [api.CreateOrUpdateTags tags]
  | None => []
  end ++
  match detachLBRequest p with
  | Some names => [api.DetachLoadBalancers (Name e) names]
  | None => []
  end ++
  match attachLBRequest p with
  | Some names => [api.AttachLoadBalancers (Name e) names]
  | None => []
  end ++
  map (api.AttachLoadBalancerTargetGroups (Name e)) (attachTGRequests p).

(** The target group ARNs of the [AttachLoadBalancerTargetGroups] requests
    among the calls, request by request. *)
Definition attachedTargetGroups (l : list (api.call IRq)) : list (list string) :=
  flat_map (fun c => match c with
                     | api.AttachLoadBalancerTargetGroups _ arns => [arns]
                     | _ => []
                     end) l.

(** The fields of an update request outside its launch template and its
    mixed instances policy. *)
Definition basics (r : autoscaling.UpdateAutoScalingGroupInput.t IRq) :=
  (autoscaling.UpdateAutoScalingGroupInput.AutoScalingGroupName r,
   autoscaling.UpdateAutoScalingGroupInput.MinSize r,
   autoscaling.UpdateAutoScalingGroupInput.MaxSize r,
   autoscaling.UpdateAutoScalingGroupInput.VPCZoneIdentifier r,
   autoscaling.UpdateAutoScalingGroupInput.MaxInstanceLifetime r,
   autoscaling.UpdateAutoScalingGroupInput.NewInstancesProtectedFromScaleIn r,
   autoscaling.UpdateAutoScalingGroupInput.CapacityRebalance r).

(** The [UpdateAutoScalingGroup] requests among the calls. *)
Definition updateRequests (l : list (api.call IRq))
  : list (autoscaling.UpdateAutoScalingGroupInput.t IRq) :=
  flat_map (fun c => match c with
                     | api.UpdateAutoScalingGroup req => [req]
                     | _ => []
                     end) l.
End render_vocabulary.

(** ** Vocabulary of the calls the cloud refuses *)

Section refusal_vocabulary.
Import AutoscalingGroup.
Context {IR IRq : Type}.

(** The cloud refused the call [c], made after the calls [before]: a
    lookup by name tag did not give a load balancer, or another call was
    answered with an error. *)
Definition refused (cloud : AWSCloud IRq) (before : list (api.call IRq))
    (c : api.call IRq) : Prop :=
  match c with
  | api.FindELBByNameTag name =>
      match FindELBByNameTagAnswer cloud before name with
      | inr (Some _) => False
      | _ => True
      end
  | _ => Autoscaling cloud before c <> None
  end.

(** Run from any state, [m] only adds calls, and a call of [m] that the
    cloud refuses is its last call and makes it fail. *)
Definition stopsWhenRefused {A} (cloud : AWSCloud IRq) (m : M IR IRq A) : Prop :=
  forall s, exists extra,
    calls (m s).2 = calls s ++ extra /\
    forall before c after,
      extra = before ++ c :: after ->
      refused cloud (calls s ++ before) c ->
      after = [] /\ exists err, (m s).1 = Fail err.

(** Run from any state, [m] makes the calls of [script] in order and
    succeeds, or the cloud refuses one of them, which is then the last call
    of [m] and makes it fail. *)
Definition plays (cloud : AWSCloud IRq) (script : list (api.call IRq))
    (m : M IR IRq unit) : Prop :=
  forall s,
    ((m s).1 = Ok tt /\ calls (m s).2 = calls s ++ script) \/
    exists done c rest,
      script = done ++ c :: rest /\
      calls (m s).2 = calls s ++ done ++ [c] /\
      refused cloud (calls s ++ done) c /\
      exists err, (m s).1 = Fail err.
End refusal_vocabulary.

(** ** Vocabulary of the properties of a patch *)

Section patch_vocabulary.
Import cloudresourcemanager.

(** [b'] is the binding [b] as a patch for [member] and [role] may leave
    it: as it was, or, when it has no condition and grants [role], with
    [member] added at the end of its members. *)
Definition patched (member role : string) (b b' : Binding) : Prop :=
  b' = b \/
  (Condition b = None /\ Role b = role /\
   b' = {| Condition := None; Members := Members b ++ [member]; Role := role |}).

(** The number of memberships a policy grants: the members of its
    bindings, counted binding by binding. *)
Definition memberships (policy : Policy) : nat :=
  length (concat (map Members (Bindings policy))).
End patch_vocabulary.

(** ** Vocabulary of the properties of the tags of a group *)

Section tags_vocabulary.
(** The tags of a group after [DeleteTags] with the tags [deleted], when
    they were [tags] before: the keys deleted are gone. *)
Definition deleteTags (tags : gmap string string) (deleted : list autoscalingtypes.Tag.t)
  : gmap string string :=
  fold_left (fun tags tag => delete (aws.ToString (autoscalingtypes.Tag.Key tag)) tags)
            deleted tags.

(** The tags of a group after [CreateOrUpdateTags] with the tags [updated]:
    each key given has the value given. *)
Definition updateTags (tags : gmap string string) (updated : list autoscalingtypes.Tag.t)
  : gmap string string :=
  fold_left (fun tags tag => <[aws.ToString (autoscalingtypes.Tag.Key tag) :=
                                 aws.ToString (autoscalingtypes.Tag.Value tag)]> tags)
            updated tags.

(** The tags of a group after the calls of a render, one after the other. *)
Definition tagsAfterCall {IRq} (tags : gmap string string) (c : api.call IRq)
  : gmap string string :=
  match c with
  | api.DeleteTags deleted => deleteTags tags deleted
  | api.CreateOrUpdateTags updated => updateTags tags updated
  | _ => tags
  end.
Definition tagsAfterCalls {IRq} (tags : gmap string string) (l : list (api.call IRq))
  : gmap string string :=
  fold_left tagsAfterCall l tags.
End tags_vocabulary.

(** ** Vocabulary of the properties of the update path *)

Section update_vocabulary.
Import AutoscalingGroup.
Context {IR IRq : Type}.

(** [c'] has nil every field that [c] has nil. *)
Definition nilsKept (c c' : t IR) : Prop :=
  forall f, isNil f c = true -> isNil f c' = true.

(** The calls the update path makes while it reads [changes], before its
    update call, for the found task [a], the desired task [e] and the
    changes [c0]. *)
Definition earlyCall (a e c0 : t IR) (c : api.call IRq) : Prop :=
  match c with
  | api.EnableMetricsCollection name granularity metrics =>
      name = Name e /\ granularity = Granularity e /\ metrics = Metrics e /\
      elems (Metrics e) <> [] /\
      (Metrics c0 <> None \/ Granularity c0 <> None)
  | api.SuspendProcesses name processes =>
      name = Name e /\ processes <> [] /\ SuspendProcesses c0 <> None /\
      processCompare (SuspendProcesses e) (SuspendProcesses a) = Ok processes
  | api.ResumeProcesses name processes =>
      name = Name e /\ processes <> [] /\ SuspendProcesses c0 <> None /\
      processCompare (SuspendProcesses a) (SuspendProcesses e) = Ok processes
  | _ => False
  end.

(** Run from [s], [m] adds to the calls made only calls that [P] allows
    for the [changes] of [s], and when it succeeds it leaves nil the fields
    of [changes] that were nil. *)
Definition emitsAt {A} (P : t IR -> api.call IRq -> Prop) (m : M IR IRq A)
    (s : state IR IRq) : Prop :=
  exists extra,
    calls (m s).2 = calls s ++ extra /\
    Forall (P (changes s)) extra /\
    forall x, (m s).1 = Ok x -> nilsKept (changes s) (changes (m s).2).
End update_vocabulary.

(** ** Vocabulary of the properties of the policy of an update *)

Section policy_vocabulary.
Import AutoscalingGroup.
Import autoscaling.
Context {IR IRq : Type}.

(** The mixed instances policy of the request [req]: none when [present]
    is false, and otherwise one with the distribution [d] and the launch
    template [lt]. *)
Definition policyIs (req : UpdateAutoScalingGroupInput.t IRq) (present : bool)
    (d : autoscalingtypes.InstancesDistribution.t)
    (lt : option (autoscalingtypes.LaunchTemplate.t IRq)) : Prop :=
  UpdateAutoScalingGroupInput.MixedInstancesPolicy req =
  (if present
   then Some {| autoscalingtypes.MixedInstancesPolicy.InstancesDistribution := Some d;
                autoscalingtypes.MixedInstancesPolicy.LaunchTemplate := lt |}
   else None) /\
  (present = false -> d = autoscalingtypes.InstancesDistribution.zero /\ lt = None).

(** The launch template of a policy: the latest version of the desired
    launch template, with the overrides given. *)
Definition policyTemplate (e : t IR)
    (overrides : list (autoscalingtypes.LaunchTemplateOverrides.t IRq))
  : autoscalingtypes.LaunchTemplate.t IRq :=
  {| autoscalingtypes.LaunchTemplate.LaunchTemplateSpecification :=
       option_map latest (LaunchTemplate e);
     autoscalingtypes.LaunchTemplate.Overrides := overrides |}.
End policy_vocabulary.

(** ** Vocabulary of the properties of the create path *)

Section create_vocabulary.
Import AutoscalingGroup.
Context {IR IRq : Type}.

(** The name the create path attaches for the load balancer task [lb]: its
    [LoadBalancerName], or, when that is nil, the name of the load balancer
    the cloud finds by the name tag of the task. *)
Definition attachedName (cloud : AWSCloud IRq) (lb : ClassicLoadBalancer.t) (name : string)
  : Prop :=
  match ClassicLoadBalancer.LoadBalancerName lb with
  | Some n => name = n
  | None =>
      exists previous desc,
        FindELBByNameTagAnswer cloud previous (fi.ValueOf (ClassicLoadBalancer.Name lb))
        = inr (Some desc) /\
        name = aws.ToString (elbtypes.LoadBalancerName desc)
  end.

(** The lookup the create path makes for a load balancer task without
    [LoadBalancerName]. *)
Definition lookupOf (lbs : list ClassicLoadBalancer.t) (c : api.call IRq) : Prop :=
  exists lb, In lb lbs /\ ClassicLoadBalancer.LoadBalancerName lb = None /\
             c = api.FindELBByNameTag (fi.ValueOf (ClassicLoadBalancer.Name lb)).
End create_vocabulary.

(** ** Inputs used in the examples *)

Module examples.
Import cloudresourcemanager.

Definition account : ServiceAccount.t := {| ServiceAccount.Email := Some "nodes@p.iam" |}.

Definition binding : ProjectIAMBinding.t :=
  {| ProjectIAMBinding.Name := Some "nodes-binding";
     ProjectIAMBinding.Lifecycle := "Sync";
     ProjectIAMBinding.Project := Some "p";
     ProjectIAMBinding.MemberServiceAccount := Some account;
     ProjectIAMBinding.Role := Some "roles/viewer" |}.

Definition ownerBinding : Binding :=
  {| Condition := None; Members := ["user:owner"]; Role := "roles/owner" |}.

(** A policy in which nobody is a viewer yet. *)
Definition policyWithout : Policy :=
  {| Bindings := [ownerBinding]; Etag := "e1"; Version := 1 |}.

(** A policy with two condition-free viewer bindings, the member being in
    the second only. *)
Definition policyTwice : Policy :=
  {| Bindings := [{| Condition := None; Members := ["user:other"]; Role := "roles/viewer" |};
                  {| Condition := None; Members := ["serviceAccount:nodes@p.iam"];
                     Role := "roles/viewer" |}];
     Etag := "e2"; Version := 1 |}.

(** A policy whose first viewer binding has the member. *)
Definition policyWith : Policy :=
  {| Bindings := [ownerBinding;
                  {| Condition := None;
                     Members := ["user:other"; "serviceAccount:nodes@p.iam"];
                     Role := "roles/viewer" |}];
     Etag := "e3"; Version := 1 |}.

Definition gceCloud (policy : Policy) : GCECloud :=
  {| GetIamPolicy := fun _ => inr policy; SetIamPolicy := fun _ _ => None |}.

Definition notFoundError : cloud_error :=
  {| ErrorString := "googleapi: Error 404"; ErrorCode := "404"; ErrorMessage := "not found";
     NotFound := true |}.

(** A cloud in which the project has no policy. *)
Definition gceCloudMissing : GCECloud :=
  {| GetIamPolicy := fun _ => inl notFoundError; SetIamPolicy := fun _ _ => None |}.

(** The binding without its project. *)
Definition bindingNoProject : ProjectIAMBinding.t :=
  {| ProjectIAMBinding.Name := Some "nodes-binding";
     ProjectIAMBinding.Lifecycle := "Sync";
     ProjectIAMBinding.Project := None;
     ProjectIAMBinding.MemberServiceAccount := Some account;
     ProjectIAMBinding.Role := Some "roles/viewer" |}.

(** In the examples of the autoscaling group the instance requirements,
    which no example uses, are of type [unit]. *)
Definition overrides (ir : unit) : autoscalingtypes.LaunchTemplateOverrides.t unit :=
  {| autoscalingtypes.LaunchTemplateOverrides.InstanceType := None;
     autoscalingtypes.LaunchTemplateOverrides.InstanceRequirements := Some ir |}.

Definition noRequirements (g : autoscalingtypes.AutoScalingGroup.t unit) : option unit := None.

(** A cloud that lists the given groups on one page and answers the calls
    of a render as [answer] says. *)
Definition awsCloud (groups : list (autoscalingtypes.AutoScalingGroup.t unit))
    (answer : api.call unit -> option cloud_error) : AWSCloud unit :=
  {| DescribeAutoScalingGroups := fun _ => [inr groups];
     FindELBByNameTagAnswer := fun _ _ => inr None;
     Autoscaling := fun _ c => answer c;
     AddTags := fun _ tags => tags |}.

Definition allGood (c : api.call unit) : option cloud_error := None.

Definition template : LaunchTemplate.t :=
  {| LaunchTemplate.Name := Some "nodes.example.com"; LaunchTemplate.ID := Some "lt-1" |}.

Definition targetGroupTask (n : nat) : TargetGroup.t :=
  let arn := "arn:tg/" +:+ String (ascii_of_nat (97 + n)) EmptyString in
  {| TargetGroup.Name := Some arn; TargetGroup.ARN := Some arn;
     TargetGroup.info := Some {| awsup.ARN := arn |} |}.

(** The desired group: one to three nodes, instances replaced after an
    hour, no metrics, twelve target groups. *)
Definition desiredTask (name : option string) (metrics : option (list string))
  : AutoscalingGroup.t unit :=
  {| AutoscalingGroup.Name := name;
     AutoscalingGroup.Lifecycle := "Sync";
     AutoscalingGroup.Granularity := Some "1Minute";
     AutoscalingGroup.InstanceProtection := Some false;
     AutoscalingGroup.LaunchTemplate := Some template;
     AutoscalingGroup.LoadBalancers := None;
     AutoscalingGroup.MaxInstanceLifetime := Some 3600%Z;
     AutoscalingGroup.MaxSize := Some 3%Z;
     AutoscalingGroup.Metrics := metrics;
     AutoscalingGroup.MinSize := Some 1%Z;
     AutoscalingGroup.MixedInstanceOverrides := None;
     AutoscalingGroup.InstanceRequirements := None;
     AutoscalingGroup.MixedOnDemandAllocationStrategy := None;
     AutoscalingGroup.MixedOnDemandBase := None;
     AutoscalingGroup.MixedOnDemandAboveBase := None;
     AutoscalingGroup.MixedSpotAllocationStrategy := None;
     AutoscalingGroup.MixedSpotInstancePools := None;
     AutoscalingGroup.MixedSpotMaxPrice := None;
     AutoscalingGroup.Subnets := Some [{| Subnet.ID := Some "subnet-1" |}];
     AutoscalingGroup.SuspendProcesses := Some [];
     AutoscalingGroup.Tags := None;
     AutoscalingGroup.TargetGroups := Some (map targetGroupTask (seq 0 12));
     AutoscalingGroup.CapacityRebalance := None;
     AutoscalingGroup.WarmPool := None;
     AutoscalingGroup.deletions := [] |}.

Definition desired : AutoscalingGroup.t unit :=
  desiredTask (Some "nodes.example.com") None.

(** The group as found: as desired, but with two nodes at most and no
    target group attached; [base] is its on-demand base capacity. *)
Definition foundWith (base : option Z) : AutoscalingGroup.t unit :=
  {| AutoscalingGroup.Name := Some "nodes.example.com";
     AutoscalingGroup.Lifecycle := "Sync";
     AutoscalingGroup.Granularity := None;
     AutoscalingGroup.InstanceProtection := Some false;
     AutoscalingGroup.LaunchTemplate := Some template;
     AutoscalingGroup.LoadBalancers := Some [];
     AutoscalingGroup.MaxInstanceLifetime := Some 3600%Z;
     AutoscalingGroup.MaxSize := Some 2%Z;
     AutoscalingGroup.Metrics := None;
     AutoscalingGroup.MinSize := Some 1%Z;
     AutoscalingGroup.MixedInstanceOverrides := None;
     AutoscalingGroup.InstanceRequirements := None;
     AutoscalingGroup.MixedOnDemandAllocationStrategy := None;
     AutoscalingGroup.MixedOnDemandBase := base;
     AutoscalingGroup.MixedOnDemandAboveBase := None;
     AutoscalingGroup.MixedSpotAllocationStrategy := None;
     AutoscalingGroup.MixedSpotInstancePools := None;
     AutoscalingGroup.MixedSpotMaxPrice := None;
     AutoscalingGroup.Subnets := Some [{| Subnet.ID := Some "subnet-1" |}];
     AutoscalingGroup.SuspendProcesses := Some [];
     AutoscalingGroup.Tags := None;
     AutoscalingGroup.TargetGroups := Some [];
     AutoscalingGroup.CapacityRebalance := None;
     AutoscalingGroup.WarmPool := None;
     AutoscalingGroup.deletions := [] |}.

Definition found : AutoscalingGroup.t unit := foundWith None.

(** The same group found with a mixed instances policy. *)
Definition foundMixed : AutoscalingGroup.t unit := foundWith (Some 1%Z).

(** The changes between the two: the fields of [desired] that differ from
    [found]. *)
Definition difference : AutoscalingGroup.t unit :=
  {| AutoscalingGroup.Name := None;
     AutoscalingGroup.Lifecycle := "";
     AutoscalingGroup.Granularity := Some "1Minute";
     AutoscalingGroup.InstanceProtection := None;
     AutoscalingGroup.LaunchTemplate := None;
     AutoscalingGroup.LoadBalancers := None;
     AutoscalingGroup.MaxInstanceLifetime := None;
     AutoscalingGroup.MaxSize := Some 3%Z;
     AutoscalingGroup.Metrics := None;
     AutoscalingGroup.MinSize := None;
     AutoscalingGroup.MixedInstanceOverrides := None;
     AutoscalingGroup.InstanceRequirements := None;
     AutoscalingGroup.MixedOnDemandAllocationStrategy := None;
     AutoscalingGroup.MixedOnDemandBase := None;
     AutoscalingGroup.MixedOnDemandAboveBase := None;
     AutoscalingGroup.MixedSpotAllocationStrategy := None;
     AutoscalingGroup.MixedSpotInstancePools := None;
     AutoscalingGroup.MixedSpotMaxPrice := None;
     AutoscalingGroup.Subnets := None;
     AutoscalingGroup.SuspendProcesses := None;
     AutoscalingGroup.Tags := None;
     AutoscalingGroup.TargetGroups := Some (map targetGroupTask (seq 0 12));
     AutoscalingGroup.CapacityRebalance := None;
     AutoscalingGroup.WarmPool := None;
     AutoscalingGroup.deletions := [] |}.

(** A failure of [CreateAutoScalingGroup] while the instance profile is not
    visible yet, and another failure. *)
Definition profileNotReady : cloud_error :=
  {| ErrorString := "ValidationError: Invalid IAM Instance Profile name";
     ErrorCode := "ValidationError";
     ErrorMessage := "Invalid IAM Instance Profile name";
     NotFound := false |}.

Definition limitExceeded : cloud_error :=
  {| ErrorString := "LimitExceeded: too many groups";
     ErrorCode := "LimitExceeded";
     ErrorMessage := "too many groups";
     NotFound := false |}.

(** The desired group without a name. *)
Definition unnamed : AutoscalingGroup.t unit := desiredTask None None.

(** A group as the cloud lists it: its name, attached target groups and
    enabled metrics. *)
Definition group (name : option string) (targetGroupARNs metrics : list string)
  : autoscalingtypes.AutoScalingGroup.t unit :=
  {| autoscalingtypes.AutoScalingGroup.AutoScalingGroupName := name;
     autoscalingtypes.AutoScalingGroup.MaxSize := Some 3%Z;
     autoscalingtypes.AutoScalingGroup.MinSize := Some 1%Z;
     autoscalingtypes.AutoScalingGroup.MaxInstanceLifetime := Some 3600%Z;
     autoscalingtypes.AutoScalingGroup.LoadBalancerNames := [];
     autoscalingtypes.AutoScalingGroup.TargetGroupARNs := targetGroupARNs;
     autoscalingtypes.AutoScalingGroup.VPCZoneIdentifier := Some "subnet-1";
     autoscalingtypes.AutoScalingGroup.EnabledMetrics :=
       map (fun m => {| autoscalingtypes.EnabledMetric.Metric := Some m;
                        autoscalingtypes.EnabledMetric.Granularity := Some "1Minute" |})
           metrics;
     autoscalingtypes.AutoScalingGroup.Tags := [];
     autoscalingtypes.AutoScalingGroup.LaunchTemplate := None;
     autoscalingtypes.AutoScalingGroup.MixedInstancesPolicy := None;
     autoscalingtypes.AutoScalingGroup.SuspendedProcesses := [];
     autoscalingtypes.AutoScalingGroup.NewInstancesProtectedFromScaleIn := Some false;
     autoscalingtypes.AutoScalingGroup.Status := None |}.

(** The snapshot of a [Find] that found the group. *)
Definition snapshotOf
    (r : outcome (option (AutoscalingGroup.t unit)) *
         list deleteAutoscalingTargetGroupAttachment.t) : AutoscalingGroup.t unit :=
  match r.1 with
  | Ok (Some actual) => actual
  | _ => AutoscalingGroup.zero
  end.

(** A cloud with the desired group, to which a target group nobody desires
    is attached. *)
Definition cloudWithStale : AWSCloud unit :=
  awsCloud [group (Some "nodes.example.com") ["arn:tg/a"; "arn:stale"] ["b"; "a"]] allGood.

(** The update request the render sends for [difference]. *)
Definition updateRequest : autoscaling.UpdateAutoScalingGroupInput.t unit :=
  {| autoscaling.UpdateAutoScalingGroupInput.AutoScalingGroupName := Some "nodes.example.com";
     autoscaling.UpdateAutoScalingGroupInput.MinSize := None;
     autoscaling.UpdateAutoScalingGroupInput.MaxSize := Some 3%Z;
     autoscaling.UpdateAutoScalingGroupInput.VPCZoneIdentifier := None;
     autoscaling.UpdateAutoScalingGroupInput.MaxInstanceLifetime := Some 0%Z;
     autoscaling.UpdateAutoScalingGroupInput.NewInstancesProtectedFromScaleIn := None;
     autoscaling.UpdateAutoScalingGroupInput.CapacityRebalance := None;
     autoscaling.UpdateAutoScalingGroupInput.LaunchTemplate := None;
     autoscaling.UpdateAutoScalingGroupInput.MixedInstancesPolicy := None |}.

Definition failCreate (err : cloud_error) (c : api.call unit) : option cloud_error :=
  match c with
  | api.CreateAutoScalingGroup _ => Some err
  | _ => None
  end.

(** An answer of the cloud that is not a not-found error. *)
Definition forbidden : cloud_error :=
  {| ErrorString := "googleapi: Error 403"; ErrorCode := "403"; ErrorMessage := "forbidden";
     NotFound := false |}.

(** A cloud in which the policy of no project can be read. *)
Definition gceCloudForbidden : GCECloud :=
  {| GetIamPolicy := fun _ => inl forbidden; SetIamPolicy := fun _ _ => None |}.

(** Another binding of the same project: the account as an editor. *)
Definition editorBinding : ProjectIAMBinding.t :=
  {| ProjectIAMBinding.Name := Some "nodes-editor";
     ProjectIAMBinding.Lifecycle := "Sync";
     ProjectIAMBinding.Project := Some "p";
     ProjectIAMBinding.MemberServiceAccount := Some account;
     ProjectIAMBinding.Role := Some "roles/editor" |}.

(** The task [e] with another launch template, other load balancers,
    processes to suspend, tags and metrics. *)
Definition variant (launchTemplate : option LaunchTemplate.t)
    (loadBalancers : option (list ClassicLoadBalancer.t))
    (processes : option (list string)) (tags : option (gmap string string))
    (metrics : option (list string)) (e : AutoscalingGroup.t unit)
  : AutoscalingGroup.t unit :=
  {| AutoscalingGroup.Name := AutoscalingGroup.Name e;
     AutoscalingGroup.Lifecycle := AutoscalingGroup.Lifecycle e;
     AutoscalingGroup.Granularity := AutoscalingGroup.Granularity e;
     AutoscalingGroup.InstanceProtection := AutoscalingGroup.InstanceProtection e;
     AutoscalingGroup.LaunchTemplate := launchTemplate;
     AutoscalingGroup.LoadBalancers := loadBalancers;
     AutoscalingGroup.MaxInstanceLifetime := AutoscalingGroup.MaxInstanceLifetime e;
     AutoscalingGroup.MaxSize := AutoscalingGroup.MaxSize e;
     AutoscalingGroup.Metrics := metrics;
     AutoscalingGroup.MinSize := AutoscalingGroup.MinSize e;
     AutoscalingGroup.MixedInstanceOverrides := AutoscalingGroup.MixedInstanceOverrides e;
     AutoscalingGroup.InstanceRequirements := AutoscalingGroup.InstanceRequirements e;
     AutoscalingGroup.MixedOnDemandAllocationStrategy :=
       AutoscalingGroup.MixedOnDemandAllocationStrategy e;
     AutoscalingGroup.MixedOnDemandBase := AutoscalingGroup.MixedOnDemandBase e;
     AutoscalingGroup.MixedOnDemandAboveBase := AutoscalingGroup.MixedOnDemandAboveBase e;
     AutoscalingGroup.MixedSpotAllocationStrategy :=
       AutoscalingGroup.MixedSpotAllocationStrategy e;
     AutoscalingGroup.MixedSpotInstancePools := AutoscalingGroup.MixedSpotInstancePools e;
     AutoscalingGroup.MixedSpotMaxPrice := AutoscalingGroup.MixedSpotMaxPrice e;
     AutoscalingGroup.Subnets := AutoscalingGroup.Subnets e;
     AutoscalingGroup.SuspendProcesses := processes;
     AutoscalingGroup.Tags := tags;
     AutoscalingGroup.TargetGroups := AutoscalingGroup.TargetGroups e;
     AutoscalingGroup.CapacityRebalance := AutoscalingGroup.CapacityRebalance e;
     AutoscalingGroup.WarmPool := AutoscalingGroup.WarmPool e;
     AutoscalingGroup.deletions := AutoscalingGroup.deletions e |}.

Definition loadBalancerTask (name : string) : ClassicLoadBalancer.t :=
  {| ClassicLoadBalancer.Name := Some name;
     ClassicLoadBalancer.LoadBalancerName := Some name;
     ClassicLoadBalancer.Shared := None |}.

(** The desired group behind the load balancer [api], with [AZRebalance]
    suspended, one tag and one metric. *)
Definition desiredBusy : AutoscalingGroup.t unit :=
  variant (Some template) (Some [loadBalancerTask "api"]) (Some ["AZRebalance"])
          (Some {["team" := "infra"]}) (Some ["GroupMaxSize"]) desired.

(** The group found behind the load balancer [old], with [Launch]
    suspended and another tag. *)
Definition foundBusy : AutoscalingGroup.t unit :=
  variant (Some template) (Some [loadBalancerTask "old"]) (Some ["Launch"])
          (Some {["owner" := "nobody"]}) None found.

(** The changes from [foundBusy] to [desiredBusy]. *)
Definition differenceBusy : AutoscalingGroup.t unit :=
  variant None (Some [loadBalancerTask "api"]) (Some ["AZRebalance"])
          (Some {["team" := "infra"]}) (Some ["GroupMaxSize"]) difference.

(** The desired group without a launch template. *)
Definition desiredNoTemplate : AutoscalingGroup.t unit :=
  variant None None (Some []) None None desired.

(** A listed group with two tags, one of them of CloudFormation. *)
Definition taggedGroup : autoscalingtypes.AutoScalingGroup.t unit :=
  let g := group (Some "nodes.example.com") [] [] in
  {| autoscalingtypes.AutoScalingGroup.AutoScalingGroupName :=
       autoscalingtypes.AutoScalingGroup.AutoScalingGroupName g;
     autoscalingtypes.AutoScalingGroup.MaxSize := autoscalingtypes.AutoScalingGroup.MaxSize g;
     autoscalingtypes.AutoScalingGroup.MinSize := autoscalingtypes.AutoScalingGroup.MinSize g;
     autoscalingtypes.AutoScalingGroup.MaxInstanceLifetime :=
       autoscalingtypes.AutoScalingGroup.MaxInstanceLifetime g;
     autoscalingtypes.AutoScalingGroup.LoadBalancerNames :=
       autoscalingtypes.AutoScalingGroup.LoadBalancerNames g;
     autoscalingtypes.AutoScalingGroup.TargetGroupARNs :=
       autoscalingtypes.AutoScalingGroup.TargetGroupARNs g;
     autoscalingtypes.AutoScalingGroup.VPCZoneIdentifier :=
       autoscalingtypes.AutoScalingGroup.VPCZoneIdentifier g;
     autoscalingtypes.AutoScalingGroup.EnabledMetrics :=
       autoscalingtypes.AutoScalingGroup.EnabledMetrics g;
     autoscalingtypes.AutoScalingGroup.Tags :=
       [{| autoscalingtypes.TagDescription.Key := Some "team";
           autoscalingtypes.TagDescription.Value := Some "infra" |};
        {| autoscalingtypes.TagDescription.Key := Some "aws:cloudformation:stack-name";
           autoscalingtypes.TagDescription.Value := Some "s" |}];
     autoscalingtypes.AutoScalingGroup.LaunchTemplate :=
       autoscalingtypes.AutoScalingGroup.LaunchTemplate g;
     autoscalingtypes.AutoScalingGroup.MixedInstancesPolicy :=
       autoscalingtypes.AutoScalingGroup.MixedInstancesPolicy g;
     autoscalingtypes.AutoScalingGroup.SuspendedProcesses :=
       autoscalingtypes.AutoScalingGroup.SuspendedProcesses g;
     autoscalingtypes.AutoScalingGroup.NewInstancesProtectedFromScaleIn :=
       autoscalingtypes.AutoScalingGroup.NewInstancesProtectedFromScaleIn g;
     autoscalingtypes.AutoScalingGroup.Status := autoscalingtypes.AutoScalingGroup.Status g |}.



End examples.

(* ===== END OF DEFINITIONS ===== *)

(** * Properties *)

(** ** patchCRMPolicy *)

Section patch_facts.
Import cloudresourcemanager.

Lemma memberExists_fold members want acc :
  fold_left (fun exists_ member => if String.eqb member want then true else exists_)
            members acc = acc || existsb (fun m => String.eqb m want) members.
Proof.
  revert acc. induction members as [|m ms IH]; intros acc; simpl.
  - now rewrite orb_false_r.
  - rewrite IH. destruct (String.eqb m want), acc; reflexivity.
Qed.

Lemma memberExists_In members want :
  memberExists members want = true <-> In want members.
Proof.
  unfold memberExists. rewrite memberExists_fold. simpl.
  rewrite existsb_exists. split.
  - intros (m & Hin & Heq). apply String.eqb_eq in Heq. now subst.
  - intros Hin. exists want. split; [assumption | apply String.eqb_refl].
Qed.

Lemma patchBindings_None bindings want role :
  patchBindings bindings want role = None <-> firstBindingFor role bindings = None.
Proof.
  unfold firstBindingFor.
  induction bindings as [|b rest IH]; simpl; [tauto|].
  destruct (Condition b) as [c|]; simpl.
  - destruct (patchBindings rest want role) as [[r ch]|]; [|tauto].
    split; [discriminate | intros H; apply IH in H; discriminate].
  - destruct (String.eqb (Role b) role); simpl.
    + destruct (memberExists (Members b) want); split; discriminate.
    + destruct (patchBindings rest want role) as [[r ch]|]; [|tauto].
      split; [discriminate | intros H; apply IH in H; discriminate].
Qed.

Lemma patchBindings_Some bindings want role bindings' changed :
  patchBindings bindings want role = Some (bindings', changed) ->
  exists b, firstBindingFor role bindings = Some b /\
            changed = negb (memberExists (Members b) want) /\
            (changed = false -> bindings' = bindings).
Proof.
  unfold firstBindingFor.
  revert bindings' changed.
  induction bindings as [|b rest IH]; intros bindings' changed; simpl; [discriminate|].
  destruct (Condition b) as [c|]; simpl.
  - destruct (patchBindings rest want role) as [[r ch]|]; [|discriminate].
    intros [= <- <-]. destruct (IH r ch eq_refl) as (b0 & H1 & H2 & H3).
    exists b0. repeat split; try assumption. intros Hc. now rewrite (H3 Hc).
  - destruct (String.eqb (Role b) role); simpl.
    + destruct (memberExists (Members b) want) eqn:Hm; intros [= <- <-];
        exists b; rewrite Hm; repeat split; try reflexivity. discriminate.
    + destruct (patchBindings rest want role) as [[r ch]|]; [|discriminate].
      intros [= <- <-]. destruct (IH r ch eq_refl) as (b0 & H1 & H2 & H3).
      exists b0. repeat split; try assumption. intros Hc. now rewrite (H3 Hc).
Qed.

(** What [patchCRMPolicy] reports: no change exactly when the first
    condition-free binding for the role has the member. *)
Lemma patchCRMPolicy_unchanged_iff policy want role :
  (patchCRMPolicy policy want role).2 = false <->
  exists b, firstBindingFor role (Bindings policy) = Some b /\ In want (Members b).
Proof.
  unfold patchCRMPolicy.
  destruct (patchBindings (Bindings policy) want role) as [[bs ch]|] eqn:Hp; simpl.
  - apply patchBindings_Some in Hp as (b & Hb & Hch & _). subst ch. split.
    + intros H. exists b. split; [assumption|]. apply memberExists_In.
      now destruct (memberExists (Members b) want).
    + intros (b' & Hb' & Hin). rewrite Hb in Hb'. injection Hb' as <-.
      apply memberExists_In in Hin. now rewrite Hin.
  - apply patchBindings_None in Hp. split; [discriminate|].
    intros (b & Hb & _). rewrite Hp in Hb. discriminate.
Qed.

Lemma firstBindingFor_Some role bindings b :
  firstBindingFor role bindings = Some b ->
  In b bindings /\ Condition b = None /\ Role b = role.
Proof.
  unfold firstBindingFor. intros H. apply find_some in H as [Hin Hb].
  apply andb_true_iff in Hb as [Hc Hr]. apply String.eqb_eq in Hr.
  destruct (Condition b); [discriminate|]. auto.
Qed.

Lemma patchCRMPolicy_unchanged_grants policy want role :
  (patchCRMPolicy policy want role).2 = false -> grants policy want role.
Proof.
  intros H. apply patchCRMPolicy_unchanged_iff in H as (b & Hb & Hin).
  apply firstBindingFor_Some in Hb as (H1 & H2 & H3). exists b. auto.
Qed.

Lemma patchCRMPolicy_unchanged_same policy want role :
  (patchCRMPolicy policy want role).2 = false ->
  (patchCRMPolicy policy want role).1 = policy.
Proof.
  unfold patchCRMPolicy.
  destruct (patchBindings (Bindings policy) want role) as [[bs ch]|] eqn:Hp; simpl.
  - intros ->. apply patchBindings_Some in Hp as (b & _ & _ & Heq).
    rewrite (Heq eq_refl). now destruct policy.
  - discriminate.
Qed.

Lemma not_granted_changed policy want role :
  ~ grants policy want role -> (patchCRMPolicy policy want role).2 = true.
Proof.
  intros Hn. destruct ((patchCRMPolicy policy want role).2) eqn:H; [reflexivity|].
  exfalso. apply Hn. now apply patchCRMPolicy_unchanged_grants.
Qed.

Lemma firstBindingFor_app_None role l1 l2 :
  firstBindingFor role l1 = None ->
  firstBindingFor role (l1 ++ l2) = firstBindingFor role l2.
Proof.
  unfold firstBindingFor. induction l1 as [|b l1 IH]; simpl; [reflexivity|].
  destruct (negb (notNil (Condition b)) && String.eqb (Role b) role); [discriminate|].
  exact IH.
Qed.

(** After a change, the first condition-free binding for the role has the
    member. *)
Lemma patchBindings_changed_first bindings want role bindings' :
  patchBindings bindings want role = Some (bindings', true) ->
  exists b, firstBindingFor role bindings' = Some b /\ In want (Members b).
Proof.
  unfold firstBindingFor. revert bindings'.
  induction bindings as [|b rest IH]; intros bindings'; simpl; [discriminate|].
  destruct (Condition b) as [c|] eqn:Hc; simpl.
  - destruct (patchBindings rest want role) as [[r ch]|]; [|discriminate].
    intros [= <- ->]. simpl. rewrite Hc. simpl. now apply IH.
  - destruct (String.eqb (Role b) role) eqn:Hr; simpl.
    + destruct (memberExists (Members b) want); [discriminate|].
      intros [= <-]. simpl. rewrite Hr. simpl. eexists. split; [reflexivity|].
      simpl. apply in_or_app. right. now left.
    + destruct (patchBindings rest want role) as [[r ch]|]; [|discriminate].
      intros [= <- ->]. simpl. rewrite Hc, Hr. simpl. now apply IH.
Qed.

Lemma patchCRMPolicy_changed_first policy want role :
  (patchCRMPolicy policy want role).2 = true ->
  exists b, firstBindingFor role (Bindings (patchCRMPolicy policy want role).1) = Some b /\
            In want (Members b).
Proof.
  unfold patchCRMPolicy.
  destruct (patchBindings (Bindings policy) want role) as [[bs ch]|] eqn:Hp; simpl.
  - intros ->. now apply patchBindings_changed_first in Hp.
  - intros _. apply patchBindings_None in Hp.
    rewrite (firstBindingFor_app_None _ _ _ Hp). unfold firstBindingFor. simpl.
    rewrite String.eqb_refl. simpl. eexists. split; [reflexivity|]. now left.
Qed.

(** Whatever the first call did, a second call with the same member and
    role changes nothing. *)
Lemma patchCRMPolicy_again policy want role :
  patchCRMPolicy (patchCRMPolicy policy want role).1 want role =
  ((patchCRMPolicy policy want role).1, false).
Proof.
  assert (H : (patchCRMPolicy (patchCRMPolicy policy want role).1 want role).2 = false).
  { apply patchCRMPolicy_unchanged_iff.
    destruct ((patchCRMPolicy policy want role).2) eqn:Hc.
    - now apply patchCRMPolicy_changed_first.
    - rewrite (patchCRMPolicy_unchanged_same _ _ _ Hc).
      now apply patchCRMPolicy_unchanged_iff. }
  pose proof (patchCRMPolicy_unchanged_same _ _ _ H) as Hs.
  destruct (patchCRMPolicy (patchCRMPolicy policy want role).1 want role) as [p c].
  simpl in *. now subst.
Qed.
End patch_facts.

(** ** ProjectIAMBinding *)

Section project_iam_binding.
Import cloudresourcemanager.
Import ProjectIAMBinding.

Lemma Find_snapshot_is_desired (e : ProjectIAMBinding.t) :
  {| Name := Name e; Lifecycle := Lifecycle e; Project := Project e;
     MemberServiceAccount := MemberServiceAccount e; Role := Role e |} = e.
Proof. now destruct e. Qed.

(** [Find] in terms of what the lookup answers and what the patch reports. *)
Lemma Find_found cloud e sa policy :
  MemberServiceAccount e = Some sa ->
  GetIamPolicy cloud (fi.ValueOf (Project e)) = inr policy ->
  Find cloud e =
  if (patchCRMPolicy policy (memberOf sa) (fi.ValueOf (Role e))).2 then Ok None
  else Ok (Some e).
Proof.
  intros Hsa Hget. unfold Find.
  set (snapshot := Build_t _ _ _ _ _).
  assert (Hs : snapshot = e) by apply Find_snapshot_is_desired.
  clearbody snapshot. rewrite Hsa, Hget. fold (memberOf sa).
  destruct (patchCRMPolicy policy (memberOf sa) (fi.ValueOf (Role e))) as [p c].
  simpl. destruct c; [reflexivity|]. now rewrite Hs.
Qed.

Lemma Find_not_found cloud e sa err :
  MemberServiceAccount e = Some sa ->
  GetIamPolicy cloud (fi.ValueOf (Project e)) = inl err ->
  NotFound err = true ->
  Find cloud e = Ok None.
Proof. intros Hsa Hget Hnf. unfold Find. now rewrite Hsa, Hget, Hnf. Qed.

Lemma Find_snapshot cloud e actual :
  Find cloud e = Ok (Some actual) -> actual = e.
Proof.
  unfold Find.
  set (snapshot := Build_t _ _ _ _ _).
  assert (Hs : snapshot = e) by apply Find_snapshot_is_desired.
  clearbody snapshot.
  destruct (MemberServiceAccount e) as [sa|]; [|discriminate].
  destruct (GetIamPolicy cloud (fi.ValueOf (Project e))) as [err|policy].
  - destruct (NotFound err); discriminate.
  - destruct (patchCRMPolicy policy _ _) as [p c]. destruct c; [discriminate|].
    now intros [= <-].
Qed.

(** [RenderGCE] once the policy has been read again. *)
Lemma RenderGCE_read cloud a e changes sa policy :
  MemberServiceAccount e = Some sa ->
  GetIamPolicy cloud (fi.ValueOf (Project e)) = inr policy ->
  let projectID := fi.ValueOf (Project e) in
  let patched := patchCRMPolicy policy (memberOf sa) (fi.ValueOf (Role e)) in
  RenderGCE cloud a e changes =
  if patched.2 then
    (match SetIamPolicy cloud projectID patched.1 with
     | Some err => Fail (Errorw ("error updating IAM for project " +:+ projectID) err)
     | None => Ok tt
     end,
     [MutexLock projectID; CallGetIamPolicy projectID;
      CallSetIamPolicy projectID patched.1; MutexUnlock projectID])
  else
    (Ok tt,
     [MutexLock projectID; CallGetIamPolicy projectID;
      Warningf "did not need to change policy (concurrent change?)";
      MutexUnlock projectID]).
Proof.
  intros Hsa Hget. simpl. unfold RenderGCE. rewrite Hsa, Hget. fold (memberOf sa).
  destruct (patchCRMPolicy policy (memberOf sa) (fi.ValueOf (Role e))) as [p c].
  simpl. destruct c; simpl; [|reflexivity].
  now destruct (SetIamPolicy cloud (fi.ValueOf (Project e)) p).
Qed.

(** [RenderGCE] never writes a policy it has not read. *)
Lemma RenderGCE_set_inv cloud a e changes projectID policy' :
  In (CallSetIamPolicy projectID policy') (RenderGCE cloud a e changes).2 ->
  exists sa policy,
    MemberServiceAccount e = Some sa /\
    GetIamPolicy cloud (fi.ValueOf (Project e)) = inr policy /\
    projectID = fi.ValueOf (Project e) /\
    patchCRMPolicy policy (memberOf sa) (fi.ValueOf (Role e)) = (policy', true).
Proof.
  destruct (MemberServiceAccount e) as [sa|] eqn:Hsa.
  2:{ unfold RenderGCE. rewrite Hsa. simpl. tauto. }
  destruct (GetIamPolicy cloud (fi.ValueOf (Project e))) as [err|policy] eqn:Hget.
  - unfold RenderGCE. rewrite Hsa, Hget. simpl.
    intros [H|[H|[H|[]]]]; discriminate.
  - rewrite (RenderGCE_read cloud a e changes sa policy Hsa Hget). simpl.
    destruct (patchCRMPolicy policy (memberOf sa) (fi.ValueOf (Role e))) as [p c] eqn:Hp.
    simpl. destruct c; simpl.
    + intros [H|[H|[H|[H|[]]]]]; try discriminate. injection H as <- <-.
      exists sa, policy. auto.
    + intros [H|[H|[H|[H|[]]]]]; discriminate.
Qed.

(** After a render that succeeded, the next pass finds the binding. *)
Lemma Find_after_RenderGCE cloud a e changes events :
  RenderGCE cloud a e changes = (Ok tt, events) ->
  Find (cloudAfter cloud events) e = Ok (Some e).
Proof.
  destruct (MemberServiceAccount e) as [sa|] eqn:Hsa.
  2:{ unfold RenderGCE. rewrite Hsa. discriminate. }
  destruct (GetIamPolicy cloud (fi.ValueOf (Project e))) as [err|policy] eqn:Hget.
  { unfold RenderGCE. rewrite Hsa, Hget. discriminate. }
  rewrite (RenderGCE_read cloud a e changes sa policy Hsa Hget). simpl.
  destruct ((patchCRMPolicy policy (memberOf sa) (fi.ValueOf (Role e))).2) eqn:Hc.
  - intros [= _ <-]. unfold cloudAfter. simpl.
    erewrite Find_found; [|exact Hsa|simpl; now rewrite String.eqb_refl].
    now rewrite patchCRMPolicy_again.
  - intros [= <-]. unfold cloudAfter. simpl.
    erewrite Find_found; [|exact Hsa|exact Hget]. now rewrite Hc.
Qed.
End project_iam_binding.

Section project_iam_binding_claims.
Import cloudresourcemanager.
Import ProjectIAMBinding.

(** C5, as amended. [RenderGCE] reads the project's policy again and calls
    [SetIamPolicy] exactly when [patchCRMPolicy] reports that it modified
    the policy read, with the modified policy. [patchCRMPolicy] reports no
    change exactly when the first condition-free binding for the role in
    that policy already has the member; then [RenderGCE] returns nil after
    logging one warning, without calling [SetIamPolicy]. *)
Theorem C5_RenderGCE_warn_and_continue :
  forall cloud a e changes,
    let projectID := fi.ValueOf (Project e) in
    let role := fi.ValueOf (Role e) in
    (forall sa, MemberServiceAccount e = Some sa ->
                In (CallGetIamPolicy projectID) (RenderGCE cloud a e changes).2) /\
    (forall project policy',
        In (CallSetIamPolicy project policy') (RenderGCE cloud a e changes).2 <->
        exists sa policy,
          MemberServiceAccount e = Some sa /\
          GetIamPolicy cloud projectID = inr policy /\
          project = projectID /\
          patchCRMPolicy policy (memberOf sa) role = (policy', true)) /\
    (forall sa policy,
        MemberServiceAccount e = Some sa ->
        GetIamPolicy cloud projectID = inr policy ->
        ((patchCRMPolicy policy (memberOf sa) role).2 = false <->
         exists b, firstBindingFor role (Bindings policy) = Some b /\
                   In (memberOf sa) (Members b)) /\
        ((patchCRMPolicy policy (memberOf sa) role).2 = false ->
         RenderGCE cloud a e changes =
         (Ok tt, [MutexLock projectID; CallGetIamPolicy projectID;
                  Warningf "did not need to change policy (concurrent change?)";
                  MutexUnlock projectID]))).
Proof.
  intros cloud a e changes projectID role. split; [|split].
  - intros sa Hsa. unfold RenderGCE. rewrite Hsa. fold projectID.
    destruct (GetIamPolicy cloud projectID) as [err|policy]; simpl; [tauto|].
    destruct (patchCRMPolicy policy _ _) as [p c]. destruct c; simpl.
    + destruct (SetIamPolicy cloud projectID p); simpl; tauto.
    + tauto.
  - intros project policy'. split.
    + apply RenderGCE_set_inv.
    + intros (sa & policy & Hsa & Hget & -> & Hp).
      rewrite (RenderGCE_read cloud a e changes sa policy Hsa Hget).
      fold projectID role. rewrite Hp. simpl. tauto.
  - intros sa policy Hsa Hget. split.
    + apply patchCRMPolicy_unchanged_iff.
    + intros Hc. rewrite (RenderGCE_read cloud a e changes sa policy Hsa Hget).
      fold projectID role. now rewrite Hc.
Qed.

Lemma C5_witness :
  RenderGCE (examples.gceCloud examples.policyWith) None examples.binding examples.binding =
  (Ok tt, [MutexLock "p"; CallGetIamPolicy "p";
           Warningf "did not need to change policy (concurrent change?)";
           MutexUnlock "p"]).
Proof.
  apply (proj2 (proj2 (proj2 (C5_RenderGCE_warn_and_continue
                                (examples.gceCloud examples.policyWith) None
                                examples.binding examples.binding))
                      examples.account examples.policyWith eq_refl eq_refl)).
  reflexivity.
Defined.

(** The claim C5 as stated fails: the policy read again already has the
    member in a condition-free binding for the role (the second one), and
    [RenderGCE] still calls [SetIamPolicy]. *)
Lemma C5_counterexample :
  grants examples.policyTwice (memberOf examples.account) "roles/viewer" /\
  GetIamPolicy (examples.gceCloud examples.policyTwice) "p" = inr examples.policyTwice /\
  exists policy',
    In (CallSetIamPolicy "p" policy')
       (RenderGCE (examples.gceCloud examples.policyTwice) None
                  examples.binding examples.binding).2.
Proof.
  split; [|split].
  - eexists. split; [right; left; reflexivity|]. simpl. repeat split. now left.
  - reflexivity.
  - eexists. simpl. right. right. left. reflexivity.
Qed.

(** C6. A call of [patchCRMPolicy] that reports a change leaves the member
    in a condition-free binding for the role; a second call with the same
    member and role reports no change and leaves the policy as it is. So
    after a render of the binding that succeeded, with nothing else changing
    the cloud, the next pass finds the binding as desired and a render would
    not write the policy again. *)
Theorem C6_patchCRMPolicy_idempotent :
  forall policy member role,
    ((patchCRMPolicy policy member role).2 = true ->
     grants (patchCRMPolicy policy member role).1 member role) /\
    patchCRMPolicy (patchCRMPolicy policy member role).1 member role =
      ((patchCRMPolicy policy member role).1, false) /\
    (forall cloud a e changes events,
        RenderGCE cloud a e changes = (Ok tt, events) ->
        Find (cloudAfter cloud events) e = Ok (Some e) /\
        forall a' changes' project policy',
          ~ In (CallSetIamPolicy project policy')
               (RenderGCE (cloudAfter cloud events) a' e changes').2).
Proof.
  intros policy member role. split; [|split].
  - intros Hc. apply patchCRMPolicy_unchanged_grants.
    now rewrite patchCRMPolicy_again.
  - apply patchCRMPolicy_again.
  - intros cloud a e changes events Hr.
    pose proof (Find_after_RenderGCE _ _ _ _ _ Hr) as Hf. split; [exact Hf|].
    intros a' changes' project policy' Hin.
    apply RenderGCE_set_inv in Hin as (sa & p & Hsa & Hget & _ & Hp).
    rewrite (Find_found _ _ _ _ Hsa Hget), Hp in Hf. discriminate.
Qed.

Lemma C6_witness :
  grants (patchCRMPolicy examples.policyWithout (memberOf examples.account) "roles/viewer").1
         (memberOf examples.account) "roles/viewer" /\
  Find (cloudAfter (examples.gceCloud examples.policyWithout)
                   (RenderGCE (examples.gceCloud examples.policyWithout) None
                              examples.binding examples.binding).2)
       examples.binding = Ok (Some examples.binding).
Proof.
  split.
  - apply (proj1 (C6_patchCRMPolicy_idempotent examples.policyWithout
                    (memberOf examples.account) "roles/viewer")).
    reflexivity.
  - apply (proj2 (proj2 (C6_patchCRMPolicy_idempotent examples.policyWithout
                           (memberOf examples.account) "roles/viewer"))
                 (examples.gceCloud examples.policyWithout) None
                 examples.binding examples.binding).
    reflexivity.
Defined.
End project_iam_binding_claims.

(** ** sliceChunks *)

Section slice_chunks.

(** The loop of [sliceChunks] with enough fuel: it ends, and the chunks it
    adds are the rest of the slice cut into pieces of at most
    [chunkSize]. *)
Lemma sliceChunksFrom_spec (slice : list string) (chunkSize : nat) :
  0 < chunkSize ->
  forall fuel i chunks,
    length slice - i <= fuel ->
    exists more,
      sliceChunksFrom fuel slice chunkSize i chunks = Some (chunks ++ more) /\
      concat more = skipn i slice /\
      Forall (fun chunk => length chunk <= chunkSize) more /\
      Forall (fun chunk => 0 < length chunk) more.
Proof.
  intros Hpos. induction fuel as [|fuel IH]; intros i chunks Hfuel.
  - exists []. simpl. destruct (Nat.ltb_spec i (length slice)); [lia|].
    rewrite app_nil_r, skipn_all2 by lia. auto.
  - simpl. destruct (Nat.ltb_spec i (length slice)) as [Hi|Hi].
    + destruct (IH (i + chunkSize)
                   (chunks ++ [if Nat.ltb (i + chunkSize) (length slice)
                               then firstn chunkSize (skipn i slice)
                               else skipn i slice]))
        as (more & Hrun & Hcat & Hlen & Hne); [lia|].
      eexists (_ :: more). rewrite Hrun, <- app_assoc. simpl.
      split; [reflexivity|]. split; [|split].
      * rewrite Hcat. destruct (Nat.ltb_spec (i + chunkSize) (length slice)).
        -- rewrite Nat.add_comm, <- skipn_skipn. apply firstn_skipn.
        -- rewrite (skipn_all2 slice (n := i + chunkSize)) by lia. apply app_nil_r.
      * constructor; [|assumption].
        destruct (Nat.ltb_spec (i + chunkSize) (length slice)).
        -- rewrite length_firstn. lia.
        -- rewrite length_skipn. lia.
      * constructor; [|assumption].
        destruct (Nat.ltb_spec (i + chunkSize) (length slice)).
        -- rewrite length_firstn, length_skipn. lia.
        -- rewrite length_skipn. lia.
    + exists []. rewrite app_nil_r, skipn_all2 by lia. auto.
Qed.

(** [sliceChunks] returns for every positive chunk size, and what it
    returns is a partition of the slice into chunks of at most that size. *)
Lemma sliceChunks_partition (slice : list string) (chunkSize : nat) :
  0 < chunkSize ->
  exists chunks,
    sliceChunks slice chunkSize = Some chunks /\
    concat chunks = slice /\
    Forall (fun chunk => length chunk <= chunkSize) chunks.
Proof.
  intros Hpos.
  destruct (sliceChunksFrom_spec slice chunkSize Hpos (length slice) 0 [])
    as (more & Hrun & Hcat & Hlen & _); [lia|].
  exists more. unfold sliceChunks. rewrite Hrun. auto.
Qed.

(** With a chunk size of 0 the loop never ends on a slice that is not
    empty: no amount of fuel is enough. *)
Lemma sliceChunksFrom_zero (slice : list string) fuel i chunks :
  i < length slice -> sliceChunksFrom fuel slice 0 i chunks = None.
Proof.
  revert chunks. induction fuel as [|fuel IH]; intros chunks Hi; simpl;
    destruct (Nat.ltb_spec i (length slice)); try lia; [reflexivity|].
  rewrite Nat.add_0_r. now apply IH.
Qed.
End slice_chunks.

(** ** The render monad *)

Section render_monad.
Import AutoscalingGroup.
Context {IR IRq : Type}.
Implicit Types s : state IR IRq.

Lemma bind_Ok_inv {A B} (m : M IR IRq A) (k : A -> M IR IRq B) s b s' :
  bind m k s = (Ok b, s') ->
  exists a s1, m s = (Ok a, s1) /\ k a s1 = (Ok b, s').
Proof.
  unfold bind. destruct (m s) as [[a|err|] s1]; try discriminate. eauto.
Qed.

Lemma setNil_nil (f : field) (c : t IR) : isNil f c = true -> setNil f c = c.
Proof.
  destruct c, f; cbn; intros H;
    repeat match goal with
           | H : negb (notNil ?x) = true |- _ => destruct x; [discriminate H|clear H]
           end; reflexivity.
Qed.

Lemma isNil_setNil (f : field) (c : t IR) : isNil f (setNil f c) = true.
Proof. destruct f; reflexivity. Qed.

Lemma isNil_setNil_mono (f g : field) (c : t IR) :
  isNil f c = true -> isNil f (setNil g c) = true.
Proof. destruct f, g; cbn; auto. Qed.

Lemma emits_weaken {A} (P Q : api.call IRq -> Prop) (m : M IR IRq A) :
  (forall c, P c -> Q c) -> emits P m -> emits Q m.
Proof.
  intros HPQ Hm s. destruct (Hm s) as (extra & Hc & Hall).
  exists extra. split; [assumption|]. eapply Forall_impl; eauto.
Qed.

Lemma emits_bind {A B} P (m : M IR IRq A) (k : A -> M IR IRq B) :
  emits P m -> (forall a, emits P (k a)) -> emits P (bind m k).
Proof.
  intros Hm Hk s. unfold bind. destruct (Hm s) as (extra & Hc & Hall).
  destruct (m s) as [[a|err|] s1]; simpl in *; try (exists extra; now split).
  destruct (Hk a s1) as (extra' & Hc' & Hall').
  exists (extra ++ extra'). rewrite Hc', Hc, app_assoc. split; [reflexivity|].
  now apply Forall_app.
Qed.

Lemma emits_quiet {A} P (m : M IR IRq A) :
  (forall s, calls (m s).2 = calls s) -> emits P m.
Proof. intros H s. exists []. rewrite H, app_nil_r. auto. Qed.

Lemma emits_ret {A} P (a : A) : emits P (ret (IR := IR) (IRq := IRq) a).
Proof. now apply emits_quiet. Qed.

Lemma emits_fail {A} P err : emits P (fail (IR := IR) (IRq := IRq) (A := A) err).
Proof. now apply emits_quiet. Qed.

Lemma emits_panic {A} P : emits P (panic (IR := IR) (IRq := IRq) (A := A)).
Proof. now apply emits_quiet. Qed.

Lemma emits_lift {A} P (o : outcome A) : emits P (lift (IR := IR) (IRq := IRq) o).
Proof. now apply emits_quiet. Qed.

Lemma emits_getChanges P : emits P (getChanges (IR := IR) (IRq := IRq)).
Proof. now apply emits_quiet. Qed.

Lemma emits_nil P f : emits P (nil (IR := IR) (IRq := IRq) f).
Proof. now apply emits_quiet. Qed.

Lemma emits_call (P : api.call IRq -> Prop) cloud c :
  P c -> emits P (call (IR := IR) cloud c).
Proof. intros Hc s. exists [c]. simpl. auto. Qed.

Lemma emits_findELBByNameTag (P : api.call IRq -> Prop) cloud name :
  P (api.FindELBByNameTag name) -> emits P (findELBByNameTag (IR := IR) cloud name).
Proof. intros Hc s. exists [api.FindELBByNameTag name]. simpl. auto. Qed.

Lemma emits_callOrFail (P : api.call IRq -> Prop) cloud c msg :
  P c -> emits P (callOrFail (IR := IR) cloud c msg).
Proof.
  intros Hc. unfold callOrFail. apply emits_bind; [now apply emits_call|].
  intros [err|]; [apply emits_fail | apply emits_ret].
Qed.
End render_monad.

(** Proves [emits] for a block by following its text. *)
Ltac emits_block :=
  repeat first
    [ apply emits_ret | apply emits_fail | apply emits_panic | apply emits_lift
    | apply emits_getChanges | apply emits_nil
    | apply emits_call; exact I
    | apply emits_callOrFail; exact I
    | apply emits_findELBByNameTag; exact I
    | apply emits_bind; [|intros ?]
    | match goal with
      | |- emits _ (if ?b then _ else _) => destruct b
      | |- emits _ (match ?x with _ => _ end) => destruct x
      end ].

(** ** The blocks of the update path *)

Section update_blocks.
Import AutoscalingGroup.
Import autoscaling.
Context {IR IRq : Type}.
Context (overridesFromInstanceRequirements :
           IR -> autoscalingtypes.LaunchTemplateOverrides.t IRq).
Context (cloud : AWSCloud IRq).
Implicit Types s : state IR IRq.
Implicit Types req : UpdateAutoScalingGroupInput.t IRq.

Lemma prepareUpdate_emits a e :
  emits early (prepareUpdate overridesFromInstanceRequirements cloud a e).
Proof.
  unfold prepareUpdate, applyLaunchTemplate, applyMixedOnDemandAboveBase,
    applyMixedOnDemandBase, applyMixedSpotAllocationStrategy, applyMixedSpotInstancePools,
    applyMixedSpotMaxPrice, applyOverrides, applyMinSize, applyMaxSize, applySubnets,
    applyMaxInstanceLifetime, applyTags, applyLoadBalancers, applyTargetGroups,
    applyMetrics, applySuspendProcesses, applyInstanceProtection, applyCapacityRebalance,
    setDistribution, appendOverrides.
  emits_block.
Qed.

Lemma setDistribution_Ok f req s req' s' :
  setDistribution f req s = (Ok req', s') ->
  s' = s /\ basics req' = basics req /\
  UpdateAutoScalingGroupInput.LaunchTemplate req' = UpdateAutoScalingGroupInput.LaunchTemplate req.
Proof.
  unfold setDistribution, setup, ret, panic.
  destruct (UpdateAutoScalingGroupInput.MixedInstancesPolicy req) as [mp|] eqn:Hmp; simpl.
  - rewrite Hmp.
    destruct (autoscalingtypes.MixedInstancesPolicy.InstancesDistribution mp);
      [|discriminate].
    intros [= <- <-]. auto.
  - intros [= <- <-]. auto.
Qed.

Lemma appendOverrides_Ok more req s req' s' :
  appendOverrides more req s = (Ok req', s') ->
  s' = s /\ basics req' = basics req /\
  UpdateAutoScalingGroupInput.LaunchTemplate req' = UpdateAutoScalingGroupInput.LaunchTemplate req.
Proof.
  unfold appendOverrides, setPolicyLaunchTemplate, setup, ret, panic.
  destruct (policyLaunchTemplate req); [|discriminate].
  intros [= <- <-].
  destruct (UpdateAutoScalingGroupInput.MixedInstancesPolicy req) as [mp|] eqn:Hmp; simpl;
    [rewrite Hmp|]; auto.
Qed.

Lemma setPolicyLaunchTemplate_frame lt req :
  basics (setPolicyLaunchTemplate lt req) = basics req /\
  UpdateAutoScalingGroupInput.LaunchTemplate (setPolicyLaunchTemplate lt req) =
  UpdateAutoScalingGroupInput.LaunchTemplate req.
Proof.
  unfold setPolicyLaunchTemplate, setup.
  destruct (UpdateAutoScalingGroupInput.MixedInstancesPolicy req) as [mp|] eqn:Hmp; simpl;
    [rewrite Hmp|]; auto.
Qed.

Lemma setup_frame req :
  basics (setup req) = basics req /\
  UpdateAutoScalingGroupInput.LaunchTemplate (setup req) =
  UpdateAutoScalingGroupInput.LaunchTemplate req.
Proof.
  unfold setup.
  destruct (UpdateAutoScalingGroupInput.MixedInstancesPolicy req); auto.
Qed.

(** A block that assigns to the distribution of the mixed instances policy. *)
Lemma distribution_block_Ok (f : field) (guard : bool) assign req s req' s' :
  (guard = false -> isNil f (changes s) = true) ->
  (if guard
   then bind (setDistribution assign req)
             (fun request => bind (nil f) (fun _ => ret request))
   else ret req) s = (Ok req', s') ->
  changes s' = setNil f (changes s) /\ calls s' = calls s /\
  basics req' = basics req /\
  UpdateAutoScalingGroupInput.LaunchTemplate req' =
  UpdateAutoScalingGroupInput.LaunchTemplate req /\
  (guard = false -> req' = req).
Proof.
  intros Hnil. destruct guard.
  - intros H. apply bind_Ok_inv in H as (r1 & s1 & H1 & H).
    apply setDistribution_Ok in H1 as (-> & Hb & Hl).
    unfold bind, nil, ret in H. simpl in H. injection H as <- <-. simpl.
    repeat split; auto. discriminate.
  - unfold ret. intros [= <- <-]. rewrite setNil_nil by auto. auto.
Qed.

Ltac distribution_block lemma :=
  intros H; unfold bind at 1, getChanges in H;
  apply lemma in H; [exact H | unfold isNil; now intros ->].

Lemma applyMixedOnDemandAboveBase_Ok e req s req' s' :
  applyMixedOnDemandAboveBase e req s = (Ok req', s') ->
  changes s' = setNil FMixedOnDemandAboveBase (changes s) /\ calls s' = calls s /\
  basics req' = basics req /\
  UpdateAutoScalingGroupInput.LaunchTemplate req' =
  UpdateAutoScalingGroupInput.LaunchTemplate req /\
  (notNil (MixedOnDemandAboveBase (changes s)) = false -> req' = req).
Proof. unfold applyMixedOnDemandAboveBase. distribution_block distribution_block_Ok. Qed.

Lemma applyMixedOnDemandBase_Ok e req s req' s' :
  applyMixedOnDemandBase e req s = (Ok req', s') ->
  changes s' = setNil FMixedOnDemandBase (changes s) /\ calls s' = calls s /\
  basics req' = basics req /\
  UpdateAutoScalingGroupInput.LaunchTemplate req' =
  UpdateAutoScalingGroupInput.LaunchTemplate req /\
  (notNil (MixedOnDemandBase (changes s)) = false -> req' = req).
Proof. unfold applyMixedOnDemandBase. distribution_block distribution_block_Ok. Qed.

Lemma applyMixedSpotAllocationStrategy_Ok e req s req' s' :
  applyMixedSpotAllocationStrategy e req s = (Ok req', s') ->
  changes s' = setNil FMixedSpotAllocationStrategy (changes s) /\ calls s' = calls s /\
  basics req' = basics req /\
  UpdateAutoScalingGroupInput.LaunchTemplate req' =
  UpdateAutoScalingGroupInput.LaunchTemplate req /\
  (notNil (MixedSpotAllocationStrategy (changes s)) = false -> req' = req).
Proof. unfold applyMixedSpotAllocationStrategy. distribution_block distribution_block_Ok. Qed.

Lemma applyMixedSpotInstancePools_Ok e req s req' s' :
  applyMixedSpotInstancePools e req s = (Ok req', s') ->
  changes s' = setNil FMixedSpotInstancePools (changes s) /\ calls s' = calls s /\
  basics req' = basics req /\
  UpdateAutoScalingGroupInput.LaunchTemplate req' =
  UpdateAutoScalingGroupInput.LaunchTemplate req /\
  (notNil (MixedSpotInstancePools (changes s)) = false -> req' = req).
Proof. unfold applyMixedSpotInstancePools. distribution_block distribution_block_Ok. Qed.

Lemma applyMixedSpotMaxPrice_Ok e req s req' s' :
  applyMixedSpotMaxPrice e req s = (Ok req', s') ->
  changes s' = setNil FMixedSpotMaxPrice (changes s) /\ calls s' = calls s /\
  basics req' = basics req /\
  UpdateAutoScalingGroupInput.LaunchTemplate req' =
  UpdateAutoScalingGroupInput.LaunchTemplate req /\
  (notNil (MixedSpotMaxPrice (changes s)) = false -> req' = req).
Proof. unfold applyMixedSpotMaxPrice. distribution_block distribution_block_Ok. Qed.

Lemma applyLaunchTemplate_Ok a e req s req' s' :
  applyLaunchTemplate a e req s = (Ok req', s') ->
  changes s' = setNil FLaunchTemplate (changes s) /\ calls s' = calls s /\
  basics req' = basics req /\
  (notNil (LaunchTemplate (changes s)) ||
   (UseMixedInstancesPolicy a && negb (UseMixedInstancesPolicy e)) = false -> req' = req).
Proof.
  unfold applyLaunchTemplate. unfold bind at 1, getChanges.
  destruct (notNil (LaunchTemplate (changes s)) || _) eqn:Hg.
  - destruct (LaunchTemplate e) as [lt|]; [|discriminate].
    unfold bind, nil, ret. simpl. intros [= <- <-]. simpl.
    repeat split; try discriminate.
    destruct (UseMixedInstancesPolicy e); [apply setPolicyLaunchTemplate_frame|reflexivity].
  - unfold ret. intros [= <- <-]. apply orb_false_iff in Hg as [Hg _].
    rewrite setNil_nil by (unfold isNil; now rewrite Hg). auto.
Qed.

Lemma applyOverrides_Ok e req s req' s' :
  applyOverrides overridesFromInstanceRequirements e req s = (Ok req', s') ->
  changes s' = setNil FInstanceRequirements (setNil FMixedInstanceOverrides (changes s)) /\
  basics req' = basics req /\
  UpdateAutoScalingGroupInput.LaunchTemplate req' =
  UpdateAutoScalingGroupInput.LaunchTemplate req /\
  (notNil (MixedInstanceOverrides (changes s)) = false ->
   notNil (InstanceRequirements (changes s)) = false -> req' = req).
Proof.
  unfold applyOverrides. unfold bind at 1, getChanges.
  assert (Hid : forall c : t IR,
             notNil (MixedInstanceOverrides c) = false ->
             notNil (InstanceRequirements c) = false ->
             setNil FInstanceRequirements (setNil FMixedInstanceOverrides c) = c).
  { intros c H1 H2. rewrite (setNil_nil FMixedInstanceOverrides) by (unfold isNil; now rewrite H1).
    apply setNil_nil. unfold isNil. now rewrite H2. }
  destruct (notNil (MixedInstanceOverrides (changes s)) ||
            notNil (InstanceRequirements (changes s))) eqn:Hg.
  2:{ unfold ret. intros [= <- <-]. apply orb_false_iff in Hg as [H1 H2].
      rewrite Hid by assumption. auto. }
  intros H. apply bind_Ok_inv in H as (r1 & s1 & H1 & H).
  apply bind_Ok_inv in H as (r2 & s2 & H2 & H).
  assert (Hr1 : s1 = s /\ basics r1 = basics req /\
                UpdateAutoScalingGroupInput.LaunchTemplate r1 =
                UpdateAutoScalingGroupInput.LaunchTemplate req).
  { destruct (policyLaunchTemplate (setup req)).
    - unfold ret in H1. injection H1 as <- <-. split; [reflexivity|apply setup_frame].
    - destruct (LaunchTemplate e); [|discriminate]. unfold ret in H1.
      injection H1 as <- <-. split; [reflexivity|apply setPolicyLaunchTemplate_frame]. }
  destruct Hr1 as (-> & Hb1 & Hl1).
  assert (Hr2 : changes s2 = setNil FMixedInstanceOverrides (changes s) /\
                basics r2 = basics r1 /\
                UpdateAutoScalingGroupInput.LaunchTemplate r2 =
                UpdateAutoScalingGroupInput.LaunchTemplate r1).
  { destruct (MixedInstanceOverrides (changes s)) as [overrides|] eqn:Ho.
    - apply bind_Ok_inv in H2 as (r & s3 & H2 & H3).
      apply appendOverrides_Ok in H2 as (-> & Hb & Hl).
      unfold bind, nil, ret in H3. simpl in H3. injection H3 as <- <-. auto.
    - unfold ret in H2. injection H2 as <- <-.
      rewrite setNil_nil by (unfold isNil; now rewrite Ho). auto. }
  destruct Hr2 as (Hc2 & Hb2 & Hl2).
  assert (Hr3 : changes s' = setNil FInstanceRequirements (changes s2) /\
                basics req' = basics r2 /\
                UpdateAutoScalingGroupInput.LaunchTemplate req' =
                UpdateAutoScalingGroupInput.LaunchTemplate r2).
  { destruct (InstanceRequirements (changes s)) as [ir|] eqn:Hi.
    - apply bind_Ok_inv in H as (r & s3 & H & H3).
      apply appendOverrides_Ok in H as (-> & Hb & Hl).
      unfold bind, nil, ret in H3. simpl in H3. injection H3 as <- <-. auto.
    - unfold ret in H. injection H as <- <-.
      rewrite setNil_nil; [auto|]. rewrite Hc2. unfold isNil. simpl.
      unfold unless. simpl. now rewrite Hi. }
  destruct Hr3 as (Hc3 & Hb3 & Hl3).
  rewrite Hc3, Hc2. repeat split; try congruence.
  intros Ho Hi. apply orb_true_iff in Hg. destruct Hg; congruence.
Qed.

(** A block that assigns one of the basic fields of the request. *)
Lemma simple_block_Ok (f : field) (guard : bool) assign req s req' s' :
  (guard = false -> isNil f (changes s) = true) ->
  (if guard then bind (nil f) (fun _ => ret (assign req)) else ret req) s = (Ok req', s') ->
  changes s' = setNil f (changes s) /\
  req' = if guard then assign req else req.
Proof.
  intros Hnil. destruct guard.
  - unfold bind, nil, ret. simpl. intros [= <- <-]. auto.
  - unfold ret. intros [= <- <-]. rewrite setNil_nil by auto. auto.
Qed.

Ltac simple_block :=
  intros H; unfold bind at 1, getChanges in H;
  apply simple_block_Ok in H; [exact H | unfold isNil; now intros ->].

Lemma applyMinSize_Ok e req s req' s' :
  applyMinSize e req s = (Ok req', s') ->
  changes s' = setNil FMinSize (changes s) /\
  req' = if notNil (MinSize (changes s))
         then UpdateAutoScalingGroupInput.set_MinSize (MinSize e) req else req.
Proof. unfold applyMinSize. simple_block. Qed.

Lemma applyMaxSize_Ok e req s req' s' :
  applyMaxSize e req s = (Ok req', s') ->
  changes s' = setNil FMaxSize (changes s) /\
  req' = if notNil (MaxSize (changes s))
         then UpdateAutoScalingGroupInput.set_MaxSize (MaxSize e) req else req.
Proof. unfold applyMaxSize. simple_block. Qed.

Lemma applySubnets_Ok e req s req' s' :
  applySubnets e req s = (Ok req', s') ->
  changes s' = setNil FSubnets (changes s) /\
  req' = if notNil (Subnets (changes s))
         then UpdateAutoScalingGroupInput.set_VPCZoneIdentifier
                (aws.String (strings.Join (AutoscalingGroupSubnets e) ",")) req
         else req.
Proof. unfold applySubnets. simple_block. Qed.

Lemma applyInstanceProtection_Ok e req s req' s' :
  applyInstanceProtection e req s = (Ok req', s') ->
  changes s' = setNil FInstanceProtection (changes s) /\
  req' = if notNil (InstanceProtection (changes s))
         then UpdateAutoScalingGroupInput.set_NewInstancesProtectedFromScaleIn
                (InstanceProtection e) req
         else req.
Proof. unfold applyInstanceProtection. simple_block. Qed.

Lemma applyCapacityRebalance_Ok e req s req' s' :
  applyCapacityRebalance e req s = (Ok req', s') ->
  changes s' = setNil FCapacityRebalance (changes s) /\
  req' = if notNil (CapacityRebalance (changes s))
         then UpdateAutoScalingGroupInput.set_CapacityRebalance (CapacityRebalance e) req
         else req.
Proof. unfold applyCapacityRebalance. simple_block. Qed.

Lemma applyMaxInstanceLifetime_Ok e req s req' s' :
  applyMaxInstanceLifetime e req s = (Ok req', s') ->
  changes s' = setNil FMaxInstanceLifetime (changes s) /\
  req' = UpdateAutoScalingGroupInput.set_MaxInstanceLifetime
           (if notNil (MaxInstanceLifetime (changes s))
            then MaxInstanceLifetime e else fi.PtrTo 0%Z) req.
Proof.
  unfold applyMaxInstanceLifetime. unfold bind at 1, getChanges.
  destruct (MaxInstanceLifetime (changes s)) eqn:Hm; simpl.
  - unfold bind, nil, ret. simpl. intros [= <- <-]. auto.
  - unfold ret. intros [= <- <-].
    rewrite setNil_nil by (unfold isNil; now rewrite Hm). auto.
Qed.

Lemma applyTags_Ok a e r s s' :
  applyTags a e s = (Ok r, s') ->
  changes s' = setNil FTags (changes s) /\
  (notNil (Tags (changes s)) = false -> r = (None, None)).
Proof.
  unfold applyTags. unfold bind at 1, getChanges.
  destruct (Tags (changes s)) eqn:Ht; simpl.
  - unfold bind, nil, ret. simpl. intros [= <- <-]. split; [reflexivity|discriminate].
  - unfold ret. intros [= <- <-].
    rewrite setNil_nil by (unfold isNil; now rewrite Ht). auto.
Qed.

Lemma applyLoadBalancers_Ok a e r s s' :
  applyLoadBalancers a e s = (Ok r, s') ->
  changes s' = setNil FLoadBalancers (changes s) /\
  (notNil (LoadBalancers (changes s)) = false -> r = (None, None)).
Proof.
  unfold applyLoadBalancers. unfold bind at 1, getChanges.
  destruct (LoadBalancers (changes s)) eqn:Hl; simpl.
  - intros H. apply bind_Ok_inv in H as (d & s1 & H1 & H).
    assert (s1 = s) as ->.
    { destruct (Nat.ltb 0 (length (elems (LoadBalancers a)))).
      - apply bind_Ok_inv in H1 as (n & s2 & H1 & H2). unfold lift in H1.
        unfold ret in H2. congruence.
      - unfold ret in H1. congruence. }
    unfold bind, nil, ret in H. simpl in H. injection H as <- <-.
    split; [reflexivity|discriminate].
  - unfold ret. intros [= <- <-].
    rewrite setNil_nil by (unfold isNil; now rewrite Hl). auto.
Qed.

Lemma applyTargetGroups_Ok e r s s' :
  applyTargetGroups e s = (Ok r, s') ->
  changes s' = setNil FTargetGroups (changes s) /\
  (notNil (TargetGroups (changes s)) = false -> r = []) /\
  (notNil (TargetGroups (changes s)) = true -> concat r = AutoscalingTargetGroups e) /\
  Forall (fun chunk => length chunk <= attachLoadBalancerTargetGroupsMaxItems) r.
Proof.
  unfold applyTargetGroups. unfold bind at 1, getChanges.
  destruct (TargetGroups (changes s)) eqn:Ht; simpl.
  - intros H. apply bind_Ok_inv in H as (chunks & s1 & H1 & H).
    unfold bind, nil, ret in H. simpl in H. injection H as <- <-.
    split; [|split; [discriminate|]].
    + destruct (Nat.ltb 0 (length (elems (TargetGroups e)))).
      * destruct (sliceChunks _ _); [|discriminate]. unfold ret in H1.
        now injection H1 as _ <-.
      * unfold ret in H1. now injection H1 as _ <-.
    + destruct (Nat.ltb_spec 0 (length (elems (TargetGroups e)))) as [Hlen|Hlen].
      * destruct (sliceChunks_partition (AutoscalingTargetGroups e)
                    attachLoadBalancerTargetGroupsMaxItems)
          as (cs & Hcs & Hcat & Hall); [unfold attachLoadBalancerTargetGroupsMaxItems; lia|].
        rewrite Hcs in H1. unfold ret in H1. injection H1 as <- _. auto.
      * unfold ret in H1. injection H1 as <- _. split; [|constructor].
        intros _. unfold AutoscalingTargetGroups.
        destruct (elems (TargetGroups e)); [reflexivity|simpl in Hlen; lia].
  - unfold ret. intros [= <- <-].
    rewrite setNil_nil by (unfold isNil; now rewrite Ht).
    repeat split; auto. discriminate.
Qed.

Lemma applyMetrics_Ok e s s' :
  applyMetrics cloud e s = (Ok tt, s') ->
  changes s' = (if negb (Nat.eqb (length (elems (Metrics e))) 0)
                then setNils [FMetrics; FGranularity] else id) (changes s).
Proof.
  unfold applyMetrics. unfold bind at 1, getChanges.
  destruct (notNil (Metrics (changes s)) || notNil (Granularity (changes s))) eqn:Hg.
  - destruct (negb (Nat.eqb (length (elems (Metrics e))) 0)).
    + intros H. apply bind_Ok_inv in H as (err & s1 & H1 & H).
      unfold call in H1. injection H1 as <- <-.
      destruct (Autoscaling cloud _ _); [discriminate|].
      unfold bind, nil in H. simpl in H. injection H as <-. reflexivity.
    + unfold ret. now intros [= <-].
  - unfold ret. intros [= <-]. apply orb_false_iff in Hg as [H1 H2].
    destruct (negb (Nat.eqb (length (elems (Metrics e))) 0)); [|reflexivity].
    unfold setNils. simpl.
    rewrite (setNil_nil FMetrics) by (unfold isNil; now rewrite H1).
    rewrite setNil_nil by (unfold isNil; now rewrite H2). reflexivity.
Qed.

Lemma applySuspendProcesses_Ok a e s s' :
  applySuspendProcesses cloud a e s = (Ok tt, s') ->
  changes s' = setNil FSuspendProcesses (changes s).
Proof.
  unfold applySuspendProcesses. unfold bind at 1, getChanges.
  destruct (SuspendProcesses (changes s)) eqn:Hp; simpl.
  - intros H. apply bind_Ok_inv in H as (toSuspend & s1 & H1 & H).
    apply bind_Ok_inv in H as (toResume & s2 & H2 & H).
    apply bind_Ok_inv in H as ([] & s3 & H3 & H).
    apply bind_Ok_inv in H as ([] & s4 & H4 & H).
    unfold lift in H1, H2. injection H1 as _ <-. injection H2 as _ <-.
    assert (changes s3 = changes s) as E3.
    { destruct (Nat.ltb 0 (length toSuspend)).
      - apply bind_Ok_inv in H3 as (err & s5 & H3 & H5). unfold call in H3.
        injection H3 as <- <-. destruct (Autoscaling cloud _ _); [discriminate|].
        unfold ret in H5. now injection H5 as <-.
      - unfold ret in H3. now injection H3 as <-. }
    assert (changes s4 = changes s3) as E4.
    { destruct (Nat.ltb 0 (length toResume)).
      - apply bind_Ok_inv in H4 as (err & s5 & H4 & H5). unfold call in H4.
        injection H4 as <- <-. destruct (Autoscaling cloud _ _); [discriminate|].
        unfold ret in H5. now injection H5 as <-.
      - unfold ret in H4. now injection H4 as <-. }
    unfold nil in H. injection H as <-. simpl. now rewrite E4, E3.
  - unfold ret. intros [= <-].
    now rewrite setNil_nil by (unfold isNil; now rewrite Hp).
Qed.
End update_blocks.

Section prepare.
Import AutoscalingGroup.
Import autoscaling.
Context {IR IRq : Type}.
Context (overridesFromInstanceRequirements :
           IR -> autoscalingtypes.LaunchTemplateOverrides.t IRq).
Context (cloud : AWSCloud IRq).
Implicit Types s : state IR IRq.

Lemma prepareUpdate_Ok a e s0 p s1 :
  prepareUpdate overridesFromInstanceRequirements cloud a e s0 = (Ok p, s1) ->
  let c0 := changes s0 in
  changes s1 = renderedChanges e c0 /\
  basics (request p) =
    (Name e,
     if notNil (MinSize c0) then MinSize e else None,
     if notNil (MaxSize c0) then MaxSize e else None,
     if notNil (Subnets c0)
     then aws.String (strings.Join (AutoscalingGroupSubnets e) ",") else None,
     if notNil (MaxInstanceLifetime c0) then MaxInstanceLifetime e else fi.PtrTo 0%Z,
     if notNil (InstanceProtection c0) then InstanceProtection e else None,
     if notNil (CapacityRebalance c0) then CapacityRebalance e else None) /\
  (notNil (LaunchTemplate c0) ||
   (UseMixedInstancesPolicy a && negb (UseMixedInstancesPolicy e)) = false ->
   UpdateAutoScalingGroupInput.LaunchTemplate (request p) = None /\
   (forallb (fun f => isNil f c0)
            [FMixedOnDemandAboveBase; FMixedOnDemandBase; FMixedSpotAllocationStrategy;
             FMixedSpotInstancePools; FMixedSpotMaxPrice; FMixedInstanceOverrides;
             FInstanceRequirements] = true ->
    UpdateAutoScalingGroupInput.MixedInstancesPolicy (request p) = None)) /\
  (notNil (Tags c0) = false -> updateTagsRequest p = None /\ deleteTagsRequest p = None) /\
  (notNil (LoadBalancers c0) = false ->
   attachLBRequest p = None /\ detachLBRequest p = None) /\
  (notNil (TargetGroups c0) = false -> attachTGRequests p = []) /\
  (notNil (TargetGroups c0) = true ->
   concat (attachTGRequests p) = AutoscalingTargetGroups e) /\
  Forall (fun chunk => length chunk <= attachLoadBalancerTargetGroupsMaxItems)
         (attachTGRequests p).
Proof.
  unfold prepareUpdate. intros H. cbv zeta.
  apply bind_Ok_inv in H as (r1 & t1 & H1 & H).
  apply bind_Ok_inv in H as (r2 & t2 & H2 & H).
  apply bind_Ok_inv in H as (r3 & t3 & H3 & H).
  apply bind_Ok_inv in H as (r4 & t4 & H4 & H).
  apply bind_Ok_inv in H as (r5 & t5 & H5 & H).
  apply bind_Ok_inv in H as (r6 & t6 & H6 & H).
  apply bind_Ok_inv in H as (r7 & t7 & H7 & H).
  apply bind_Ok_inv in H as (r8 & t8 & H8 & H).
  apply bind_Ok_inv in H as (r9 & t9 & H9 & H).
  apply bind_Ok_inv in H as (r10 & t10 & H10 & H).
  apply bind_Ok_inv in H as (r11 & t11 & H11 & H).
  apply bind_Ok_inv in H as (tags & t12 & H12 & H).
  apply bind_Ok_inv in H as (lbs & t13 & H13 & H).
  apply bind_Ok_inv in H as (tgs & t14 & H14 & H).
  apply bind_Ok_inv in H as ([] & t15 & H15 & H).
  apply bind_Ok_inv in H as ([] & t16 & H16 & H).
  apply bind_Ok_inv in H as (r17 & t17 & H17 & H).
  apply bind_Ok_inv in H as (r18 & t18 & H18 & H).
  unfold ret in H. injection H as <- <-.
  apply applyLaunchTemplate_Ok in H1 as (C1 & _ & B1 & G1).
  apply applyMixedOnDemandAboveBase_Ok in H2 as (C2 & _ & B2 & L2 & G2).
  apply applyMixedOnDemandBase_Ok in H3 as (C3 & _ & B3 & L3 & G3).
  apply applyMixedSpotAllocationStrategy_Ok in H4 as (C4 & _ & B4 & L4 & G4).
  apply applyMixedSpotInstancePools_Ok in H5 as (C5 & _ & B5 & L5 & G5).
  apply applyMixedSpotMaxPrice_Ok in H6 as (C6 & _ & B6 & L6 & G6).
  apply applyOverrides_Ok in H7 as (C7 & B7 & L7 & G7).
  apply applyMinSize_Ok in H8 as (C8 & R8).
  apply applyMaxSize_Ok in H9 as (C9 & R9).
  apply applySubnets_Ok in H10 as (C10 & R10).
  apply applyMaxInstanceLifetime_Ok in H11 as (C11 & R11).
  apply applyTags_Ok in H12 as (C12 & R12).
  apply applyLoadBalancers_Ok in H13 as (C13 & R13).
  apply applyTargetGroups_Ok in H14 as (C14 & R14 & R14' & R14'').
  apply applyMetrics_Ok in H15 as C15.
  apply applySuspendProcesses_Ok in H16 as C16.
  apply applyInstanceProtection_Ok in H17 as (C17 & R17).
  apply applyCapacityRebalance_Ok in H18 as (C18 & R18).
  clear H15 H16.
  rewrite C1 in *. rewrite C2 in *. rewrite C3 in *. rewrite C4 in *. rewrite C5 in *.
  rewrite C6 in *. rewrite C7 in *. rewrite C8 in *. rewrite C9 in *. rewrite C10 in *.
  rewrite C11 in *. rewrite C12 in *. rewrite C13 in *.
  clear C1 C2 C3 C4 C5 C6 C7 C8 C9 C10 C11 C12 C13.
  set (c0 := changes s0) in *. clearbody c0.
  assert (C : changes t18 = renderedChanges e c0)
    by (rewrite C18, C17, C16, C15, C14; reflexivity).
  assert (E17 : InstanceProtection (changes t16) = InstanceProtection c0)
    by (rewrite C16, C15, C14; destruct (negb (Nat.eqb (length (elems (Metrics e))) 0)); reflexivity).
  assert (E18 : CapacityRebalance (changes t17) = CapacityRebalance c0)
    by (rewrite C17, C16, C15, C14; destruct (negb (Nat.eqb (length (elems (Metrics e))) 0)); reflexivity).
  rewrite E17 in R17. rewrite E18 in R18. clear C14 C15 C16 C17 C18 E17 E18.
  cbn -[basics renderedChanges] in *.
  assert (B : basics r7 = (Name e, None, None, None, None, None, None))
    by (rewrite B7, B6, B5, B4, B3, B2, B1; reflexivity).
  subst r18 r17 r11 r10 r9 r8.
  split; [exact C|]. split; [|split; [|split; [|split; [|split; [|split]]]]];
    try assumption.
  - clear -B. unfold basics in *.
    destruct (notNil (MinSize c0)), (notNil (MaxSize c0)), (notNil (Subnets c0)),
      (notNil (MaxInstanceLifetime c0)), (notNil (InstanceProtection c0)),
      (notNil (CapacityRebalance c0)); simpl; congruence.
  - intros Hg. specialize (G1 Hg). split.
    + assert (L : UpdateAutoScalingGroupInput.LaunchTemplate r7 = None)
        by (rewrite L7, L6, L5, L4, L3, L2, G1; reflexivity).
      clear -L.
      destruct (notNil (MinSize c0)), (notNil (MaxSize c0)), (notNil (Subnets c0)),
        (notNil (MaxInstanceLifetime c0)), (notNil (InstanceProtection c0)),
        (notNil (CapacityRebalance c0)); simpl; exact L.
    + intros Hall. simpl in Hall.
      repeat (apply andb_true_iff in Hall as [?Hn Hall]).
      repeat match goal with
             | H : negb (notNil ?x) = true |- _ => apply negb_true_iff in H
             end.
      rewrite G7, G6, G5, G4, G3, G2, G1 by assumption.
      destruct (notNil (MinSize c0)), (notNil (MaxSize c0)), (notNil (Subnets c0)),
        (notNil (MaxInstanceLifetime c0)), (notNil (InstanceProtection c0)),
        (notNil (CapacityRebalance c0)); reflexivity.
  - intros Ht. rewrite (R12 Ht). auto.
  - intros Hl. rewrite (R13 Hl). auto.
Qed.
End prepare.

(** ** The calls of a render *)

Section render_calls.
Import AutoscalingGroup.
Import autoscaling.
Context {IR IRq : Type}.
Context (overridesFromInstanceRequirements :
           IR -> autoscalingtypes.LaunchTemplateOverrides.t IRq).
Context (cloud : AWSCloud IRq).
Implicit Types s : state IR IRq.
Implicit Types a e : t IR.
Implicit Types p : prepared IRq.

Lemma follows_ret {A} (a : A) : follows [] (ret (IR := IR) (IRq := IRq) a).
Proof. intros s. exists [], []. simpl. rewrite app_nil_r. auto. Qed.

Lemma follows_callOrFail c msg : follows [c] (callOrFail (IR := IR) cloud c msg).
Proof.
  intros s. unfold callOrFail, bind, call.
  destruct (Autoscaling cloud (calls s) c) as [err|]; simpl.
  - exists [c], []. repeat split; auto.
  - exists [c], []. repeat split; auto.
Qed.

Lemma follows_bind {A B} l1 l2 (m : M IR IRq A) (k : A -> M IR IRq B) :
  follows l1 m -> (forall x, follows l2 (k x)) -> follows (l1 ++ l2) (bind m k).
Proof.
  intros Hm Hk s. unfold bind.
  destruct (Hm s) as (done & rest & Hl & Hc & Hch & Hok).
  destruct (m s) as [[x|err|] s1]; simpl in *.
  - rewrite (Hok x eq_refl), app_nil_r in Hl. subst done.
    destruct (Hk x s1) as (done' & rest' & Hl' & Hc' & Hch' & Hok').
    exists (l1 ++ done'), rest'. rewrite Hc', Hc, Hch', Hch, Hl', !app_assoc. auto.
  - exists done, (rest ++ l2). rewrite Hl, app_assoc. repeat split; auto. discriminate.
  - exists done, (rest ++ l2). rewrite Hl, app_assoc. repeat split; auto. discriminate.
Qed.

Lemma follows_attachTargetGroups e chunks :
  follows (map (api.AttachLoadBalancerTargetGroups (Name e)) chunks)
          (attachTargetGroups (IR := IR) cloud e chunks).
Proof.
  induction chunks as [|chunk chunks IH]; simpl.
  - apply follows_ret.
  - apply (follows_bind [_]); [apply follows_callOrFail | intros _; exact IH].
Qed.

Lemma sendUpdate_follows e p : follows (sendCalls e p) (sendUpdate cloud e p).
Proof.
  unfold sendCalls, sendUpdate.
  apply follows_bind; [apply follows_callOrFail | intros _].
  apply follows_bind; [|intros _].
  { destruct (deleteTagsRequest p) as [tags|]; [|apply follows_ret].
    destruct (Nat.ltb 0 (length tags)); [apply follows_callOrFail | apply follows_ret]. }
  apply follows_bind; [|intros _].
  { destruct (updateTagsRequest p); [apply follows_callOrFail | apply follows_ret]. }
  apply follows_bind; [|intros _].
  { destruct (detachLBRequest p); [apply follows_callOrFail | apply follows_ret]. }
  apply follows_bind; [|intros _].
  { destruct (attachLBRequest p); [apply follows_callOrFail | apply follows_ret]. }
  apply follows_attachTargetGroups.
Qed.

(** How a run of the update path goes: the calls made while [changes] is
    read, then, if that half succeeds, the calls of the second half up to
    the first that fails. *)
Lemma RenderAWS_update_run a e changes0 out s :
  RenderAWS_update overridesFromInstanceRequirements cloud a e
                   {| changes := changes0; calls := [] |} = (out, s) ->
  exists pre,
    Forall early pre /\
    ((calls s = pre /\ forall u, out <> Ok u) \/
     exists p s1 done rest,
       prepareUpdate overridesFromInstanceRequirements cloud a e
                     {| changes := changes0; calls := [] |} = (Ok p, s1) /\
       sendCalls e p = done ++ rest /\
       calls s = pre ++ done /\
       changes s = changes s1 /\
       (forall u, out = Ok u -> rest = [])).
Proof.
  unfold RenderAWS_update, bind.
  destruct (prepareUpdate_emits overridesFromInstanceRequirements cloud a e
              {| changes := changes0; calls := [] |}) as (pre & Hpre & Hearly).
  simpl in Hpre.
  destruct (prepareUpdate _ _ a e _) as [[p|err|] s1] eqn:Hp; simpl in Hpre.
  - intros Hs. exists pre. split; [assumption|]. right.
    destruct (sendUpdate_follows e p s1) as (done & rest & Hl & Hc & Hch & Hok).
    rewrite Hs in Hc, Hch, Hok. simpl in *.
    exists p, s1, done, rest. rewrite Hc, Hpre. repeat split; auto.
  - intros [= <- <-]. exists pre. split; [assumption|]. left. split; [assumption|discriminate].
  - intros [= <- <-]. exists pre. split; [assumption|]. left. split; [assumption|discriminate].
Qed.

Lemma early_not_update pre req :
  Forall (early (IRq := IRq)) pre -> ~ In (api.UpdateAutoScalingGroup req) pre.
Proof.
  intros Hall Hin. rewrite Forall_forall in Hall.
  apply list_elem_of_In in Hin. exact (Hall _ Hin).
Qed.

Lemma attachedTargetGroups_app (l1 l2 : list (api.call IRq)) :
  attachedTargetGroups (l1 ++ l2) = attachedTargetGroups l1 ++ attachedTargetGroups l2.
Proof. unfold attachedTargetGroups. apply flat_map_app. Qed.

Lemma attachedTargetGroups_none (P : api.call IRq -> Prop) l :
  (forall name arns, ~ P (api.AttachLoadBalancerTargetGroups name arns)) ->
  Forall P l -> attachedTargetGroups l = [].
Proof.
  intros HP. induction 1 as [|c l Hc _ IH]; [reflexivity|].
  simpl. rewrite IH. destruct c; try reflexivity. now apply HP in Hc.
Qed.

Lemma attachedTargetGroups_map name chunks :
  attachedTargetGroups (map (api.AttachLoadBalancerTargetGroups (IRq := IRq) name) chunks)
  = chunks.
Proof. induction chunks as [|c cs IH]; simpl; [reflexivity|]. now rewrite IH. Qed.

(** The target group requests of the second half of the update path. *)
Lemma attachedTargetGroups_sendCalls e p :
  attachedTargetGroups (sendCalls e p) = attachTGRequests p.
Proof.
  unfold sendCalls. rewrite !attachedTargetGroups_app, attachedTargetGroups_map.
  simpl. destruct (deleteTagsRequest p) as [tags|];
    [destruct (Nat.ltb 0 (length tags))|];
    destruct (updateTagsRequest p), (detachLBRequest p), (attachLBRequest p); reflexivity.
Qed.

(** The calls of the second half, one kind after the other. *)
Lemma sendCalls_In e p c :
  In c (sendCalls e p) ->
  c = api.UpdateAutoScalingGroup (request p) \/
  (exists tags, deleteTagsRequest p = Some tags /\ c = api.DeleteTags tags) \/
  (exists tags, updateTagsRequest p = Some tags /\ c = api.CreateOrUpdateTags tags) \/
  (exists names, detachLBRequest p = Some names /\
                 c = api.DetachLoadBalancers (Name e) names) \/
  (exists names, attachLBRequest p = Some names /\
                 c = api.AttachLoadBalancers (Name e) names) \/
  (exists arns, In arns (attachTGRequests p) /\
                c = api.AttachLoadBalancerTargetGroups (Name e) arns).
Proof.
  unfold sendCalls. intros H.
  apply in_app_or in H as [H|H]; [left; now destruct H as [<-|[]]|right].
  apply in_app_or in H as [H|H].
  { left. destruct (deleteTagsRequest p) as [tags|]; [|destruct H].
    destruct (Nat.ltb 0 (length tags)); [|destruct H].
    destruct H as [<-|[]]. eauto. }
  right. apply in_app_or in H as [H|H].
  { left. destruct (updateTagsRequest p) as [tags|]; [|destruct H].
    destruct H as [<-|[]]. eauto. }
  right. apply in_app_or in H as [H|H].
  { left. destruct (detachLBRequest p) as [names|]; [|destruct H].
    destruct H as [<-|[]]. eauto. }
  right. apply in_app_or in H as [H|H].
  { left. destruct (attachLBRequest p) as [names|]; [|destruct H].
    destruct H as [<-|[]]. eauto. }
  right. apply in_map_iff in H as (arns & <- & Hin). eauto.
Qed.

Lemma updateRequests_sendCalls e p req :
  In (api.UpdateAutoScalingGroup req) (sendCalls e p) -> req = request p.
Proof.
  intros H. apply sendCalls_In in H
    as [H|[(x & _ & H)|[(x & _ & H)|[(x & _ & H)|[(x & _ & H)|(x & _ & H)]]]]];
    try discriminate.
  now injection H.
Qed.
End render_calls.

(** ** The create path *)

Section create_path.
Import AutoscalingGroup.
Import autoscaling.
Context {IR IRq : Type}.
Context (overridesFromInstanceRequirements :
           IR -> autoscalingtypes.LaunchTemplateOverrides.t IRq).
Context (cloud : AWSCloud IRq).
Implicit Types s : state IR IRq.
Implicit Types v e : t IR.

(** The loop that collects the load balancer names only looks load
    balancers up, and no error it returns asks to try again later. *)
Lemma createLoadBalancerNames_run lbs names s :
  exists extra,
    calls (createLoadBalancerNames cloud lbs names s).2 = calls s ++ extra /\
    Forall lookup_ extra /\
    changes (createLoadBalancerNames cloud lbs names s).2 = changes s /\
    forall err, (createLoadBalancerNames cloud lbs names s).1 = Fail err ->
                is_TryAgainLater err = false.
Proof.
  revert names s. induction lbs as [|k rest IH]; intros names s; simpl.
  - exists []. rewrite app_nil_r. repeat split; auto. discriminate.
  - destruct (ClassicLoadBalancer.LoadBalancerName k) as [name|]; [apply IH|].
    unfold bind, findELBByNameTag.
    assert (Hone : Forall (lookup_ (IRq := IRq))
                          [api.FindELBByNameTag (fi.ValueOf (ClassicLoadBalancer.GetName k))])
      by (constructor; [exact I|constructor]).
    destruct (FindELBByNameTagAnswer cloud (calls s) _) as [err|[lbDesc|]]; simpl.
    + eexists. split; [reflexivity|]. split; [exact Hone|]. split; [reflexivity|].
      now intros ? [= <-].
    + destruct (IH (names ++ [aws.ToString (elbtypes.LoadBalancerName lbDesc)])
                   {| changes := changes s;
                      calls := calls s ++
                               [api.FindELBByNameTag
                                  (fi.ValueOf (ClassicLoadBalancer.GetName k))] |})
        as (extra & Hc & Hall & Hch & Hf).
      simpl in *. eexists (_ :: extra). rewrite Hc, <- app_assoc. simpl.
      split; [reflexivity|]. split; [|split; assumption].
      constructor; [exact I|assumption].
    + eexists. split; [reflexivity|]. split; [exact Hone|]. split; [reflexivity|].
      now intros ? [= <-].
Qed.

(** How a run of the create path goes: load balancer lookups, then either
    an end before the create call, or the create call; if that call fails
    the run ends with [createFailure], otherwise metrics are enabled and
    processes may be suspended. *)
Lemma RenderAWS_create_run v e changes0 out s :
  RenderAWS_create overridesFromInstanceRequirements cloud v e
                   {| changes := changes0; calls := [] |} = (out, s) ->
  changes s = changes0 /\
  exists pre,
    Forall lookup_ pre /\
    ((calls s = pre /\
      forall err, out = Fail err -> is_TryAgainLater err = false) \/
     exists req,
       match Autoscaling cloud pre (api.CreateAutoScalingGroup req) with
       | Some cerr =>
           calls s = pre ++ [api.CreateAutoScalingGroup req] /\
           out = Fail (createFailure cerr)
       | None =>
           exists post,
             calls s =
               pre ++ [api.CreateAutoScalingGroup req;
                       api.EnableMetricsCollection (Name e) (Granularity e) (Metrics e)]
                   ++ post /\
             Forall early post /\
             forall err, out = Fail err -> is_TryAgainLater err = false
       end).
Proof.
  unfold RenderAWS_create. unfold bind at 1.
  destruct (createLoadBalancerNames_run (elems (LoadBalancers e)) []
              {| changes := changes0; calls := [] |}) as (pre & Hc & Hall & Hch & Hf).
  simpl in Hc, Hch.
  destruct (createLoadBalancerNames cloud _ _ _) as [[names|err|] s1]; simpl in *.
  2: { intros [= <- <-]. split; [assumption|]. exists pre. split; [assumption|].
       left. split; [assumption|]. intros err' [= <-]. auto. }
  2: { intros [= <- <-]. split; [assumption|]. exists pre. split; [assumption|].
       left. split; [assumption|]. discriminate. }
  unfold bind at 1.
  assert (Hcall : forall req,
    bind (call cloud (api.CreateAutoScalingGroup req))
      (fun err =>
         match err with
         | Some err0 =>
             if String.eqb (ErrorCode err0) "ValidationError" &&
                strings.Contains (ErrorMessage err0) "Invalid IAM Instance Profile name"
             then fail (fi.NewTryAgainLaterError
                          "waiting for the IAM Instance Profile to be propagated")
             else fail (Errorf ("error creating AutoScalingGroup: " +:+ ErrorMessage err0))
         | None =>
             bind (call cloud (api.EnableMetricsCollection (Name e) (Granularity e)
                                 (Metrics e)))
               (fun err0 =>
                  match err0 with
                  | Some err1 =>
                      fail (Errorf ("error enabling metrics collection for AutoscalingGroup: "
                                    +:+ ErrorString err1))
                  | None =>
                      match SuspendProcesses e with
                      | Some processes =>
                          if Nat.ltb 0 (length processes)
                          then bind (call cloud (api.SuspendProcesses (Name e) processes))
                                 (fun err1 =>
                                    match err1 with
                                    | Some err2 =>
                                        fail (Errorf ("error suspending processes: "
                                                      +:+ ErrorString err2))
                                    | None => ret tt
                                    end)
                          else ret tt
                      | None => panic
                      end
                  end)
         end) s1 = (out, s) ->
    changes s = changes0 /\
    match Autoscaling cloud pre (api.CreateAutoScalingGroup req) with
    | Some cerr =>
        calls s = pre ++ [api.CreateAutoScalingGroup req] /\
        out = Fail (createFailure cerr)
    | None =>
        exists post,
          calls s =
            pre ++ [api.CreateAutoScalingGroup req;
                    api.EnableMetricsCollection (Name e) (Granularity e) (Metrics e)]
                ++ post /\
          Forall early post /\
          forall err, out = Fail err -> is_TryAgainLater err = false
    end).
  { intros req. unfold bind, call, fail, ret, panic. simpl. rewrite Hc, Hch.
    destruct (Autoscaling cloud pre (api.CreateAutoScalingGroup req)) as [cerr|] eqn:Hans.
    - unfold createFailure.
      destruct (String.eqb (ErrorCode cerr) "ValidationError" && _);
        intros [= <- <-]; simpl; auto.
    - destruct (Autoscaling cloud _ (api.EnableMetricsCollection _ _ _)) as [merr|]; simpl.
      + intros [= <- <-]. simpl. split; [reflexivity|]. exists [].
        split; [now rewrite <- !app_assoc|]. split; [constructor|]. now intros ? [= <-].
      + destruct (SuspendProcesses e) as [processes|]; simpl.
        * destruct (Nat.ltb 0 (length processes)); simpl.
          -- destruct (Autoscaling cloud _ (api.SuspendProcesses _ _)) as [serr|];
               intros [= <- <-]; simpl; (split; [reflexivity|]);
               exists [api.SuspendProcesses (Name e) processes];
               (split; [now rewrite <- !app_assoc|]);
               (split; [constructor; [exact I|constructor]|]).
             ++ now intros ? [= <-].
             ++ discriminate.
          -- intros [= <- <-]. simpl. split; [reflexivity|]. exists [].
             split; [now rewrite <- !app_assoc|]. split; [constructor|]. discriminate.
        * intros [= <- <-]. simpl. split; [reflexivity|]. exists [].
          split; [now rewrite <- !app_assoc|]. split; [constructor|]. discriminate. }
  destruct (UseMixedInstancesPolicy e); destruct (LaunchTemplate e) as [lt|];
    unfold ret, panic, fail.
  - intros H. apply Hcall in H as [H1 H2]. split; [assumption|].
    exists pre. split; [assumption|]. right. eexists. exact H2.
  - intros [= <- <-]. split; [assumption|]. exists pre. split; [assumption|].
    left. split; [assumption|discriminate].
  - intros H. apply Hcall in H as [H1 H2]. split; [assumption|].
    exists pre. split; [assumption|]. right. eexists. exact H2.
  - intros [= <- <-]. split; [assumption|]. exists pre. split; [assumption|].
    left. split; [assumption|]. now intros ? [= <-].
Qed.
End create_path.


(** ** Calls the cloud refuses *)

Section refusal.
Import AutoscalingGroup.
Context {IR IRq : Type}.
Context (cloud : AWSCloud IRq).
Implicit Types s : state IR IRq.

Lemma stops_quiet {A} (m : M IR IRq A) :
  (forall s, calls (m s).2 = calls s) -> stopsWhenRefused cloud m.
Proof.
  intros H s. exists []. rewrite H, app_nil_r. split; [reflexivity|].
  intros before c after Heq. now destruct before.
Qed.

Lemma stops_ret {A} (a : A) : stopsWhenRefused cloud (ret (IR := IR) a).
Proof. now apply stops_quiet. Qed.

Lemma stops_fail {A} err : stopsWhenRefused cloud (fail (IR := IR) (A := A) err).
Proof. now apply stops_quiet. Qed.

Lemma stops_panic {A} : stopsWhenRefused cloud (panic (IR := IR) (A := A)).
Proof. now apply stops_quiet. Qed.

Lemma stops_lift {A} (o : outcome A) : stopsWhenRefused cloud (lift (IR := IR) o).
Proof. now apply stops_quiet. Qed.

Lemma stops_getChanges : stopsWhenRefused cloud (getChanges (IR := IR) (IRq := IRq)).
Proof. now apply stops_quiet. Qed.

Lemma stops_nil f : stopsWhenRefused cloud (nil (IR := IR) (IRq := IRq) f).
Proof. now apply stops_quiet. Qed.

(** Where an element of [l1 ++ l2] is. *)
Lemma app_eq_middle {A} (l1 l2 before after : list A) (c : A) :
  l1 ++ l2 = before ++ c :: after ->
  (exists after1, l1 = before ++ c :: after1 /\ after = after1 ++ l2) \/
  (exists before2, before = l1 ++ before2 /\ l2 = before2 ++ c :: after).
Proof.
  revert before. induction l1 as [|x l1 IH]; intros before H; simpl in H.
  - right. now exists before.
  - destruct before as [|y before]; simpl in H; injection H as <- H.
    + left. exists l1. now subst.
    + destruct (IH _ H) as [(after1 & -> & ->)|(before2 & -> & ->)].
      * left. now exists after1.
      * right. now exists before2.
Qed.

Lemma stops_bind {A B} (m : M IR IRq A) (k : A -> M IR IRq B) :
  stopsWhenRefused cloud m -> (forall a, stopsWhenRefused cloud (k a)) ->
  stopsWhenRefused cloud (bind m k).
Proof.
  intros Hm Hk s. unfold bind. destruct (Hm s) as (extra & Hc & Hstop).
  destruct (m s) as [[a|err|] s1]; simpl in *.
  2:{ exists extra. split; [exact Hc|]. intros before c after Heq Href.
      destruct (Hstop _ _ _ Heq Href) as [-> _]. split; [reflexivity|now eexists]. }
  2:{ exists extra. split; [exact Hc|]. intros before c after Heq Href.
      destruct (Hstop _ _ _ Heq Href) as (_ & err & Herr). discriminate. }
  destruct (Hk a s1) as (extra' & Hc' & Hstop').
  exists (extra ++ extra'). rewrite Hc', Hc, app_assoc. split; [reflexivity|].
  intros before c after Heq Href.
  apply app_eq_middle in Heq as [(after1 & -> & ->)|(before2 & -> & ->)].
  - destruct (Hstop _ _ _ eq_refl Href) as (_ & err & Herr). discriminate.
  - apply (Hstop' before2 c after eq_refl). now rewrite Hc, <- app_assoc.
Qed.

(** A call whose error ends the run. *)
Lemma stops_call {B} (c : api.call IRq) (k : option cloud_error -> M IR IRq B) :
  ~ lookup_ c ->
  (forall cerr s, calls (k (Some cerr) s).2 = calls s /\
                  exists err, (k (Some cerr) s).1 = Fail err) ->
  stopsWhenRefused cloud (k None) ->
  stopsWhenRefused cloud (bind (call cloud c) k).
Proof.
  intros Hc Hfail Hk s. unfold bind, call.
  assert (Href : forall before, refused cloud before c <-> Autoscaling cloud before c <> None)
    by (intros before; destruct c; simpl in *; tauto).
  destruct (Autoscaling cloud (calls s) c) as [cerr|] eqn:Hans.
  - destruct (Hfail cerr {| changes := changes s; calls := calls s ++ [c] |}) as (Hq & Herr).
    exists [c]. split; [exact Hq|].
    intros before c' after Heq _.
    destruct before as [|x [|y before]]; try discriminate.
    injection Heq as <- <-. split; [reflexivity|exact Herr].
  - destruct (Hk {| changes := changes s; calls := calls s ++ [c] |})
      as (extra & Hq & Hstop). simpl in Hq, Hstop.
    exists (c :: extra). split; [now rewrite Hq, <- app_assoc|].
    intros before c' after Heq Href'.
    destruct before as [|x before]; simpl in Heq; injection Heq as <- Heq.
    + rewrite app_nil_r in Href'. apply Href in Href'. congruence.
    + apply (Hstop before c' after Heq). now rewrite <- app_assoc.
Qed.

Lemma stops_callOrFail (c : api.call IRq) msg :
  ~ lookup_ c -> stopsWhenRefused cloud (callOrFail (IR := IR) cloud c msg).
Proof.
  intros Hc. unfold callOrFail. apply stops_call; [exact Hc| |apply stops_ret].
  intros cerr s. split; [reflexivity|]. now eexists.
Qed.

(** A lookup that ends the run unless it gives a load balancer. *)
Lemma stops_findELBByNameTag {B} name
    (k : cloud_error + option elbtypes.LoadBalancerDescription -> M IR IRq B) :
  (forall answer s,
      (forall desc, answer <> inr (Some desc)) ->
      calls (k answer s).2 = calls s /\ exists err, (k answer s).1 = Fail err) ->
  (forall desc, stopsWhenRefused cloud (k (inr (Some desc)))) ->
  stopsWhenRefused cloud (bind (findELBByNameTag cloud name) k).
Proof.
  intros Hfail Hk s. unfold bind, findELBByNameTag.
  set (s1 := {| changes := changes s; calls := calls s ++ [api.FindELBByNameTag name] |}).
  destruct (FindELBByNameTagAnswer cloud (calls s) name) as [cerr|[desc|]] eqn:Hans.
  2:{ destruct (Hk desc s1) as (extra & Hq & Hstop). simpl in Hq, Hstop.
      exists (api.FindELBByNameTag name :: extra).
      split; [now rewrite Hq, <- app_assoc|].
      intros before c' after Heq Href'.
      destruct before as [|x before]; simpl in Heq; injection Heq as <- Heq.
      - rewrite app_nil_r in Href'. simpl in Href'. now rewrite Hans in Href'.
      - apply (Hstop before c' after Heq). now rewrite <- app_assoc. }
  - destruct (Hfail (inl cerr) s1) as (Hq & Herr); [discriminate|].
    exists [api.FindELBByNameTag name]. split; [exact Hq|].
    intros before c' after Heq _.
    destruct before as [|x [|y before]]; try discriminate.
    injection Heq as <- <-. split; [reflexivity|exact Herr].
  - destruct (Hfail (inr None) s1) as (Hq & Herr); [discriminate|].
    exists [api.FindELBByNameTag name]. split; [exact Hq|].
    intros before c' after Heq _.
    destruct before as [|x [|y before]]; try discriminate.
    injection Heq as <- <-. split; [reflexivity|exact Herr].
Qed.

Lemma plays_ret : plays cloud [] (ret (IR := IR) tt).
Proof. intros s. left. simpl. now rewrite app_nil_r. Qed.

Lemma plays_callOrFail (c : api.call IRq) msg :
  ~ lookup_ c -> plays cloud [c] (callOrFail (IR := IR) cloud c msg).
Proof.
  intros Hc s. unfold callOrFail, bind, call.
  destruct (Autoscaling cloud (calls s) c) as [cerr|] eqn:Hans; simpl.
  - right. exists [], c, []. rewrite app_nil_r. repeat split.
    + destruct c; simpl in *; try congruence. now destruct Hc.
    + now eexists.
  - left. auto.
Qed.

Lemma plays_bind script1 script2 (m : M IR IRq unit) (k : unit -> M IR IRq unit) :
  plays cloud script1 m -> plays cloud script2 (k tt) ->
  plays cloud (script1 ++ script2) (bind m k).
Proof.
  intros Hm Hk s. unfold bind.
  destruct (Hm s) as [[Hok Hc]|(done & c & rest & -> & Hc & Href & err & Herr)].
  - destruct (m s) as [[[]|?|] s1]; simpl in Hok, Hc; try discriminate.
    destruct (Hk s1) as [[Hok' Hc']|(done & c & rest & -> & Hc' & Href & Herr)].
    + left. split; [exact Hok'|]. now rewrite Hc', Hc, app_assoc.
    + right. exists (script1 ++ done), c, rest. rewrite <- !app_assoc.
      split; [reflexivity|]. split; [now rewrite Hc', Hc, <- app_assoc|].
      split; [now rewrite Hc, <- app_assoc in Href|exact Herr].
  - right. exists done, c, (rest ++ script2). rewrite <- app_assoc.
    split; [reflexivity|].
    destruct (m s) as [[[]|?|] s1]; simpl in Herr, Hc; try discriminate.
    simpl. split; [exact Hc|]. split; [exact Href|]. now exists err.
Qed.
End refusal.

(** Proves [stopsWhenRefused] for a block by following its text. *)
Ltac stops_block :=
  repeat first
    [ apply stops_ret | apply stops_fail | apply stops_panic | apply stops_lift
    | apply stops_getChanges | apply stops_nil
    | apply stops_callOrFail; intros []
    | apply stops_call;
      [ intros []
      | intros ? ?; cbn beta iota;
        repeat match goal with
               | |- context [if ?b then _ else _] => destruct b
               end;
        (split; [reflexivity|eexists; reflexivity])
      | cbn beta iota ]
    | apply stops_bind; [|intros ?]
    | match goal with
      | |- stopsWhenRefused _ (if ?b then _ else _) => destruct b
      | |- stopsWhenRefused _ (match ?x with _ => _ end) => destruct x
      end ].

Section stops.
Import AutoscalingGroup.
Import autoscaling.
Context {IR IRq : Type}.
Context (overridesFromInstanceRequirements :
           IR -> autoscalingtypes.LaunchTemplateOverrides.t IRq).
Context (cloud : AWSCloud IRq).
Implicit Types s : state IR IRq.
Implicit Types v a e : t IR.

Lemma createLoadBalancerNames_stops lbs names :
  stopsWhenRefused cloud (createLoadBalancerNames (IR := IR) cloud lbs names).
Proof.
  revert names. induction lbs as [|k rest IH]; intros names; simpl.
  - apply stops_ret.
  - destruct (ClassicLoadBalancer.LoadBalancerName k); [apply IH|].
    apply stops_findELBByNameTag.
    + intros [cerr|[desc|]] s Hno; simpl.
      * split; [reflexivity|now eexists].
      * now destruct (Hno desc).
      * split; [reflexivity|now eexists].
    + intros desc. apply IH.
Qed.

Lemma RenderAWS_create_stops v e :
  stopsWhenRefused cloud (RenderAWS_create overridesFromInstanceRequirements cloud v e).
Proof.
  unfold RenderAWS_create.
  apply stops_bind; [apply createLoadBalancerNames_stops|intros names].
  stops_block.
Qed.

Lemma attachTargetGroups_stops e chunks :
  stopsWhenRefused cloud (attachTargetGroups (IR := IR) cloud e chunks).
Proof.
  induction chunks as [|chunk chunks IH]; simpl.
  - apply stops_ret.
  - apply stops_bind; [apply stops_callOrFail; intros []|intros _; exact IH].
Qed.

Lemma prepareUpdate_stops a e :
  stopsWhenRefused cloud (prepareUpdate overridesFromInstanceRequirements cloud a e).
Proof.
  unfold prepareUpdate, applyLaunchTemplate, applyMixedOnDemandAboveBase,
    applyMixedOnDemandBase, applyMixedSpotAllocationStrategy, applyMixedSpotInstancePools,
    applyMixedSpotMaxPrice, applyOverrides, applyMinSize, applyMaxSize, applySubnets,
    applyMaxInstanceLifetime, applyTags, applyLoadBalancers, applyTargetGroups,
    applyMetrics, applySuspendProcesses, applyInstanceProtection, applyCapacityRebalance,
    setDistribution, appendOverrides.
  stops_block.
Qed.

Lemma sendUpdate_stops e p : stopsWhenRefused cloud (sendUpdate (IR := IR) cloud e p).
Proof.
  unfold sendUpdate.
  repeat (apply stops_bind; [stops_block|intros _]).
  apply attachTargetGroups_stops.
Qed.

Lemma RenderAWS_stops v (actual : option (t IR)) e changes0 out s :
  RenderAWS overridesFromInstanceRequirements cloud v actual e changes0 = (out, s) ->
  forall before c after,
    calls s = before ++ c :: after ->
    refused cloud before c ->
    after = [] /\ exists err, out = Fail err.
Proof.
  intros H before c after Hc Href.
  assert (Hstops : stopsWhenRefused cloud
                     (match actual with
                      | None => RenderAWS_create overridesFromInstanceRequirements cloud v e
                      | Some a => RenderAWS_update overridesFromInstanceRequirements cloud a e
                      end)).
  { destruct actual; [|apply RenderAWS_create_stops].
    unfold RenderAWS_update.
    apply stops_bind; [apply prepareUpdate_stops|intros p; apply sendUpdate_stops]. }
  destruct (Hstops {| changes := changes0; calls := [] |}) as (extra & Hq & Hstop).
  unfold RenderAWS in H. simpl in Hq.
  assert (Hrun : (match actual with
                  | None => RenderAWS_create overridesFromInstanceRequirements cloud v e
                  | Some a => RenderAWS_update overridesFromInstanceRequirements cloud a e
                  end) {| changes := changes0; calls := [] |} = (out, s))
    by (now destruct actual).
  rewrite Hrun in Hq, Hstop. simpl in Hq, Hstop. subst extra.
  exact (Hstop before c after Hc Href).
Qed.

Lemma attachTargetGroups_plays e chunks :
  plays cloud (map (api.AttachLoadBalancerTargetGroups (Name e)) chunks)
        (attachTargetGroups (IR := IR) cloud e chunks).
Proof.
  induction chunks as [|chunk chunks IH]; simpl.
  - apply plays_ret.
  - apply (plays_bind _ [_]); [apply plays_callOrFail; intros []|exact IH].
Qed.

Lemma sendUpdate_plays e p : plays cloud (sendCalls e p) (sendUpdate cloud e p).
Proof.
  unfold sendCalls, sendUpdate.
  apply plays_bind; [apply plays_callOrFail; intros []|].
  apply plays_bind.
  { destruct (deleteTagsRequest p) as [tags|]; [|apply plays_ret].
    destruct (Nat.ltb 0 (length tags)); [apply plays_callOrFail; intros [] | apply plays_ret]. }
  apply plays_bind.
  { destruct (updateTagsRequest p); [apply plays_callOrFail; intros [] | apply plays_ret]. }
  apply plays_bind.
  { destruct (detachLBRequest p); [apply plays_callOrFail; intros [] | apply plays_ret]. }
  apply plays_bind.
  { destruct (attachLBRequest p); [apply plays_callOrFail; intros [] | apply plays_ret]. }
  apply attachTargetGroups_plays.
Qed.
End stops.

(** ** RenderAWS: the claims *)

Section render_claims.
Import AutoscalingGroup.
Import autoscaling.
Context {IR IRq : Type}.
Context (overridesFromInstanceRequirements :
           IR -> autoscalingtypes.LaunchTemplateOverrides.t IRq).
Context (cloud : AWSCloud IRq).
Implicit Types s : state IR IRq.
Implicit Types v a e : t IR.

(** C3, as amended. When [RenderAWS] returns successfully on the update
    path, [changes] is what it was with these fields nil: LaunchTemplate,
    MixedOnDemandAboveBase, MixedOnDemandBase, MixedSpotAllocationStrategy,
    MixedSpotInstancePools, MixedSpotMaxPrice, MixedInstanceOverrides,
    InstanceRequirements, MinSize, MaxSize, Subnets, MaxInstanceLifetime,
    Tags, LoadBalancers, TargetGroups, SuspendProcesses, InstanceProtection
    and CapacityRebalance, whatever the desired task; Metrics and
    Granularity are nil as well when the desired Metrics is not empty, and
    are left as they were when it is empty (metrics are never disabled). *)
Theorem C3_RenderAWS_update_clears_applied_fields :
  forall v a e changes0 s,
    RenderAWS overridesFromInstanceRequirements cloud v (Some a) e changes0 = (Ok tt, s) ->
    changes s = renderedChanges e changes0 /\
    (LaunchTemplate (changes s) = None /\
     MixedOnDemandAboveBase (changes s) = None /\
     MixedOnDemandBase (changes s) = None /\
     MixedSpotAllocationStrategy (changes s) = None /\
     MixedSpotInstancePools (changes s) = None /\
     MixedSpotMaxPrice (changes s) = None /\
     MixedInstanceOverrides (changes s) = None /\
     InstanceRequirements (changes s) = None /\
     MinSize (changes s) = None /\
     MaxSize (changes s) = None /\
     Subnets (changes s) = None /\
     MaxInstanceLifetime (changes s) = None /\
     Tags (changes s) = None /\
     LoadBalancers (changes s) = None /\
     TargetGroups (changes s) = None /\
     SuspendProcesses (changes s) = None /\
     InstanceProtection (changes s) = None /\
     CapacityRebalance (changes s) = None) /\
    (length (elems (Metrics e)) <> 0 ->
     Metrics (changes s) = None /\ Granularity (changes s) = None) /\
    (length (elems (Metrics e)) = 0 ->
     Metrics (changes s) = Metrics changes0 /\
     Granularity (changes s) = Granularity changes0).
Proof.
  intros v a e changes0 s H. unfold RenderAWS in H.
  apply RenderAWS_update_run in H as (pre & _ & [[_ Hno]|Hrun]).
  { now destruct (Hno tt). }
  destruct Hrun as (p & s1 & done & rest & Hp & _ & _ & Hch & _).
  apply prepareUpdate_Ok in Hp as (Hc & _). simpl in Hc. rewrite Hch, Hc.
  unfold renderedChanges.
  split; [reflexivity|].
  destruct (Nat.eqb_spec (length (elems (Metrics e))) 0) as [Hm|Hm]; simpl.
  - repeat split; reflexivity || (intros; congruence).
  - repeat split; reflexivity || (intros; congruence).
Qed.

(** What a run of the create path returns when its create call is its
    last call and was refused, and where a TryAgainLater error comes from. *)
Lemma RenderAWS_create_failure :
  forall v e changes0 out s,
    RenderAWS overridesFromInstanceRequirements cloud v None e changes0 = (out, s) ->
    (forall pre req cerr,
        calls s = pre ++ [api.CreateAutoScalingGroup req] ->
        Autoscaling cloud pre (api.CreateAutoScalingGroup req) = Some cerr ->
        out = Fail (if String.eqb (ErrorCode cerr) "ValidationError" &&
                       strings.Contains (ErrorMessage cerr)
                                        "Invalid IAM Instance Profile name"
                    then TryAgainLaterError
                           "waiting for the IAM Instance Profile to be propagated"
                    else Errorf ("error creating AutoScalingGroup: " +:+ ErrorMessage cerr))) /\
    (forall err,
        out = Fail err -> is_TryAgainLater err = true ->
        exists pre req cerr,
          calls s = pre ++ [api.CreateAutoScalingGroup req] /\
          Autoscaling cloud pre (api.CreateAutoScalingGroup req) = Some cerr /\
          ErrorCode cerr = "ValidationError" /\
          strings.Contains (ErrorMessage cerr) "Invalid IAM Instance Profile name" = true).
Proof.
  intros v e changes0 out s H. unfold RenderAWS in H.
  apply RenderAWS_create_run in H as (_ & pre & Hpre & [[Hc Hf]|[req Hreq]]).
  - split.
    + intros pre' req' cerr Hlast _. exfalso. rewrite Hlast in Hc. rewrite <- Hc in Hpre.
      apply Forall_app in Hpre as [_ Hpre]. inversion Hpre as [|? ? Hx]. exact Hx.
    + intros err -> Ht. rewrite (Hf _ eq_refl) in Ht. discriminate.
  - destruct (Autoscaling cloud pre (api.CreateAutoScalingGroup req)) as [cerr|] eqn:Hans.
    + destruct Hreq as [Hc ->]. split.
      * intros pre' req' cerr' Hlast Hans'. rewrite Hc in Hlast.
        apply app_inj_tail in Hlast as [<- [= <-]].
        rewrite Hans in Hans'. now injection Hans' as <-.
      * intros err [= <-] Ht. exists pre, req, cerr. unfold createFailure in Ht.
        destruct (String.eqb (ErrorCode cerr) "ValidationError") eqn:Hcode;
          [|discriminate].
        destruct (strings.Contains (ErrorMessage cerr) _) eqn:Hmsg; [|discriminate].
        apply String.eqb_eq in Hcode. auto.
    + destruct Hreq as (post & Hc & Hpost & Hf). split.
      * intros pre' req' cerr Hlast _. exfalso. rewrite Hc in Hlast.
        clear Hf. induction post as [|c post' _] using rev_ind.
        -- rewrite app_nil_r in Hlast.
           change [api.CreateAutoScalingGroup req;
                   api.EnableMetricsCollection (Name e) (Granularity e) (Metrics e)]
             with ([api.CreateAutoScalingGroup (IRq := IRq) req] ++
                   [api.EnableMetricsCollection (Name e) (Granularity e) (Metrics e)])
             in Hlast.
           rewrite app_assoc in Hlast. apply app_inj_tail in Hlast as [_ Heq].
           discriminate.
        -- rewrite !app_assoc in Hlast. apply app_inj_tail in Hlast as [_ ->].
           apply Forall_app in Hpost as [_ Hpost]. inversion Hpost as [|? ? Hx].
           exact Hx.
      * intros err -> Ht. rewrite (Hf _ eq_refl) in Ht. discriminate.
Qed.

(** C4. On the create path [RenderAWS] returns a TryAgainLater error
    exactly when [CreateAutoScalingGroup] fails with the code
    "ValidationError" and a message containing "Invalid IAM Instance Profile
    name"; any other failure of that call is returned as the formatted error
    "error creating AutoScalingGroup: <message>". A create call that fails,
    wherever it is among the calls of the run, is the last call of the run:
    its failure is what the run returns. *)
Theorem C4_RenderAWS_create_try_again_later :
  forall v e changes0 out s,
    RenderAWS overridesFromInstanceRequirements cloud v None e changes0 = (out, s) ->
    (forall pre req cerr post,
        calls s = pre ++ api.CreateAutoScalingGroup req :: post ->
        Autoscaling cloud pre (api.CreateAutoScalingGroup req) = Some cerr ->
        post = [] /\
        out = Fail (if String.eqb (ErrorCode cerr) "ValidationError" &&
                       strings.Contains (ErrorMessage cerr)
                                        "Invalid IAM Instance Profile name"
                    then TryAgainLaterError
                           "waiting for the IAM Instance Profile to be propagated"
                    else Errorf ("error creating AutoScalingGroup: " +:+ ErrorMessage cerr))) /\
    (forall err,
        out = Fail err -> is_TryAgainLater err = true ->
        exists pre req cerr,
          calls s = pre ++ [api.CreateAutoScalingGroup req] /\
          Autoscaling cloud pre (api.CreateAutoScalingGroup req) = Some cerr /\
          ErrorCode cerr = "ValidationError" /\
          strings.Contains (ErrorMessage cerr) "Invalid IAM Instance Profile name" = true).
Proof.
  intros v e changes0 out s H.
  destruct (RenderAWS_create_failure v e changes0 out s H) as [Hlast Hretry].
  split; [|exact Hretry].
  intros pre req cerr post Hcalls Hanswer.
  assert (Hpost : post = []).
  { apply (RenderAWS_stops overridesFromInstanceRequirements cloud _ _ _ _ _ _ H
             pre (api.CreateAutoScalingGroup req) post Hcalls).
    simpl. congruence. }
  subst post. split; [reflexivity|]. exact (Hlast pre req cerr Hcalls Hanswer).
Qed.
(** The request of an [UpdateAutoScalingGroup] call of the update path,
    field by field, and the calls that go with the Tags, LoadBalancers and
    TargetGroups entries of [changes]. *)
Lemma RenderAWS_update_request :
  forall v a e changes0 out s req,
    RenderAWS overridesFromInstanceRequirements cloud v (Some a) e changes0 = (out, s) ->
    In (api.UpdateAutoScalingGroup req) (calls s) ->
    (MinSize changes0 = None -> UpdateAutoScalingGroupInput.MinSize req = None) /\
    (MaxSize changes0 = None -> UpdateAutoScalingGroupInput.MaxSize req = None) /\
    (Subnets changes0 = None -> UpdateAutoScalingGroupInput.VPCZoneIdentifier req = None) /\
    (InstanceProtection changes0 = None ->
     UpdateAutoScalingGroupInput.NewInstancesProtectedFromScaleIn req = None) /\
    (CapacityRebalance changes0 = None ->
     UpdateAutoScalingGroupInput.CapacityRebalance req = None) /\
    (MaxInstanceLifetime changes0 = None ->
     UpdateAutoScalingGroupInput.MaxInstanceLifetime req = Some 0%Z) /\
    (MaxInstanceLifetime changes0 <> None ->
     UpdateAutoScalingGroupInput.MaxInstanceLifetime req = MaxInstanceLifetime e) /\
    (LaunchTemplate changes0 = None ->
     UseMixedInstancesPolicy a && negb (UseMixedInstancesPolicy e) = false ->
     UpdateAutoScalingGroupInput.LaunchTemplate req = None /\
     (MixedOnDemandAboveBase changes0 = None -> MixedOnDemandBase changes0 = None ->
      MixedSpotAllocationStrategy changes0 = None ->
      MixedSpotInstancePools changes0 = None -> MixedSpotMaxPrice changes0 = None ->
      MixedInstanceOverrides changes0 = None -> InstanceRequirements changes0 = None ->
      UpdateAutoScalingGroupInput.MixedInstancesPolicy req = None)) /\
    (Tags changes0 = None ->
     forall tags, ~ In (api.DeleteTags tags) (calls s) /\
                  ~ In (api.CreateOrUpdateTags tags) (calls s)) /\
    (LoadBalancers changes0 = None ->
     forall name names, ~ In (api.DetachLoadBalancers name names) (calls s) /\
                        ~ In (api.AttachLoadBalancers name names) (calls s)) /\
    (TargetGroups changes0 = None ->
     forall name arns, ~ In (api.AttachLoadBalancerTargetGroups name arns) (calls s)).
Proof.
  intros v a e changes0 out s req H Hin. unfold RenderAWS in H.
  apply RenderAWS_update_run in H as (pre & Hpre & [[Hc _]|Hrun]).
  { rewrite Hc in Hin. now apply early_not_update in Hin. }
  destruct Hrun as (p & s1 & done & rest & Hp & Hsend & Hc & _ & _).
  assert (Hsub : forall c, In c (calls s) -> early c \/ In c (sendCalls e p)).
  { intros c Hc'. rewrite Hc in Hc'. apply in_app_or in Hc' as [Hc'|Hc'].
    - left. rewrite Forall_forall in Hpre. apply Hpre. now apply list_elem_of_In.
    - right. rewrite Hsend. apply in_or_app. now left. }
  assert (Hreq : req = request p).
  { destruct (Hsub _ Hin) as [[]|Hs]. now apply updateRequests_sendCalls in Hs. }
  subst req.
  apply prepareUpdate_Ok in Hp
    as (_ & Hb & Hlt & Htags & Hlbs & Htgs & _ & _).
  simpl in Hb, Hlt, Htags, Hlbs, Htgs. unfold basics in Hb.
  injection Hb as _ Hmin Hmax Hsubnets Hmil Hip Hcr.
  rewrite Hmin, Hmax, Hsubnets, Hmil, Hip, Hcr.
  assert (Hcases : forall c, In c (calls s) -> early c \/ _)
    by (intros c Hc'; destruct (Hsub c Hc') as [He|Hs];
        [left; exact He | right; exact (sendCalls_In _ _ _ Hs)]).
  do 6 (split; [now intros ->|]).
  split.
  { intros Hn. destruct (MaxInstanceLifetime changes0); [reflexivity|congruence]. }
  split.
  { intros Hl Hm. destruct Hlt as [Hl1 Hl2]; [now rewrite Hl, Hm|].
    split; [exact Hl1|]. intros H1 H2 H3 H4 H5 H6 H7. apply Hl2.
    simpl. now rewrite H1, H2, H3, H4, H5, H6, H7. }
  split.
  { intros Ht tags. destruct Htags as [Hu Hd]; [now rewrite Ht|].
    split; intros Hc';
      destruct (Hcases _ Hc')
        as [[]|[Hx|[(x & Hx & Hy)|[(x & Hx & Hy)|[(x & Hx & Hy)|[(x & Hx & Hy)|(x & Hx & Hy)]]]]]];
      congruence. }
  split.
  { intros Hl name names. destruct Hlbs as [Hu Hd]; [now rewrite Hl|].
    split; intros Hc';
      destruct (Hcases _ Hc')
        as [[]|[Hx|[(x & Hx & Hy)|[(x & Hx & Hy)|[(x & Hx & Hy)|[(x & Hx & Hy)|(x & Hx & Hy)]]]]]];
      congruence. }
  intros Ht name arns Hc'. rewrite Htgs in Hcases by now rewrite Ht.
  destruct (Hcases _ Hc')
    as [[]|[Hx|[(x & Hx & Hy)|[(x & Hx & Hy)|[(x & Hx & Hy)|[(x & Hx & Hy)|(x & Hx & Hy)]]]]]];
    try congruence.
  destruct Hx.
Qed.

(** C7, as amended. On the update path, the request of every
    [UpdateAutoScalingGroup] call leaves MinSize, MaxSize, the subnets
    (VPCZoneIdentifier), the instance protection and the capacity rebalance
    unset when their entry in [changes] is nil; it leaves the launch
    template unset when [changes.LaunchTemplate] is nil, unless the found
    group uses a mixed instances policy and the desired one does not, and
    then leaves the mixed instances policy unset too when no entry of that
    policy is in [changes]. When the Tags, LoadBalancers or TargetGroups
    entry is nil, the render makes none of the calls that write them. *)
Theorem C7_RenderAWS_update_unchanged_fields :
  forall v a e changes0 out s req,
    RenderAWS overridesFromInstanceRequirements cloud v (Some a) e changes0 = (out, s) ->
    In (api.UpdateAutoScalingGroup req) (calls s) ->
    (MinSize changes0 = None -> UpdateAutoScalingGroupInput.MinSize req = None) /\
    (MaxSize changes0 = None -> UpdateAutoScalingGroupInput.MaxSize req = None) /\
    (Subnets changes0 = None -> UpdateAutoScalingGroupInput.VPCZoneIdentifier req = None) /\
    (InstanceProtection changes0 = None ->
     UpdateAutoScalingGroupInput.NewInstancesProtectedFromScaleIn req = None) /\
    (CapacityRebalance changes0 = None ->
     UpdateAutoScalingGroupInput.CapacityRebalance req = None) /\
    (LaunchTemplate changes0 = None ->
     UseMixedInstancesPolicy a && negb (UseMixedInstancesPolicy e) = false ->
     UpdateAutoScalingGroupInput.LaunchTemplate req = None /\
     (MixedOnDemandAboveBase changes0 = None -> MixedOnDemandBase changes0 = None ->
      MixedSpotAllocationStrategy changes0 = None ->
      MixedSpotInstancePools changes0 = None -> MixedSpotMaxPrice changes0 = None ->
      MixedInstanceOverrides changes0 = None -> InstanceRequirements changes0 = None ->
      UpdateAutoScalingGroupInput.MixedInstancesPolicy req = None)) /\
    (Tags changes0 = None ->
     forall tags, ~ In (api.DeleteTags tags) (calls s) /\
                  ~ In (api.CreateOrUpdateTags tags) (calls s)) /\
    (LoadBalancers changes0 = None ->
     forall name names, ~ In (api.DetachLoadBalancers name names) (calls s) /\
                        ~ In (api.AttachLoadBalancers name names) (calls s)) /\
    (TargetGroups changes0 = None ->
     forall name arns, ~ In (api.AttachLoadBalancerTargetGroups name arns) (calls s)).
Proof.
  intros v a e changes0 out s req H Hin.
  destruct (RenderAWS_update_request v a e changes0 out s req H Hin)
    as (H1 & H2 & H3 & H4 & H5 & _ & _ & H8 & H9 & H10 & H11).
  repeat (split; [assumption|]). assumption.
Qed.

(** C10. For a positive chunk size [sliceChunks] returns, and what it
    returns is a partition of its input: the chunks put together in order
    are the input, and no chunk is longer than the chunk size. So no
    [AttachLoadBalancerTargetGroups] request of a render has more than 10
    target group ARNs, and when the update path succeeds with the target
    groups in [changes], the ARNs of its requests, taken in order, are the
    desired target group ARNs, each once. *)
Theorem C10_sliceChunks_partition :
  (forall slice n,
      0 < n ->
      exists chunks,
        sliceChunks slice n = Some chunks /\
        concat chunks = slice /\
        Forall (fun chunk => length chunk <= n) chunks) /\
  (forall v (actual : option (t IR)) e changes0 out s,
      RenderAWS overridesFromInstanceRequirements cloud v actual e changes0 = (out, s) ->
      Forall (fun arns => length arns <= 10) (attachedTargetGroups (calls s)) /\
      (actual <> None -> out = Ok tt -> TargetGroups changes0 <> None ->
       concat (attachedTargetGroups (calls s)) =
       map (fun tg => aws.ToString (TargetGroup.ARN tg)) (elems (TargetGroups e)))).
Proof.
  assert (Hearly : forall name arns,
             ~ early (IRq := IRq) (api.AttachLoadBalancerTargetGroups name arns))
    by (intros ? ? []).
  assert (Hlookup : forall name arns,
             ~ lookup_ (IRq := IRq) (api.AttachLoadBalancerTargetGroups name arns))
    by (intros ? ? []).
  split; [exact sliceChunks_partition|].
  intros v actual e changes0 out s H. unfold RenderAWS in H. destruct actual as [a|].
  - apply RenderAWS_update_run in H as (pre & Hpre & [[Hc Hno]|Hrun]).
    + rewrite Hc, (attachedTargetGroups_none early) by assumption.
      split; [constructor|]. intros _ ->. now destruct (Hno tt).
    + destruct Hrun as (p & s1 & done & rest & Hp & Hsend & Hc & _ & Hok).
      apply prepareUpdate_Ok in Hp as (_ & _ & _ & _ & _ & _ & Hcat & Hlen).
      simpl in Hcat.
      pose proof (attachedTargetGroups_sendCalls e p) as Hatt.
      rewrite Hsend, attachedTargetGroups_app in Hatt.
      rewrite Hc, attachedTargetGroups_app,
        (attachedTargetGroups_none early pre) by assumption.
      simpl. split.
      * rewrite <- Hatt in Hlen. now apply Forall_app in Hlen as [Hlen _].
      * intros _ -> Htg. rewrite (Hok tt eq_refl) in Hatt. simpl in Hatt.
        rewrite app_nil_r in Hatt. rewrite Hatt. apply Hcat.
        now destruct (TargetGroups changes0).
  - apply RenderAWS_create_run in H as (_ & pre & Hpre & [[Hc _]|[req Hreq]]).
    + rewrite Hc, (attachedTargetGroups_none lookup_) by assumption.
      split; [constructor|]. now intros [].
    + split; [|now intros []].
      destruct (Autoscaling cloud pre (api.CreateAutoScalingGroup req)).
      * destruct Hreq as [-> _].
        rewrite attachedTargetGroups_app, (attachedTargetGroups_none lookup_ pre)
          by assumption.
        constructor.
      * destruct Hreq as (post & -> & Hpost & _).
        rewrite !attachedTargetGroups_app, (attachedTargetGroups_none lookup_ pre)
          by assumption.
        rewrite (attachedTargetGroups_none early post) by assumption.
        constructor.
Qed.
End render_claims.

Section render_examples.
Import AutoscalingGroup.
Import autoscaling.


Lemma C3_witness :
  MaxSize (changes (RenderAWS examples.overrides (examples.awsCloud [] examples.allGood)
                              examples.desired (Some examples.found) examples.desired
                              examples.difference).2) = None.
Proof.
  apply (C3_RenderAWS_update_clears_applied_fields
           examples.overrides (examples.awsCloud [] examples.allGood)
           examples.desired examples.found examples.desired examples.difference).
  reflexivity.
Defined.

(** The claim C3 as stated fails for Granularity: the desired group has no
    metrics, the granularity differs, the render succeeds and leaves
    [changes.Granularity] set. *)
Lemma C3_counterexample :
  exists s,
    RenderAWS examples.overrides (examples.awsCloud [] examples.allGood)
              examples.desired (Some examples.found) examples.desired examples.difference
    = (Ok tt, s) /\
    Granularity (changes s) = Some "1Minute".
Proof. eexists. split; reflexivity. Qed.

Lemma C4_witness :
  (RenderAWS examples.overrides (examples.awsCloud [] (examples.failCreate examples.profileNotReady))
             examples.desired None examples.desired examples.desired).1
  = Fail (TryAgainLaterError "waiting for the IAM Instance Profile to be propagated") /\
  (RenderAWS examples.overrides (examples.awsCloud [] (examples.failCreate examples.limitExceeded))
             examples.desired None examples.desired examples.desired).1
  = Fail (Errorf "error creating AutoScalingGroup: too many groups").
Proof.
  split.
  - exact (proj2 (proj1 (C4_RenderAWS_create_try_again_later examples.overrides
                    (examples.awsCloud [] (examples.failCreate examples.profileNotReady))
                    examples.desired examples.desired examples.desired _ _ eq_refl)
                 [] _ examples.profileNotReady [] eq_refl eq_refl)).
  - exact (proj2 (proj1 (C4_RenderAWS_create_try_again_later examples.overrides
                    (examples.awsCloud [] (examples.failCreate examples.limitExceeded))
                    examples.desired examples.desired examples.desired _ _ eq_refl)
                 [] _ examples.limitExceeded [] eq_refl eq_refl)).
Defined.

Lemma C7_witness :
  UpdateAutoScalingGroupInput.MinSize examples.updateRequest = None /\
  UpdateAutoScalingGroupInput.LaunchTemplate examples.updateRequest = None.
Proof.
  pose proof (C7_RenderAWS_update_unchanged_fields examples.overrides
                (examples.awsCloud [] examples.allGood)
                examples.desired examples.found examples.desired examples.difference
                _ _ examples.updateRequest eq_refl (or_introl eq_refl)) as H.
  split.
  - apply (proj1 H). reflexivity.
  - apply (proj1 (proj2 (proj2 (proj2 (proj2 (proj2 H)))))); reflexivity.
Defined.

(** The claim C7 as stated fails for the launch template: the found group
    uses a mixed instances policy, the desired one does not, the launch
    template is the same, so its entry in [changes] is nil, and the update
    request nevertheless sets the launch template. *)
Lemma C7_counterexample :
  LaunchTemplate examples.foundMixed = LaunchTemplate examples.desired /\
  LaunchTemplate examples.difference = None /\
  exists req,
    In (api.UpdateAutoScalingGroup req)
       (calls (RenderAWS examples.overrides (examples.awsCloud [] examples.allGood)
                         examples.desired (Some examples.foundMixed) examples.desired
                         examples.difference).2) /\
    UpdateAutoScalingGroupInput.LaunchTemplate req <> None.
Proof.
  split; [reflexivity|]. split; [reflexivity|].
  eexists. split; [now left|discriminate].
Qed.

(** MaxInstanceLifetime in the update request: the found and the desired
    group both replace instances after an hour, so the entry in [changes]
    is nil, and the request carries 0. *)
Lemma RenderAWS_update_MaxInstanceLifetime_example :
  MaxInstanceLifetime examples.found = MaxInstanceLifetime examples.desired /\
  MaxInstanceLifetime examples.difference = None /\
  In (api.UpdateAutoScalingGroup examples.updateRequest)
     (calls (RenderAWS examples.overrides (examples.awsCloud [] examples.allGood)
                       examples.desired (Some examples.found) examples.desired
                       examples.difference).2) /\
  UpdateAutoScalingGroupInput.MaxInstanceLifetime examples.updateRequest = Some 0%Z.
Proof.
  split; [reflexivity|]. split; [reflexivity|]. split; [now left|reflexivity].
Qed.

Lemma C10_witness :
  (exists chunks,
      sliceChunks (map (fun n => aws.ToString (TargetGroup.ARN (examples.targetGroupTask n)))
                       (seq 0 12)) 10 = Some chunks /\
      concat chunks = map (fun n => aws.ToString (TargetGroup.ARN (examples.targetGroupTask n)))
                          (seq 0 12) /\
      Forall (fun chunk => length chunk <= 10) chunks) /\
  concat (attachedTargetGroups
            (calls (RenderAWS examples.overrides (examples.awsCloud [] examples.allGood)
                              examples.desired (Some examples.found) examples.desired
                              examples.difference).2))
  = map (fun n => aws.ToString (TargetGroup.ARN (examples.targetGroupTask n))) (seq 0 12).
Proof.
  split.
  - apply (proj1 (C10_sliceChunks_partition examples.overrides
                    (examples.awsCloud [] examples.allGood))).
    lia.
  - apply (proj2 (C10_sliceChunks_partition examples.overrides
                    (examples.awsCloud [] examples.allGood))
                 examples.desired (Some examples.found) examples.desired
                 examples.difference (Ok tt) _ eq_refl);
      [discriminate | reflexivity | discriminate].
Defined.
End render_examples.

(** ** Sorting *)

Section string_order.

Lemma ascii_compare_trans (x y z : ascii) (c : comparison) :
  Ascii.compare x y = c -> Ascii.compare y z = c -> Ascii.compare x z = c.
Proof.
  unfold Ascii.compare. intros H1 H2. destruct c.
  - apply N.compare_eq_iff in H1. apply N.compare_eq_iff in H2.
    apply N.compare_eq_iff. congruence.
  - apply N.compare_lt_iff in H1. apply N.compare_lt_iff in H2.
    apply N.compare_lt_iff. now apply N.lt_trans with (N_of_ascii y).
  - apply N.compare_gt_iff in H1. apply N.compare_gt_iff in H2.
    apply N.compare_gt_iff. now apply N.lt_trans with (N_of_ascii y).
Qed.


Lemma string_le_trans (a b c : string) :
  string_le a b -> string_le b c -> string_le a c.
Proof.
  unfold string_le, String.leb. revert b c.
  induction a as [|x a IH]; intros [|y b] [|z c]; simpl; try easy.
  destruct (Ascii.compare x y) eqn:Hxy; try easy;
    destruct (Ascii.compare y z) eqn:Hyz; try easy.
  - rewrite (ascii_compare_trans x y z Eq Hxy Hyz). apply IH.
  - apply Ascii.compare_eq_iff in Hxy. subst y. now rewrite Hyz.
  - apply Ascii.compare_eq_iff in Hyz. subst z. now rewrite Hxy.
  - now rewrite (ascii_compare_trans x y z Lt Hxy Hyz).
Qed.

Lemma string_le_antisym (a b : string) : string_le a b -> string_le b a -> a = b.
Proof. apply String.leb_antisym. Qed.

(** [a] is not less than [b] exactly when [b] is at most [a]. *)
Lemma ltb_false_le (a b : string) : String.ltb a b = false <-> string_le b a.
Proof.
  unfold string_le, String.ltb, String.leb. rewrite (String.compare_antisym b a).
  destruct (String.compare a b); simpl; split; congruence.
Qed.

Lemma ltb_true_le (a b : string) : String.ltb a b = true -> string_le a b.
Proof.
  unfold string_le, String.ltb, String.leb. destruct (String.compare a b); congruence.
Qed.


Global Instance string_le_transitive : Transitive string_le.
Proof. intros a b c. apply string_le_trans. Qed.

Global Instance string_le_antisymmetric : AntiSymm eq string_le.
Proof. intros a b. apply string_le_antisym. Qed.
End string_order.

Section stable_sort.
Context {A : Type} (name : A -> string).

(** The order of a sort by name. *)
Let less (x y : A) : bool := String.ltb (name x) (name y).

Lemma insert_Permutation (x : A) (l : list A) :
  Permutation (sort.insert less x l) (x :: l).
Proof.
  induction l as [|y l IH]; simpl; [reflexivity|].
  destruct (less y x); [|reflexivity].
  rewrite IH. apply perm_swap.
Qed.

Lemma Stable_Permutation (l : list A) : Permutation (sort.Stable less l) l.
Proof.
  induction l as [|x l IH]; simpl; [reflexivity|].
  rewrite insert_Permutation. now constructor.
Qed.

Lemma insert_HdRel (x y : A) (l : list A) :
  string_le (name y) (name x) ->
  HdRel (fun a b => string_le (name a) (name b)) y l ->
  HdRel (fun a b => string_le (name a) (name b)) y (sort.insert less x l).
Proof.
  intros Hyx Hl. destruct l as [|z l]; simpl.
  - now constructor.
  - destruct (less z x); constructor; [now inversion Hl | assumption].
Qed.

Lemma insert_sorted (x : A) (l : list A) :
  sortedBy name l -> sortedBy name (sort.insert less x l).
Proof.
  unfold sortedBy. induction 1 as [|y l Hs IH Hhd]; simpl.
  - repeat constructor.
  - destruct (less y x) eqn:Hlt.
    + constructor; [exact IH|]. apply insert_HdRel; [|assumption].
      now apply ltb_true_le.
    + constructor; [now constructor|]. constructor. now apply ltb_false_le.
Qed.

Lemma Stable_sorted (l : list A) : sortedBy name (sort.Stable less l).
Proof.
  induction l as [|x l IH]; simpl; [constructor|]. now apply insert_sorted.
Qed.




End stable_sort.

Section sort_strings.

Lemma Strings_sorted (l : list string) : Sorted string_le (sort.Strings l).
Proof. exact (Stable_sorted (fun s => s) l). Qed.

Lemma Strings_Permutation (l : list string) : Permutation (sort.Strings l) l.
Proof. exact (Stable_Permutation (fun s => s) l). Qed.

(** The result of [sort.Strings] does not depend on the order of its input. *)
Lemma Strings_order_insensitive (l1 l2 : list string) :
  Permutation l1 l2 -> sort.Strings l1 = sort.Strings l2.
Proof.
  intros Hp. apply (Sorted_unique string_le); try apply Strings_sorted.
  now rewrite !Strings_Permutation.
Qed.


End sort_strings.

(** ** AutoscalingGroup.Find *)

Section find_facts.
Import AutoscalingGroup.
Import autoscalingtypes.
Context {IR IRq : Type}.
Context (findInstanceRequirements : AutoScalingGroup.t IRq -> option IR).
Context (cloud : AWSCloud IRq).
Implicit Types e actual : t IR.
Implicit Types g : AutoScalingGroup.t IRq.
Implicit Types found out : list (AutoScalingGroup.t IRq).
Implicit Types pages : list (cloud_error + list (AutoScalingGroup.t IRq)).

(** The groups [findInPages] keeps all have the name, and none has a
    status. *)
Lemma findInPages_named pages name found out :
  findInPages pages name found = Ok out ->
  Forall (isNamed name) found -> Forall (isNamed name) out.
Proof.
  revert found. induction pages as [|[err|groups] pages IH]; intros found; simpl.
  - now intros [= <-].
  - discriminate.
  - intros H Hf. apply (IH _ H). apply Forall_app. split; [assumption|].
    apply Forall_forall. intros g Hg. apply list_elem_of_In, filter_In in Hg as [_ Hg].
    apply andb_true_iff in Hg as [Hs Hn]. apply String.eqb_eq in Hn.
    split; [|assumption]. now destruct (AutoScalingGroup.Status g).
Qed.

Lemma findInPages_none pages name found :
  noGroupNamed name pages -> findInPages pages name found = Ok found.
Proof.
  revert found. induction pages as [|page pages IH]; intros found Hno; [reflexivity|].
  destruct (Hno page (or_introl eq_refl)) as (groups & -> & Hg). simpl.
  rewrite IH by (intros p Hp; apply Hno; now right).
  f_equal. rewrite <- (app_nil_r found) at 2. f_equal.
  clear Hno IH. induction groups as [|g groups IHg]; [reflexivity|]. simpl.
  destruct (String.eqb_spec (aws.ToString (AutoScalingGroup.AutoScalingGroupName g)) name)
    as [Heq|_].
  - now destruct (Hg g (or_introl eq_refl)).
  - rewrite andb_false_r. apply IHg. intros g' Hg'. apply Hg. now right.
Qed.

Lemma findAutoscalingGroup_named name g :
  findAutoscalingGroup cloud name = Ok (Some g) -> isNamed name g.
Proof.
  unfold findAutoscalingGroup.
  destruct (findInPages _ name []) as [found|err|] eqn:Hf; try discriminate.
  apply findInPages_named in Hf; [|constructor].
  destruct found as [|g0 [|g1 found]]; try discriminate.
  intros [= <-]. now inversion Hf.
Qed.

Lemma findAutoscalingGroup_none name :
  noGroupNamed name (DescribeAutoScalingGroups cloud [name]) ->
  findAutoscalingGroup cloud name = Ok None.
Proof.
  intros Hno. unfold findAutoscalingGroup. now rewrite (findInPages_none _ _ [] Hno).
Qed.

(** [Find] when the group is found: the fields of the snapshot that the
    claims are about, and the cleanups left in the task. *)
Lemma AutoscalingGroup_Find_found actual ds e :
  Find findInstanceRequirements cloud e = (Ok (Some actual), ds) ->
  exists g,
    findAutoscalingGroup cloud (fi.ValueOf (Name e)) = Ok (Some g) /\
    Name actual = AutoScalingGroup.AutoScalingGroupName g /\
    Lifecycle actual = Lifecycle e /\
    elems (Metrics actual) = sort.Strings (metricNames g) /\
    (Metrics actual = None <-> AutoScalingGroup.EnabledMetrics g = []) /\
    LoadBalancers actual =
      Some (sort.Stable OrderLoadBalancersByName
              (map (attachedLoadBalancer cloud e) (AutoScalingGroup.LoadBalancerNames g))) /\
    TargetGroups actual =
      Some (sort.Stable OrderTargetGroupsByName
              (map (attachedTargetGroup e) (AutoScalingGroup.TargetGroupARNs g))) /\
    Subnets actual =
      (if subnetSlicesEqualIgnoreOrder (zoneSubnets g) (Subnets e)
       then Subnets e else zoneSubnets g) /\
    ds = deletions e ++
         map (buildDeleteAutoscalingTargetGroupAttachment
                (aws.ToString (AutoScalingGroup.AutoScalingGroupName g)))
             (staleTargetGroups e g).
Proof.
  unfold Find.
  destruct (findAutoscalingGroup cloud (fi.ValueOf (Name e))) as [[g|]|err|] eqn:Hg;
    try discriminate.
  match goal with
  | |- context [match ?x with inl _ => _ | inr _ => _ end] =>
      destruct x as [err|lbs] eqn:Hlbs
  end; [discriminate|].
  destruct (forallb _ (AutoScalingGroup.SuspendedProcesses g)); [|discriminate].
  intros [= <- <-]. exists g. split; [reflexivity|]. simpl.
  repeat split.
  - unfold metricNames. now destruct (AutoScalingGroup.EnabledMetrics g).
  - now destruct (AutoScalingGroup.EnabledMetrics g).
  - intros ->. reflexivity.
  - assert (lbs = map (attachedLoadBalancer cloud e) (AutoScalingGroup.LoadBalancerNames g))
      as ->; [|reflexivity].
    unfold attachedLoadBalancer.
    destruct (apiLBTaskOf e) as [apiLBTask|]; [|now injection Hlbs as <-].
    rewrite length_map in Hlbs.
    destruct (AutoScalingGroup.LoadBalancerNames g) as [|name names] eqn:Hnames;
      [now injection Hlbs as <-|].
    simpl Nat.ltb in Hlbs. cbv iota in Hlbs.
    destruct (FindELBByNameTagAnswer cloud [] _) as [err|[apiLBDesc|]];
      [discriminate| |now injection Hlbs as <-].
    injection Hlbs as <-. now rewrite map_map.
Qed.

Lemma AutoscalingGroup_Find_absent e :
  noGroupNamed (fi.ValueOf (Name e))
               (DescribeAutoScalingGroups cloud [fi.ValueOf (Name e)]) ->
  Find findInstanceRequirements cloud e = (Ok None, deletions e).
Proof. intros Hno. unfold Find. now rewrite findAutoscalingGroup_none. Qed.

(** A desired target group is found by ARN exactly when some desired target
    group knows the ARN as its own. *)
Lemma targetGroupsByARN_None e arn :
  targetGroupsByARN e !! arn = None <->
  forall tg info, In tg (elems (TargetGroups e)) -> TargetGroup.info tg = Some info ->
                  awsup.ARN info <> arn.
Proof.
  unfold targetGroupsByARN.
  assert (H : forall (tgs : list TargetGroup.t) (m : gmap string TargetGroup.t),
             fold_left (fun byARN tg =>
                          match TargetGroup.info tg with
                          | Some info => <[awsup.ARN info := tg]> byARN
                          | None => byARN
                          end) tgs m !! arn = None <->
             m !! arn = None /\
             forall tg info, In tg tgs -> TargetGroup.info tg = Some info ->
                             awsup.ARN info <> arn).
  { induction tgs as [|tg tgs IH]; intros m; simpl.
    - split; [intros H; split; [assumption|now intros]|now intros [H _]].
    - rewrite IH. destruct (TargetGroup.info tg) as [info|] eqn:Hi.
      + rewrite lookup_insert_None. split.
        * intros [[Hm Hne] Hrest]. split; [assumption|].
          intros tg' info' [<-|Hin] Hi'; [congruence|eauto].
        * intros [Hm Hall]. split; [split; [assumption|]|].
          -- apply (Hall tg info); auto.
          -- intros tg' info' Hin. apply Hall. now right.
      + split.
        * intros [Hm Hrest]. split; [assumption|].
          intros tg' info' [<-|Hin] Hi'; [congruence|eauto].
        * intros [Hm Hall]. split; [assumption|].
          intros tg' info' Hin. apply Hall. now right. }
  rewrite H. rewrite lookup_empty. tauto.
Qed.
End find_facts.

(** ** Find, Normalize, CheckChanges and FindDeletions: the claims *)

Section find_claims.
Import AutoscalingGroup.
Context {IR IRq : Type}.
Context (findInstanceRequirements : autoscalingtypes.AutoScalingGroup.t IRq -> option IR).
Implicit Types e actual : t IR.
Implicit Types cloud : AWSCloud IRq.

(** C1, as amended. [ProjectIAMBinding.Find], for a task whose member
    service account is set, returns nil and no error when the policy lookup
    reports not-found and when no condition-free binding for the role has
    the member; a snapshot it returns has the Name and the Lifecycle of
    the desired task. [AutoscalingGroup.Find] returns nil and no error when
    the listing succeeds and has no group of the task's name; a snapshot it
    returns has the Lifecycle of the desired task and the Name of the group
    found, which is the desired name as a string (nil and the empty string
    alike), hence the desired Name whenever that is set and not empty. *)
Theorem C1_Find_absent_and_managed_fields :
  (forall gcloud (b : ProjectIAMBinding.t) sa,
      ProjectIAMBinding.MemberServiceAccount b = Some sa ->
      (forall err,
          GetIamPolicy gcloud (fi.ValueOf (ProjectIAMBinding.Project b)) = inl err ->
          NotFound err = true ->
          ProjectIAMBinding.Find gcloud b = Ok None) /\
      (forall policy,
          GetIamPolicy gcloud (fi.ValueOf (ProjectIAMBinding.Project b)) = inr policy ->
          ~ grants policy (memberOf sa) (fi.ValueOf (ProjectIAMBinding.Role b)) ->
          ProjectIAMBinding.Find gcloud b = Ok None)) /\
  (forall gcloud (b found : ProjectIAMBinding.t),
      ProjectIAMBinding.Find gcloud b = Ok (Some found) ->
      ProjectIAMBinding.Name found = ProjectIAMBinding.Name b /\
      ProjectIAMBinding.Lifecycle found = ProjectIAMBinding.Lifecycle b) /\
  (forall cloud e,
      noGroupNamed (fi.ValueOf (Name e))
                   (DescribeAutoScalingGroups cloud [fi.ValueOf (Name e)]) ->
      Find findInstanceRequirements cloud e = (Ok None, deletions e)) /\
  (forall cloud e actual ds,
      Find findInstanceRequirements cloud e = (Ok (Some actual), ds) ->
      Lifecycle actual = Lifecycle e /\
      fi.ValueOf (Name actual) = fi.ValueOf (Name e) /\
      (forall n, Name e = Some n -> n <> "" -> Name actual = Name e)).
Proof.
  split; [|split; [|split]].
  - intros gcloud b sa Hsa. split.
    + intros err Hget Hnf. exact (Find_not_found gcloud b sa err Hsa Hget Hnf).
    + intros policy Hget Hno. rewrite (Find_found gcloud b sa policy Hsa Hget).
      now rewrite (not_granted_changed _ _ _ Hno).
  - intros gcloud b found H. apply Find_snapshot in H. now subst.
  - intros cloud e. apply AutoscalingGroup_Find_absent.
  - intros cloud e actual ds H.
    apply AutoscalingGroup_Find_found in H as (g & Hg & Hname & Hlife & _).
    apply findAutoscalingGroup_named in Hg as [_ Hg]. unfold aws.ToString in Hg.
    rewrite Hname. split; [assumption|]. split; [assumption|].
    intros n Hn Hne. rewrite Hn in *. simpl in Hg.
    destruct (autoscalingtypes.AutoScalingGroup.AutoScalingGroupName g); simpl in Hg;
      congruence.
Qed.

(** C2, as amended. [ProjectIAMBinding.CheckChanges], whatever the actual
    state, fails with the RequiredField error of the first of Project,
    MemberServiceAccount, MemberServiceAccount.Email and Role that is unset
    or empty. [AutoscalingGroup.CheckChanges] fails, with
    RequiredField("Name"), exactly when the actual state is not nil and the
    desired Name is unset; when the actual state is nil it returns nil.
    Neither looks at the cloud. *)
Theorem C2_CheckChanges_required_fields :
  (forall (a : option ProjectIAMBinding.t) (b changes : ProjectIAMBinding.t),
      (fi.ValueOf (ProjectIAMBinding.Project b) = "" ->
       ProjectIAMBinding.CheckChanges a b changes = Some (RequiredFieldError "Project")) /\
      (fi.ValueOf (ProjectIAMBinding.Project b) <> "" ->
       ProjectIAMBinding.MemberServiceAccount b = None ->
       ProjectIAMBinding.CheckChanges a b changes =
       Some (RequiredFieldError "MemberServiceAccount")) /\
      (forall sa,
          fi.ValueOf (ProjectIAMBinding.Project b) <> "" ->
          ProjectIAMBinding.MemberServiceAccount b = Some sa ->
          (fi.ValueOf (ServiceAccount.Email sa) = "" ->
           ProjectIAMBinding.CheckChanges a b changes =
           Some (RequiredFieldError "MemberServiceAccount.Email")) /\
          (fi.ValueOf (ServiceAccount.Email sa) <> "" ->
           fi.ValueOf (ProjectIAMBinding.Role b) = "" ->
           ProjectIAMBinding.CheckChanges a b changes = Some (RequiredFieldError "Role")) /\
          (fi.ValueOf (ServiceAccount.Email sa) <> "" ->
           fi.ValueOf (ProjectIAMBinding.Role b) <> "" ->
           ProjectIAMBinding.CheckChanges a b changes = None))) /\
  (forall (a : option (t IR)) e changes,
      (forall err,
          CheckChanges a e changes = Some err <->
          a <> None /\ Name e = None /\ err = RequiredFieldError "Name") /\
      (a = None -> CheckChanges a e changes = None)).
Proof.
  split.
  - intros a b changes. unfold ProjectIAMBinding.CheckChanges. split; [|split].
    + now intros ->.
    + intros Hp Hsa. apply String.eqb_neq in Hp. now rewrite Hp, Hsa.
    + intros sa Hp Hsa. apply String.eqb_neq in Hp. rewrite Hp, Hsa.
      split; [now intros ->|]. split.
      * intros He Hr. apply String.eqb_neq in He. now rewrite He, Hr.
      * intros He Hr. apply String.eqb_neq in He, Hr. now rewrite He, Hr.
  - intros a e changes. unfold CheckChanges. split.
    + intros err. destruct a as [a|]; [destruct (Name e)|]; split;
        try discriminate; try (now intros (? & ? & ?)).
      * intros [= <-]. split; [discriminate|auto].
      * intros (_ & _ & ->). reflexivity.
    + now intros ->.
Qed.


(** C9. When [Find] returns the snapshot of a found group, the cleanups it
    leaves in the task are those the task had, followed by one for each
    attached target group ARN that no desired target group knows as its
    own, in the order of the cloud. [FindDeletions] returns them; the
    dependencies of the task are what they were; each cleanup is
    identified by "<autoScalingGroupName>:<targetGroupARN>", the name being
    the desired name, and is deferred. *)
Theorem C9_stale_target_groups_are_deferred_deletions :
  forall cloud e actual ds,
    Find findInstanceRequirements cloud e = (Ok (Some actual), ds) ->
    exists g,
      findAutoscalingGroup cloud (fi.ValueOf (Name e)) = Ok (Some g) /\
      FindDeletions (withDeletions ds e) =
        FindDeletions e ++
        map (buildDeleteAutoscalingTargetGroupAttachment (fi.ValueOf (Name e)))
            (staleTargetGroups e g) /\
      GetDependencies (withDeletions ds e) = GetDependencies e /\
      (forall arn,
          In arn (autoscalingtypes.AutoScalingGroup.TargetGroupARNs g) ->
          (forall tg info, In tg (elems (TargetGroups e)) ->
                           TargetGroup.info tg = Some info -> awsup.ARN info <> arn) ->
          exists d,
            In d (FindDeletions (withDeletions ds e)) /\
            deleteAutoscalingTargetGroupAttachment.Item d =
              fi.ValueOf (Name e) +:+ ":" +:+ arn /\
            deleteAutoscalingTargetGroupAttachment.DeferDeletion d = true) /\
      (forall d,
          deleteAutoscalingTargetGroupAttachment.Item d =
            deleteAutoscalingTargetGroupAttachment.autoScalingGroupName d +:+ ":" +:+
            deleteAutoscalingTargetGroupAttachment.targetGroupARN d /\
          deleteAutoscalingTargetGroupAttachment.DeferDeletion d = true).
Proof.
  intros cloud e actual ds H.
  apply AutoscalingGroup_Find_found in H as (g & Hg & _ & _ & _ & _ & _ & _ & _ & Hds).
  exists g. split; [assumption|].
  apply findAutoscalingGroup_named in Hg as [_ Hname]. rewrite Hname in Hds.
  split; [exact Hds|]. split; [reflexivity|]. split; [|now intros d].
  intros arn Hin Hstale. apply targetGroupsByARN_None in Hstale.
  exists (buildDeleteAutoscalingTargetGroupAttachment (fi.ValueOf (Name e)) arn).
  split; [|split; reflexivity].
  unfold FindDeletions. simpl. rewrite Hds. apply in_or_app. right.
  apply in_map. unfold staleTargetGroups. apply filter_In. split; [assumption|].
  now rewrite Hstale.
Qed.
End find_claims.

Section find_examples.
Import AutoscalingGroup.

Lemma C1_witness :
  ProjectIAMBinding.Find examples.gceCloudMissing examples.binding = Ok None /\
  ProjectIAMBinding.Find (examples.gceCloud examples.policyWithout) examples.binding
  = Ok None /\
  Find examples.noRequirements (examples.awsCloud [] examples.allGood) examples.desired
  = (Ok None, []) /\
  Lifecycle (examples.snapshotOf
               (Find examples.noRequirements examples.cloudWithStale examples.desired))
  = Lifecycle examples.desired /\
  Name (examples.snapshotOf
          (Find examples.noRequirements examples.cloudWithStale examples.desired))
  = Name examples.desired.
Proof.
  pose proof (C1_Find_absent_and_managed_fields examples.noRequirements)
    as (Hgce & _ & Habsent & Hfound).
  split; [|split; [|split]].
  - apply (proj1 (Hgce examples.gceCloudMissing examples.binding examples.account eq_refl)
                 examples.notFoundError); reflexivity.
  - apply (proj2 (Hgce (examples.gceCloud examples.policyWithout) examples.binding
                       examples.account eq_refl)
                 examples.policyWithout); [reflexivity|].
    intros (b & [<-|[]] & _ & Hrole & _). discriminate.
  - apply (Habsent (examples.awsCloud [] examples.allGood) examples.desired).
    intros page [<-|[]]. exists []. split; [reflexivity|]. intros g [].
  - destruct (Hfound examples.cloudWithStale examples.desired _ _ eq_refl)
      as (Hlife & _ & Hname).
    split; [exact Hlife|].
    apply (Hname "nodes.example.com"); [reflexivity|discriminate].
Defined.

(** The claim C1 as stated fails for the Name of the autoscaling group: the
    desired task has no name, the cloud lists a group under the empty name,
    and the snapshot has that group's name, not the nil of the desired
    task. *)
Lemma C1_counterexample :
  exists actual ds,
    Find examples.noRequirements
         (examples.awsCloud [examples.group (Some "") [] []] examples.allGood)
         examples.unnamed = (Ok (Some actual), ds) /\
    Name actual <> Name examples.unnamed.
Proof. eexists _, _. split; [reflexivity|discriminate]. Qed.

Lemma C2_witness :
  ProjectIAMBinding.CheckChanges None examples.bindingNoProject examples.bindingNoProject
  = Some (RequiredFieldError "Project") /\
  CheckChanges (Some examples.found) examples.unnamed examples.unnamed
  = Some (RequiredFieldError "Name") /\
  CheckChanges None examples.unnamed examples.unnamed = None.
Proof.
  pose proof (@C2_CheckChanges_required_fields unit) as [Hgce Haws].
  split; [|split].
  - apply (proj1 (Hgce None examples.bindingNoProject examples.bindingNoProject)).
    reflexivity.
  - apply (proj1 (Haws (Some examples.found) examples.unnamed examples.unnamed)).
    split; [discriminate|]. split; reflexivity.
  - apply (proj2 (Haws None examples.unnamed examples.unnamed)). reflexivity.
Defined.

(** The claim C2 as stated fails for the autoscaling group: on the create
    path (actual nil) [CheckChanges] accepts a desired task without Name. *)
Lemma C2_counterexample :
  Name examples.unnamed = None /\
  CheckChanges None examples.unnamed examples.unnamed = None.
Proof. split; reflexivity. Qed.



Lemma C9_witness :
  exists d,
    In d (FindDeletions
            (withDeletions
               (Find examples.noRequirements examples.cloudWithStale examples.desired).2
               examples.desired)) /\
    deleteAutoscalingTargetGroupAttachment.Item d = "nodes.example.com:arn:stale" /\
    deleteAutoscalingTargetGroupAttachment.DeferDeletion d = true.
Proof.
  destruct (C9_stale_target_groups_are_deferred_deletions examples.noRequirements
              examples.cloudWithStale examples.desired _ _ eq_refl)
    as (g & Hg & _ & _ & Hstale & _).
  vm_compute in Hg. injection Hg as <-.
  apply (Hstale "arn:stale").
  - right. now left.
  - intros tg info Hin Hinfo Harn. simpl in Hin.
    repeat (destruct Hin as [<-|Hin]; [injection Hinfo as <-; discriminate Harn|]).
    destruct Hin.
Defined.
End find_examples.

(** * Further properties of the two tasks *)

(** ** patchCRMPolicy, Find and RenderGCE *)

Section patch_extras.
Import cloudresourcemanager.

Lemma patchBindings_patched bindings member role bindings' changed :
  patchBindings bindings member role = Some (bindings', changed) ->
  Forall2 (patched member role) bindings bindings' /\
  length (concat (map Members bindings')) =
  length (concat (map Members bindings)) + (if changed then 1 else 0).
Proof.
  revert bindings' changed.
  induction bindings as [|b rest IH]; intros bindings' changed H; [discriminate|].
  simpl in H.
  assert (Hcont : match patchBindings rest member role with
                  | Some (rest', changed) => Some (b :: rest', changed)
                  | None => None
                  end = Some (bindings', changed) ->
                  Forall2 (patched member role) (b :: rest) bindings' /\
                  length (concat (map Members bindings')) =
                  length (concat (map Members (b :: rest))) + (if changed then 1 else 0)).
  { destruct (patchBindings rest member role) as [[rest' c]|]; [|discriminate].
    intros [= <- <-]. destruct (IH _ _ eq_refl) as [IH1 IH2].
    split; [constructor; [now left|exact IH1]|].
    simpl. rewrite !length_app, IH2. lia. }
  destruct (Condition b) eqn:Hcond; [exact (Hcont H)|].
  destruct (negb (String.eqb (Role b) role)) eqn:Hrole; [exact (Hcont H)|].
  apply negb_false_iff, String.eqb_eq in Hrole.
  destruct (memberExists (Members b) member).
  - injection H as <- <-. split.
    + apply Forall2_same_length_lookup_2; [reflexivity|].
      intros i x y Hx Hy. left. congruence.
    + lia.
  - injection H as <- <-. split.
    + constructor.
      * right. rewrite Hcond, Hrole. auto.
      * apply Forall2_same_length_lookup_2; [reflexivity|].
        intros i x y Hx Hy. left. congruence.
    + simpl. rewrite !length_app. simpl. lia.
Qed.

Lemma patched_refl member role bindings :
  Forall2 (patched member role) bindings bindings.
Proof.
  apply Forall2_same_length_lookup_2; [reflexivity|].
  intros i x y Hx Hy. left. congruence.
Qed.

(** What a patch leaves of the bindings: each as it was or with the member
    added, then at most one new binding. *)
Lemma patchCRMPolicy_bindings policy member role :
  exists kept extra,
    Bindings (patchCRMPolicy policy member role).1 = kept ++ extra /\
    Forall2 (patched member role) (Bindings policy) kept /\
    (extra = [] \/
     extra = [{| Condition := None; Members := [member]; Role := role |}]).
Proof.
  unfold patchCRMPolicy.
  destruct (patchBindings (Bindings policy) member role) as [[bindings' changed]|] eqn:Hp.
  - exists bindings', []. simpl. rewrite app_nil_r.
    split; [reflexivity|]. split; [|now left].
    exact (proj1 (patchBindings_patched _ _ _ _ _ Hp)).
  - eexists _, _. simpl. split; [reflexivity|]. split; [apply patched_refl|now right].
Qed.

(** X1. [patchCRMPolicy] only adds. It keeps the etag and the version of
    the policy. The bindings of the result are the bindings of the policy,
    in their order, each one as it was or, when it has no condition and
    grants the role, with the member added at the end of its members; after
    them comes at most one new binding, which has no condition and grants
    the role to the member alone. So whatever the policy granted, the
    result grants too. *)
Theorem patchCRMPolicy_only_adds policy member role :
  let policy' := (patchCRMPolicy policy member role).1 in
  Etag policy' = Etag policy /\
  Version policy' = Version policy /\
  (exists kept extra,
      Bindings policy' = kept ++ extra /\
      Forall2 (patched member role) (Bindings policy) kept /\
      (extra = [] \/
       extra = [{| Condition := None; Members := [member]; Role := role |}])) /\
  (forall m r, grants policy m r -> grants policy' m r).
Proof.
  intros policy'.
  destruct (patchCRMPolicy_bindings policy member role)
    as (kept & extra & Hb & Hk & Hx).
  fold policy' in Hb.
  split; [|split].
  1, 2: subst policy'; unfold patchCRMPolicy;
    now destruct (patchBindings (Bindings policy) member role) as [[? ?]|].
  split; [now exists kept, extra|].
  intros m r (b & Hin & Hc & Hr & Hm).
  apply list_elem_of_In, list_elem_of_lookup in Hin as [i Hi].
  destruct (Forall2_lookup_l _ _ _ _ _ Hk Hi) as (b' & Hi' & Hbb').
  exists b'. split.
  { rewrite Hb. apply in_or_app. left.
    apply list_elem_of_In, list_elem_of_lookup. now exists i. }
  destruct Hbb' as [->|(_ & Hr' & ->)]; [auto|].
  simpl. split; [reflexivity|]. split; [congruence|].
  apply in_or_app. now left.
Qed.

(** X2. Counting the members of every binding, [patchCRMPolicy] adds
    exactly one membership to the policy when it reports a change, and none
    when it reports no change. *)
Theorem patchCRMPolicy_adds_one_membership policy member role :
  memberships (patchCRMPolicy policy member role).1 =
  memberships policy + (if (patchCRMPolicy policy member role).2 then 1 else 0).
Proof.
  unfold memberships, patchCRMPolicy.
  destruct (patchBindings (Bindings policy) member role) as [[bindings' changed]|] eqn:Hp.
  - simpl. exact (proj2 (patchBindings_patched _ _ _ _ _ Hp)).
  - simpl. rewrite map_app, concat_app, length_app. reflexivity.
Qed.
End patch_extras.

Section binding_extras.
Import cloudresourcemanager.
Import ProjectIAMBinding.

(** X3. The failures of a binding with a service account wrap their
    cause. [Find] fails exactly when reading the policy of the project
    fails with an error that is not a not-found error, and then with
    [error checking IAM for project], the project and the cause.
    [RenderGCE] fails exactly when reading the policy fails, a not-found
    error included, with [error getting IAM policy for project], or when
    the patch changed the policy and writing it fails, with
    [error updating IAM for project]. When the read fails, nothing is
    written. *)
Theorem ProjectIAMBinding_errors_wrap_the_cause cloud a e changes sa :
  MemberServiceAccount e = Some sa ->
  let projectID := fi.ValueOf (Project e) in
  (forall err,
      Find cloud e = Fail err <->
      exists cause,
        GetIamPolicy cloud projectID = inl cause /\ NotFound cause = false /\
        err = Errorw ("error checking IAM for project " +:+ projectID) cause) /\
  (forall err,
      (RenderGCE cloud a e changes).1 = Fail err <->
      exists cause,
        (GetIamPolicy cloud projectID = inl cause /\
         err = Errorw ("error getting IAM policy for project " +:+ projectID) cause) \/
        (exists policy policy',
            GetIamPolicy cloud projectID = inr policy /\
            patchCRMPolicy policy (memberOf sa) (fi.ValueOf (Role e)) = (policy', true) /\
            SetIamPolicy cloud projectID policy' = Some cause /\
            err = Errorw ("error updating IAM for project " +:+ projectID) cause)) /\
  (forall cause,
      GetIamPolicy cloud projectID = inl cause ->
      forall project policy',
        ~ In (CallSetIamPolicy project policy') (RenderGCE cloud a e changes).2).
Proof.
  intros Hsa projectID. split; [|split].
  - intros err. unfold Find. rewrite Hsa. fold projectID.
    destruct (GetIamPolicy cloud projectID) as [cause|policy].
    + destruct (NotFound cause) eqn:Hnf.
      * split; [discriminate|]. intros (c & [= <-] & Hc & _). congruence.
      * split.
        -- intros [= <-]. now exists cause.
        -- intros (c & [= <-] & _ & ->). reflexivity.
    + split.
      * destruct (patchCRMPolicy _ _ _) as [? []]; discriminate.
      * intros (c & Hc & _). discriminate.
  - intros err. destruct (GetIamPolicy cloud projectID) as [cause|policy] eqn:Hget.
    + unfold RenderGCE. rewrite Hsa. fold projectID. rewrite Hget. simpl. split.
      * intros [= <-]. exists cause. now left.
      * intros (c & [[[= <-] ->]|(p & p' & Hp & _)]); [reflexivity|discriminate].
    + rewrite (RenderGCE_read cloud a e changes sa policy Hsa Hget). fold projectID.
      destruct (patchCRMPolicy policy (memberOf sa) (fi.ValueOf (Role e)))
        as [policy' changed] eqn:Hpatch.
      simpl. destruct changed; simpl.
      * destruct (SetIamPolicy cloud projectID policy') as [cause|] eqn:Hset.
        -- split.
           ++ intros [= <-]. exists cause. right. now exists policy, policy'.
           ++ intros (c & [[Hc _]|(p & p' & Hp & Hpp & Hs & ->)]); [discriminate|].
              injection Hp as <-. rewrite Hpatch in Hpp. injection Hpp as <-.
              congruence.
        -- split; [discriminate|].
           intros (c & [[Hc _]|(p & p' & Hp & Hpp & Hs & _)]); [discriminate|].
           injection Hp as <-. rewrite Hpatch in Hpp. injection Hpp as <-.
           congruence.
      * split; [discriminate|].
        intros (c & [[Hc _]|(p & p' & Hp & Hpp & _)]); [discriminate|].
        injection Hp as <-. rewrite Hpatch in Hpp. discriminate.
  - intros cause Hget project policy' Hin.
    apply RenderGCE_set_inv in Hin as (sa' & policy & _ & Hget' & _).
    fold projectID in Hget'. congruence.
Qed.

(** X4. On a policy they both read, [Find] and [RenderGCE] agree: [Find]
    reports the binding absent exactly when [RenderGCE] writes the policy
    of the project, and reports it present exactly when [RenderGCE] only
    warns that there was nothing to change. *)
Theorem Find_absent_iff_RenderGCE_writes cloud a e changes sa policy :
  MemberServiceAccount e = Some sa ->
  GetIamPolicy cloud (fi.ValueOf (Project e)) = inr policy ->
  (Find cloud e = Ok None <->
   exists policy',
     In (CallSetIamPolicy (fi.ValueOf (Project e)) policy') (RenderGCE cloud a e changes).2) /\
  (Find cloud e = Ok (Some e) <->
   In (Warningf "did not need to change policy (concurrent change?)")
      (RenderGCE cloud a e changes).2).
Proof.
  intros Hsa Hget.
  rewrite (Find_found cloud e sa policy Hsa Hget).
  rewrite (RenderGCE_read cloud a e changes sa policy Hsa Hget).
  destruct (patchCRMPolicy policy (memberOf sa) (fi.ValueOf (Role e)))
    as [policy' changed].
  simpl. destruct changed; simpl.
  - split.
    + split; [|reflexivity]. intros _. exists policy'. right. right. now left.
    + split; [discriminate|].
      intros [H|[H|[H|[H|[]]]]]; discriminate.
  - split.
    + split; [discriminate|].
      intros (p' & [H|[H|[H|[H|[]]]]]); discriminate.
    + split; [|reflexivity]. intros _. right. right. now left.
Qed.

(** X5. [RenderGCE] works under the mutex of the project: the first thing
    it does is take the mutex, the last is release it, also when it fails.
    In between it reads the policy once and then does at most one more
    thing: it writes the policy or warns. *)
Theorem RenderGCE_holds_the_mutex cloud a e changes sa :
  MemberServiceAccount e = Some sa ->
  let projectID := fi.ValueOf (Project e) in
  exists mid,
    (RenderGCE cloud a e changes).2 =
      [MutexLock projectID; CallGetIamPolicy projectID] ++ mid ++ [MutexUnlock projectID] /\
    length mid <= 1 /\
    forall ev, In ev mid ->
      ev = Warningf "did not need to change policy (concurrent change?)" \/
      exists policy', ev = CallSetIamPolicy projectID policy'.
Proof.
  intros Hsa projectID. unfold RenderGCE. rewrite Hsa. fold projectID.
  destruct (GetIamPolicy cloud projectID) as [cause|policy].
  - exists []. simpl. split; [reflexivity|]. split; [lia|]. intros ev [].
  - destruct (patchCRMPolicy _ _ _) as [policy' changed]. destruct changed; simpl.
    + exists [CallSetIamPolicy projectID policy'].
      split; [now destruct (SetIamPolicy cloud projectID policy')|].
      split; [simpl; lia|]. intros ev [<-|[]]. right. now exists policy'.
    + eexists [_]. split; [reflexivity|]. split; [simpl; lia|].
      intros ev [<-|[]]. now left.
Qed.
End binding_extras.

Section first_binding_patched.
Import cloudresourcemanager.

Lemma firstBindingFor_patched role member m2 r2 bindings kept extra :
  Forall2 (patched m2 r2) bindings kept ->
  (exists b, firstBindingFor role bindings = Some b /\ In member (Members b)) ->
  exists b, firstBindingFor role (kept ++ extra) = Some b /\ In member (Members b).
Proof.
  induction 1 as [|b b' bindings kept Hb Hrest IH]; intros (b0 & Hfirst & Hin).
  - discriminate.
  - unfold firstBindingFor in *. simpl in *.
    assert (Hsame : Condition b' = Condition b /\ Role b' = Role b /\
                    forall m, In m (Members b) -> In m (Members b')).
    { destruct Hb as [->|(Hc & Hr & ->)]; [auto|].
      simpl. split; [auto|]. split; [auto|]. intros m Hm. apply in_or_app. now left. }
    destruct Hsame as (-> & -> & Hsub).
    destruct (negb (notNil (Condition b)) && String.eqb (Role b) role).
    + injection Hfirst as <-. exists b'. auto.
    + apply IH. now exists b0.
Qed.
End first_binding_patched.

Section other_render.
Import cloudresourcemanager.
Import ProjectIAMBinding.

(** X6. Rendering does not take away what another task granted: a
    binding that [Find] reports present is still reported present, with
    the same snapshot, in the cloud as a successful render of any other
    binding leaves it. *)
Theorem Find_survives_another_render cloud a e e2 changes events actual :
  Find cloud e = Ok (Some actual) ->
  RenderGCE cloud a e2 changes = (Ok tt, events) ->
  Find (cloudAfter cloud events) e = Ok (Some actual).
Proof.
  intros Hfind Hrender.
  assert (Hparts : exists sa policy,
             MemberServiceAccount e = Some sa /\
             GetIamPolicy cloud (fi.ValueOf (Project e)) = inr policy /\
             (patchCRMPolicy policy (memberOf sa) (fi.ValueOf (Role e))).2 = false).
  { unfold Find in Hfind. destruct (MemberServiceAccount e) as [sa|]; [|discriminate].
    destruct (GetIamPolicy cloud (fi.ValueOf (Project e))) as [err|policy] eqn:Hget.
    - destruct (NotFound err); discriminate.
    - exists sa, policy. split; [reflexivity|]. split; [reflexivity|].
      unfold memberOf. destruct (patchCRMPolicy _ _ _) as [? []]; [discriminate|reflexivity]. }
  destruct Hparts as (sa & policy & Hsa & Hget & Hsame).
  assert (Hactual : actual = e) by exact (Find_snapshot _ _ _ Hfind). subst actual.
  unfold RenderGCE in Hrender.
  destruct (MemberServiceAccount e2) as [sa2|]; [|discriminate].
  destruct (GetIamPolicy cloud (fi.ValueOf (Project e2))) as [err|policy2] eqn:Hget2;
    [discriminate|].
  destruct (patchCRMPolicy policy2 _ _) as [policy2' changed] eqn:Hpatch2.
  destruct changed; simpl in Hrender.
  - destruct (SetIamPolicy cloud (fi.ValueOf (Project e2)) policy2'); [discriminate|].
    injection Hrender as <-. cbn [cloudAfter fold_left cloudAfterEvent].
    destruct (String.eqb (fi.ValueOf (Project e)) (fi.ValueOf (Project e2))) eqn:Hp.
    + apply String.eqb_eq in Hp.
      rewrite (Find_found _ e sa policy2' Hsa)
        by (simpl; now rewrite (proj2 (String.eqb_eq _ _) Hp)).
      rewrite Hp, Hget2 in Hget. injection Hget as ->.
      pose proof (patchCRMPolicy_bindings policy
                    ("serviceAccount:" +:+ fi.ValueOf (ServiceAccount.Email sa2))
                    (fi.ValueOf (Role e2))) as (kept & extra & Hb & Hk & _).
      rewrite Hpatch2 in Hb. simpl in Hb.
      apply patchCRMPolicy_unchanged_iff in Hsame.
      apply (firstBindingFor_patched _ _ _ _ _ _ extra Hk) in Hsame.
      rewrite <- Hb in Hsame. apply patchCRMPolicy_unchanged_iff in Hsame.
      now rewrite Hsame.
    + rewrite (Find_found _ e sa policy Hsa) by (simpl; now rewrite Hp).
      now rewrite Hsame.
  - injection Hrender as <-. cbn [cloudAfter fold_left cloudAfterEvent].
    rewrite (Find_found _ e sa policy Hsa Hget). now rewrite Hsame.
Qed.
End other_render.

(** ** findAutoscalingGroup, Find and Normalize *)

Section listing.
Import AutoscalingGroup.
Import autoscalingtypes.
Context {IR IRq : Type}.
Context (cloud : AWSCloud IRq).
Implicit Types g : AutoScalingGroup.t IRq.
Implicit Types found : list (AutoScalingGroup.t IRq).
Implicit Types pages : list (cloud_error + list (AutoScalingGroup.t IRq)).

Lemma findInPages_listed (groupss : list (list (AutoScalingGroup.t IRq))) name found :
  findInPages (map inr groupss) name found =
  Ok (found ++ List.filter (fun g => negb (notNil (AutoScalingGroup.Status g)) &&
                                     String.eqb (aws.ToString (AutoScalingGroup.AutoScalingGroupName g))
                                                name)
                           (concat groupss)).
Proof.
  revert found. induction groupss as [|groups groupss IH]; intros found; simpl.
  - now rewrite app_nil_r.
  - rewrite IH, List.filter_app, app_assoc. reflexivity.
Qed.

Lemma findInPages_failing (groupss : list (list (AutoScalingGroup.t IRq))) err pages name found :
  findInPages (map inr groupss ++ inl err :: pages) name found =
  Fail (Errorf ("error listing AutoScalingGroups: " +:+ ErrorString err)).
Proof.
  revert found. induction groupss as [|groups groupss IH]; intros found; simpl.
  - reflexivity.
  - apply IH.
Qed.

(** X7. [findAutoscalingGroup] looks at every page of the listing. When no
    page fails, it keeps, of the groups of all pages, those that have the
    name asked for and no status (a group with a status is being deleted):
    it returns nil when there is none, the group when there is one, and
    fails with [found multiple AutoscalingGroups with name: ] followed by
    the name as [%q] writes it when there are several. When a page fails,
    it fails with
    [error listing AutoScalingGroups] and the cause, whatever the pages
    before it held. *)
Theorem findAutoscalingGroup_outcome name :
  (forall groupss,
      DescribeAutoScalingGroups cloud [name] = map inr groupss ->
      findAutoscalingGroup cloud name =
      match List.filter (fun g => bool_decide (isNamed name g)) (concat groupss) with
      | [] => Ok None
      | [g] => Ok (Some g)
      | _ => Fail (Errorq "found multiple AutoscalingGroups with name: " name)
      end) /\
  (forall groupss err pages,
      DescribeAutoScalingGroups cloud [name] = map inr groupss ++ inl err :: pages ->
      findAutoscalingGroup cloud name =
      Fail (Errorf ("error listing AutoScalingGroups: " +:+ ErrorString err))).
Proof.
  split.
  - intros groupss Hpages. unfold findAutoscalingGroup.
    rewrite Hpages, findInPages_listed. simpl.
    erewrite List.filter_ext; [reflexivity|].
    intros g. unfold isNamed.
    destruct (AutoScalingGroup.Status g); cbn [notNil negb andb].
    + symmetry. apply bool_decide_eq_false. intros [H _]. discriminate.
    + destruct (String.eqb_spec (aws.ToString (AutoScalingGroup.AutoScalingGroupName g)) name).
      * symmetry. now apply bool_decide_eq_true.
      * symmetry. apply bool_decide_eq_false. tauto.
  - intros groupss err pages Hpages. unfold findAutoscalingGroup.
    now rewrite Hpages, findInPages_failing.
Qed.
End listing.

Section find_extras.
Import AutoscalingGroup.
Import autoscalingtypes.
Context {IR IRq : Type}.
Context (findInstanceRequirements : AutoScalingGroup.t IRq -> option IR).
Context (cloud : AWSCloud IRq).
Implicit Types e actual : t IR.
Implicit Types g : AutoScalingGroup.t IRq.

(** The snapshot of [Find], field by field, for the fields outside the
    collections. *)
Lemma Find_found_scalars actual ds e :
  Find findInstanceRequirements cloud e = (Ok (Some actual), ds) ->
  exists g,
    findAutoscalingGroup cloud (fi.ValueOf (Name e)) = Ok (Some g) /\
    MinSize actual = AutoScalingGroup.MinSize g /\
    MaxSize actual = AutoScalingGroup.MaxSize g /\
    MaxInstanceLifetime actual = Some (fi.ValueOfInt (AutoScalingGroup.MaxInstanceLifetime g)) /\
    InstanceProtection actual = AutoScalingGroup.NewInstancesProtectedFromScaleIn g /\
    InstanceRequirements actual = findInstanceRequirements g /\
    SuspendProcesses actual =
      Some (map (fun p => fi.ValueOf (SuspendedProcess.ProcessName p))
                (AutoScalingGroup.SuspendedProcesses g)) /\
    Forall (fun p => SuspendedProcess.ProcessName p <> None)
           (AutoScalingGroup.SuspendedProcesses g) /\
    CapacityRebalance actual = None /\
    WarmPool actual = None /\
    deletions actual = [] /\
    Granularity actual =
      fold_left (fun _ m => EnabledMetric.Granularity m)
                (AutoScalingGroup.EnabledMetrics g) None /\
    Tags actual =
      (if negb (Nat.eqb (length (AutoScalingGroup.Tags g)) 0) then
         Some (fold_left
                 (fun tags tag =>
                    if strings.HasPrefix (aws.ToString (TagDescription.Key tag))
                                         "aws:cloudformation:"
                    then tags
                    else <[aws.ToString (TagDescription.Key tag) :=
                             aws.ToString (TagDescription.Value tag)]> tags)
                 (AutoScalingGroup.Tags g) (∅ : gmap string string))
       else None) /\
    MixedSpotMaxPrice actual =
      match AutoScalingGroup.MixedInstancesPolicy g ≫= MixedInstancesPolicy.InstancesDistribution with
      | Some d => Some (fi.ValueOf (InstancesDistribution.SpotMaxPrice d))
      | None => None
      end /\
    LaunchTemplate actual =
      match (AutoScalingGroup.MixedInstancesPolicy g ≫= MixedInstancesPolicy.LaunchTemplate)
            ≫= autoscalingtypes.LaunchTemplate.LaunchTemplateSpecification with
      | Some spec =>
          Some {| LaunchTemplate.Name := LaunchTemplateSpecification.LaunchTemplateName spec;
                  LaunchTemplate.ID := LaunchTemplateSpecification.LaunchTemplateId spec |}
      | None =>
          match AutoScalingGroup.LaunchTemplate g with
          | Some lt =>
              Some {| LaunchTemplate.Name := LaunchTemplateSpecification.LaunchTemplateName lt;
                      LaunchTemplate.ID := LaunchTemplateSpecification.LaunchTemplateId lt |}
          | None => None
          end
      end.
Proof.
  unfold Find.
  destruct (findAutoscalingGroup cloud (fi.ValueOf (Name e))) as [[g|]|err|] eqn:Hg;
    try discriminate.
  match goal with
  | |- context [match ?x with inl _ => _ | inr _ => _ end] =>
      destruct x as [err|lbs] eqn:Hlbs
  end; [discriminate|].
  destruct (forallb _ (AutoScalingGroup.SuspendedProcesses g)) eqn:Hsp; [|discriminate].
  intros [= <- <-]. exists g. split; [reflexivity|]. simpl.
  repeat split.
  - now destruct (AutoScalingGroup.MaxInstanceLifetime g).
  - rewrite forallb_forall in Hsp. apply List.Forall_forall. intros p Hp.
    specialize (Hsp p Hp). now destruct (SuspendedProcess.ProcessName p).
  - destruct (AutoScalingGroup.MixedInstancesPolicy g) as [mp|]; [|reflexivity]. simpl.
    destruct (MixedInstancesPolicy.InstancesDistribution mp) as [d|]; [|reflexivity].
    now destruct (InstancesDistribution.SpotMaxPrice d).
  - destruct (AutoScalingGroup.MixedInstancesPolicy g) as [mp|]; [|reflexivity]. simpl.
    destruct (MixedInstancesPolicy.LaunchTemplate mp) as [lt|]; [|reflexivity]. simpl.
    now destruct (autoscalingtypes.LaunchTemplate.LaunchTemplateSpecification lt).
Qed.

(** X8. What a snapshot of [Find] never leaves nil, and what it always
    does: [MaxInstanceLifetime] is the lifetime of the group found, 0 when
    the group has none; [LoadBalancers], [TargetGroups] and
    [SuspendProcesses] are non-nil slices with one entry for each load
    balancer name, target group ARN and suspended process of the group; for
    a group whose mixed instances policy has an instances distribution,
    [MixedSpotMaxPrice] is the maximum price of the distribution, the empty
    string when it has none; [CapacityRebalance] and [WarmPool] are nil,
    and the snapshot carries no deletion. *)
Theorem Find_snapshot_defaults actual ds e :
  Find findInstanceRequirements cloud e = (Ok (Some actual), ds) ->
  exists g,
    findAutoscalingGroup cloud (fi.ValueOf (Name e)) = Ok (Some g) /\
    MaxInstanceLifetime actual = Some (fi.ValueOfInt (AutoScalingGroup.MaxInstanceLifetime g)) /\
    (exists lbs, LoadBalancers actual = Some lbs /\
                 length lbs = length (AutoScalingGroup.LoadBalancerNames g)) /\
    (exists tgs, TargetGroups actual = Some tgs /\
                 length tgs = length (AutoScalingGroup.TargetGroupARNs g)) /\
    (exists processes, SuspendProcesses actual = Some processes /\
                       map Some processes =
                       map SuspendedProcess.ProcessName (AutoScalingGroup.SuspendedProcesses g)) /\
    (forall mp d,
        AutoScalingGroup.MixedInstancesPolicy g = Some mp ->
        MixedInstancesPolicy.InstancesDistribution mp = Some d ->
        MixedSpotMaxPrice actual = Some (fi.ValueOf (InstancesDistribution.SpotMaxPrice d))) /\
    CapacityRebalance actual = None /\
    WarmPool actual = None /\
    deletions actual = [].
Proof.
  intros H.
  destruct (AutoscalingGroup_Find_found _ _ _ _ _ H)
    as (g & Hg & _ & _ & _ & _ & Hlbs & Htgs & _).
  destruct (Find_found_scalars _ _ _ H)
    as (g' & Hg' & _ & _ & Hmil & _ & _ & Hsp & Hnames & Hcr & Hwp & Hds & _ & _ & Hprice & _).
  assert (g' = g) as -> by congruence.
  exists g. split; [exact Hg|]. split; [exact Hmil|].
  split; [|split; [|split; [|split; [|auto]]]].
  - eexists. split; [exact Hlbs|].
    etransitivity; [apply Permutation_length; exact (Stable_Permutation lbName _)|].
    apply length_map.
  - eexists. split; [exact Htgs|].
    etransitivity; [apply Permutation_length; exact (Stable_Permutation tgName _)|].
    apply length_map.
  - eexists. split; [exact Hsp|]. rewrite map_map.
    apply map_ext_in. intros p Hp. rewrite List.Forall_forall in Hnames.
    specialize (Hnames p Hp). now destruct (SuspendedProcess.ProcessName p).
  - intros mp d Hmp Hd. rewrite Hprice, Hmp. simpl. now rewrite Hd.
Qed.

Lemma fold_tags_lookup (tags : list TagDescription.t) (m : gmap string string) k :
  fold_left (fun tags tag =>
               if strings.HasPrefix (aws.ToString (TagDescription.Key tag)) "aws:cloudformation:"
               then tags
               else <[aws.ToString (TagDescription.Key tag) :=
                        aws.ToString (TagDescription.Value tag)]> tags)
            tags m !! k =
  if strings.HasPrefix k "aws:cloudformation:" then m !! k
  else match List.find (fun tag => String.eqb (aws.ToString (TagDescription.Key tag)) k)
                       (rev tags) with
       | Some tag => Some (aws.ToString (TagDescription.Value tag))
       | None => m !! k
       end.
Proof.
  induction tags as [|tag tags IH] using rev_ind.
  - cbn [fold_left rev List.find]. now destruct (strings.HasPrefix k _).
  - rewrite fold_left_app, rev_app_distr. cbn [fold_left rev app List.find].
    destruct (String.eqb_spec (aws.ToString (TagDescription.Key tag)) k) as [Heq|Hne].
    + rewrite Heq. destruct (strings.HasPrefix k _) eqn:Hp.
      * rewrite IH. now rewrite ?Hp.
      * apply lookup_insert_eq.
    + destruct (strings.HasPrefix (aws.ToString (TagDescription.Key tag)) _).
      * exact IH.
      * rewrite lookup_insert_ne by exact Hne. exact IH.
Qed.

(** X9. The tags of a snapshot are the tags of the group found without
    those whose key starts with [aws:cloudformation:]; of two tags of the
    group with the same key the later one counts. The snapshot has nil
    tags exactly when the group has no tag at all. *)
Theorem Find_snapshot_tags actual ds e :
  Find findInstanceRequirements cloud e = (Ok (Some actual), ds) ->
  exists g,
    findAutoscalingGroup cloud (fi.ValueOf (Name e)) = Ok (Some g) /\
    (Tags actual = None <-> AutoScalingGroup.Tags g = []) /\
    forall k,
      default (∅ : gmap string string) (Tags actual) !! k =
      if strings.HasPrefix k "aws:cloudformation:" then None
      else option_map (fun tag => aws.ToString (TagDescription.Value tag))
                      (List.find (fun tag => String.eqb (aws.ToString (TagDescription.Key tag)) k)
                                 (rev (AutoScalingGroup.Tags g))).
Proof.
  intros H.
  destruct (Find_found_scalars _ _ _ H)
    as (g & Hg & _ & _ & _ & _ & _ & _ & _ & _ & _ & _ & _ & Htags & _).
  exists g. split; [exact Hg|]. rewrite Htags.
  destruct (AutoScalingGroup.Tags g) as [|tag tags] eqn:Hlist.
  - simpl. split; [tauto|]. intros k. rewrite lookup_empty.
    now destruct (strings.HasPrefix k _).
  - cbn [length Nat.eqb negb]. split; [split; discriminate|].
    intros k. unfold default. cbn [from_option id]. rewrite <- Hlist.
    rewrite fold_tags_lookup, lookup_empty.
    destruct (strings.HasPrefix k _); [reflexivity|].
    now destruct (List.find _ _).
Qed.

(** X10. A [Find] that returns no snapshot records no cleanup: when it
    reports the group absent or fails, the deletions of the task are as
    they were. It fails only when finding the group fails, with that
    error, or when the group has load balancers, the task has the API load
    balancer among its own, and looking that one up by its name tag fails,
    with the cause as it is. *)
Theorem Find_failure_records_no_cleanup e out ds :
  Find findInstanceRequirements cloud e = (out, ds) ->
  (out = Ok None -> ds = deletions e) /\
  (forall err,
      out = Fail err ->
      ds = deletions e /\
      (findAutoscalingGroup cloud (fi.ValueOf (Name e)) = Fail err \/
       exists g apiLBTask cause,
         findAutoscalingGroup cloud (fi.ValueOf (Name e)) = Ok (Some g) /\
         apiLBTaskOf e = Some apiLBTask /\
         AutoScalingGroup.LoadBalancerNames g <> [] /\
         FindELBByNameTagAnswer cloud [] (fi.ValueOf (ClassicLoadBalancer.Name apiLBTask))
         = inl cause /\
         err = Raw cause)).
Proof.
  unfold Find.
  destruct (findAutoscalingGroup cloud (fi.ValueOf (Name e))) as [[g|]|err|] eqn:Hg.
  2: { intros [= <- <-]. split; [reflexivity|discriminate]. }
  2: { intros [= <- <-]. split; [discriminate|]. intros ? [= <-]. auto. }
  2: { intros [= <- <-]. split; discriminate. }
  destruct (apiLBTaskOf e) as [apiLBTask|] eqn:Hapi.
  - rewrite length_map.
    destruct (AutoScalingGroup.LoadBalancerNames g) as [|name names] eqn:Hnames.
    + cbn [length Nat.ltb Nat.leb].
      destruct (forallb _ _); intros [= <- <-]; split; discriminate.
    + cbn [length Nat.ltb Nat.leb].
      destruct (FindELBByNameTagAnswer cloud [] _) as [cause|[desc|]] eqn:Hans.
      * intros [= <- <-]. split; [discriminate|]. intros ? [= <-].
        split; [reflexivity|]. right. exists g, apiLBTask, cause.
        rewrite Hnames. repeat split; auto.
      * destruct (forallb _ _); intros [= <- <-]; split; discriminate.
      * destruct (forallb _ _); intros [= <- <-]; split; discriminate.
  - destruct (forallb _ _); intros [= <- <-]; split; discriminate.
Qed.
End find_extras.

Section cleanup_extras.
Import AutoscalingGroup.
Import autoscalingtypes.
Context {IR IRq : Type}.
Context (findInstanceRequirements : AutoScalingGroup.t IRq -> option IR).
Context (cloud : AWSCloud IRq).
Implicit Types e actual : t IR.
Implicit Types g : AutoScalingGroup.t IRq.

(** X11. The cleanups that [Find] adds to the task do what they are
    recorded for and nothing else. Each one is for a target group ARN
    attached to the group found that no desired target group has; carried
    out against AWS, now or later, it makes one call, which detaches that
    one ARN from the group of the task, and it succeeds exactly when the
    call does. Against any other target it fails with
    [unexpected target type for deletion] and calls nothing. *)
Theorem Find_cleanups_detach_only_stale_target_groups actual ds e :
  Find findInstanceRequirements cloud e = (Ok (Some actual), ds) ->
  exists g new,
    findAutoscalingGroup cloud (fi.ValueOf (Name e)) = Ok (Some g) /\
    ds = deletions e ++ new /\
    (forall d, In d new ->
       exists arn,
         In arn (AutoScalingGroup.TargetGroupARNs g) /\
         (forall tg info, In tg (elems (TargetGroups e)) ->
                          TargetGroup.info tg = Some info -> awsup.ARN info <> arn) /\
         forall (later : AWSCloud IRq),
           let request := api.DetachLoadBalancerTargetGroups (Some (fi.ValueOf (Name e))) [arn] in
           (Delete d (AWSAPITarget later)).2 = [request] /\
           ((Delete d (AWSAPITarget later)).1 = Ok tt <->
            Autoscaling later [] request = None)) /\
    (forall d typeName,
        Delete (IRq := IRq) d (OtherTarget typeName) =
        (Fail (Errorf ("unexpected target type for deletion: " +:+ typeName)), [])).
Proof.
  intros H.
  destruct (AutoscalingGroup_Find_found _ _ _ _ _ H)
    as (g & Hg & _ & _ & _ & _ & _ & _ & _ & Hds).
  exists g, (map (buildDeleteAutoscalingTargetGroupAttachment
                    (aws.ToString (AutoScalingGroup.AutoScalingGroupName g)))
                 (staleTargetGroups e g)).
  split; [exact Hg|]. split; [exact Hds|]. split; [|reflexivity].
  intros d Hd. apply in_map_iff in Hd as (arn & <- & Harn).
  apply filter_In in Harn as [Hin Hstale]. exists arn.
  split; [exact Hin|]. split.
  - apply (targetGroupsByARN_None e arn).
    now destruct (targetGroupsByARN e !! arn).
  - intros later request. subst request.
    destruct (findAutoscalingGroup_named _ _ _ Hg) as [_ Hname].
    unfold Delete, buildDeleteAutoscalingTargetGroupAttachment. simpl.
    unfold aws.String. rewrite Hname.
    destruct (Autoscaling later [] _); simpl; split; try reflexivity;
      split; congruence.
Qed.
End cleanup_extras.

Section split_join.

Lemma Contains_comma_cons c s :
  strings.Contains (String c s) "," = Ascii.eqb c "," || strings.Contains s ",".
Proof.
  change (strings.Contains (String c s) ",")
    with ((if Ascii.ascii_dec "," c then String.prefix "" s else false) ||
          strings.Contains s ",").
  destruct (Ascii.ascii_dec "," c) as [<-|Hne].
  - rewrite Ascii.eqb_refl. now destruct s.
  - rewrite (proj2 (Ascii.eqb_neq c ",")) by congruence. reflexivity.
Qed.

Lemma Split_no_comma s :
  strings.Contains s "," = false -> strings.Split s "," = [s].
Proof.
  induction s as [|c s IH]; [reflexivity|].
  rewrite Contains_comma_cons. intros H. apply orb_false_iff in H as [Hc Hs].
  simpl. rewrite Hc, (IH Hs). reflexivity.
Qed.

Lemma Split_app_comma s rest :
  strings.Contains s "," = false ->
  strings.Split (s +:+ "," +:+ rest) "," = s :: strings.Split rest ",".
Proof.
  induction s as [|c s IH].
  - intros _. reflexivity.
  - rewrite Contains_comma_cons. intros H. apply orb_false_iff in H as [Hc Hs].
    simpl. rewrite Hc. simpl in IH. rewrite (IH Hs). reflexivity.
Qed.

Lemma Split_Join (ids : list string) :
  ids <> [] ->
  Forall (fun id => strings.Contains id "," = false) ids ->
  strings.Split (strings.Join ids ",") "," = ids.
Proof.
  intros Hne Hall. induction Hall as [|id ids Hid Hall IH]; [congruence|].
  destruct ids as [|id' ids].
  - simpl. now apply Split_no_comma.
  - unfold strings.Join in *. cbn [String.concat].
    rewrite Split_app_comma by exact Hid. f_equal. apply IH. discriminate.
Qed.
End split_join.

Section subnets_round_trip.
Import AutoscalingGroup.
Import autoscalingtypes.
Context {IR IRq : Type}.
Context (findInstanceRequirements : AutoScalingGroup.t IRq -> option IR).
Context (cloud : AWSCloud IRq).
Implicit Types e actual : t IR.
Implicit Types g : AutoScalingGroup.t IRq.

(** X12. [Find] reads back the subnets a render wrote: when the zone
    identifier of the group found is the one [RenderAWS] writes for the
    task (the subnet IDs joined by commas), the task has a subnet and no
    subnet ID contains a comma, the snapshot has the subnet IDs of the
    task, in the order of the task. *)
Theorem Find_reads_back_the_subnets_written actual ds e g :
  findAutoscalingGroup cloud (fi.ValueOf (Name e)) = Ok (Some g) ->
  AutoScalingGroup.VPCZoneIdentifier g =
    fi.PtrTo (strings.Join (AutoscalingGroupSubnets e) ",") ->
  AutoscalingGroupSubnets e <> [] ->
  Forall (fun id => strings.Contains id "," = false) (AutoscalingGroupSubnets e) ->
  Find findInstanceRequirements cloud e = (Ok (Some actual), ds) ->
  AutoscalingGroupSubnets actual = AutoscalingGroupSubnets e.
Proof.
  intros Hg Hzone Hne Hall H.
  destruct (AutoscalingGroup_Find_found _ _ _ _ _ H)
    as (g' & Hg' & _ & _ & _ & _ & _ & _ & Hsub & _).
  assert (g' = g) as -> by congruence.
  unfold AutoscalingGroupSubnets at 1. rewrite Hsub.
  destruct (subnetSlicesEqualIgnoreOrder _ _); [reflexivity|].
  unfold zoneSubnets. rewrite Hzone. unfold fi.PtrTo. simpl.
  rewrite map_map. simpl. rewrite map_id. now apply Split_Join.
Qed.
End subnets_round_trip.

Section normalize_extras.
Import AutoscalingGroup.
Context {IR IRq : Type}.
Implicit Types e : t IR.

(** X13. [Normalize] sorts the desired metrics and leaves their nil-ness
    alone: afterwards the metrics are the same ones, in increasing order.
    Two tasks that desire the same metrics in different orders have the
    same metrics after [Normalize], and running it a second time changes
    no metric. *)
Theorem Normalize_sorts_the_metrics (cloud : AWSCloud IRq) e :
  (Metrics e = None <-> Metrics (Normalize cloud e) = None) /\
  Permutation (elems (Metrics (Normalize cloud e))) (elems (Metrics e)) /\
  Sorted string_le (elems (Metrics (Normalize cloud e))) /\
  (forall e2,
      Permutation (elems (Metrics e)) (elems (Metrics e2)) ->
      elems (Metrics (Normalize cloud e)) = elems (Metrics (Normalize cloud e2))) /\
  Metrics (Normalize cloud (Normalize cloud e)) = Metrics (Normalize cloud e).
Proof.
  assert (Hsorted : forall e', elems (Metrics (Normalize cloud e')) =
                               sort.Strings (elems (Metrics e'))).
  { intros e'. simpl. now destruct (Metrics e'). }
  split; [|split; [|split; [|split]]].
  - simpl. destruct (Metrics e); simpl; split; congruence.
  - rewrite Hsorted. apply Strings_Permutation.
  - rewrite Hsorted. apply Strings_sorted.
  - intros e2 Hp. rewrite !Hsorted. now apply Strings_order_insensitive.
  - simpl. destruct (Metrics e) as [metrics|]; [|reflexivity].
    simpl. f_equal. apply Strings_order_insensitive, Strings_Permutation.
Qed.
End normalize_extras.

(** ** sliceChunks *)

Section slice_chunks_shape.

Lemma sliceChunksFrom_shape (slice : list string) (chunkSize : nat) :
  0 < chunkSize ->
  forall fuel i chunks,
    length slice - i <= fuel ->
    exists more,
      sliceChunksFrom fuel slice chunkSize i chunks = Some (chunks ++ more) /\
      (length slice <= i -> more = []) /\
      (i < length slice ->
       exists full last,
         more = full ++ [last] /\
         Forall (fun chunk => length chunk = chunkSize) full /\
         0 < length last <= chunkSize /\
         length slice - i = chunkSize * length full + length last).
Proof.
  intros Hpos. induction fuel as [|fuel IH]; intros i chunks Hfuel.
  - exists []. simpl. destruct (Nat.ltb_spec i (length slice)); [lia|].
    rewrite app_nil_r. split; [reflexivity|]. split; [auto|lia].
  - simpl. destruct (Nat.ltb_spec i (length slice)) as [Hi|Hi].
    + destruct (IH (i + chunkSize)
                   (chunks ++ [if Nat.ltb (i + chunkSize) (length slice)
                               then firstn chunkSize (skipn i slice)
                               else skipn i slice]))
        as (more & Hrun & Hend & Hshape); [lia|].
      eexists (_ :: more). rewrite Hrun, <- app_assoc. simpl.
      split; [reflexivity|]. split; [lia|]. intros _.
      destruct (Nat.ltb_spec (i + chunkSize) (length slice)) as [Hmore|Hlast].
      * destruct (Hshape Hmore) as (full & last & -> & Hfull & Hl & Hlen).
        exists (firstn chunkSize (skipn i slice) :: full), last.
        split; [reflexivity|]. split; [|split; [exact Hl|]].
        -- constructor; [|exact Hfull]. rewrite length_firstn, length_skipn. lia.
        -- simpl. lia.
      * rewrite (Hend Hlast). exists [], (skipn i slice).
        split; [reflexivity|]. split; [constructor|].
        rewrite length_skipn. simpl. lia.
    + exists []. rewrite app_nil_r. split; [reflexivity|]. split; [auto|lia].
Qed.

(** X14. [sliceChunks] makes as few chunks as the chunk size allows: for
    a positive chunk size the number of chunks is the length of the input
    divided by the chunk size, rounded up; an empty input gives no chunk,
    and of the chunks of a non-empty input all but the last have exactly
    the chunk size, the last one being non-empty. *)
Theorem sliceChunks_full_chunks (slice : list string) (chunkSize : nat) :
  0 < chunkSize ->
  exists chunks,
    sliceChunks slice chunkSize = Some chunks /\
    length chunks = (length slice + chunkSize - 1) / chunkSize /\
    (slice = [] -> chunks = []) /\
    (slice <> [] ->
     exists full last,
       chunks = full ++ [last] /\
       Forall (fun chunk => length chunk = chunkSize) full /\
       0 < length last <= chunkSize).
Proof.
  intros Hpos.
  destruct (sliceChunksFrom_shape slice chunkSize Hpos (length slice) 0 [])
    as (chunks & Hrun & Hend & Hshape); [lia|].
  exists chunks. unfold sliceChunks. rewrite Hrun. split; [reflexivity|].
  destruct slice as [|x slice].
  - rewrite Hend by (simpl; lia). simpl.
    split; [|split; [reflexivity|congruence]].
    symmetry. apply Nat.div_small. lia.
  - destruct Hshape as (full & last & -> & Hfull & Hl & Hlen); [simpl; lia|].
    split; [|split; [discriminate|]].
    + rewrite length_app. simpl length at 1.
      rewrite Nat.sub_0_r in Hlen. rewrite Hlen.
      simpl length at 2. apply (Nat.div_unique _ _ _ (length last - 1)); [lia|nia].
    + intros _. now exists full, last.
Qed.

(** X15. With chunk size 0 [sliceChunks] returns (no chunk) only for an
    empty input: on any other input its loop never advances, so no number
    of iterations ends it. *)
Theorem sliceChunks_zero_chunk_size (slice : list string) :
  sliceChunks [] 0 = Some [] /\
  (slice <> [] -> forall fuel, sliceChunksFrom fuel slice 0 0 [] = None).
Proof.
  split; [reflexivity|]. intros Hne fuel. apply sliceChunksFrom_zero.
  destruct slice; [congruence|simpl; lia].
Qed.
End slice_chunks_shape.

(** ** What to detach and which tags to delete *)

Section detach.
Import AutoscalingGroup.
Context {IR : Type}.
Implicit Types e : t IR.

Lemma existsb_eqb_In (x : string) (l : list string) :
  existsb (String.eqb x) l = true <-> In x l.
Proof.
  rewrite existsb_exists. split.
  - intros (y & Hy & Heq). apply String.eqb_eq in Heq. now subst.
  - intros H. exists x. split; [exact H|apply String.eqb_refl].
Qed.

Lemma getLBsToDetach_Ok e (currentLBs : list ClassicLoadBalancer.t) names :
  getLBsToDetach e currentLBs = Ok names ->
  sublist names (map (fun lb => fi.ValueOf (ClassicLoadBalancer.Name lb)) currentLBs) /\
  forall name,
    In name names <->
    (exists lb, In lb currentLBs /\ ClassicLoadBalancer.Name lb = Some name) /\
    ~ exists lb, In lb (elems (LoadBalancers e)) /\
                 ClassicLoadBalancer.Name lb = Some name.
Proof.
  unfold getLBsToDetach.
  destruct (forallb _ _) eqn:Hall; [|discriminate].
  intros [= <-]. rewrite forallb_app in Hall.
  apply andb_prop in Hall as [Hdes Hcur].
  rewrite forallb_forall in Hdes, Hcur. split.
  - unfold aws.ToString. induction currentLBs as [|lb rest IH]; [constructor|].
    simpl. simpl in Hcur.
    destruct (negb _).
    + simpl. apply sublist_skip. apply IH. intros x Hx. apply Hcur. now right.
    + apply sublist_cons. apply IH. intros x Hx. apply Hcur. now right.
  - intros name. rewrite in_map_iff. split.
    + intros (lb & <- & Hin). apply filter_In in Hin as [Hin Hnot].
      apply negb_true_iff in Hnot. split.
      * exists lb. split; [exact Hin|]. specialize (Hcur lb Hin).
        now destruct (ClassicLoadBalancer.Name lb).
      * intros (lb' & Hin' & Hname').
        assert (existsb (String.eqb (fi.ValueOf (ClassicLoadBalancer.Name lb)))
                        (map (fun v => fi.ValueOf (ClassicLoadBalancer.Name v))
                             (elems (LoadBalancers e))) = true); [|congruence].
        apply existsb_eqb_In, in_map_iff. exists lb'. split; [|exact Hin'].
        rewrite Hname'. reflexivity.
    + intros ((lb & Hin & Hname) & Hnot). exists lb. split; [now rewrite Hname|].
      apply filter_In. split; [exact Hin|]. apply negb_true_iff.
      apply not_true_is_false. intros Hex. apply Hnot.
      apply existsb_eqb_In, in_map_iff in Hex as (lb' & Heq & Hin').
      exists lb'. split; [exact Hin'|]. specialize (Hdes lb' Hin').
      rewrite Hname in Heq. simpl in Heq.
      destruct (ClassicLoadBalancer.Name lb'); [simpl in Heq; congruence|discriminate].
Qed.

(** X16. [getLBsToDetach] panics exactly when a desired or a current load
    balancer has a nil name. Otherwise it returns names of current load
    balancers, in their order: a name is returned exactly when a current
    load balancer has it and no desired one does. *)
Theorem getLBsToDetach_detaches_what_is_not_desired e (currentLBs : list ClassicLoadBalancer.t) :
  (getLBsToDetach e currentLBs = Panic <->
   exists lb, In lb (elems (LoadBalancers e) ++ currentLBs) /\
              ClassicLoadBalancer.Name lb = None) /\
  (forall names,
      getLBsToDetach e currentLBs = Ok names ->
      sublist names (map (fun lb => fi.ValueOf (ClassicLoadBalancer.Name lb)) currentLBs) /\
      forall name,
        In name names <->
        (exists lb, In lb currentLBs /\ ClassicLoadBalancer.Name lb = Some name) /\
        ~ exists lb, In lb (elems (LoadBalancers e)) /\
                     ClassicLoadBalancer.Name lb = Some name).
Proof.
  split; [|intros names; apply getLBsToDetach_Ok].
  unfold getLBsToDetach. destruct (forallb _ _) eqn:Hall.
  - split; [discriminate|]. intros (lb & Hin & Hnil).
    rewrite forallb_forall in Hall. specialize (Hall lb Hin).
    rewrite Hnil in Hall. discriminate.
  - split; [|reflexivity]. intros _.
    apply not_true_iff_false in Hall.
    destruct (List.Exists_dec (fun lb => ClassicLoadBalancer.Name lb = None)
                (elems (LoadBalancers e) ++ currentLBs)) as [Hex|Hno].
    { intros lb. destruct (ClassicLoadBalancer.Name lb); [right; discriminate|now left]. }
    + apply List.Exists_exists in Hex. exact Hex.
    + exfalso. apply Hall. apply forallb_forall. intros lb Hin.
      destruct (ClassicLoadBalancer.Name lb) eqn:Hn; [reflexivity|].
      exfalso. apply Hno. apply List.Exists_exists. now exists lb.
Qed.
End detach.

Section detach_tgs.
Import AutoscalingGroup.
Context {IR : Type}.
Implicit Types e : t IR.

(** X17. [getTGsToDetach] panics exactly when a desired or a current
    target group has a nil ARN. Otherwise it returns ARNs of current target
    groups, in their order: an ARN is returned exactly when a current
    target group has it and no desired one does. *)
Theorem getTGsToDetach_detaches_what_is_not_desired e (currentTGs : list TargetGroup.t) :
  (getTGsToDetach e currentTGs = Panic <->
   exists tg, In tg (elems (TargetGroups e) ++ currentTGs) /\ TargetGroup.ARN tg = None) /\
  (forall arns,
      getTGsToDetach e currentTGs = Ok arns ->
      sublist arns (map TargetGroup.ARN currentTGs) /\
      forall arn,
        In arn arns <->
        arn <> None /\
        (exists tg, In tg currentTGs /\ TargetGroup.ARN tg = arn) /\
        ~ exists tg, In tg (elems (TargetGroups e)) /\ TargetGroup.ARN tg = arn).
Proof.
  unfold getTGsToDetach.
  destruct (forallb _ _) eqn:Hall.
  - split.
    + split; [discriminate|]. intros (tg & Hin & Hnil).
      rewrite forallb_forall in Hall. specialize (Hall tg Hin).
      rewrite Hnil in Hall. discriminate.
    + intros arns [= <-]. rewrite forallb_app in Hall.
      apply andb_prop in Hall as [Hdes Hcur].
      rewrite forallb_forall in Hdes, Hcur. split.
      * clear Hcur. induction currentTGs as [|tg rest IH]; [constructor|].
        simpl. destruct (negb _).
        -- simpl. apply sublist_skip. exact IH.
        -- apply sublist_cons. exact IH.
      * intros arn. rewrite in_map_iff. split.
        -- intros (tg & <- & Hin). apply filter_In in Hin as [Hin Hnot].
           apply negb_true_iff in Hnot. split; [|split].
           ++ specialize (Hcur tg Hin). now destruct (TargetGroup.ARN tg).
           ++ now exists tg.
           ++ intros (tg' & Hin' & Harn').
              assert (existsb (String.eqb (fi.ValueOf (TargetGroup.ARN tg)))
                              (map (fun v => fi.ValueOf (TargetGroup.ARN v))
                                   (elems (TargetGroups e))) = true); [|congruence].
              apply existsb_eqb_In, in_map_iff. exists tg'. split; [|exact Hin'].
              now rewrite Harn'.
        -- intros (Hsome & (tg & Hin & Harn) & Hnot). exists tg. split; [exact Harn|].
           apply filter_In. split; [exact Hin|]. apply negb_true_iff.
           apply not_true_is_false. intros Hex. apply Hnot.
           apply existsb_eqb_In, in_map_iff in Hex as (tg' & Heq & Hin').
           exists tg'. split; [exact Hin'|]. specialize (Hdes tg' Hin').
           rewrite <- Harn. specialize (Hcur tg Hin).
           destruct (TargetGroup.ARN tg'), (TargetGroup.ARN tg); try discriminate.
           simpl in Heq. congruence.
  - split; [|discriminate]. split; [|reflexivity]. intros _.
    apply not_true_iff_false in Hall.
    destruct (List.Exists_dec (fun tg => TargetGroup.ARN tg = None)
                (elems (TargetGroups e) ++ currentTGs)) as [Hex|Hno].
    { intros tg. destruct (TargetGroup.ARN tg); [right; discriminate|now left]. }
    + apply List.Exists_exists in Hex. exact Hex.
    + exfalso. apply Hall. apply forallb_forall. intros tg Hin.
      destruct (TargetGroup.ARN tg) eqn:Hn; [reflexivity|].
      exfalso. apply Hno. apply List.Exists_exists. now exists tg.
Qed.
End detach_tgs.

Section tags.
Import AutoscalingGroup.
Context {IR : Type}.
Implicit Types e : t IR.

Lemma fold_delete_lookup {A} (key : A -> string) (l : list A) (m : gmap string string) k :
  fold_left (fun tags x => delete (key x) tags) l m !! k =
  if existsb (String.eqb k) (map key l) then None else m !! k.
Proof.
  revert m. induction l as [|x l IH]; intros m; simpl; [reflexivity|].
  rewrite IH. destruct (String.eqb_spec k (key x)) as [->|Hne]; simpl.
  - destruct (existsb _ _); [reflexivity|apply lookup_delete_eq].
  - rewrite lookup_delete_ne by congruence. reflexivity.
Qed.

Lemma fold_insert_lookup {A} (key value : A -> string) (l : list A)
    (m : gmap string string) k :
  NoDup (map key l) ->
  fold_left (fun tags x => <[key x := value x]> tags) l m !! k =
  match List.find (fun x => String.eqb (key x) k) l with
  | Some x => Some (value x)
  | None => m !! k
  end.
Proof.
  revert m. induction l as [|x l IH]; intros m Hnd; simpl; [reflexivity|].
  apply NoDup_cons in Hnd as [Hx Hnd]. rewrite IH by exact Hnd.
  destruct (String.eqb_spec (key x) k) as [<-|Hne].
  - destruct (List.find _ l) as [y|] eqn:Hy.
    + apply find_some in Hy as [Hy Hk]. apply String.eqb_eq in Hk.
      exfalso. apply Hx. rewrite <- Hk. apply list_elem_of_In, in_map, Hy.
    + apply lookup_insert_eq.
  - destruct (List.find _ l); [reflexivity|]. now apply lookup_insert_ne.
Qed.

Lemma getASGTagsToDelete_In e (current : gmap string string) tag :
  In tag (getASGTagsToDelete e current) <->
  exists k v,
    current !! k = Some v /\ default (∅ : gmap string string) (Tags e) !! k = None /\
    tag = {| autoscalingtypes.Tag.Key := Some k;
             autoscalingtypes.Tag.Value := Some v;
             autoscalingtypes.Tag.ResourceId := Name e;
             autoscalingtypes.Tag.ResourceType := Some "auto-scaling-group";
             autoscalingtypes.Tag.PropagateAtLaunch := None |}.
Proof.
  unfold getASGTagsToDelete. rewrite in_map_iff. split.
  - intros ([k v] & <- & Hin). apply filter_In in Hin as [Hin Hnot].
    apply bool_decide_eq_true in Hnot. simpl in Hnot.
    apply list_elem_of_In, elem_of_map_to_list in Hin.
    now exists k, v.
  - intros (k & v & Hc & Hd & ->). exists (k, v). split; [reflexivity|].
    apply filter_In. split.
    + now apply list_elem_of_In, elem_of_map_to_list.
    + now apply bool_decide_eq_true.
Qed.

Lemma AutoscalingGroupTags_In e tag :
  In tag (AutoscalingGroupTags e) <->
  exists k v,
    default (∅ : gmap string string) (Tags e) !! k = Some v /\
    tag = {| autoscalingtypes.Tag.Key := Some k;
             autoscalingtypes.Tag.Value := Some v;
             autoscalingtypes.Tag.ResourceId := Name e;
             autoscalingtypes.Tag.ResourceType := Some "auto-scaling-group";
             autoscalingtypes.Tag.PropagateAtLaunch := Some true |}.
Proof.
  unfold AutoscalingGroupTags.
  destruct (Tags e) as [tags|]; simpl.
  - rewrite in_map_iff. split.
    + intros ([k v] & <- & Hin). apply list_elem_of_In, elem_of_map_to_list in Hin.
      now exists k, v.
    + intros (k & v & Hd & ->). exists (k, v). split; [reflexivity|].
      now apply list_elem_of_In, elem_of_map_to_list.
  - split; [intros []|]. intros (k & v & Hd & _). rewrite lookup_empty in Hd.
    discriminate.
Qed.

Lemma updateTags_deleteTags e (current : gmap string string) :
  updateTags (deleteTags current (getASGTagsToDelete e current)) (AutoscalingGroupTags e)
  = default (∅ : gmap string string) (Tags e).
Proof.
  apply map_eq. intros k. unfold updateTags, deleteTags.
  rewrite (fold_insert_lookup
             (fun tag => aws.ToString (autoscalingtypes.Tag.Key tag))
             (fun tag => aws.ToString (autoscalingtypes.Tag.Value tag))).
  2: { unfold AutoscalingGroupTags. destruct (Tags e) as [tags|]; [|constructor].
       rewrite map_map. simpl.
       apply (NoDup_fst_map_to_list tags). }
  destruct (List.find _ (AutoscalingGroupTags e)) as [tag|] eqn:Hfind.
  - apply find_some in Hfind as [Hin Hk]. apply String.eqb_eq in Hk.
    apply AutoscalingGroupTags_In in Hin as (k' & v & Hd & ->). simpl in *. subst k'.
    now rewrite Hd.
  - rewrite fold_delete_lookup.
    destruct (default (∅ : gmap string string) (Tags e) !! k) as [v|] eqn:Hd.
    + exfalso.
      assert (Hin : In {| autoscalingtypes.Tag.Key := Some k;
                          autoscalingtypes.Tag.Value := Some v;
                          autoscalingtypes.Tag.ResourceId := Name e;
                          autoscalingtypes.Tag.ResourceType := Some "auto-scaling-group";
                          autoscalingtypes.Tag.PropagateAtLaunch := Some true |}
                       (AutoscalingGroupTags e))
        by (apply AutoscalingGroupTags_In; now exists k, v).
      apply (find_none _ _ Hfind) in Hin. simpl in Hin.
      now rewrite String.eqb_refl in Hin.
    + destruct (existsb _ _) eqn:Hex; [reflexivity|].
      destruct (current !! k) as [v|] eqn:Hc; [|reflexivity].
      exfalso. apply not_true_iff_false in Hex. apply Hex.
      apply existsb_eqb_In, in_map_iff. eexists.
      split; [|apply getASGTagsToDelete_In; now exists k, v].
      reflexivity.
Qed.

(** X18. The tags to delete and the tags to write fit together: deleting
    from the current tags of a group what [getASGTagsToDelete] gives and
    then writing what [AutoscalingGroupTags] gives leaves exactly the
    desired tags. A tag is deleted only for a current key that is not
    desired, with its current value; a tag is written only for a desired
    key, with its desired value; both name the group of the task. *)
Theorem tags_deleted_and_updated_make_desired e (current : gmap string string) :
  let desired := default (∅ : gmap string string) (Tags e) in
  updateTags (deleteTags current (getASGTagsToDelete e current)) (AutoscalingGroupTags e)
  = desired /\
  (forall tag,
      In tag (getASGTagsToDelete e current) ->
      exists k v,
        current !! k = Some v /\ desired !! k = None /\
        autoscalingtypes.Tag.Key tag = Some k /\
        autoscalingtypes.Tag.Value tag = Some v /\
        autoscalingtypes.Tag.ResourceId tag = Name e) /\
  (forall tag,
      In tag (AutoscalingGroupTags e) ->
      exists k v,
        desired !! k = Some v /\
        autoscalingtypes.Tag.Key tag = Some k /\
        autoscalingtypes.Tag.Value tag = Some v /\
        autoscalingtypes.Tag.ResourceId tag = Name e /\
        autoscalingtypes.Tag.PropagateAtLaunch tag = Some true) /\
  (forall k v,
      current !! k = Some v -> desired !! k = None ->
      exists tag, In tag (getASGTagsToDelete e current) /\
                  autoscalingtypes.Tag.Key tag = Some k) /\
  (forall k v,
      desired !! k = Some v ->
      exists tag, In tag (AutoscalingGroupTags e) /\
                  autoscalingtypes.Tag.Key tag = Some k /\
                  autoscalingtypes.Tag.Value tag = Some v).
Proof.
  intros desired. split; [apply updateTags_deleteTags|]. split; [|split; [|split]].
  - intros tag Hin. apply getASGTagsToDelete_In in Hin as (k & v & Hc & Hd & ->).
    exists k, v. auto.
  - intros tag Hin. apply AutoscalingGroupTags_In in Hin as (k & v & Hd & ->).
    exists k, v. auto.
  - intros k v Hc Hd. eexists. split; [apply getASGTagsToDelete_In; now exists k, v|].
    reflexivity.
  - intros k v Hd. eexists. split; [apply AutoscalingGroupTags_In; now exists k, v|].
    auto.
Qed.
End tags.

(** ** The create path *)

Section create_extras.
Import AutoscalingGroup.
Import autoscaling.
Context {IR IRq : Type}.
Context (overridesFromInstanceRequirements :
           IR -> autoscalingtypes.LaunchTemplateOverrides.t IRq).
Context (cloud : AWSCloud IRq).
Implicit Types s : state IR IRq.
Implicit Types v e : t IR.

Lemma lookupOf_cons lb lbs (c : api.call IRq) : lookupOf lbs c -> lookupOf (lb :: lbs) c.
Proof. intros (x & Hin & H). exists x. split; [now right|exact H]. Qed.

Lemma createLoadBalancerNames_names lbs names s :
  exists extra,
    calls (createLoadBalancerNames cloud lbs names s).2 = calls s ++ extra /\
    changes (createLoadBalancerNames cloud lbs names s).2 = changes s /\
    Forall (lookupOf lbs) extra /\
    (forall out, (createLoadBalancerNames cloud lbs names s).1 = Ok out ->
       exists more, out = names ++ more /\ Forall2 (attachedName cloud) lbs more) /\
    (createLoadBalancerNames cloud lbs names s).1 <> Panic /\
    (forall err, (createLoadBalancerNames cloud lbs names s).1 = Fail err -> extra <> []) /\
    (Forall (fun lb => ClassicLoadBalancer.LoadBalancerName lb <> None) lbs ->
     extra = [] /\
     (createLoadBalancerNames cloud lbs names s).1 =
     Ok (names ++ map (fun lb => aws.ToString (ClassicLoadBalancer.LoadBalancerName lb)) lbs)).
Proof.
  revert names s. induction lbs as [|k rest IH]; intros names s; simpl.
  - exists []. rewrite !app_nil_r. repeat split; auto; try discriminate.
    intros out [= <-]. exists []. rewrite app_nil_r. split; [reflexivity|constructor].
  - destruct (ClassicLoadBalancer.LoadBalancerName k) as [name|] eqn:Hname.
    + destruct (IH (names ++ [name]) s)
        as (extra & Hc & Hch & Hall & Hok & Hnp & Hfail & Hnamed).
      exists extra. split; [exact Hc|]. split; [exact Hch|].
      split; [|split; [|split; [|split; [exact Hfail|]]]].
      * eapply Forall_impl; [exact Hall|]. intros c. apply lookupOf_cons.
      * intros out Hout. destruct (Hok out Hout) as (more & -> & Hmore).
        exists (name :: more). rewrite <- app_assoc. split; [reflexivity|].
        constructor; [|exact Hmore]. unfold attachedName. now rewrite Hname.
      * exact Hnp.
      * intros Hall'. apply Forall_cons in Hall' as [_ Hall'].
        destruct (Hnamed Hall') as [-> Hres]. split; [reflexivity|].
        rewrite Hres, <- app_assoc. reflexivity.
    + unfold bind, findELBByNameTag.
      assert (Hlook : lookupOf (IRq := IRq) (k :: rest)
                        (api.FindELBByNameTag (fi.ValueOf (ClassicLoadBalancer.GetName k))))
        by (exists k; repeat split; auto; now left).
      destruct (FindELBByNameTagAnswer cloud (calls s) _) as [err|[lbDesc|]] eqn:Hans; simpl.
      * eexists [_]. split; [reflexivity|]. split; [reflexivity|].
        split; [constructor; [exact Hlook|constructor]|].
        split; [discriminate|]. split; [discriminate|]. split; [discriminate|].
        intros Hall'. apply Forall_cons in Hall' as [Hk _]. congruence.
      * destruct (IH (names ++ [aws.ToString (elbtypes.LoadBalancerName lbDesc)])
                     {| changes := changes s;
                        calls := calls s ++
                                 [api.FindELBByNameTag
                                    (fi.ValueOf (ClassicLoadBalancer.GetName k))] |})
          as (extra & Hc & Hch & Hall & Hok & Hnp & _ & _).
        simpl in *. eexists (_ :: extra). rewrite Hc, <- app_assoc. simpl.
        split; [reflexivity|]. split; [exact Hch|].
        split; [|split; [|split; [|split; [discriminate|]]]].
        -- constructor; [exact Hlook|].
           eapply Forall_impl; [exact Hall|]. intros c. apply lookupOf_cons.
        -- intros out Hout. destruct (Hok out Hout) as (more & -> & Hmore).
           eexists (_ :: more). rewrite <- app_assoc. split; [reflexivity|].
           constructor; [|exact Hmore]. unfold attachedName. rewrite Hname.
           now exists (calls s), lbDesc.
        -- exact Hnp.
        -- intros Hall'. apply Forall_cons in Hall' as [Hk _]. congruence.
      * eexists [_]. split; [reflexivity|]. split; [reflexivity|].
        split; [constructor; [exact Hlook|constructor]|].
        split; [discriminate|]. split; [discriminate|]. split; [discriminate|].
        intros Hall'. apply Forall_cons in Hall' as [Hk _]. congruence.
Qed.

(** When the loop that collects the load balancer names fails, the cloud
    refused its last lookup. *)
Lemma createLoadBalancerNames_failure lbs names s err :
  (createLoadBalancerNames cloud lbs names s).1 = Fail err ->
  exists before name,
    calls (createLoadBalancerNames cloud lbs names s).2 =
      calls s ++ before ++ [api.FindELBByNameTag name] /\
    refused cloud (calls s ++ before) (api.FindELBByNameTag name).
Proof.
  revert names s. induction lbs as [|k rest IH]; intros names s; simpl; [discriminate|].
  destruct (ClassicLoadBalancer.LoadBalancerName k) as [name|]; [apply IH|].
  unfold bind, findELBByNameTag.
  destruct (FindELBByNameTagAnswer cloud (calls s) _) as [cerr|[lbDesc|]] eqn:Hans; simpl.
  - intros _. exists [], (fi.ValueOf (ClassicLoadBalancer.GetName k)).
    rewrite app_nil_r. simpl. now rewrite Hans.
  - intros H. destruct (IH _ _ H) as (before & name & Hc & Href). simpl in Hc, Href.
    exists (api.FindELBByNameTag (fi.ValueOf (ClassicLoadBalancer.GetName k)) :: before), name.
    rewrite Hc, <- !app_assoc. split; [reflexivity|].
    now rewrite <- app_assoc in Href.
  - intros _. exists [], (fi.ValueOf (ClassicLoadBalancer.GetName k)).
    rewrite app_nil_r. simpl. now rewrite Hans.
Qed.

(** A run of the create path, step by step: the lookups, the request, and
    the calls made with it. *)
Lemma RenderAWS_create_steps v e changes0 out s :
  RenderAWS_create overridesFromInstanceRequirements cloud v e
                   {| changes := changes0; calls := [] |} = (out, s) ->
  changes s = changes0 /\
  exists lookups,
    Forall (lookupOf (elems (LoadBalancers e))) lookups /\
    (Forall (fun lb => ClassicLoadBalancer.LoadBalancerName lb <> None)
            (elems (LoadBalancers e)) -> lookups = []) /\
    ((calls s = lookups /\ lookups <> [] /\
      exists err, out = Fail err /\ is_TryAgainLater err = false /\
        exists before name,
          lookups = before ++ [api.FindELBByNameTag name] /\
          refused cloud before (api.FindELBByNameTag name)) \/
     (calls s = lookups /\ LaunchTemplate e = None /\
      out = Fail (Errorf "could not find one of launch template or mixed instances policy")) \/
     exists lt names request,
       LaunchTemplate e = Some lt /\
       Forall2 (attachedName cloud) (elems (LoadBalancers e)) names /\
       request =
         {| CreateAutoScalingGroupInput.AutoScalingGroupName := Name e;
            CreateAutoScalingGroupInput.MinSize := MinSize e;
            CreateAutoScalingGroupInput.MaxSize := MaxSize e;
            CreateAutoScalingGroupInput.NewInstancesProtectedFromScaleIn := InstanceProtection e;
            CreateAutoScalingGroupInput.Tags := AutoscalingGroupTags v;
            CreateAutoScalingGroupInput.VPCZoneIdentifier :=
              Some (strings.Join (AutoscalingGroupSubnets e) ",");
            CreateAutoScalingGroupInput.CapacityRebalance := CapacityRebalance e;
            CreateAutoScalingGroupInput.MaxInstanceLifetime :=
              if Z.eqb (fi.ValueOfInt (MaxInstanceLifetime e)) 0 then None
              else MaxInstanceLifetime e;
            CreateAutoScalingGroupInput.LoadBalancerNames := names;
            CreateAutoScalingGroupInput.TargetGroupARNs := AutoscalingTargetGroups e;
            CreateAutoScalingGroupInput.MixedInstancesPolicy :=
              if UseMixedInstancesPolicy e then
                Some {| autoscalingtypes.MixedInstancesPolicy.InstancesDistribution :=
                          Some {| autoscalingtypes.InstancesDistribution.OnDemandAllocationStrategy := None;
                                  autoscalingtypes.InstancesDistribution.OnDemandPercentageAboveBaseCapacity :=
                                    MixedOnDemandAboveBase e;
                                  autoscalingtypes.InstancesDistribution.OnDemandBaseCapacity :=
                                    MixedOnDemandBase e;
                                  autoscalingtypes.InstancesDistribution.SpotAllocationStrategy :=
                                    MixedSpotAllocationStrategy e;
                                  autoscalingtypes.InstancesDistribution.SpotInstancePools :=
                                    MixedSpotInstancePools e;
                                  autoscalingtypes.InstancesDistribution.SpotMaxPrice :=
                                    MixedSpotMaxPrice e |};
                        autoscalingtypes.MixedInstancesPolicy.LaunchTemplate :=
                          Some {| autoscalingtypes.LaunchTemplate.LaunchTemplateSpecification :=
                                    Some (latest lt);
                                  autoscalingtypes.LaunchTemplate.Overrides :=
                                    map instanceTypeOverride (elems (MixedInstanceOverrides e)) ++
                                    match InstanceRequirements e with
                                    | Some ir => [overridesFromInstanceRequirements ir]
                                    | None => []
                                    end |} |}
              else None;
            CreateAutoScalingGroupInput.LaunchTemplate :=
              if UseMixedInstancesPolicy e then None else Some (latest lt) |} /\
       let create := api.CreateAutoScalingGroup request in
       let enable := api.EnableMetricsCollection (Name e) (Granularity e) (Metrics e) in
       match Autoscaling cloud lookups create with
       | Some cerr => calls s = lookups ++ [create] /\ out = Fail (createFailure cerr)
       | None =>
           match Autoscaling cloud (lookups ++ [create]) enable with
           | Some merr =>
               calls s = lookups ++ [create; enable] /\
               out = Fail (Errorf ("error enabling metrics collection for AutoscalingGroup: "
                                   +:+ ErrorString merr))
           | None =>
               match SuspendProcesses e with
               | None => calls s = lookups ++ [create; enable] /\ out = Panic
               | Some [] => calls s = lookups ++ [create; enable] /\ out = Ok tt
               | Some processes =>
                   let suspend := api.SuspendProcesses (Name e) processes in
                   calls s = lookups ++ [create; enable; suspend] /\
                   out = match Autoscaling cloud (lookups ++ [create; enable]) suspend with
                         | Some serr =>
                             Fail (Errorf ("error suspending processes: "
                                           +:+ ErrorString serr))
                         | None => Ok tt
                         end
               end
           end
       end).
Proof.
  unfold RenderAWS_create. unfold bind at 1.
  destruct (createLoadBalancerNames_names (elems (LoadBalancers e)) []
              {| changes := changes0; calls := [] |})
    as (lookups & Hc & Hch & Hall & Hok & Hnp & Hfail & Hnamed).
  destruct (createLoadBalancerNames_run cloud (elems (LoadBalancers e)) []
              {| changes := changes0; calls := [] |})
    as (_ & _ & _ & _ & Hretry).
  pose proof (createLoadBalancerNames_failure (elems (LoadBalancers e)) []
                {| changes := changes0; calls := [] |}) as Hcause.
  simpl in Hc, Hch.
  destruct (createLoadBalancerNames cloud _ _ _) as [[names|err|] s1]; simpl in *.
  3: { now destruct Hnp. }
  2: { intros [= <- <-]. split; [exact Hch|]. exists lookups. split; [exact Hall|].
       split; [intros Hn; now destruct (Hnamed Hn)|]. left. split; [exact Hc|].
       split; [now apply (Hfail err)|]. exists err. split; [reflexivity|].
       split; [now apply Hretry|].
       destruct (Hcause err eq_refl) as (before & name & Hlast & Href).
       exists before, name. split; [congruence|exact Href]. }
  clear Hcause.
  destruct (Hok names eq_refl) as (more & -> & Hmore). simpl in Hmore.
  destruct s1 as [c1 l1]. simpl in Hc, Hch. subst c1 l1.
  assert (Hlt : forall lt, LaunchTemplate e = Some lt ->
          forall request,
          bind (call cloud (api.CreateAutoScalingGroup request))
            (fun err =>
               match err with
               | Some err0 =>
                   if String.eqb (ErrorCode err0) "ValidationError" &&
                      strings.Contains (ErrorMessage err0) "Invalid IAM Instance Profile name"
                   then fail (fi.NewTryAgainLaterError
                                "waiting for the IAM Instance Profile to be propagated")
                   else fail (Errorf ("error creating AutoScalingGroup: " +:+ ErrorMessage err0))
               | None =>
                   bind (call cloud (api.EnableMetricsCollection (Name e) (Granularity e)
                                       (Metrics e)))
                     (fun err0 =>
                        match err0 with
                        | Some err1 =>
                            fail (Errorf ("error enabling metrics collection for AutoscalingGroup: "
                                          +:+ ErrorString err1))
                        | None =>
                            match SuspendProcesses e with
                            | Some processes =>
                                if Nat.ltb 0 (length processes)
                                then bind (call cloud (api.SuspendProcesses (Name e) processes))
                                       (fun err1 =>
                                          match err1 with
                                          | Some err2 =>
                                              fail (Errorf ("error suspending processes: "
                                                            +:+ ErrorString err2))
                                          | None => ret tt
                                          end)
                                else ret tt
                            | None => panic
                            end
                        end)
               end) {| changes := changes0; calls := lookups |} = (out, s) ->
          changes s = changes0 /\
          let create := api.CreateAutoScalingGroup request in
          let enable := api.EnableMetricsCollection (Name e) (Granularity e) (Metrics e) in
          match Autoscaling cloud lookups create with
          | Some cerr => calls s = lookups ++ [create] /\ out = Fail (createFailure cerr)
          | None =>
              match Autoscaling cloud (lookups ++ [create]) enable with
              | Some merr =>
                  calls s = lookups ++ [create; enable] /\
                  out = Fail (Errorf ("error enabling metrics collection for AutoscalingGroup: "
                                      +:+ ErrorString merr))
              | None =>
                  match SuspendProcesses e with
                  | None => calls s = lookups ++ [create; enable] /\ out = Panic
                  | Some [] => calls s = lookups ++ [create; enable] /\ out = Ok tt
                  | Some processes =>
                      let suspend := api.SuspendProcesses (Name e) processes in
                      calls s = lookups ++ [create; enable; suspend] /\
                      out = match Autoscaling cloud (lookups ++ [create; enable]) suspend with
                            | Some serr =>
                                Fail (Errorf ("error suspending processes: "
                                              +:+ ErrorString serr))
                            | None => Ok tt
                            end
                  end
              end
          end).
  { intros lt Hlt request. unfold bind, call, fail, ret, panic. cbn [changes calls].
    cbv zeta.
    destruct (Autoscaling cloud lookups (api.CreateAutoScalingGroup request)) as [cerr|].
    - unfold createFailure.
      destruct (String.eqb (ErrorCode cerr) "ValidationError" && _);
        intros [= <- <-]; simpl; auto.
    - destruct (Autoscaling cloud _ (api.EnableMetricsCollection _ _ _)) as [merr|].
      + intros [= <- <-]. simpl. now rewrite <- app_assoc.
      + destruct (SuspendProcesses e) as [[|process processes]|].
        * intros [= <- <-]. simpl. now rewrite <- !app_assoc.
        * cbn [length Nat.ltb Nat.leb changes calls].
          rewrite <- ?app_assoc. cbn [app].
          destruct (Autoscaling cloud _ (api.SuspendProcesses _ _));
            intros [= <- <-]; simpl; now rewrite <- ?app_assoc.
        * intros [= <- <-]. simpl. now rewrite <- !app_assoc. }
  destruct (UseMixedInstancesPolicy e) eqn:Hmixed; destruct (LaunchTemplate e) as [lt|] eqn:Hl;
    unfold ret, panic, fail.
  - intros H. apply (Hlt lt eq_refl) in H as [H1 H2]. split; [exact H1|].
    exists lookups. split; [exact Hall|]. split; [intros Hn; now destruct (Hnamed Hn)|].
    right. right. eexists lt, more, _. split; [reflexivity|]. split; [exact Hmore|].
    split; [reflexivity|]. exact H2.
  - unfold UseMixedInstancesPolicy in Hmixed. rewrite Hl in Hmixed. discriminate.
  - intros H. apply (Hlt lt eq_refl) in H as [H1 H2]. split; [exact H1|].
    exists lookups. split; [exact Hall|]. split; [intros Hn; now destruct (Hnamed Hn)|].
    right. right. eexists lt, more, _. split; [reflexivity|]. split; [exact Hmore|].
    split; [reflexivity|]. exact H2.
  - intros [= <- <-]. split; [reflexivity|].
    exists lookups. split; [exact Hall|]. split; [intros Hn; now destruct (Hnamed Hn)|].
    right. left. auto.
Qed.


(** X20. Without a desired launch template the create path creates
    nothing: it calls nothing but the lookups of load balancers without a
    [LoadBalancerName], and fails with an error that is not
    [TryAgainLater]; when every load balancer has its name it calls nothing
    at all and fails with
    [could not find one of launch template or mixed instances policy]. *)
Theorem RenderAWS_create_needs_a_launch_template v e changes0 out s :
  LaunchTemplate e = None ->
  RenderAWS overridesFromInstanceRequirements cloud v None e changes0 = (out, s) ->
  Forall (lookupOf (elems (LoadBalancers e))) (calls s) /\
  (exists err, out = Fail err /\ is_TryAgainLater err = false) /\
  (Forall (fun lb => ClassicLoadBalancer.LoadBalancerName lb <> None)
          (elems (LoadBalancers e)) ->
   calls s = [] /\
   out = Fail (Errorf "could not find one of launch template or mixed instances policy")).
Proof.
  intros Hnone H. unfold RenderAWS in H.
  apply RenderAWS_create_steps in H as (_ & lookups & Hlook & Hnamed & Hrun).
  destruct Hrun as [(Hc & Hne & err & -> & Hretry & _)|[(Hc & _ & ->)|(lt & _ & _ & Hlt & _)]];
    [| |congruence]; rewrite Hc.
  - split; [exact Hlook|]. split; [now exists err|].
    intros Hall. now destruct Hne; apply Hnamed.
  - split; [exact Hlook|]. split; [eexists; split; reflexivity|].
    intros Hall. now rewrite (Hnamed Hall).
Qed.

(** X21. When every call is answered without error, the task has a launch
    template, non-nil processes to suspend and load balancers with their
    [LoadBalancerName], the create path succeeds, leaves [changes] as they
    were and makes these calls and no other: it creates the group, enables
    the metrics collection and, when there is a process to suspend,
    suspends the desired processes. *)
Theorem RenderAWS_create_succeeds v e changes0 lt processes :
  LaunchTemplate e = Some lt ->
  SuspendProcesses e = Some processes ->
  Forall (fun lb => ClassicLoadBalancer.LoadBalancerName lb <> None)
         (elems (LoadBalancers e)) ->
  (forall previous c, Autoscaling cloud previous c = None) ->
  exists request,
    CreateAutoScalingGroupInput.LoadBalancerNames request = AutoscalingLoadBalancers e /\
    RenderAWS overridesFromInstanceRequirements cloud v None e changes0 =
    (Ok tt,
     {| changes := changes0;
        calls := [api.CreateAutoScalingGroup request;
                  api.EnableMetricsCollection (Name e) (Granularity e) (Metrics e)] ++
                 match processes with
                 | [] => []
                 | _ => [api.SuspendProcesses (Name e) processes]
                 end |}).
Proof.
  intros Hlt Hsp Hall Hgood.
  destruct (RenderAWS overridesFromInstanceRequirements cloud v None e changes0)
    as [out s] eqn:H.
  unfold RenderAWS in H.
  pose proof (createLoadBalancerNames_names (elems (LoadBalancers e)) []
                {| changes := changes0; calls := [] |})
    as (extra & _ & _ & _ & _ & _ & _ & Hnamed).
  destruct (Hnamed Hall) as [_ Hnames]. clear Hnamed. simpl in Hnames.
  apply RenderAWS_create_steps in H as (Hch & lookups & _ & Hnamed & Hrun).
  rewrite (Hnamed Hall) in Hrun. clear Hnamed.
  destruct Hrun as [(_ & Hne & _)|[(_ & Hn & _)|(lt' & names & req & _ & Hfrom & Hreq & Htail)]];
    [congruence..|].
  cbv zeta in Htail. rewrite !Hgood, Hsp in Htail. simpl in Htail.
  exists req. split.
  - subst req. cbn. clear -Hfrom Hall. unfold AutoscalingLoadBalancers.
    induction Hfrom as [|lb name lbs names Hone Hrest IH]; [reflexivity|].
    apply Forall_cons in Hall as [Hlb Hall]. simpl. rewrite (IH Hall). f_equal.
    unfold attachedName in Hone.
    destruct (ClassicLoadBalancer.LoadBalancerName lb); [now subst|congruence].
  - destruct s as [c l]. simpl in *. subst c.
    destruct processes as [|process processes]; rewrite ?Hgood in Htail;
      destruct Htail as [-> ->]; reflexivity.
Qed.

(** X22. The calls of the create path come in one order, and it stops at
    the first call the cloud refuses. It first looks up the load balancers
    without [LoadBalancerName]; a run that makes no other call fails, and
    then the cloud refused its last lookup or the task has no launch
    template. Otherwise it calls [CreateAutoScalingGroup], then, if that
    call was answered without error, [EnableMetricsCollection], then, if
    that one was too and there is a process to suspend,
    [SuspendProcesses]: it returns the error of the call that was refused,
    and nil when none was. Whatever the call, one that the cloud refuses is
    the last call of the run, and the run fails. [changes] are never
    written. It panics only when the processes to suspend are nil, and
    then after the group was created and its metrics enabled. *)
Theorem RenderAWS_create_call_order v e changes0 out s :
  RenderAWS overridesFromInstanceRequirements cloud v None e changes0 = (out, s) ->
  changes s = changes0 /\
  (forall before c after,
      calls s = before ++ c :: after ->
      refused cloud before c ->
      after = [] /\ exists err, out = Fail err) /\
  exists lookups,
    Forall (lookupOf (elems (LoadBalancers e))) lookups /\
    ((calls s = lookups /\
      (exists err, out = Fail err) /\
      ((exists before name,
           lookups = before ++ [api.FindELBByNameTag name] /\
           refused cloud before (api.FindELBByNameTag name)) \/
       LaunchTemplate e = None)) \/
     exists request,
       let create := api.CreateAutoScalingGroup request in
       let enable := api.EnableMetricsCollection (Name e) (Granularity e) (Metrics e) in
       match Autoscaling cloud lookups create with
       | Some cerr => calls s = lookups ++ [create] /\ out = Fail (createFailure cerr)
       | None =>
           match Autoscaling cloud (lookups ++ [create]) enable with
           | Some merr =>
               calls s = lookups ++ [create; enable] /\
               out = Fail (Errorf ("error enabling metrics collection for AutoscalingGroup: "
                                   +:+ ErrorString merr))
           | None =>
               match SuspendProcesses e with
               | None => calls s = lookups ++ [create; enable] /\ out = Panic
               | Some [] => calls s = lookups ++ [create; enable] /\ out = Ok tt
               | Some processes =>
                   let suspend := api.SuspendProcesses (Name e) processes in
                   calls s = lookups ++ [create; enable; suspend] /\
                   out = match Autoscaling cloud (lookups ++ [create; enable]) suspend with
                         | Some serr =>
                             Fail (Errorf ("error suspending processes: "
                                           +:+ ErrorString serr))
                         | None => Ok tt
                         end
               end
           end
       end).
Proof.
  intros H.
  pose proof (RenderAWS_stops overridesFromInstanceRequirements cloud _ _ _ _ _ _ H)
    as Hstops.
  unfold RenderAWS in H.
  apply RenderAWS_create_steps in H as (Hch & lookups & Hlook & _ & Hrun).
  split; [exact Hch|]. split; [exact Hstops|]. exists lookups. split; [exact Hlook|].
  destruct Hrun
    as [(Hc & _ & err & -> & _ & Hcause)|[(Hc & Hnone & ->)|(lt & names & req & _ & _ & _ & Htail)]].
  - left. split; [exact Hc|]. split; [now exists err|]. now left.
  - left. split; [exact Hc|]. split; [now eexists|]. now right.
  - right. exists req. exact Htail.
Qed.
End create_extras.

(** ** The update path *)

Section emits_at.
Import AutoscalingGroup.
Context {IR IRq : Type}.
Implicit Types s : state IR IRq.
Context (P : t IR -> api.call IRq -> Prop).
Context (Hanti : forall c c' x, nilsKept c c' -> P c' x -> P c x).

Lemma nilsKept_refl (c : t IR) : nilsKept c c.
Proof. now intros f. Qed.

Lemma nilsKept_trans (c1 c2 c3 : t IR) :
  nilsKept c1 c2 -> nilsKept c2 c3 -> nilsKept c1 c3.
Proof. intros H1 H2 f Hf. auto. Qed.

Lemma nilsKept_setNil (f : field) (c : t IR) : nilsKept c (setNil f c).
Proof. intros g Hg. now apply isNil_setNil_mono. Qed.

Lemma emitsAt_bind {A B} (m : M IR IRq A) (k : A -> M IR IRq B) s :
  emitsAt P m s ->
  (forall x s', m s = (Ok x, s') -> emitsAt P (k x) s') ->
  emitsAt P (bind m k) s.
Proof using Hanti.
  intros (extra1 & Hc1 & Hall1 & Hn1) Hk. unfold emitsAt, bind.
  destruct (m s) as [[x|err|] s'] eqn:Hm; simpl in *.
  - destruct (Hk x s' eq_refl) as (extra2 & Hc2 & Hall2 & Hn2).
    specialize (Hn1 x eq_refl).
    exists (extra1 ++ extra2). rewrite Hc2, Hc1, app_assoc. split; [reflexivity|].
    split.
    + apply Forall_app. split; [exact Hall1|].
      eapply Forall_impl; [exact Hall2|]. intros c Hc. now apply (Hanti _ _ _ Hn1).
    + intros y Hy. eapply nilsKept_trans; [exact Hn1|]. now apply (Hn2 y).
  - exists extra1. split; [exact Hc1|]. split; [exact Hall1|]. discriminate.
  - exists extra1. split; [exact Hc1|]. split; [exact Hall1|]. discriminate.
Qed.

Lemma emitsAt_quiet {A} (m : M IR IRq A) s :
  calls (m s).2 = calls s ->
  (forall x, (m s).1 = Ok x -> nilsKept (changes s) (changes (m s).2)) ->
  emitsAt P m s.
Proof.
  intros Hc Hn. exists []. rewrite app_nil_r. split; [exact Hc|]. split; [constructor|exact Hn].
Qed.

Lemma emits_nothing {A} (m : M IR IRq A) s :
  emits (fun _ => False) m -> calls (m s).2 = calls s.
Proof.
  intros H. destruct (H s) as (extra & Hc & Hall).
  destruct extra as [|c extra]; [now rewrite app_nil_r in Hc|].
  inversion Hall as [|? ? []].
Qed.
End emits_at.

Section early_calls.
Import AutoscalingGroup.
Import autoscaling.
Context {IR IRq : Type}.
Context (overridesFromInstanceRequirements :
           IR -> autoscalingtypes.LaunchTemplateOverrides.t IRq).
Context (cloud : AWSCloud IRq).
Implicit Types s : state IR IRq.
Implicit Types a e : t IR.

Lemma nilsKept_setNils (fs : list field) (c : t IR) : nilsKept c (setNils fs c).
Proof.
  revert c. induction fs as [|f fs IH]; intros c; [apply nilsKept_refl|].
  simpl. eapply nilsKept_trans; [apply nilsKept_setNil|apply IH].
Qed.

Lemma earlyCall_anti a e (c c' : t IR) (x : api.call IRq) :
  nilsKept c c' -> earlyCall a e c' x -> earlyCall a e c x.
Proof.
  intros Hk. 
  assert (Hm : Metrics c' <> None \/ Granularity c' <> None ->
               Metrics c <> None \/ Granularity c <> None).
  { intros [H|H]; [left|right]; intros Hc.
    - apply H. specialize (Hk FMetrics). simpl in Hk. rewrite Hc in Hk.
      specialize (Hk eq_refl). now destruct (Metrics c').
    - apply H. specialize (Hk FGranularity). simpl in Hk. rewrite Hc in Hk.
      specialize (Hk eq_refl). now destruct (Granularity c'). }
  assert (Hs : SuspendProcesses c' <> None -> SuspendProcesses c <> None).
  { intros H Hc. apply H. specialize (Hk FSuspendProcesses). simpl in Hk.
    rewrite Hc in Hk. specialize (Hk eq_refl). now destruct (SuspendProcesses c'). }
  destruct x; simpl; try tauto.
Qed.

(** A block of the update path that makes no call and sets fields of
    [changes] to nil. *)
Lemma emitsAt_silent {A} P (m : M IR IRq A) (fs : list field) s :
  emits (fun _ => False) m ->
  (forall x s', m s = (Ok x, s') -> changes s' = setNils fs (changes s)) ->
  emitsAt P m s.
Proof.
  intros Hq Hc. apply emitsAt_quiet; [now apply emits_nothing|].
  intros x Hx. destruct (m s) as [o s'] eqn:Hm. simpl in *. subst o.
  rewrite (Hc _ _ eq_refl). apply nilsKept_setNils.
Qed.

Lemma applyMetrics_early a e s :
  emitsAt (earlyCall a e) (applyMetrics cloud e) s.
Proof.
  unfold emitsAt, applyMetrics, bind, getChanges, call, nil, fail, ret.
  destruct (notNil (Metrics (changes s)) || notNil (Granularity (changes s))) eqn:Hg.
  2: { exists []. rewrite app_nil_r. simpl. split; [reflexivity|].
       split; [constructor|]. intros _ _. apply nilsKept_refl. }
  destruct (negb (Nat.eqb (length (elems (Metrics e))) 0)) eqn:Hlen.
  2: { exists []. rewrite app_nil_r. simpl. split; [reflexivity|].
       split; [constructor|]. intros _ _. apply nilsKept_refl. }
  exists [api.EnableMetricsCollection (Name e) (Granularity e) (Metrics e)].
  assert (HP : earlyCall a e (changes s)
                 (api.EnableMetricsCollection (IRq := IRq) (Name e) (Granularity e) (Metrics e))).
  { simpl. repeat split.
    - intros Hnil. rewrite Hnil in Hlen. discriminate.
    - apply orb_true_iff in Hg as [Hg|Hg]; [left|right]; intros Hn; rewrite Hn in Hg;
        discriminate. }
  simpl. destruct (Autoscaling cloud (calls s) _); simpl.
  - split; [reflexivity|]. split; [constructor; [exact HP|constructor]|]. discriminate.
  - split; [reflexivity|]. split; [constructor; [exact HP|constructor]|].
    intros _ _. apply (nilsKept_setNils [FMetrics; FGranularity]).
Qed.

Lemma applySuspendProcesses_early a e s :
  emitsAt (earlyCall a e) (applySuspendProcesses cloud a e) s.
Proof.
  unfold emitsAt, applySuspendProcesses, bind, getChanges, lift, call, nil, fail, ret.
  destruct (notNil (SuspendProcesses (changes s))) eqn:Hg.
  2: { exists []. rewrite app_nil_r. simpl. split; [reflexivity|].
       split; [constructor|]. intros _ _. apply nilsKept_refl. }
  assert (Hc : SuspendProcesses (changes s) <> None)
    by (intros Hn; rewrite Hn in Hg; discriminate).
  destruct (processCompare (SuspendProcesses e) (SuspendProcesses a))
    as [toSuspend| |] eqn:Hs.
  2, 3: exists []; rewrite app_nil_r; simpl; split; [reflexivity|];
        split; [constructor|discriminate].
  destruct (processCompare (SuspendProcesses a) (SuspendProcesses e))
    as [toResume| |] eqn:Hr.
  2, 3: exists []; rewrite app_nil_r; simpl; split; [reflexivity|];
        split; [constructor|discriminate].
  assert (HS : 0 < length toSuspend ->
               earlyCall a e (changes s)
                 (api.SuspendProcesses (IRq := IRq) (Name e) toSuspend)).
  { intros Hlen. simpl. repeat split; auto. intros ->. simpl in Hlen. lia. }
  assert (HR : 0 < length toResume ->
               earlyCall a e (changes s)
                 (api.ResumeProcesses (IRq := IRq) (Name e) toResume)).
  { intros Hlen. simpl. repeat split; auto. intros ->. simpl in Hlen. lia. }
  pose proof (nilsKept_setNil FSuspendProcesses (changes s)) as Hnil.
  destruct (Nat.ltb_spec 0 (length toSuspend)) as [Hls|Hls];
    destruct (Nat.ltb_spec 0 (length toResume)) as [Hlr|Hlr]; simpl.
  - destruct (Autoscaling cloud (calls s) _); simpl.
    + exists [api.SuspendProcesses (Name e) toSuspend].
      split; [reflexivity|]. split; [|discriminate]. constructor; [first [now apply HS|now apply HR]|constructor].
    + destruct (Autoscaling cloud (calls s ++ _) _); simpl.
      * exists [api.SuspendProcesses (Name e) toSuspend; api.ResumeProcesses (Name e) toResume].
        split; [now rewrite <- app_assoc|]. split; [|discriminate].
        constructor; [now apply HS|]. constructor; [now apply HR|constructor].
      * exists [api.SuspendProcesses (Name e) toSuspend; api.ResumeProcesses (Name e) toResume].
        split; [now rewrite <- app_assoc|]. split; [|intros _ _; exact Hnil].
        constructor; [now apply HS|]. constructor; [now apply HR|constructor].
  - destruct (Autoscaling cloud (calls s) _); simpl.
    + exists [api.SuspendProcesses (Name e) toSuspend].
      split; [reflexivity|]. split; [|discriminate]. constructor; [first [now apply HS|now apply HR]|constructor].
    + exists [api.SuspendProcesses (Name e) toSuspend].
      split; [reflexivity|]. split; [|intros _ _; exact Hnil]. constructor; [first [now apply HS|now apply HR]|constructor].
  - destruct (Autoscaling cloud (calls s) _); simpl.
    + exists [api.ResumeProcesses (Name e) toResume].
      split; [reflexivity|]. split; [|discriminate]. constructor; [first [now apply HS|now apply HR]|constructor].
    + exists [api.ResumeProcesses (Name e) toResume].
      split; [reflexivity|]. split; [|intros _ _; exact Hnil]. constructor; [first [now apply HS|now apply HR]|constructor].
  - exists []. rewrite app_nil_r. split; [reflexivity|].
    split; [constructor|intros _ _; exact Hnil].
Qed.

Lemma prepareUpdate_early a e s :
  emitsAt (earlyCall a e) (prepareUpdate overridesFromInstanceRequirements cloud a e) s.
Proof.
  assert (Hanti := earlyCall_anti a e).
  unfold prepareUpdate.
  apply emitsAt_bind; [exact Hanti| |intros ? ? _].
  { apply (emitsAt_silent _ _ [FLaunchTemplate]);
      [unfold applyLaunchTemplate; emits_block|].
    intros x s' H. now apply applyLaunchTemplate_Ok in H. }
  apply emitsAt_bind; [exact Hanti| |intros ? ? _].
  { apply (emitsAt_silent _ _ [FMixedOnDemandAboveBase]);
      [unfold applyMixedOnDemandAboveBase, setDistribution; emits_block|].
    intros x0 s'0 H. now apply applyMixedOnDemandAboveBase_Ok in H. }
  apply emitsAt_bind; [exact Hanti| |intros ? ? _].
  { apply (emitsAt_silent _ _ [FMixedOnDemandBase]);
      [unfold applyMixedOnDemandBase, setDistribution; emits_block|].
    intros x1 s'1 H. now apply applyMixedOnDemandBase_Ok in H. }
  apply emitsAt_bind; [exact Hanti| |intros ? ? _].
  { apply (emitsAt_silent _ _ [FMixedSpotAllocationStrategy]);
      [unfold applyMixedSpotAllocationStrategy, setDistribution; emits_block|].
    intros x2 s'2 H. now apply applyMixedSpotAllocationStrategy_Ok in H. }
  apply emitsAt_bind; [exact Hanti| |intros ? ? _].
  { apply (emitsAt_silent _ _ [FMixedSpotInstancePools]);
      [unfold applyMixedSpotInstancePools, setDistribution; emits_block|].
    intros x3 s'3 H. now apply applyMixedSpotInstancePools_Ok in H. }
  apply emitsAt_bind; [exact Hanti| |intros ? ? _].
  { apply (emitsAt_silent _ _ [FMixedSpotMaxPrice]);
      [unfold applyMixedSpotMaxPrice, setDistribution; emits_block|].
    intros x4 s'4 H. now apply applyMixedSpotMaxPrice_Ok in H. }
  apply emitsAt_bind; [exact Hanti| |intros ? ? _].
  { apply (emitsAt_silent _ _ [FMixedInstanceOverrides; FInstanceRequirements]);
      [unfold applyOverrides, appendOverrides; emits_block|].
    intros x5 s'5 H. now apply applyOverrides_Ok in H. }
  apply emitsAt_bind; [exact Hanti| |intros ? ? _].
  { apply (emitsAt_silent _ _ [FMinSize]); [unfold applyMinSize; emits_block|].
    intros x6 s'6 H. now apply applyMinSize_Ok in H. }
  apply emitsAt_bind; [exact Hanti| |intros ? ? _].
  { apply (emitsAt_silent _ _ [FMaxSize]); [unfold applyMaxSize; emits_block|].
    intros x7 s'7 H. now apply applyMaxSize_Ok in H. }
  apply emitsAt_bind; [exact Hanti| |intros ? ? _].
  { apply (emitsAt_silent _ _ [FSubnets]); [unfold applySubnets; emits_block|].
    intros x8 s'8 H. now apply applySubnets_Ok in H. }
  apply emitsAt_bind; [exact Hanti| |intros ? ? _].
  { apply (emitsAt_silent _ _ [FMaxInstanceLifetime]);
      [unfold applyMaxInstanceLifetime; emits_block|].
    intros x9 s'9 H. now apply applyMaxInstanceLifetime_Ok in H. }
  apply emitsAt_bind; [exact Hanti| |intros ? ? _].
  { apply (emitsAt_silent _ _ [FTags]); [unfold applyTags; emits_block|].
    intros x10 s'10 H. now apply applyTags_Ok in H. }
  apply emitsAt_bind; [exact Hanti| |intros ? ? _].
  { apply (emitsAt_silent _ _ [FLoadBalancers]); [unfold applyLoadBalancers; emits_block|].
    intros x11 s'11 H. now apply applyLoadBalancers_Ok in H. }
  apply emitsAt_bind; [exact Hanti| |intros ? ? _].
  { apply (emitsAt_silent _ _ [FTargetGroups]); [unfold applyTargetGroups; emits_block|].
    intros x12 s'12 H. now apply applyTargetGroups_Ok in H. }
  apply emitsAt_bind; [exact Hanti|apply applyMetrics_early|intros ? ? _].
  apply emitsAt_bind; [exact Hanti|apply applySuspendProcesses_early|intros ? ? _].
  apply emitsAt_bind; [exact Hanti| |intros ? ? _].
  { apply (emitsAt_silent _ _ [FInstanceProtection]);
      [unfold applyInstanceProtection; emits_block|].
    intros x15 s'15 H. now apply applyInstanceProtection_Ok in H. }
  apply emitsAt_bind; [exact Hanti| |intros ? ? _].
  { apply (emitsAt_silent _ _ [FCapacityRebalance]);
      [unfold applyCapacityRebalance; emits_block|].
    intros x16 s'16 H. now apply applyCapacityRebalance_Ok in H. }
  apply emitsAt_quiet; [reflexivity|]. intros _ _. apply nilsKept_refl.
Qed.
End early_calls.

Section update_requests.
Import AutoscalingGroup.
Import autoscaling.
Context {IR IRq : Type}.
Context (overridesFromInstanceRequirements :
           IR -> autoscalingtypes.LaunchTemplateOverrides.t IRq).
Context (cloud : AWSCloud IRq).
Implicit Types s : state IR IRq.
Implicit Types a e : t IR.
Implicit Types p : prepared IRq.

Lemma applyTags_requests a e r s s' :
  applyTags (IRq := IRq) a e s = (Ok r, s') ->
  notNil (Tags (changes s)) = true ->
  r = (Some (AutoscalingGroupTags e),
       match Tags a with
       | Some current =>
           if Nat.ltb 0 (size current) then Some (getASGTagsToDelete e current) else None
       | None => None
       end).
Proof.
  unfold applyTags. unfold bind at 1, getChanges. intros H Hg. rewrite Hg in H.
  unfold bind, nil, ret in H. now injection H as <- _.
Qed.

Lemma applyLoadBalancers_requests a e r s s' :
  applyLoadBalancers (IRq := IRq) a e s = (Ok r, s') ->
  notNil (LoadBalancers (changes s)) = true ->
  r.1 = (if Nat.ltb 0 (length (elems (LoadBalancers e)))
         then Some (AutoscalingLoadBalancers e) else None) /\
  (if Nat.ltb 0 (length (elems (LoadBalancers a)))
   then exists names, getLBsToDetach e (elems (LoadBalancers a)) = Ok names /\
                      r.2 = Some names
   else r.2 = None).
Proof.
  unfold applyLoadBalancers. unfold bind at 1, getChanges. intros H Hg. rewrite Hg in H.
  apply bind_Ok_inv in H as (d & s1 & H1 & H).
  unfold bind, nil, ret in H. injection H as <- _. simpl. split; [reflexivity|].
  destruct (Nat.ltb 0 (length (elems (LoadBalancers a)))).
  - apply bind_Ok_inv in H1 as (names & s2 & H1 & H2). unfold lift in H1.
    unfold ret in H2. injection H1 as H1 _. injection H2 as <- _. now exists names.
  - unfold ret in H1. now injection H1 as <- _.
Qed.

Lemma prepareUpdate_requests a e s0 p s1 :
  prepareUpdate overridesFromInstanceRequirements cloud a e s0 = (Ok p, s1) ->
  let c0 := changes s0 in
  (notNil (Tags c0) = true ->
   updateTagsRequest p = Some (AutoscalingGroupTags e) /\
   deleteTagsRequest p =
     match Tags a with
     | Some current =>
         if Nat.ltb 0 (size current) then Some (getASGTagsToDelete e current) else None
     | None => None
     end) /\
  (notNil (LoadBalancers c0) = true ->
   attachLBRequest p = (if Nat.ltb 0 (length (elems (LoadBalancers e)))
                        then Some (AutoscalingLoadBalancers e) else None) /\
   (if Nat.ltb 0 (length (elems (LoadBalancers a)))
    then exists names, getLBsToDetach e (elems (LoadBalancers a)) = Ok names /\
                       detachLBRequest p = Some names
    else detachLBRequest p = None)).
Proof.
  unfold prepareUpdate. intros H. cbv zeta.
  apply bind_Ok_inv in H as (r1 & t1 & H1 & H).
  apply bind_Ok_inv in H as (r2 & t2 & H2 & H).
  apply bind_Ok_inv in H as (r3 & t3 & H3 & H).
  apply bind_Ok_inv in H as (r4 & t4 & H4 & H).
  apply bind_Ok_inv in H as (r5 & t5 & H5 & H).
  apply bind_Ok_inv in H as (r6 & t6 & H6 & H).
  apply bind_Ok_inv in H as (r7 & t7 & H7 & H).
  apply bind_Ok_inv in H as (r8 & t8 & H8 & H).
  apply bind_Ok_inv in H as (r9 & t9 & H9 & H).
  apply bind_Ok_inv in H as (r10 & t10 & H10 & H).
  apply bind_Ok_inv in H as (r11 & t11 & H11 & H).
  apply bind_Ok_inv in H as (tags & t12 & H12 & H).
  apply bind_Ok_inv in H as (lbs & t13 & H13 & H).
  apply bind_Ok_inv in H as (tgs & t14 & H14 & H).
  apply bind_Ok_inv in H as ([] & t15 & H15 & H).
  apply bind_Ok_inv in H as ([] & t16 & H16 & H).
  apply bind_Ok_inv in H as (r17 & t17 & H17 & H).
  apply bind_Ok_inv in H as (r18 & t18 & H18 & H).
  unfold ret in H. injection H as <- <-. cbn [updateTagsRequest deleteTagsRequest
                                               attachLBRequest detachLBRequest].
  apply applyLaunchTemplate_Ok in H1 as (C1 & _).
  apply applyMixedOnDemandAboveBase_Ok in H2 as (C2 & _).
  apply applyMixedOnDemandBase_Ok in H3 as (C3 & _).
  apply applyMixedSpotAllocationStrategy_Ok in H4 as (C4 & _).
  apply applyMixedSpotInstancePools_Ok in H5 as (C5 & _).
  apply applyMixedSpotMaxPrice_Ok in H6 as (C6 & _).
  apply applyOverrides_Ok in H7 as (C7 & _).
  apply applyMinSize_Ok in H8 as (C8 & _).
  apply applyMaxSize_Ok in H9 as (C9 & _).
  apply applySubnets_Ok in H10 as (C10 & _).
  apply applyMaxInstanceLifetime_Ok in H11 as (C11 & _).
  pose proof (applyTags_requests _ _ _ _ _ H12) as R12.
  apply applyTags_Ok in H12 as (C12 & _).
  pose proof (applyLoadBalancers_requests _ _ _ _ _ H13) as R13.
  assert (E12 : Tags (changes t11) = Tags (changes s0))
    by (rewrite C11, C10, C9, C8, C7, C6, C5, C4, C3, C2, C1; reflexivity).
  assert (E13 : LoadBalancers (changes t12) = LoadBalancers (changes s0))
    by (rewrite C12, C11, C10, C9, C8, C7, C6, C5, C4, C3, C2, C1; reflexivity).
  rewrite E12 in R12. rewrite E13 in R13. split.
  - intros Hg. now rewrite (R12 Hg).
  - intros Hg. exact (R13 Hg).
Qed.

Lemma RenderAWS_update_trace a e changes0 out s :
  RenderAWS_update overridesFromInstanceRequirements cloud a e
                   {| changes := changes0; calls := [] |} = (out, s) ->
  exists pre,
    Forall (earlyCall a e changes0) pre /\
    ((calls s = pre /\ forall u, out <> Ok u) \/
     exists p s1 done rest,
       prepareUpdate overridesFromInstanceRequirements cloud a e
                     {| changes := changes0; calls := [] |} = (Ok p, s1) /\
       sendCalls e p = done ++ rest /\
       calls s = pre ++ done /\
       (forall u, out = Ok u -> rest = [])).
Proof.
  unfold RenderAWS_update, bind.
  destruct (prepareUpdate_early overridesFromInstanceRequirements cloud a e
              {| changes := changes0; calls := [] |}) as (pre & Hpre & Hearly & _).
  simpl in Hpre, Hearly.
  destruct (prepareUpdate _ _ a e _) as [[p|err|] s1] eqn:Hp; simpl in Hpre.
  - intros Hs. exists pre. split; [assumption|]. right.
    destruct (sendUpdate_follows cloud e p s1) as (done & rest & Hl & Hc & Hch & Hok).
    rewrite Hs in Hc, Hch, Hok. simpl in *.
    exists p, s1, done, rest. rewrite Hc, Hpre. repeat split; auto.
  - intros [= <- <-]. exists pre. split; [assumption|]. left. split; [assumption|discriminate].
  - intros [= <- <-]. exists pre. split; [assumption|]. left. split; [assumption|discriminate].
Qed.
End update_requests.

Section process_compare.

Lemma processCompare_In (a b : option (list string)) (l : list string) :
  processCompare a b = Ok l ->
  forall p, In p l <-> In p (elems a) /\ ~ In p (elems b).
Proof.
  destruct a as [a|], b as [b|]; simpl; try discriminate.
  - intros H. assert (Hl : l = List.filter
                              (fun ap => negb (existsb (fun bp => String.eqb ap bp) b)) a)
      by (destruct a; congruence).
    clear H. subst l. intros p. rewrite filter_In, negb_true_iff. split.
    + intros [Hin Hnot]. split; [exact Hin|]. intros Hb.
      apply not_true_iff_false in Hnot. apply Hnot.
      apply existsb_exists. exists p. split; [exact Hb|apply String.eqb_refl].
    + intros [Hin Hnot]. split; [exact Hin|]. apply not_true_iff_false.
      intros Hex. apply existsb_exists in Hex as (q & Hq & Heq).
      apply String.eqb_eq in Heq. now subst.
  - destruct a; [|discriminate]. intros [= <-] p. simpl. tauto.
Qed.
End process_compare.

Section update_extras.
Import AutoscalingGroup.
Import autoscaling.
Context {IR IRq : Type}.
Context (overridesFromInstanceRequirements :
           IR -> autoscalingtypes.LaunchTemplateOverrides.t IRq).
Context (cloud : AWSCloud IRq).
Implicit Types s : state IR IRq.
Implicit Types v a e : t IR.
Implicit Types p : prepared IRq.

(** Where a call of an update run comes from. *)
Lemma RenderAWS_update_call v a e changes0 out s c :
  RenderAWS overridesFromInstanceRequirements cloud v (Some a) e changes0 = (out, s) ->
  In c (calls s) ->
  earlyCall a e changes0 c \/
  exists p s1,
    prepareUpdate overridesFromInstanceRequirements cloud a e
                  {| changes := changes0; calls := [] |} = (Ok p, s1) /\
    In c (sendCalls e p).
Proof.
  intros H Hin. unfold RenderAWS in H.
  apply RenderAWS_update_trace in H as (pre & Hpre & [[Hc _]|Hrun]).
  - left. rewrite Hc in Hin. rewrite List.Forall_forall in Hpre. now apply Hpre.
  - destruct Hrun as (p & s1 & done & rest & Hp & Hsend & Hc & _).
    rewrite Hc in Hin. apply in_app_or in Hin as [Hin|Hin].
    + left. rewrite List.Forall_forall in Hpre. now apply Hpre.
    + right. exists p, s1. split; [exact Hp|]. rewrite Hsend. apply in_or_app. now left.
Qed.

(** X26. A [SuspendProcesses] call of the update path is for the desired
    group and lists exactly the desired processes that the found group has
    not suspended; a [ResumeProcesses] call lists exactly the processes
    suspended in the found group that are not desired. Neither call is
    made with an empty list of processes, nor when the processes are not
    in [changes]. *)
Theorem RenderAWS_update_suspends_and_resumes v a e changes0 out s :
  RenderAWS overridesFromInstanceRequirements cloud v (Some a) e changes0 = (out, s) ->
  (forall name processes,
      In (api.SuspendProcesses name processes) (calls s) ->
      name = Name e /\ processes <> [] /\ SuspendProcesses changes0 <> None /\
      forall process,
        In process processes <->
        In process (elems (SuspendProcesses e)) /\
        ~ In process (elems (SuspendProcesses a))) /\
  (forall name processes,
      In (api.ResumeProcesses name processes) (calls s) ->
      name = Name e /\ processes <> [] /\ SuspendProcesses changes0 <> None /\
      forall process,
        In process processes <->
        In process (elems (SuspendProcesses a)) /\
        ~ In process (elems (SuspendProcesses e))).
Proof.
  intros H. split; intros name processes Hin;
    destruct (RenderAWS_update_call _ _ _ _ _ _ _ H Hin)
      as [(Hn & Hne & Hc & Hcmp)|(p & s1 & _ & Hsend)].
  - repeat split; auto; now apply (processCompare_In _ _ _ Hcmp).
  - apply sendCalls_In in Hsend
      as [Hx|[(x & _ & Hx)|[(x & _ & Hx)|[(x & _ & Hx)|[(x & _ & Hx)|(x & _ & Hx)]]]]];
      discriminate.
  - repeat split; auto; now apply (processCompare_In _ _ _ Hcmp).
  - apply sendCalls_In in Hsend
      as [Hx|[(x & _ & Hx)|[(x & _ & Hx)|[(x & _ & Hx)|[(x & _ & Hx)|(x & _ & Hx)]]]]];
      discriminate.
Qed.

(** X25. The update path enables the metrics collection only for the
    desired group, with the desired granularity and metrics, only when
    there is a desired metric, and only when the metrics or the granularity
    are in [changes]. *)
Theorem RenderAWS_update_enables_desired_metrics v a e changes0 out s :
  RenderAWS overridesFromInstanceRequirements cloud v (Some a) e changes0 = (out, s) ->
  forall name granularity metrics,
    In (api.EnableMetricsCollection name granularity metrics) (calls s) ->
    name = Name e /\ granularity = Granularity e /\ metrics = Metrics e /\
    elems (Metrics e) <> [] /\
    (Metrics changes0 <> None \/ Granularity changes0 <> None).
Proof.
  intros H name granularity metrics Hin.
  destruct (RenderAWS_update_call _ _ _ _ _ _ _ H Hin) as [Hearly|(p & s1 & _ & Hsend)].
  - exact Hearly.
  - apply sendCalls_In in Hsend
      as [Hx|[(x & _ & Hx)|[(x & _ & Hx)|[(x & _ & Hx)|[(x & _ & Hx)|(x & _ & Hx)]]]]];
      discriminate.
Qed.

(** X29. The update path never creates a group, never detaches a target
    group (that is left to the deferred deletions of [Find]) and never
    looks a load balancer up by its name tag. *)
Theorem RenderAWS_update_never_creates_or_detaches_target_groups v a e changes0 out s :
  RenderAWS overridesFromInstanceRequirements cloud v (Some a) e changes0 = (out, s) ->
  (forall request, ~ In (api.CreateAutoScalingGroup request) (calls s)) /\
  (forall name arns, ~ In (api.DetachLoadBalancerTargetGroups name arns) (calls s)) /\
  (forall name, ~ In (api.FindELBByNameTag name) (calls s)).
Proof.
  intros H. split; [|split]; intros; intros Hin;
    destruct (RenderAWS_update_call _ _ _ _ _ _ _ H Hin) as [[]|(p & s1 & _ & Hsend)];
    apply sendCalls_In in Hsend
      as [Hx|[(x & _ & Hx)|[(x & _ & Hx)|[(x & _ & Hx)|[(x & _ & Hx)|(x & _ & Hx)]]]]];
    discriminate.
Qed.

End update_extras.

Section update_after.
Import AutoscalingGroup.
Import autoscaling.
Context {IR IRq : Type}.
Context (overridesFromInstanceRequirements :
           IR -> autoscalingtypes.LaunchTemplateOverrides.t IRq).
Context (cloud : AWSCloud IRq).
Implicit Types s : state IR IRq.
Implicit Types v a e : t IR.
Implicit Types p : prepared IRq.

(** X23. The calls of the update path come in one order, and it stops at
    the first call the cloud refuses. It first goes through [changes],
    making no calls but those that enable the metrics collection and
    suspend or resume processes; when that fails or panics, the run ends
    there with that outcome and without update call. Otherwise, with the
    requests prepared on the way, it makes the calls that [sendCalls]
    lists, in that order, starting with the [UpdateAutoScalingGroup] of
    the desired group: all of them, returning nil, unless the cloud refuses one, which is then the
    last call of the run and makes it fail. Whatever the call, one that
    the cloud refuses is the last call of the run, and the run fails. *)
Theorem RenderAWS_update_call_order v a e changes0 out s :
  RenderAWS overridesFromInstanceRequirements cloud v (Some a) e changes0 = (out, s) ->
  (forall before c after,
      calls s = before ++ c :: after ->
      refused cloud before c ->
      after = [] /\ exists err, out = Fail err) /\
  let prepare := prepareUpdate overridesFromInstanceRequirements cloud a e
                               {| changes := changes0; calls := [] |} in
  Forall (earlyCall a e changes0) (calls prepare.2) /\
  match prepare.1 with
  | Ok p =>
      UpdateAutoScalingGroupInput.AutoScalingGroupName (request p) = Name e /\
      ((out = Ok tt /\ calls s = calls prepare.2 ++ sendCalls e p) \/
       (exists done c rest,
           sendCalls e p = done ++ c :: rest /\
           calls s = calls prepare.2 ++ done ++ [c] /\
           refused cloud (calls prepare.2 ++ done) c /\
           exists err, out = Fail err))
  | Fail err => out = Fail err /\ calls s = calls prepare.2
  | Panic => out = Panic /\ calls s = calls prepare.2
  end.
Proof.
  intros H.
  split; [exact (RenderAWS_stops overridesFromInstanceRequirements cloud _ _ _ _ _ _ H)|].
  cbv zeta. unfold RenderAWS, RenderAWS_update, bind in H.
  destruct (prepareUpdate_early overridesFromInstanceRequirements cloud a e
              {| changes := changes0; calls := [] |}) as (pre & Hpre & Hearly & _).
  simpl in Hpre, Hearly. rewrite Hpre. split; [exact Hearly|].
  destruct (prepareUpdate _ _ a e _) as [[p|err|] s1] eqn:Hp; simpl in *.
  - subst pre. split.
    { apply prepareUpdate_Ok in Hp as (_ & Hb & _). unfold basics in Hb. now injection Hb. }
    destruct (sendUpdate_plays cloud e p s1)
      as [[Hok Hc]|(done & c & rest & Hscript & Hc & Href & Herr)];
      rewrite H in *; simpl in *.
    + left. auto.
    + right. now exists done, c, rest.
  - injection H as <- <-. auto.
  - injection H as <- <-. auto.
Qed.

Lemma tagsAfterCalls_app (tags : gmap string string) (l1 l2 : list (api.call IRq)) :
  tagsAfterCalls tags (l1 ++ l2) = tagsAfterCalls (tagsAfterCalls tags l1) l2.
Proof. apply fold_left_app. Qed.

Lemma tagsAfterCalls_cons (tags : gmap string string) (c : api.call IRq) l :
  tagsAfterCalls tags (c :: l) = tagsAfterCalls (tagsAfterCall tags c) l.
Proof. reflexivity. Qed.

Lemma tagsAfterCalls_early a e c0 (tags : gmap string string) (l : list (api.call IRq)) :
  Forall (earlyCall a e c0) l -> tagsAfterCalls tags l = tags.
Proof.
  induction 1 as [|c l Hc _ IH]; [reflexivity|].
  unfold tagsAfterCalls in *. simpl. destruct c; try contradiction; exact IH.
Qed.

Lemma tagsAfterCalls_other (tags : gmap string string) (l : list (api.call IRq)) :
  Forall (fun c => match c with
                   | api.DeleteTags _ | api.CreateOrUpdateTags _ => False
                   | _ => True
                   end) l ->
  tagsAfterCalls tags l = tags.
Proof.
  induction 1 as [|c l Hc _ IH]; [reflexivity|].
  unfold tagsAfterCalls in *. simpl. destruct c; try contradiction; exact IH.
Qed.

(** X27. A successful update with the tags in [changes] makes the tags of
    the group the desired ones: applying the [DeleteTags] and
    [CreateOrUpdateTags] calls of the run, in the order made, to the tags
    of the found group gives exactly the desired tags. *)
Theorem RenderAWS_update_makes_the_tags_desired v a e changes0 s :
  RenderAWS overridesFromInstanceRequirements cloud v (Some a) e changes0 = (Ok tt, s) ->
  Tags changes0 <> None ->
  tagsAfterCalls (default (∅ : gmap string string) (Tags a)) (calls s) =
  default (∅ : gmap string string) (Tags e).
Proof.
  intros H Hchanged. unfold RenderAWS in H.
  apply RenderAWS_update_trace in H as (pre & Hpre & [[_ Hno]|Hrun]);
    [now destruct (Hno tt)|].
  destruct Hrun as (p & s1 & done & rest & Hp & Hsend & Hc & Hok).
  rewrite (Hok tt eq_refl), app_nil_r in Hsend. subst done.
  apply prepareUpdate_requests in Hp as [Htags _]. simpl in Htags.
  destruct Htags as [Hupd Hdel]; [now destruct (Tags changes0)|].
  rewrite Hc, tagsAfterCalls_app, (tagsAfterCalls_early _ _ _ _ _ Hpre).
  unfold sendCalls. rewrite Hupd, Hdel.
  set (current := default (∅ : gmap string string) (Tags a)).
  assert (Hothers : Forall (fun c : api.call IRq =>
                              match c with
                              | api.DeleteTags _ | api.CreateOrUpdateTags _ => False
                              | _ => True
                              end)
                           (match detachLBRequest p with
                            | Some names => [api.DetachLoadBalancers (Name e) names]
                            | None => []
                            end ++
                            match attachLBRequest p with
                            | Some names => [api.AttachLoadBalancers (Name e) names]
                            | None => []
                            end ++
                            map (api.AttachLoadBalancerTargetGroups (Name e))
                                (attachTGRequests p))).
  { apply Forall_app. split; [destruct (detachLBRequest p); repeat constructor|].
    apply Forall_app. split; [destruct (attachLBRequest p); repeat constructor|].
    apply List.Forall_forall. intros c Hin. apply in_map_iff in Hin as (x & <- & _).
    exact I. }
  rewrite <- (updateTags_deleteTags e current).
  assert (Hnone : getASGTagsToDelete e (∅ : gmap string string) = []).
  { unfold getASGTagsToDelete. now rewrite map_to_list_empty. }
  assert (Hsent : match Tags a with
                  | Some tags =>
                      if Nat.ltb 0 (size tags) then Some (getASGTagsToDelete e tags) else None
                  | None => None
                  end = Some (getASGTagsToDelete e current) \/
                  getASGTagsToDelete e current = [] /\
                  match Tags a with
                  | Some tags =>
                      if Nat.ltb 0 (size tags) then Some (getASGTagsToDelete e tags) else None
                  | None => None
                  end = None).
  { subst current. destruct (Tags a) as [tags|]; [|now right].
    cbn [default from_option id].
    destruct (Nat.ltb_spec 0 (size tags)) as [Hsize|Hsize]; [now left|right].
    assert (tags = ∅) as -> by (apply map_size_empty_inv; lia). auto. }
  cbn [app]. rewrite tagsAfterCalls_cons. cbn [tagsAfterCall].
  destruct Hsent as [->|[Hempty ->]].
  - destruct (getASGTagsToDelete e current) as [|tag deleted].
    + cbn [length Nat.ltb Nat.leb app]. rewrite tagsAfterCalls_cons. cbn [tagsAfterCall].
      now apply tagsAfterCalls_other.
    + cbn [length Nat.ltb Nat.leb app]. rewrite !tagsAfterCalls_cons. cbn [tagsAfterCall].
      now apply tagsAfterCalls_other.
  - rewrite Hempty. cbn [app]. rewrite tagsAfterCalls_cons. cbn [tagsAfterCall].
    now apply tagsAfterCalls_other.
Qed.

(** X28. A [DetachLoadBalancers] call of the update path is for the
    desired group and lists exactly the names of the load balancers of the
    found group that no desired load balancer has; an
    [AttachLoadBalancers] call lists the desired load balancers, all of
    them, and is never made with an empty list. Both are made only when
    the load balancers are in [changes]. *)
Theorem RenderAWS_update_detaches_and_attaches_load_balancers v a e changes0 out s :
  RenderAWS overridesFromInstanceRequirements cloud v (Some a) e changes0 = (out, s) ->
  (forall name names,
      In (api.DetachLoadBalancers name names) (calls s) ->
      name = Name e /\ LoadBalancers changes0 <> None /\
      forall n,
        In n names <->
        (exists lb, In lb (elems (LoadBalancers a)) /\ ClassicLoadBalancer.Name lb = Some n) /\
        ~ exists lb, In lb (elems (LoadBalancers e)) /\
                     ClassicLoadBalancer.Name lb = Some n) /\
  (forall name names,
      In (api.AttachLoadBalancers name names) (calls s) ->
      name = Name e /\ LoadBalancers changes0 <> None /\
      names <> [] /\ names = AutoscalingLoadBalancers e).
Proof.
  intros H. split; intros name names Hin;
    destruct (RenderAWS_update_call _ _ _ _ _ _ _ _ _ H Hin) as [[]|(p & s1 & Hp & Hsend)];
    apply sendCalls_In in Hsend
      as [Hx|[(x & _ & Hx)|[(x & _ & Hx)|[(x & Hreq & Hx)|[(x & Hreq & Hx)|(x & _ & Hx)]]]]];
    try discriminate; injection Hx as -> ->.
  - split; [reflexivity|].
    destruct (notNil (LoadBalancers changes0)) eqn:Hg.
    2: { apply prepareUpdate_Ok in Hp as (_ & _ & _ & _ & Hlb & _).
         destruct (Hlb Hg) as [_ Hnone]. congruence. }
    split; [intros Hn; now rewrite Hn in Hg|].
    apply prepareUpdate_requests in Hp as [_ Hlb]. destruct (Hlb Hg) as [_ Hdet].
    destruct (Nat.ltb 0 (length (elems (LoadBalancers a)))); [|congruence].
    destruct Hdet as (names & Hnames & Hreq'). assert (names = x) as -> by congruence.
    apply (getLBsToDetach_Ok _ _ _ Hnames).
  - split; [reflexivity|].
    destruct (notNil (LoadBalancers changes0)) eqn:Hg.
    2: { apply prepareUpdate_Ok in Hp as (_ & _ & _ & _ & Hlb & _).
         destruct (Hlb Hg) as [Hnone _]. congruence. }
    split; [intros Hn; now rewrite Hn in Hg|].
    apply prepareUpdate_requests in Hp as [_ Hlb]. destruct (Hlb Hg) as [Hatt _].
    rewrite Hreq in Hatt. unfold AutoscalingLoadBalancers in *.
    destruct (elems (LoadBalancers e)); [discriminate|].
    injection Hatt as ->. split; [discriminate|reflexivity].
Qed.
End update_after.

(** ** The launch template and the policy of an update *)

Section update_policy.
Import AutoscalingGroup.
Import autoscaling.
Context {IR IRq : Type}.
Context (overridesFromInstanceRequirements :
           IR -> autoscalingtypes.LaunchTemplateOverrides.t IRq).
Context (cloud : AWSCloud IRq).
Implicit Types s : state IR IRq.
Implicit Types a e : t IR.
Implicit Types req : UpdateAutoScalingGroupInput.t IRq.
Implicit Types d : autoscalingtypes.InstancesDistribution.t.
Implicit Types lt : option (autoscalingtypes.LaunchTemplate.t IRq).

Lemma setup_policy req present d lt :
  policyIs req present d lt -> policyIs (setup req) true d lt.
Proof.
  intros [H Hz]. split; [|discriminate]. unfold setup. rewrite H.
  destruct present; [exact H|]. now destruct (Hz eq_refl) as [-> ->].
Qed.

Lemma setDistribution_policy f req s req' s' present d lt :
  policyIs req present d lt ->
  setDistribution f req s = (Ok req', s') ->
  policyIs req' true (f d) lt.
Proof.
  intros Hp. destruct (setup_policy _ _ _ _ Hp) as [Hs _].
  unfold setDistribution. cbv zeta. rewrite Hs. simpl. unfold ret.
  intros [= <- <-]. split; [reflexivity|discriminate].
Qed.

Lemma setPolicyLaunchTemplate_policy lt' req present d lt :
  policyIs req present d lt ->
  policyIs (setPolicyLaunchTemplate lt' req) true d lt'.
Proof.
  intros Hp. destruct (setup_policy _ _ _ _ Hp) as [Hs _].
  unfold setPolicyLaunchTemplate. cbv zeta. rewrite Hs.
  split; [reflexivity|discriminate].
Qed.

Lemma appendOverrides_policy more req s req' s' d e overrides :
  policyIs req true d (Some (policyTemplate e overrides)) ->
  appendOverrides more req s = (Ok req', s') ->
  policyIs req' true d (Some (policyTemplate e (overrides ++ more))).
Proof.
  intros Hp. unfold appendOverrides, policyLaunchTemplate. rewrite (proj1 Hp). simpl.
  unfold ret. intros [= <- <-].
  exact (setPolicyLaunchTemplate_policy _ _ _ _ _ Hp).
Qed.

(** A block that assigns to the distribution. *)
Lemma distribution_block_policy (f : field) (guard : bool) assign req s req' s' present d lt :
  policyIs req present d lt ->
  (if guard
   then bind (setDistribution assign req)
             (fun request => bind (nil f) (fun _ => ret request))
   else ret req) s = (Ok req', s') ->
  policyIs req' (present || guard) (if guard then assign d else d) lt.
Proof.
  intros Hp. destruct guard.
  - intros H. apply bind_Ok_inv in H as (r1 & s1 & H1 & H).
    apply (setDistribution_policy _ _ _ _ _ _ _ _ Hp) in H1.
    unfold bind, nil, ret in H. simpl in H. injection H as <- <-.
    now rewrite orb_true_r.
  - unfold ret. intros [= <- <-]. now rewrite orb_false_r.
Qed.

Lemma applyLaunchTemplate_policy a e req s req' s' :
  policyIs req false autoscalingtypes.InstancesDistribution.zero None ->
  UpdateAutoScalingGroupInput.LaunchTemplate req = None ->
  applyLaunchTemplate a e req s = (Ok req', s') ->
  let g := notNil (LaunchTemplate (changes s)) ||
           (UseMixedInstancesPolicy a && negb (UseMixedInstancesPolicy e)) in
  policyIs req' (g && UseMixedInstancesPolicy e) autoscalingtypes.InstancesDistribution.zero
           (if g && UseMixedInstancesPolicy e then Some (policyTemplate e []) else None) /\
  UpdateAutoScalingGroupInput.LaunchTemplate req' =
    (if g && negb (UseMixedInstancesPolicy e)
     then option_map latest (LaunchTemplate e) else None) /\
  (g = true -> LaunchTemplate e <> None).
Proof.
  intros Hp Hl. unfold applyLaunchTemplate. unfold bind at 1, getChanges. cbv zeta.
  destruct (notNil (LaunchTemplate (changes s)) || _) eqn:Hg.
  - destruct (LaunchTemplate e) as [t|] eqn:He; [|discriminate].
    unfold bind, nil, ret. simpl. intros [= <- <-].
    destruct (UseMixedInstancesPolicy e) eqn:Hu; simpl.
    + split; [|split; [|discriminate]].
      * unfold policyTemplate. rewrite He. simpl.
        exact (setPolicyLaunchTemplate_policy _ _ _ _ _ Hp).
      * destruct (setPolicyLaunchTemplate_frame
                    (Some {| autoscalingtypes.LaunchTemplate.LaunchTemplateSpecification :=
                               Some (latest t);
                             autoscalingtypes.LaunchTemplate.Overrides := [] |}) req)
          as [_ ->].
        exact Hl.
    + split; [|split; [reflexivity|discriminate]].
      destruct Hp as [Hp Hz]. split; [exact Hp|auto].
  - unfold ret. intros [= <- <-]. simpl. split; [exact Hp|]. split; [exact Hl|discriminate].
Qed.

Lemma applyOverrides_policy e req s req' s' present d lt :
  policyIs req present d lt ->
  (lt = None \/ lt = Some (policyTemplate e [])) ->
  applyOverrides overridesFromInstanceRequirements e req s = (Ok req', s') ->
  let g := notNil (MixedInstanceOverrides (changes s)) ||
           notNil (InstanceRequirements (changes s)) in
  policyIs req' (present || g) d
           (if g
            then Some (policyTemplate e
                         (map instanceTypeOverride (elems (MixedInstanceOverrides (changes s))) ++
                          match InstanceRequirements (changes s) with
                          | Some ir => [overridesFromInstanceRequirements ir]
                          | None => []
                          end))
            else lt) /\
  (g = true -> lt = None -> LaunchTemplate e <> None).
Proof.
  intros Hp Hlt. unfold applyOverrides. unfold bind at 1, getChanges. cbv zeta.
  destruct (notNil (MixedInstanceOverrides (changes s)) ||
            notNil (InstanceRequirements (changes s))) eqn:Hg.
  2:{ unfold ret. intros [= <- <-]. rewrite orb_false_r. split; [exact Hp|discriminate]. }
  rewrite orb_true_r.
  intros H. apply bind_Ok_inv in H as (r1 & s1 & H1 & H).
  apply bind_Ok_inv in H as (r2 & s2 & H2 & H).
  assert (Hr1 : policyIs r1 true d (Some (policyTemplate e [])) /\
                (lt = None -> LaunchTemplate e <> None)).
  { pose proof (setup_policy _ _ _ _ Hp) as Hs.
    unfold policyLaunchTemplate in H1. rewrite (proj1 Hs) in H1. simpl in H1.
    destruct Hlt as [->| ->].
    - destruct (LaunchTemplate e) as [t|] eqn:He; [|discriminate].
      unfold ret in H1. injection H1 as <- <-. split; [|discriminate].
      unfold policyTemplate. rewrite He. simpl.
      exact (setPolicyLaunchTemplate_policy _ _ _ _ _ Hp).
    - unfold ret in H1. injection H1 as <- <-. split; [exact Hs|discriminate]. }
  destruct Hr1 as [Hr1 Hne]. split; [|intros _; exact Hne].
  assert (Hr2 : policyIs r2 true d
                  (Some (policyTemplate e
                           (map instanceTypeOverride
                                (elems (MixedInstanceOverrides (changes s))))))).
  { destruct (MixedInstanceOverrides (changes s)) as [overrides|].
    - apply bind_Ok_inv in H2 as (r & s3 & H2 & H3).
      apply (appendOverrides_policy _ _ _ _ _ _ _ _ Hr1) in H2.
      unfold bind, nil, ret in H3. simpl in H3. injection H3 as <- <-. exact H2.
    - unfold ret in H2. injection H2 as <- <-. exact Hr1. }
  destruct (InstanceRequirements (changes s)) as [ir|].
  - apply bind_Ok_inv in H as (r & s3 & H & H3).
    apply (appendOverrides_policy _ _ _ _ _ _ _ _ Hr2) in H.
    unfold bind, nil, ret in H3. simpl in H3. injection H3 as <- <-. exact H.
  - unfold ret in H. injection H as <- <-. now rewrite app_nil_r.
Qed.

Lemma prepareUpdate_policy a e s0 p s1 :
  prepareUpdate overridesFromInstanceRequirements cloud a e s0 = (Ok p, s1) ->
  let c0 := changes s0 in
  let g := notNil (LaunchTemplate c0) ||
           (UseMixedInstancesPolicy a && negb (UseMixedInstancesPolicy e)) in
  let go := notNil (MixedInstanceOverrides c0) || notNil (InstanceRequirements c0) in
  policyIs (request p)
    (g && UseMixedInstancesPolicy e || notNil (MixedOnDemandAboveBase c0) ||
     notNil (MixedOnDemandBase c0) || notNil (MixedSpotAllocationStrategy c0) ||
     notNil (MixedSpotInstancePools c0) || notNil (MixedSpotMaxPrice c0) || go)
    {| autoscalingtypes.InstancesDistribution.OnDemandAllocationStrategy := None;
       autoscalingtypes.InstancesDistribution.OnDemandBaseCapacity :=
         if notNil (MixedOnDemandBase c0) then MixedOnDemandBase e else None;
       autoscalingtypes.InstancesDistribution.OnDemandPercentageAboveBaseCapacity :=
         if notNil (MixedOnDemandAboveBase c0) then MixedOnDemandAboveBase e else None;
       autoscalingtypes.InstancesDistribution.SpotAllocationStrategy :=
         if notNil (MixedSpotAllocationStrategy c0)
         then MixedSpotAllocationStrategy e else None;
       autoscalingtypes.InstancesDistribution.SpotInstancePools :=
         if notNil (MixedSpotInstancePools c0) then MixedSpotInstancePools e else None;
       autoscalingtypes.InstancesDistribution.SpotMaxPrice :=
         if notNil (MixedSpotMaxPrice c0) then MixedSpotMaxPrice e else None |}
    (if go
     then Some (policyTemplate e
                  (map instanceTypeOverride (elems (MixedInstanceOverrides c0)) ++
                   match InstanceRequirements c0 with
                   | Some ir => [overridesFromInstanceRequirements ir]
                   | None => []
                   end))
     else if g && UseMixedInstancesPolicy e then Some (policyTemplate e []) else None) /\
  UpdateAutoScalingGroupInput.LaunchTemplate (request p) =
    (if g && negb (UseMixedInstancesPolicy e)
     then option_map latest (LaunchTemplate e) else None) /\
  (g || go = true -> LaunchTemplate e <> None).
Proof.
  unfold prepareUpdate. intros H. cbv zeta.
  apply bind_Ok_inv in H as (r1 & t1 & H1 & H).
  apply bind_Ok_inv in H as (r2 & t2 & H2 & H).
  apply bind_Ok_inv in H as (r3 & t3 & H3 & H).
  apply bind_Ok_inv in H as (r4 & t4 & H4 & H).
  apply bind_Ok_inv in H as (r5 & t5 & H5 & H).
  apply bind_Ok_inv in H as (r6 & t6 & H6 & H).
  apply bind_Ok_inv in H as (r7 & t7 & H7 & H).
  apply bind_Ok_inv in H as (r8 & t8 & H8 & H).
  apply bind_Ok_inv in H as (r9 & t9 & H9 & H).
  apply bind_Ok_inv in H as (r10 & t10 & H10 & H).
  apply bind_Ok_inv in H as (r11 & t11 & H11 & H).
  apply bind_Ok_inv in H as (tags & t12 & _ & H).
  apply bind_Ok_inv in H as (lbs & t13 & _ & H).
  apply bind_Ok_inv in H as (tgs & t14 & _ & H).
  apply bind_Ok_inv in H as ([] & t15 & _ & H).
  apply bind_Ok_inv in H as ([] & t16 & _ & H).
  apply bind_Ok_inv in H as (r17 & t17 & H17 & H).
  apply bind_Ok_inv in H as (r18 & t18 & H18 & H).
  unfold ret in H. injection H as <- <-.
  (* the changes each block reads *)
  pose proof (applyLaunchTemplate_Ok _ _ _ _ _ _ H1) as (C1 & _).
  pose proof (applyMixedOnDemandAboveBase_Ok _ _ _ _ _ H2) as (C2 & _ & _ & L2 & _).
  pose proof (applyMixedOnDemandBase_Ok _ _ _ _ _ H3) as (C3 & _ & _ & L3 & _).
  pose proof (applyMixedSpotAllocationStrategy_Ok _ _ _ _ _ H4) as (C4 & _ & _ & L4 & _).
  pose proof (applyMixedSpotInstancePools_Ok _ _ _ _ _ H5) as (C5 & _ & _ & L5 & _).
  pose proof (applyMixedSpotMaxPrice_Ok _ _ _ _ _ H6) as (C6 & _ & _ & L6 & _).
  pose proof (applyOverrides_Ok _ _ _ _ _ _ H7) as (_ & _ & L7 & _).
  apply applyMinSize_Ok in H8 as (_ & R8).
  apply applyMaxSize_Ok in H9 as (_ & R9).
  apply applySubnets_Ok in H10 as (_ & R10).
  apply applyMaxInstanceLifetime_Ok in H11 as (_ & R11).
  apply applyInstanceProtection_Ok in H17 as (_ & R17).
  apply applyCapacityRebalance_Ok in H18 as (_ & R18).
  (* the policy, block by block *)
  apply applyLaunchTemplate_policy in H1 as (P1 & L1 & N1);
    [|split; [reflexivity|auto]|reflexivity].
  unfold applyMixedOnDemandAboveBase in H2. unfold bind at 1, getChanges in H2.
  apply (distribution_block_policy _ _ _ _ _ _ _ _ _ _ P1) in H2.
  unfold applyMixedOnDemandBase in H3. unfold bind at 1, getChanges in H3.
  apply (distribution_block_policy _ _ _ _ _ _ _ _ _ _ H2) in H3.
  unfold applyMixedSpotAllocationStrategy in H4. unfold bind at 1, getChanges in H4.
  apply (distribution_block_policy _ _ _ _ _ _ _ _ _ _ H3) in H4.
  unfold applyMixedSpotInstancePools in H5. unfold bind at 1, getChanges in H5.
  apply (distribution_block_policy _ _ _ _ _ _ _ _ _ _ H4) in H5.
  unfold applyMixedSpotMaxPrice in H6. unfold bind at 1, getChanges in H6.
  apply (distribution_block_policy _ _ _ _ _ _ _ _ _ _ H5) in H6.
  apply (applyOverrides_policy _ _ _ _ _ _ _ _ H6) in H7 as (P7 & N7);
    [|destruct (_ && _); auto].
  clear H2 H3 H4 H5 H6 P1.
  set (c0 := changes s0) in *.
  assert (E2 : MixedOnDemandAboveBase (changes t1) = MixedOnDemandAboveBase c0)
    by (rewrite C1; reflexivity).
  assert (E3 : MixedOnDemandBase (changes t2) = MixedOnDemandBase c0)
    by (rewrite C2, C1; reflexivity).
  assert (E4 : MixedSpotAllocationStrategy (changes t3) = MixedSpotAllocationStrategy c0)
    by (rewrite C3, C2, C1; reflexivity).
  assert (E5 : MixedSpotInstancePools (changes t4) = MixedSpotInstancePools c0)
    by (rewrite C4, C3, C2, C1; reflexivity).
  assert (E6 : MixedSpotMaxPrice (changes t5) = MixedSpotMaxPrice c0)
    by (rewrite C5, C4, C3, C2, C1; reflexivity).
  assert (E7 : MixedInstanceOverrides (changes t6) = MixedInstanceOverrides c0)
    by (rewrite C6, C5, C4, C3, C2, C1; reflexivity).
  assert (E8 : InstanceRequirements (changes t6) = InstanceRequirements c0)
    by (rewrite C6, C5, C4, C3, C2, C1; reflexivity).
  rewrite E2, E3, E4, E5, E6, E7, E8 in P7. rewrite E7, E8 in N7.
  clear C1 C2 C3 C4 C5 C6 E2 E3 E4 E5 E6 E7 E8. clearbody c0.
  assert (Hsame : UpdateAutoScalingGroupInput.MixedInstancesPolicy r18 =
                  UpdateAutoScalingGroupInput.MixedInstancesPolicy r7 /\
                  UpdateAutoScalingGroupInput.LaunchTemplate r18 =
                  UpdateAutoScalingGroupInput.LaunchTemplate r7).
  { subst r18 r17 r11 r10 r9 r8.
    repeat match goal with |- context [if ?b then _ else _] => destruct b end;
      split; reflexivity. }
  destruct Hsame as [Hpolicy Htemplate]. cbn [request].
  split; [|split].
  - match goal with
    | |- policyIs _ _ ?d' _ =>
        match type of P7 with
        | policyIs _ _ ?d _ => replace d' with d
        end
    end.
    + unfold policyIs in *. rewrite Hpolicy. exact P7.
    + destruct (notNil (MixedOnDemandAboveBase c0)), (notNil (MixedOnDemandBase c0)),
        (notNil (MixedSpotAllocationStrategy c0)), (notNil (MixedSpotInstancePools c0)),
        (notNil (MixedSpotMaxPrice c0)); reflexivity.
  - rewrite Htemplate, L7, L6, L5, L4, L3, L2. exact L1.
  - intros Hg. apply orb_true_iff in Hg as [Hg|Hg]; [now apply N1|].
    destruct (notNil (LaunchTemplate c0) ||
              UseMixedInstancesPolicy a && negb (UseMixedInstancesPolicy e)) eqn:Hg1;
      [now apply N1|].
    now apply N7.
Qed.
End update_policy.

Section update_policy_extras.
Import AutoscalingGroup.
Import autoscaling.
Context {IR IRq : Type}.
Context (overridesFromInstanceRequirements :
           IR -> autoscalingtypes.LaunchTemplateOverrides.t IRq).
Context (cloud : AWSCloud IRq).
Implicit Types s : state IR IRq.
Implicit Types v a e : t IR.

Lemma notNil_true {A} (x : option A) : x <> None -> notNil x = true.
Proof. now destruct x. Qed.

(** X30. The launch template and the mixed instances policy that the
    update path writes are the desired ones. When the launch template is
    in [changes], or the found group uses a mixed instances policy and the
    desired one does not, the request carries the latest version of the
    desired launch template: inside its policy when the desired task uses
    one, and as its launch template otherwise. A policy in the request
    always has a distribution; the distribution never sets the on-demand
    allocation strategy, and for each of the five other settings that is in
    [changes] it has the desired value. When the instance type overrides or
    the instance requirements are in [changes], the policy has the latest
    version of the desired launch template with, as overrides, the instance
    types in [changes] followed by the instance requirements in [changes]. *)
Theorem RenderAWS_update_writes_the_desired_policy v a e changes0 out s request :
  RenderAWS overridesFromInstanceRequirements cloud v (Some a) e changes0 = (out, s) ->
  In (api.UpdateAutoScalingGroup request) (calls s) ->
  let policy := UpdateAutoScalingGroupInput.MixedInstancesPolicy request in
  let template := policy ≫= autoscalingtypes.MixedInstancesPolicy.LaunchTemplate in
  (LaunchTemplate changes0 <> None \/
   (UseMixedInstancesPolicy a = true /\ UseMixedInstancesPolicy e = false) ->
   exists lt,
     LaunchTemplate e = Some lt /\
     if UseMixedInstancesPolicy e
     then UpdateAutoScalingGroupInput.LaunchTemplate request = None /\
          exists t,
            template = Some t /\
            autoscalingtypes.LaunchTemplate.LaunchTemplateSpecification t = Some (latest lt)
     else UpdateAutoScalingGroupInput.LaunchTemplate request = Some (latest lt)) /\
  (forall p,
      policy = Some p ->
      exists d,
        autoscalingtypes.MixedInstancesPolicy.InstancesDistribution p = Some d /\
        autoscalingtypes.InstancesDistribution.OnDemandAllocationStrategy d = None /\
        (MixedOnDemandAboveBase changes0 <> None ->
         autoscalingtypes.InstancesDistribution.OnDemandPercentageAboveBaseCapacity d =
         MixedOnDemandAboveBase e) /\
        (MixedOnDemandBase changes0 <> None ->
         autoscalingtypes.InstancesDistribution.OnDemandBaseCapacity d = MixedOnDemandBase e) /\
        (MixedSpotAllocationStrategy changes0 <> None ->
         autoscalingtypes.InstancesDistribution.SpotAllocationStrategy d =
         MixedSpotAllocationStrategy e) /\
        (MixedSpotInstancePools changes0 <> None ->
         autoscalingtypes.InstancesDistribution.SpotInstancePools d =
         MixedSpotInstancePools e) /\
        (MixedSpotMaxPrice changes0 <> None ->
         autoscalingtypes.InstancesDistribution.SpotMaxPrice d = MixedSpotMaxPrice e)) /\
  (MixedOnDemandAboveBase changes0 <> None \/ MixedOnDemandBase changes0 <> None \/
   MixedSpotAllocationStrategy changes0 <> None \/ MixedSpotInstancePools changes0 <> None \/
   MixedSpotMaxPrice changes0 <> None ->
   policy <> None) /\
  (MixedInstanceOverrides changes0 <> None \/ InstanceRequirements changes0 <> None ->
   exists lt t,
     LaunchTemplate e = Some lt /\
     template = Some t /\
     autoscalingtypes.LaunchTemplate.LaunchTemplateSpecification t = Some (latest lt) /\
     autoscalingtypes.LaunchTemplate.Overrides t =
       map instanceTypeOverride (elems (MixedInstanceOverrides changes0)) ++
       match InstanceRequirements changes0 with
       | Some ir => [overridesFromInstanceRequirements ir]
       | None => []
       end).
Proof.
  intros H Hin policy template.
  destruct (RenderAWS_update_call _ _ _ _ _ _ _ _ _ H Hin) as [[]|(p & s1 & Hp & Hsend)].
  apply updateRequests_sendCalls in Hsend. subst request.
  apply prepareUpdate_policy in Hp as ([P _] & L & N). cbn [changes] in P, L, N.
  subst template policy. rewrite P, L. clear P L.
  set (g := notNil (LaunchTemplate changes0) ||
            UseMixedInstancesPolicy a && negb (UseMixedInstancesPolicy e)) in *.
  set (go := notNil (MixedInstanceOverrides changes0) ||
             notNil (InstanceRequirements changes0)) in *.
  split; [|split; [|split]].
  - intros Hg.
    assert (Hg' : g = true).
    { subst g. destruct Hg as [Hg|[-> ->]]; [|apply orb_true_r].
      now rewrite (notNil_true _ Hg). }
    rewrite Hg' in *. simpl in N. specialize (N eq_refl).
    destruct (LaunchTemplate e) as [lt|] eqn:He; [|congruence].
    exists lt. split; [reflexivity|].
    destruct (UseMixedInstancesPolicy e); simpl; [|reflexivity].
    split; [reflexivity|]. unfold policyTemplate. rewrite He.
    destruct go; simpl; eexists; split; reflexivity.
  - intros p0 Hp0. destruct (_ || go) in Hp0; [|discriminate].
    injection Hp0 as <-. simpl. eexists. split; [reflexivity|]. simpl.
    split; [reflexivity|].
    repeat split; intros Hn; now rewrite (notNil_true _ Hn).
  - intros Hany.
    assert (Hor : notNil (MixedOnDemandAboveBase changes0) ||
                  notNil (MixedOnDemandBase changes0) ||
                  notNil (MixedSpotAllocationStrategy changes0) ||
                  notNil (MixedSpotInstancePools changes0) ||
                  notNil (MixedSpotMaxPrice changes0) = true).
    { destruct Hany as [Hn|[Hn|[Hn|[Hn|Hn]]]]; rewrite (notNil_true _ Hn);
        rewrite ?orb_true_r; reflexivity. }
    destruct (g && UseMixedInstancesPolicy e), go; simpl;
      rewrite ?orb_false_r, ?orb_true_r; try rewrite Hor; discriminate.
  - intros Hany.
    assert (Hgo : go = true).
    { subst go. destruct Hany as [Hn|Hn]; rewrite (notNil_true _ Hn);
        rewrite ?orb_true_r; reflexivity. }
    rewrite Hgo in *. rewrite orb_true_r in N. specialize (N eq_refl).
    destruct (LaunchTemplate e) as [lt|] eqn:He; [|congruence].
    rewrite orb_true_r. simpl. unfold policyTemplate. rewrite He.
    eexists _, _. repeat split.
Qed.
End update_policy_extras.

(** ** Examples of the further properties *)

Section binding_examples.
Import cloudresourcemanager.
Import ProjectIAMBinding.

Lemma ProjectIAMBinding_errors_wrap_the_cause_witness :
  Find examples.gceCloudForbidden examples.binding =
    Fail (Errorw "error checking IAM for project p" examples.forbidden) /\
  (RenderGCE examples.gceCloudForbidden None examples.binding examples.binding).1 =
    Fail (Errorw "error getting IAM policy for project p" examples.forbidden).
Proof.
  pose proof (ProjectIAMBinding_errors_wrap_the_cause examples.gceCloudForbidden None
                examples.binding examples.binding examples.account eq_refl) as H.
  cbv zeta in H. destruct H as (Hfind & Hrender & _). split.
  - apply (proj2 (Hfind _)). exists examples.forbidden. repeat split.
  - apply (proj2 (Hrender _)). exists examples.forbidden. left. split; reflexivity.
Defined.

Lemma Find_absent_iff_RenderGCE_writes_witness :
  Find (examples.gceCloud examples.policyWithout) examples.binding = Ok None /\
  Find (examples.gceCloud examples.policyWith) examples.binding = Ok (Some examples.binding).
Proof.
  split.
  - apply (proj2 (proj1 (Find_absent_iff_RenderGCE_writes
                           (examples.gceCloud examples.policyWithout) None
                           examples.binding examples.binding examples.account
                           examples.policyWithout eq_refl eq_refl))).
    eexists. right. right. left. reflexivity.
  - apply (proj2 (proj2 (Find_absent_iff_RenderGCE_writes
                           (examples.gceCloud examples.policyWith) None
                           examples.binding examples.binding examples.account
                           examples.policyWith eq_refl eq_refl))).
    right. right. left. reflexivity.
Defined.

Lemma RenderGCE_holds_the_mutex_witness :
  exists mid,
    (RenderGCE (examples.gceCloud examples.policyWithout) None
               examples.binding examples.binding).2 =
      [MutexLock "p"; CallGetIamPolicy "p"] ++ mid ++ [MutexUnlock "p"] /\
    length mid <= 1.
Proof.
  pose proof (RenderGCE_holds_the_mutex (examples.gceCloud examples.policyWithout) None
                examples.binding examples.binding examples.account eq_refl) as H.
  cbv zeta in H. destruct H as (mid & Hevents & Hlen & _).
  exists mid. split; [exact Hevents|exact Hlen].
Defined.

Lemma Find_survives_another_render_witness :
  Find (cloudAfter (examples.gceCloud examples.policyWith)
          (RenderGCE (examples.gceCloud examples.policyWith) None
                     examples.editorBinding examples.editorBinding).2)
       examples.binding
  = Ok (Some examples.binding).
Proof.
  exact (Find_survives_another_render (examples.gceCloud examples.policyWith) None
           examples.binding examples.editorBinding examples.editorBinding _
           examples.binding eq_refl eq_refl).
Defined.
End binding_examples.

Section further_find_examples.
Import AutoscalingGroup.

Lemma Find_snapshot_defaults_witness :
  MaxInstanceLifetime
    (examples.snapshotOf (Find examples.noRequirements examples.cloudWithStale examples.desired))
  = Some 3600%Z /\
  WarmPool
    (examples.snapshotOf (Find examples.noRequirements examples.cloudWithStale examples.desired))
  = None.
Proof.
  destruct (Find_snapshot_defaults examples.noRequirements examples.cloudWithStale
              _ _ examples.desired eq_refl)
    as (g & Hg & Hlifetime & _ & _ & _ & _ & _ & Hpool & _).
  vm_compute in Hg. injection Hg as <-.
  split; [exact Hlifetime|exact Hpool].
Defined.

(** The snapshot of the group with the two tags. *)
Local Abbreviation taggedSnapshot :=
  (examples.snapshotOf (Find examples.noRequirements
                             (examples.awsCloud [examples.taggedGroup] examples.allGood)
                             examples.desired)).

Lemma Find_snapshot_tags_witness :
  default (∅ : gmap string string) (Tags taggedSnapshot) !! "team" = Some "infra" /\
  default (∅ : gmap string string) (Tags taggedSnapshot) !! "aws:cloudformation:stack-name"
  = None.
Proof.
  destruct (Find_snapshot_tags examples.noRequirements
              (examples.awsCloud [examples.taggedGroup] examples.allGood)
              _ _ examples.desired eq_refl)
    as (g & Hg & _ & Hk).
  vm_compute in Hg. injection Hg as <-.
  split; [exact (Hk "team")|exact (Hk "aws:cloudformation:stack-name")].
Defined.

Lemma Find_failure_records_no_cleanup_witness :
  (Find examples.noRequirements (examples.awsCloud [] examples.allGood) examples.desired).2
  = deletions examples.desired.
Proof.
  apply (proj1 (Find_failure_records_no_cleanup examples.noRequirements
                  (examples.awsCloud [] examples.allGood) examples.desired _ _ eq_refl)).
  reflexivity.
Defined.

Lemma Find_cleanups_detach_only_stale_target_groups_witness :
  exists new,
    (Find examples.noRequirements examples.cloudWithStale examples.desired).2 =
    deletions examples.desired ++ new /\
    forall d, In d new ->
      exists arn,
        (Delete (IRq := unit) d (AWSAPITarget (examples.awsCloud [] examples.allGood))).2 =
        [api.DetachLoadBalancerTargetGroups (Some "nodes.example.com") [arn]].
Proof.
  destruct (Find_cleanups_detach_only_stale_target_groups examples.noRequirements
              examples.cloudWithStale _ _ examples.desired eq_refl)
    as (g & new & _ & Hds & Hnew & _).
  exists new. split; [exact Hds|].
  intros d Hin. destruct (Hnew d Hin) as (arn & _ & _ & Hdelete).
  exists arn. exact (proj1 (Hdelete (examples.awsCloud [] examples.allGood))).
Defined.

Lemma Find_reads_back_the_subnets_written_witness :
  AutoscalingGroupSubnets
    (examples.snapshotOf (Find examples.noRequirements examples.cloudWithStale examples.desired))
  = AutoscalingGroupSubnets examples.desired.
Proof.
  refine (Find_reads_back_the_subnets_written examples.noRequirements examples.cloudWithStale
            _ _ examples.desired _ eq_refl eq_refl _ _ eq_refl).
  - discriminate.
  - repeat constructor.
Defined.
End further_find_examples.

Section slice_chunks_examples.
Import AutoscalingGroup.

Lemma sliceChunks_full_chunks_witness :
  exists chunks,
    sliceChunks (AutoscalingTargetGroups examples.desired) 10 = Some chunks /\
    length chunks = 2.
Proof.
  destruct (sliceChunks_full_chunks (AutoscalingTargetGroups examples.desired) 10)
    as (chunks & Hchunks & Hlength & _); [lia|].
  exists chunks. split; [exact Hchunks|exact Hlength].
Defined.
End slice_chunks_examples.

Section create_examples.
Import AutoscalingGroup.
Import autoscaling.


(** The creation of [examples.desiredNoTemplate]. *)
Local Abbreviation noTemplateRun :=
  (RenderAWS examples.overrides (examples.awsCloud [] examples.allGood)
             examples.desiredNoTemplate None examples.desiredNoTemplate
             examples.desiredNoTemplate).

Lemma RenderAWS_create_needs_a_launch_template_witness :
  calls noTemplateRun.2 = [] /\
  noTemplateRun.1 =
  Fail (Errorf "could not find one of launch template or mixed instances policy").
Proof.
  destruct (RenderAWS_create_needs_a_launch_template examples.overrides
              (examples.awsCloud [] examples.allGood)
              examples.desiredNoTemplate examples.desiredNoTemplate examples.desiredNoTemplate
              _ _ eq_refl eq_refl) as (_ & _ & H).
  apply H. constructor.
Defined.

Lemma RenderAWS_create_succeeds_witness :
  exists request,
    RenderAWS examples.overrides (examples.awsCloud [] examples.allGood)
              examples.desired None examples.desired examples.desired =
    (Ok tt,
     {| changes := examples.desired;
        calls := [api.CreateAutoScalingGroup request;
                  api.EnableMetricsCollection (Some "nodes.example.com")
                                              (Some "1Minute") None] |}).
Proof.
  destruct (RenderAWS_create_succeeds examples.overrides
              (examples.awsCloud [] examples.allGood)
              examples.desired examples.desired examples.desired examples.template []
              eq_refl eq_refl (List.Forall_nil _) (fun _ _ => eq_refl))
    as (request & _ & Hrun).
  exists request. exact Hrun.
Defined.

(** The creation of [examples.desired] in a cloud that refuses it. *)
Local Abbreviation refusedRun :=
  (RenderAWS examples.overrides
             (examples.awsCloud [] (examples.failCreate examples.limitExceeded))
             examples.desired None examples.desired examples.desired).

Lemma RenderAWS_create_call_order_witness :
  exists request,
    calls refusedRun.2 = [api.CreateAutoScalingGroup request] /\
    exists err, refusedRun.1 = Fail err.
Proof.
  eexists. split; [reflexivity|].
  match goal with
  | |- exists err, ?run.1 = Fail err =>
      destruct (RenderAWS_create_call_order examples.overrides
                  (examples.awsCloud [] (examples.failCreate examples.limitExceeded))
                  examples.desired examples.desired examples.desired run.1 run.2
                  eq_refl)
        as (_ & Hstops & _)
  end.
  refine (proj2 (Hstops [] _ [] eq_refl _)). discriminate.
Defined.
End create_examples.

Section update_examples.
Import AutoscalingGroup.
Import autoscaling.

(** The update of [examples.foundBusy] to [examples.desiredBusy]. *)
Local Abbreviation busyRun :=
  (RenderAWS examples.overrides (examples.awsCloud [] examples.allGood)
             examples.desiredBusy (Some examples.foundBusy) examples.desiredBusy
             examples.differenceBusy).

Lemma RenderAWS_update_call_order_witness :
  exists p,
    (prepareUpdate examples.overrides (examples.awsCloud [] examples.allGood)
                   examples.foundBusy examples.desiredBusy
                   {| changes := examples.differenceBusy; calls := [] |}).1 = Ok p /\
    calls busyRun.2 =
      calls (prepareUpdate examples.overrides (examples.awsCloud [] examples.allGood)
                           examples.foundBusy examples.desiredBusy
                           {| changes := examples.differenceBusy; calls := [] |}).2 ++
      sendCalls examples.desiredBusy p.
Proof.
  assert (Hrun : busyRun = (Ok tt, busyRun.2)) by (vm_compute; reflexivity).
  destruct (RenderAWS_update_call_order examples.overrides
              (examples.awsCloud [] examples.allGood)
              examples.desiredBusy examples.foundBusy examples.desiredBusy
              examples.differenceBusy (Ok tt) busyRun.2 Hrun)
    as (_ & H).
  cbv zeta in H. destruct H as (_ & H).
  destruct (prepareUpdate _ _ _ _ _).1 as [p|err|].
  - exists p. split; [reflexivity|].
    destruct H as [_ [[_ Hcalls]|(done & c & rest & _ & _ & _ & err & Herr)]];
      [exact Hcalls|discriminate Herr].
  - destruct H as [H _]. discriminate H.
  - destruct H as [H _]. discriminate H.
Defined.


Lemma RenderAWS_update_enables_desired_metrics_witness :
  exists name granularity metrics,
    In (api.EnableMetricsCollection name granularity metrics) (calls busyRun.2) /\
    name = Name examples.desiredBusy /\
    granularity = Granularity examples.desiredBusy /\
    metrics = Metrics examples.desiredBusy.
Proof.
  assert (Hrun : busyRun = (busyRun.1, busyRun.2)) by (vm_compute; reflexivity).
  assert (Hin : In (api.EnableMetricsCollection (Some "nodes.example.com") (Some "1Minute")
                                                (Some ["GroupMaxSize"]))
                   (calls busyRun.2))
    by (vm_compute; left; reflexivity).
  eexists _, _, _. split; [exact Hin|].
  destruct (RenderAWS_update_enables_desired_metrics examples.overrides
              (examples.awsCloud [] examples.allGood)
              examples.desiredBusy examples.foundBusy examples.desiredBusy
              examples.differenceBusy busyRun.1 busyRun.2 Hrun _ _ _ Hin)
    as (Hname & Hgranularity & Hmetrics & _).
  split; [exact Hname|]. split; [exact Hgranularity|exact Hmetrics].
Defined.

Lemma RenderAWS_update_suspends_and_resumes_witness :
  exists processes,
    In (api.SuspendProcesses (Some "nodes.example.com") processes) (calls busyRun.2) /\
    (In "AZRebalance" processes <->
     In "AZRebalance" (elems (SuspendProcesses examples.desiredBusy)) /\
     ~ In "AZRebalance" (elems (SuspendProcesses examples.foundBusy))).
Proof.
  assert (Hrun : busyRun = (busyRun.1, busyRun.2)) by (vm_compute; reflexivity).
  assert (Hin : In (api.SuspendProcesses (Some "nodes.example.com") ["AZRebalance"])
                   (calls busyRun.2))
    by (vm_compute; right; left; reflexivity).
  eexists. split; [exact Hin|].
  destruct (proj1 (RenderAWS_update_suspends_and_resumes examples.overrides
                     (examples.awsCloud [] examples.allGood)
                     examples.desiredBusy examples.foundBusy examples.desiredBusy
                     examples.differenceBusy busyRun.1 busyRun.2 Hrun)
                  _ _ Hin)
    as (_ & _ & _ & Hprocesses).
  exact (Hprocesses "AZRebalance").
Defined.

Lemma RenderAWS_update_makes_the_tags_desired_witness :
  tagsAfterCalls (default (∅ : gmap string string) (Tags examples.foundBusy))
                 (calls busyRun.2)
  = default (∅ : gmap string string) (Tags examples.desiredBusy).
Proof.
  apply (RenderAWS_update_makes_the_tags_desired examples.overrides
           (examples.awsCloud [] examples.allGood)
           examples.desiredBusy examples.foundBusy examples.desiredBusy
           examples.differenceBusy busyRun.2).
  - vm_compute. reflexivity.
  - discriminate.
Defined.

Lemma RenderAWS_update_detaches_and_attaches_load_balancers_witness :
  exists names,
    In (api.AttachLoadBalancers (Some "nodes.example.com") names) (calls busyRun.2) /\
    names = AutoscalingLoadBalancers examples.desiredBusy.
Proof.
  assert (Hrun : busyRun = (busyRun.1, busyRun.2)) by (vm_compute; reflexivity).
  assert (Hin : In (api.AttachLoadBalancers (Some "nodes.example.com") ["api"])
                   (calls busyRun.2))
    by (vm_compute; do 7 right; left; reflexivity).
  eexists. split; [exact Hin|].
  destruct (proj2 (RenderAWS_update_detaches_and_attaches_load_balancers examples.overrides
                     (examples.awsCloud [] examples.allGood)
                     examples.desiredBusy examples.foundBusy examples.desiredBusy
                     examples.differenceBusy busyRun.1 busyRun.2 Hrun)
                  _ _ Hin)
    as (_ & _ & _ & Hnames).
  exact Hnames.
Defined.

Lemma RenderAWS_update_never_creates_or_detaches_target_groups_witness :
  (forall request, ~ In (api.CreateAutoScalingGroup request) (calls busyRun.2)) /\
  (forall name arns, ~ In (api.DetachLoadBalancerTargetGroups name arns) (calls busyRun.2)) /\
  (forall name, ~ In (api.FindELBByNameTag name) (calls busyRun.2)).
Proof.
  assert (Hrun : busyRun = (busyRun.1, busyRun.2)) by (vm_compute; reflexivity).
  exact (RenderAWS_update_never_creates_or_detaches_target_groups examples.overrides
           (examples.awsCloud [] examples.allGood)
           examples.desiredBusy examples.foundBusy examples.desiredBusy
           examples.differenceBusy busyRun.1 busyRun.2 Hrun).
Defined.
(** The update of [examples.foundMixed], which uses a mixed instances
    policy, to [examples.desired], which does not. *)
Local Abbreviation mixedRun :=
  (RenderAWS examples.overrides (examples.awsCloud [] examples.allGood)
             examples.desired (Some examples.foundMixed) examples.desired
             examples.difference).

Lemma RenderAWS_update_writes_the_desired_policy_witness :
  exists request,
    In (api.UpdateAutoScalingGroup request) (calls mixedRun.2) /\
    UpdateAutoScalingGroupInput.LaunchTemplate request = Some (latest examples.template).
Proof.
  eexists. split; [left; reflexivity|].
  match goal with
  | |- UpdateAutoScalingGroupInput.LaunchTemplate ?r = _ =>
      pose proof (RenderAWS_update_writes_the_desired_policy examples.overrides
                    (examples.awsCloud [] examples.allGood)
                    examples.desired examples.foundMixed examples.desired
                    examples.difference _ _ r eq_refl (or_introl eq_refl)) as H
  end.
  cbv zeta in H. destruct H as (Htemplate & _).
  destruct Htemplate as (lt & He & Hrequest); [right; split; reflexivity|].
  injection He as <-. exact Hrequest.
Defined.
End update_examples.
